(** * XianyuAutoAgent, ebooks_library: the aggregation core and its adapters

    A shallow embedding of [ebooks_library/core.py], [models.py],
    [exceptions.py] and of the adapters under [ebooks_library/platforms/],
    followed by the properties established about them.

    Conventions of the embedding
    - a Python [str] is the list of its code points ([PyStr.str]);
    - a value whose Python type is not fixed by the code (JSON documents,
      records handed back by third-party clients) is a [PyVal.pyval];
    - a call that may raise returns a [result]; code that talks to the
      outside (HTTP session, file system, third-party client) runs in the
      state monad [Eff.M], whose state survives a raised exception as the
      side effects of a Python call do;
    - what the Python standard library, the network, the file system or an
      absent third-party module decides is a member of a class
      ([PyRuntime], [Transport], [ZlibraryClient], [AnnasPy]); the
      properties hold for every instance, and the instances of [Sample] only
      serve to run them. *)

From Stdlib Require Import List ZArith NArith Lia Bool.
From Stdlib Require String Ascii.
Import ListNotations.
Import String.StringSyntax.
Delimit Scope string_scope with string.

Set Implicit Arguments.
Set Warnings "-register-all".

(* ================================================================== *)
(** * Python strings *)
(* ================================================================== *)

Module PyStr.

(** A [str] is a sequence of Unicode code points. *)
Definition str := list N.

(** An ASCII literal of the source, as a [str]. *)
Definition lit (s : String.string) : str :=
  map Ascii.N_of_ascii (String.list_ascii_of_string s).

Arguments lit s%_string.

Definition bytes := list N.

Fixpoint eqb (a b : str) : bool :=
  match a, b with
  | [], [] => true
  | x :: a', y :: b' => N.eqb x y && eqb a' b'
  | _, _ => false
  end.

(** Truth value of a [str]: [bool(s)]. *)
Definition truthy (s : str) : bool :=
  match s with [] => false | _ :: _ => true end.

(** Truth value of an [Optional[str]]. *)
Definition otruthy (o : option str) : bool :=
  match o with Some s => truthy s | None => false end.

(** [str.isspace] on one code point: the code points CPython classifies as
    whitespace. *)
Definition isspace (c : N) : bool :=
  ((9 <=? c) && (c <=? 13) || (28 <=? c) && (c <=? 32)
   || (c =? 133) || (c =? 160) || (c =? 5760)
   || (8192 <=? c) && (c <=? 8202)
   || (c =? 8232) || (c =? 8233) || (c =? 8239) || (c =? 8287)
   || (c =? 12288))%N.

Fixpoint lstrip (s : str) : str :=
  match s with
  | c :: r => if isspace c then lstrip r else s
  | [] => []
  end.

Definition rstrip (s : str) : str := rev (lstrip (rev s)).

(** [s.strip()] *)
Definition strip (s : str) : str := rstrip (lstrip s).

(** [s.startswith(p)] *)
Fixpoint startswith (p s : str) : bool :=
  match p, s with
  | [], _ => true
  | x :: p', y :: s' => N.eqb x y && startswith p' s'
  | _ :: _, [] => false
  end.

(** [needle in hay] *)
Fixpoint contains (needle hay : str) : bool :=
  startswith needle hay ||
  match hay with
  | [] => false
  | _ :: hay' => contains needle hay'
  end.

(** [s.rsplit(sep, 1)] when [sep in s]: the text before and after the last
    occurrence of [sep]; [None] when [sep] does not occur. *)
Fixpoint rsplit_last (sep : N) (s : str) : option (str * str) :=
  match s with
  | [] => None
  | c :: r =>
      match rsplit_last sep r with
      | Some (b, e) => Some (c :: b, e)
      | None => if N.eqb c sep then Some ([], r) else None
      end
  end.

(** [s.replace(a, b)] for one-character [a] and [b]. *)
Definition replace_char (a b : N) (s : str) : str :=
  map (fun c => if N.eqb c a then b else c) s.

(** [sep.join(parts)] *)
Fixpoint join (sep : str) (parts : list str) : str :=
  match parts with
  | [] => []
  | [p] => p
  | p :: rest => p ++ sep ++ join sep rest
  end.

(** Decimal digits of a natural number, as [str(n)] prints them. *)
Fixpoint digits_aux (fuel : nat) (n : N) (acc : str) : str :=
  match fuel with
  | O => acc
  | S fuel' =>
      let acc' := (48 + n mod 10)%N :: acc in
      if (n <? 10)%N then acc' else digits_aux fuel' (n / 10)%N acc'
  end.

Definition of_N (n : N) : str := digits_aux (S (N.to_nat (N.log2 n))) n [].

Definition of_nat (n : nat) : str := of_N (N.of_nat n).

Definition of_Z (z : Z) : str :=
  if (z <? 0)%Z then 45%N :: of_N (Z.to_N (- z)) else of_N (Z.to_N z).

(** ** UTF-8 *)

(** A code point [s.encode('utf-8')] accepts: a Unicode scalar value.  A lone
    surrogate makes [encode] raise [UnicodeEncodeError]. *)
Definition encodable (c : N) : bool :=
  ((c <? 55296) || (57343 <? c) && (c <=? 1114111))%N.

Definition utf8_char (c : N) : bytes :=
  if (c <? 128)%N then [c]
  else if (c <? 2048)%N then
    [N.lor 192 (N.shiftr c 6); N.lor 128 (N.land c 63)]
  else if (c <? 65536)%N then
    [N.lor 224 (N.shiftr c 12); N.lor 128 (N.land (N.shiftr c 6) 63);
     N.lor 128 (N.land c 63)]
  else
    [N.lor 240 (N.shiftr c 18); N.lor 128 (N.land (N.shiftr c 12) 63);
     N.lor 128 (N.land (N.shiftr c 6) 63); N.lor 128 (N.land c 63)].

(** The bytes of [s.encode('utf-8')] for a string of encodable code points. *)
Definition utf8 (s : str) : bytes := flat_map utf8_char s.

(** [len(s.encode('utf-8'))] *)
Definition utf8_len (s : str) : Z := Z.of_nat (length (utf8 s)).

(** [l[:n]] for a Python integer [n]: a negative bound counts from the end. *)
Definition slice_to {A : Type} (n : Z) (l : list A) : list A :=
  if (n <? 0)%Z then firstn (length l - Z.to_nat (- n)) l
  else firstn (Z.to_nat n) l.

End PyStr.

Export PyStr.


(* ================================================================== *)
(** * exceptions.py, and the outcome of a call *)
(* ================================================================== *)

Module Exceptions.

(** The exception classes of [exceptions.py] the modelled code raises, with
    their [message] and [platform] arguments, and [PyException] for an
    instance of any other subclass of [Exception] (aiohttp's errors,
    [OSError], [TypeError], [AttributeError], ...), given by the name of its
    class and by its [str()]. *)
Inductive exn : Type :=
| SearchError (message : str) (platform : option str)
| DownloadError (message : str) (platform : option str)
| AuthenticationError (message : str) (platform : option str)
| PyException (cls : str) (text : str).

(** [str(e)] *)
Definition exn_str (e : exn) : str :=
  match e with
  | SearchError m _ => m
  | DownloadError m _ => m
  | AuthenticationError m _ => m
  | PyException _ t => t
  end.

(** [isinstance(e, AuthenticationError)] *)
Definition is_AuthenticationError (e : exn) : bool :=
  match e with AuthenticationError _ _ => true | _ => false end.

Definition is_DownloadError (e : exn) : bool :=
  match e with DownloadError _ _ => true | _ => false end.

Definition is_SearchError (e : exn) : bool :=
  match e with SearchError _ _ => true | _ => false end.

(** What a call produces: the value it returns or the exception it raises. *)
Inductive result (A : Type) : Type :=
| Ok (a : A)
| Raise (e : exn).

Arguments Ok {A} a.
Arguments Raise {A} e.

Definition is_Ok {A : Type} (r : result A) : bool :=
  match r with Ok _ => true | Raise _ => false end.

(** What a call into code outside this package produces (aiohttp, the file
    system, a third-party client): a value, or an exception of a class that
    is none of [exceptions.py], given by the name of its class and by its
    [str()]. *)
Inductive outside (A : Type) : Type :=
| Returned (a : A)
| Failed (cls : str) (text : str).

Arguments Returned {A} a.
Arguments Failed {A} cls text.

Definition to_result {A : Type} (o : outside A) : result A :=
  match o with
  | Returned a => Ok a
  | Failed cls text => Raise (PyException cls text)
  end.

End Exceptions.

Export Exceptions.

(* ================================================================== *)
(** * Values without a static type *)
(* ================================================================== *)

Module PyVal.

(** JSON documents and the records of third-party clients.  A float is kept
    as its truth value and its printed form. *)
Inductive pyval : Type :=
| PNone
| PBool (b : bool)
| PInt (z : Z)
| PFloat (nonzero : bool) (printed : str)
| PStr (s : str)
| PList (l : list pyval)
| PDict (items : list (str * pyval)).

(** [bool(v)] *)
Definition truth (v : pyval) : bool :=
  match v with
  | PNone => false
  | PBool b => b
  | PInt z => negb (z =? 0)%Z
  | PFloat nz _ => nz
  | PStr s => PyStr.truthy s
  | PList l => match l with [] => false | _ => true end
  | PDict kv => match kv with [] => false | _ => true end
  end.

(** Lookup in the items of a dict. *)
Fixpoint lookup (k : str) (items : list (str * pyval)) : option pyval :=
  match items with
  | [] => None
  | (k', v) :: rest => if PyStr.eqb k k' then Some v else lookup k rest
  end.

(** [d.get(k, default)] on the items of a dict. *)
Definition get_or (k : str) (default : pyval) (items : list (str * pyval)) : pyval :=
  match lookup k items with Some v => v | None => default end.

(** [d.get(k)] *)
Definition get (k : str) (items : list (str * pyval)) : pyval :=
  get_or k PNone items.

End PyVal.

Export PyVal.

(* ================================================================== *)
(** * Parsed XML *)
(* ================================================================== *)

Module Xml.

(** An [xml.etree.ElementTree.Element]: its tag (with the namespace in
    braces), its attributes, its text ([None] for an empty element) and its
    children in document order. *)
Inductive Element : Type :=
| Elem (tag : str) (attrib : list (str * str)) (text : option str)
       (children : list Element).

Definition tag (e : Element) : str := match e with Elem t _ _ _ => t end.
Definition attrib (e : Element) : list (str * str) := match e with Elem _ a _ _ => a end.
Definition text (e : Element) : option str := match e with Elem _ _ t _ => t end.
Definition children (e : Element) : list Element := match e with Elem _ _ _ c => c end.

(** [attrib.get(k)] *)
Fixpoint attrib_lookup (k : str) (a : list (str * str)) : option str :=
  match a with
  | [] => None
  | (k', v) :: rest => if PyStr.eqb k k' then Some v else attrib_lookup k rest
  end.

(** [attrib.get(k, default)] *)
Definition attrib_get (k default : str) (a : list (str * str)) : str :=
  match attrib_lookup k a with Some v => v | None => default end.

(** The namespace map [{"default": "http://www.w3.org/2005/Atom"}]: the tag
    the path step [default:name] stands for. *)
Definition atom (name : str) : str :=
  lit "{http://www.w3.org/2005/Atom}" ++ name.

(** [e.findall("default:name", namespace)]: the children with that tag. *)
Definition findall (name : str) (e : Element) : list Element :=
  filter (fun c => PyStr.eqb (tag c) (atom name)) (children e).

(** [e.find("default:name", namespace)] *)
Definition find (name : str) (e : Element) : option Element :=
  hd_error (findall name e).

(** [e.findall("default:a/default:b", namespace)] *)
Definition findall2 (a b : str) (e : Element) : list Element :=
  flat_map (findall b) (findall a e).

(** [e.find("default:a/default:b", namespace)] *)
Definition find2 (a b : str) (e : Element) : option Element :=
  hd_error (findall2 a b e).

(** [e.find("default:name[@k='v']", namespace)] *)
Definition find_with_attr (name k v : str) (e : Element) : option Element :=
  hd_error (filter (fun c => match attrib_lookup k (attrib c) with
                             | Some v' => PyStr.eqb v' v
                             | None => false
                             end)
                   (findall name e)).

End Xml.

(* ================================================================== *)
(** * What the Python runtime and its standard library decide *)
(* ================================================================== *)

(** Functions of the interpreter and of the standard library the modelled
    code calls.  They are not code of this repository; the development holds
    for every behaviour of them.
    - [unicode_decimal], [unicode_alnum]: the classes behind [\d] and [\w]
      of [re] outside ASCII;
    - [re_search_group1]: [re.search(pattern, s).group(1)], [None] without a
      match, for the patterns that capture a group;
    - [urljoin]: [urllib.parse.urljoin], which raises a [ValueError] on a
      base or a reference it cannot split, a malformed IPv6 host for one;
    - [unquote], [urlparse_path]: [urllib.parse.unquote] and
      [urlparse(u).path];
    - [fromisoformat_year]: [datetime.fromisoformat(s).year], [None] when
      [fromisoformat] raises [ValueError];
    - [ET_fromstring]: [xml.etree.ElementTree.fromstring]; an [inl] carries
      the text of the [ParseError];
    - [py_repr]: [str()] of a list or a dict;
    - [builtin_text]: the text of the built-in exception an operation (named
      by the first argument) raises on a value of the wrong type. *)
Class PyRuntime : Type := {
  unicode_decimal : N -> bool;
  unicode_alnum : N -> bool;
  re_search_group1 : str -> str -> option str;
  urljoin : str -> str -> outside str;
  unquote : str -> str;
  urlparse_path : str -> str;
  fromisoformat_year : str -> option Z;
  ET_fromstring : str -> str + Xml.Element;
  py_repr : pyval -> str;
  builtin_text : str -> pyval -> str
}.

(* ================================================================== *)
(** * Regular expressions of [re], as far as the code uses them *)
(* ================================================================== *)

Module Regex.

Inductive re : Type :=
| Void
| Eps
| Chr (c : N)
| Digit
| Word
| Seq (a b : re)
| Alt (a b : re)
| Star (a : re).

Definition Plus (a : re) : re := Seq a (Star a).
Definition Opt (a : re) : re := Alt a Eps.

(** A literal piece of a pattern. *)
Fixpoint Lit (s : str) : re :=
  match s with
  | [] => Eps
  | c :: r => Seq (Chr c) (Lit r)
  end.

Section Classes.

Context {rt : PyRuntime}.

(** [\d] on a [str] pattern: a decimal digit of any script. *)
Definition class_digit (c : N) : bool :=
  if (c <? 128)%N then (48 <=? c)%N && (c <=? 57)%N else unicode_decimal c.

(** [\w] on a [str] pattern: alphanumeric in any script, or the underscore. *)
Definition class_word (c : N) : bool :=
  if (c <? 128)%N then
    (48 <=? c)%N && (c <=? 57)%N || (65 <=? c)%N && (c <=? 90)%N
    || (97 <=? c)%N && (c <=? 122)%N || (c =? 95)%N
  else unicode_alnum c.

Fixpoint nullable (r : re) : bool :=
  match r with
  | Void | Chr _ | Digit | Word => false
  | Eps | Star _ => true
  | Seq a b => nullable a && nullable b
  | Alt a b => nullable a || nullable b
  end.

(** What is left of [r] after reading [c]. *)
Fixpoint deriv (c : N) (r : re) : re :=
  match r with
  | Void | Eps => Void
  | Chr a => if N.eqb a c then Eps else Void
  | Digit => if class_digit c then Eps else Void
  | Word => if class_word c then Eps else Void
  | Seq a b =>
      if nullable a then Alt (Seq (deriv c a) b) (deriv c b)
      else Seq (deriv c a) b
  | Alt a b => Alt (deriv c a) (deriv c b)
  | Star a => Seq (deriv c a) (Star a)
  end.

(** [r] matches the whole of [s]. *)
Fixpoint fullmatch (r : re) (s : str) : bool :=
  match s with
  | [] => nullable r
  | c :: s' => fullmatch (deriv c r) s'
  end.

(** [re.match("^" r "$", s)] as a condition: without [re.MULTILINE], [$]
    matches at the end of the string and just before a newline that ends
    the string. *)
Definition match_anchored (r : re) (s : str) : bool :=
  fullmatch r s ||
  match rev s with
  | 10%N :: rest => fullmatch r (rev rest)
  | _ => false
  end.

End Classes.

End Regex.

(* ================================================================== *)
(** * models.py *)
(* ================================================================== *)

Module Models.

Inductive Platform : Type :=
| CALIBRE_WEB
| ZLIBRARY
| ARCHIVE_ORG
| LIBER3
| ANNAS_ARCHIVE.

(** [Platform.value] *)
Definition Platform_value (p : Platform) : str :=
  match p with
  | CALIBRE_WEB => lit "calibre_web"
  | ZLIBRARY => lit "zlibrary"
  | ARCHIVE_ORG => lit "archive_org"
  | LIBER3 => lit "liber3"
  | ANNAS_ARCHIVE => lit "annas_archive"
  end.

Definition Platform_eqb (a b : Platform) : bool :=
  match a, b with
  | CALIBRE_WEB, CALIBRE_WEB | ZLIBRARY, ZLIBRARY | ARCHIVE_ORG, ARCHIVE_ORG
  | LIBER3, LIBER3 | ANNAS_ARCHIVE, ANNAS_ARCHIVE => true
  | _, _ => false
  end.

(** The adapters fill the descriptive fields with whatever the source sent:
    they hold values without a static type. *)
Record BookInfo : Type := {
  title : pyval;
  authors : pyval;
  year : pyval;
  publisher : pyval;
  language : pyval;
  description : pyval;
  cover_url : pyval;
  bi_file_size : pyval;
  file_type : pyval;
  isbn : pyval
}.

Record DownloadInfo : Type := {
  platform : Platform;
  download_url : option str;
  book_id : option str;
  hash_id : option str;
  file_name : option str;
  requires_auth : bool;
  additional_params : option (list (str * pyval))
}.

Record SearchResult : Type := {
  book_info : BookInfo;
  download_info : DownloadInfo;
  sr_platform : Platform;
  relevance_score : option Z
}.

Record DownloadResult : Type := {
  success : bool;
  file_path : option str;
  dr_file_name : option str;
  file_size : option Z;
  error_message : option str;
  content : option bytes
}.

Record LibraryConfig : Type := {
  calibre_web_url : option str;
  enable_calibre : bool;
  zlib_email : option str;
  zlib_password : option str;
  enable_zlib : bool;
  enable_archive : bool;
  enable_liber3 : bool;
  enable_annas : bool;
  max_results : Z;
  proxy : option str;
  timeout : Z;
  user_agent : str
}.

(** [LibraryConfig()], every field at its default. *)
Definition default_config : LibraryConfig := {|
  calibre_web_url := None;
  enable_calibre := false;
  zlib_email := None;
  zlib_password := None;
  enable_zlib := false;
  enable_archive := true;
  enable_liber3 := true;
  enable_annas := false;
  max_results := 20;
  proxy := None;
  timeout := 30;
  user_agent := lit "Mozilla/5.0 (Windows NT 10.0; Win64; x64) AppleWebKit/537.36"
|}.

End Models.

Export Models.

(* ================================================================== *)
(** * platforms/base.py: helpers shared by the adapters *)
(* ================================================================== *)

Module Base.

(** The literal of line 141 and 148: a space, [<], U+7701, U+7565, [>]. *)
Definition ellipsis_marker : str := [32; 60; 30465; 30053; 62]%N.

(** The [while] loop of [_truncate_filename], on the reversed base name:
    [truncated_base[:-1]] drops the head of the reversed list.  The loop
    runs while the encoded length exceeds [available] and the name is not
    empty. *)
Fixpoint trim_loop_rev (available : Z) (rev_base : str) : str :=
  match rev_base with
  | [] => []
  | _ :: shorter =>
      if (utf8_len (rev rev_base) >? available)%Z
      then trim_loop_rev available shorter
      else rev_base
  end.

Definition trim_loop (available : Z) (base : str) : str :=
  rev (trim_loop_rev available (rev base)).

(** The same loop as it is written, [truncated_base] shrinking from its end,
    run for at most [fuel] iterations; [trim_loop] is this loop with fuel
    enough, see [trim_loop_is_the_while_loop]. *)
Fixpoint trim_while (fuel : nat) (available : Z) (truncated_base : str) : str :=
  match fuel with
  | O => truncated_base
  | S fuel' =>
      if (utf8_len truncated_base >? available)%Z && truthy truncated_base
      then trim_while fuel' available (removelast truncated_base)
      else truncated_base
  end.

(** [base, ext = filename.rsplit('.', 1) if '.' in filename else (filename, '')]
    followed by [if ext: ext = '.' + ext]. *)
Definition split_ext (filename : str) : str * str :=
  let (base, ext) :=
    match rsplit_last 46 filename with
    | Some be => be
    | None => (filename, [])
    end in
  (base, if truthy ext then 46%N :: ext else ext).

(** [BasePlatform._truncate_filename].  [None] stands for the
    [UnicodeEncodeError] of [filename.encode('utf-8')] on a name that holds
    a lone surrogate; every string encoded after that first test is a slice
    of [filename] or a literal. *)
Definition _truncate_filename (filename : str) (max_length : Z) : option str :=
  if negb (forallb encodable filename) then None
  else if (utf8_len filename <=? max_length)%Z then Some filename
  else
    let (base, ext) := split_ext filename in
    let available := (max_length - utf8_len ext - utf8_len ellipsis_marker)%Z in
    let truncated_base := trim_loop available base in
    Some (truncated_base ++ ellipsis_marker ++ ext).

(** The default of the [max_length] parameter. *)
Definition default_max_length : Z := 100.

(** [BasePlatform._is_valid_url]; the value is only used as a condition. *)
Definition _is_valid_url (url : str) : bool :=
  truthy url && (startswith (lit "http://") url || startswith (lit "https://") url).

End Base.

(* ================================================================== *)
(** * Calls with effects *)
(* ================================================================== *)

Module Eff.

(** An HTTP response as the adapters read it: the status, the
    [Content-Type] and [Content-Disposition] headers ([""] when absent), the
    final URL, and what [await response.read()] and [await response.json()]
    produce. *)
Record Response : Type := {
  status : Z;
  content_type : str;
  content_disposition : str;
  url : str;
  read : outside bytes;
  json : outside pyval
}.

(** The outside of an adapter, over a state [W] of the world: the aiohttp
    session and the file system.  [get_session] is what
    [BasePlatform._get_session] does to the world when it opens the session
    or finds it open; every other call may raise and may change the world. *)
Class Transport (W : Type) : Type := {
  get_session : W -> W;
  http_get : str -> W -> outside Response * W;
  http_post : str -> pyval -> W -> outside Response * W;
  path_cwd : W -> outside str * W;
  path_join : str -> str -> str;
  fs_mkdir : str -> W -> outside unit * W;
  fs_write : str -> bytes -> W -> outside unit * W
}.

(** The calls an adapter makes to its outside, recorded as they are made. *)
Inductive event : Type :=
| EvSession
| EvGet (url : str)
| EvPost (url : str) (payload : pyval)
| EvCwd
| EvMkdir (dir : str)
| EvWrite (path : str) (data : bytes)
| EvLogin (email password : str)
| EvClientSearch (message : str) (limit : Z)
| EvGetBookInfo (book_id hash : str)
| EvDownloadBook (book_id hash : str)
| EvAnnasInformation (book_id : str).

(** The state a call runs in: the world, the mutable attributes [X] of the
    adapter object, and the calls made so far, oldest first. *)
Record state (W X : Type) : Type := {
  world : W;
  self : X;
  log : list event
}.

Section Monad.

Context {W X : Type}.

(** A call: from the state before to what it produces and the state after.
    The state after a raised exception is the state at the [raise]. *)
Definition M (A : Type) : Type := state W X -> result A * state W X.

Definition ret {A : Type} (a : A) : M A := fun s => (Ok a, s).

Definition raise {A : Type} (e : exn) : M A := fun s => (Raise e, s).

Definition bind {A B : Type} (c : M A) (k : A -> M B) : M B :=
  fun s =>
    match c s with
    | (Ok a, s') => k a s'
    | (Raise e, s') => (Raise e, s')
    end.

(** [try: c  except Exception as e: h e] *)
Definition try_except {A : Type} (c : M A) (h : exn -> M A) : M A :=
  fun s =>
    match c s with
    | (Ok a, s') => (Ok a, s')
    | (Raise e, s') => h e s'
    end.

(** A value that was produced, or the exception that was raised instead. *)
Definition of_result {A : Type} (r : result A) : M A := fun s => (r, s).

Definition of_outside {A : Type} (o : outside A) : M A := of_result (to_result o).

Definition emit (ev : event) : M unit :=
  fun s => (Ok tt, {| world := world s; self := self s; log := log s ++ [ev] |}).

(** A call to the world. *)
Definition on_world {A : Type} (op : W -> outside A * W) : M A :=
  fun s =>
    let (r, w) := op (world s) in
    (to_result r, {| world := w; self := self s; log := log s |}).

Definition get_self : M X := fun s => (Ok (self s), s).

Definition set_self (x : X) : M unit :=
  fun s => (Ok tt, {| world := world s; self := x; log := log s |}).

End Monad.

Declare Scope eff_scope.
Delimit Scope eff_scope with eff.

Notation "x <- c ;; k" := (bind c (fun x => k))
  (at level 61, c at next level, right associativity) : eff_scope.
Notation "c ;;; k" := (bind c (fun _ => k))
  (at level 61, right associativity) : eff_scope.
Notation "' pat <- c ;; k" := (bind c (fun x => match x with pat => k end))
  (at level 61, pat pattern, c at next level, right associativity) : eff_scope.

Section Calls.

Context {W X : Type} {tr : Transport W}.

Local Open Scope eff_scope.

(** [await self._get_session()] *)
Definition _get_session : M (W:=W) (X:=X) unit :=
  fun s => (Ok tt, {| world := get_session (world s); self := self s;
                      log := log s ++ [EvSession] |}).

(** [session.get(url, proxy=self.proxy)] *)
Definition session_get (u : str) : M (W:=W) (X:=X) Response :=
  emit (EvGet u) ;;; on_world (http_get u).

(** [session.post(url, json=payload, ...)] *)
Definition session_post (u : str) (payload : pyval) : M (W:=W) (X:=X) Response :=
  emit (EvPost u payload) ;;; on_world (http_post u payload).

(** The block every downloading adapter ends with (calibre_web.py 201-228,
    zlibrary.py 139-166, archive_org.py 206-233, liber3.py 168-195): hand
    the bytes back, or create the directory, write the file and report its
    path. *)
Definition deliver (file_name : str) (body : bytes)
  (save_path : option str) (return_content : bool) : M (W:=W) (X:=X) DownloadResult :=
  if return_content then
    ret {| success := true; file_path := None; dr_file_name := Some file_name;
           file_size := Some (Z.of_nat (length body)); error_message := None;
           content := Some body |}
  else
    dir <- match save_path with
           | None => emit EvCwd ;;; on_world path_cwd
           | Some d => ret d
           end ;;
    emit (EvMkdir dir) ;;; on_world (fs_mkdir dir) ;;;
    let file := path_join dir file_name in
    emit (EvWrite file body) ;;; on_world (fs_write file body) ;;;
    ret {| success := true; file_path := Some file; dr_file_name := Some file_name;
           file_size := Some (Z.of_nat (length body)); error_message := None;
           content := None |}.

Context {rt : PyRuntime}.

(** [self._truncate_filename(name)] at a call site: the default budget, and
    the [UnicodeEncodeError] of a name that cannot be encoded. *)
Definition truncate_filename (name : str) : M (W:=W) (X:=X) str :=
  match Base._truncate_filename name Base.default_max_length with
  | Some n => ret n
  | None => raise (PyException (lit "UnicodeEncodeError")
                               (builtin_text (lit "encode") (PStr name)))
  end.

End Calls.

End Eff.

(* ================================================================== *)
(** * core.py: the orchestrator *)
(* ================================================================== *)

Module Core.

(** An [EbooksLibrary] object: its configuration and the keys of its
    [platforms] dict in insertion order.  The adapter objects themselves are
    represented through what their calls produce, see [search]. *)
Record EbooksLibrary : Type := {
  config : LibraryConfig;
  platforms : list Platform
}.

(** [p in self.platforms] *)
Definition enabled (lib : EbooksLibrary) (p : Platform) : bool :=
  existsb (Platform_eqb p) (platforms lib).

(** [EbooksLibrary._setup_platforms] *)
Definition _setup_platforms (cfg : LibraryConfig) : list Platform :=
  (if enable_calibre cfg && otruthy (calibre_web_url cfg)
   then [CALIBRE_WEB] else [])
  ++ (if enable_zlib cfg && otruthy (zlib_email cfg) && otruthy (zlib_password cfg)
      then [ZLIBRARY] else [])
  ++ (if enable_archive cfg then [ARCHIVE_ORG] else [])
  ++ (if enable_liber3 cfg then [LIBER3] else [])
  ++ (if enable_annas cfg then [ANNAS_ARCHIVE] else []).

(** [EbooksLibrary.__init__] *)
Definition new (cfg : option LibraryConfig) : EbooksLibrary :=
  let c := match cfg with Some c => c | None => default_config end in
  {| config := c; platforms := _setup_platforms c |}.

(** [limit or self.config.max_results] *)
Definition search_limit (lib : EbooksLibrary) (limit : option Z) : Z :=
  match limit with
  | Some n => if (n =? 0)%Z then max_results (config lib) else n
  | None => max_results (config lib)
  end.

(** [platforms or list(self.platforms.keys())], then the filter to the
    enabled platforms. *)
Definition target_platforms (lib : EbooksLibrary)
  (requested : option (list Platform)) : list Platform :=
  let chosen :=
    match requested with
    | Some (p :: ps) => p :: ps
    | Some [] | None => platforms lib
    end in
  filter (enabled lib) chosen.

(** One call of an adapter's [search] the orchestrator dispatches. *)
Record dispatch : Type := {
  d_platform : Platform;
  d_query : str;
  d_limit : Z
}.

(** What a run of [EbooksLibrary.search] does: the adapter calls it
    dispatched, in order, and what it returns or raises. *)
Record run : Type := {
  dispatched : list dispatch;
  outcome : result (list SearchResult)
}.

Section Search.

(** [adapter_search i p query limit]: what [platform_obj.search(query, limit)]
    of task number [i], on the adapter of [p], produces once the task has
    settled: a list, or an [Exception].  Indexing by the task leaves the
    schedule of the concurrent tasks open. *)
Variable adapter_search : nat -> Platform -> str -> Z -> result (list SearchResult).

(** [EbooksLibrary._search_platform] *)
Definition _search_platform (i : nat) (p : Platform) (query : str) (limit : Z)
  : list SearchResult :=
  match adapter_search i p query limit with
  | Ok rs => rs
  | Raise _ => []
  end.

(** The loop over the results of [asyncio.gather(..., return_exceptions=True)]. *)
Fixpoint combine_results (results : list (result (list SearchResult)))
  : list SearchResult :=
  match results with
  | [] => []
  | Raise _ :: rest => combine_results rest
  | Ok r :: rest =>
      match r with
      | [] => combine_results rest
      | _ :: _ => r ++ combine_results rest
      end
  end.

(** The tasks of the [for platform in target_platforms] loop, numbered from
    [i]: each is a call of [_search_platform], paired with the adapter call
    it makes. *)
Fixpoint create_tasks (i : nat) (targets : list Platform) (query : str) (limit : Z)
  : list (dispatch * result (list SearchResult)) :=
  match targets with
  | [] => []
  | p :: rest =>
      ({| d_platform := p; d_query := query; d_limit := limit |},
       Ok (_search_platform i p query limit))
      :: create_tasks (S i) rest query limit
  end.

Definition invalid_query : exn :=
  SearchError (lit "Search query cannot be empty") None.

Definition no_platforms : exn :=
  SearchError (lit "No platforms available for search") None.

(** [EbooksLibrary.search] *)
Definition search (lib : EbooksLibrary) (query : str)
  (requested : option (list Platform)) (limit : option Z) : run :=
  if negb (truthy query) || negb (truthy (strip query)) then
    {| dispatched := []; outcome := Raise invalid_query |}
  else
    let lim := search_limit lib limit in
    let targets := target_platforms lib requested in
    match targets with
    | [] => {| dispatched := []; outcome := Raise no_platforms |}
    | _ :: _ =>
        let tasks := create_tasks 0 targets query lim in
        {| dispatched := map fst tasks;
           outcome := Ok (combine_results (map snd tasks)) |}
    end.

End Search.

End Core.

(* ================================================================== *)
(** * platforms/calibre_web.py *)
(* ================================================================== *)

Module CalibreWeb.

Import Eff Regex.

(** [str.rstrip('/')] *)
Definition rstrip_slash (s : str) : str :=
  let fix drop (r : str) : str :=
    match r with
    | c :: r' => if N.eqb c 47 then drop r' else r
    | [] => []
    end in
  rev (drop (rev s)).

(** The attribute of a [CalibreWebPlatform] the modelled methods read. *)
Record CalibreWebPlatform : Type := {
  base_url : str
}.

(** [CalibreWebPlatform.__init__] *)
Definition new (url : str) : CalibreWebPlatform :=
  {| base_url := rstrip_slash url |}.

(** One dict of the list [_parse_opds_response] returns.  [year] is an [int]
    or the string ["Unknown"]; a [text] that is [None] stays [None]. *)
Record opds_result : Type := {
  r_title : option str;
  r_authors : str;
  r_summary : option str;
  r_year : pyval;
  r_publisher : option str;
  r_language : option str;
  r_cover_link : str;
  r_download_link : str;
  r_file_type : str;
  r_file_size : str
}.

(** The pattern [^/opds/cover/\d+$] between its anchors. *)
Definition cover_pattern : re :=
  Seq (Lit (lit "/opds/cover/")) (Plus Digit).

(** The pattern [^/opds/download/\d+/[\w]+/$] between its anchors. *)
Definition download_pattern : re :=
  Seq (Lit (lit "/opds/download/"))
      (Seq (Plus Digit) (Seq (Chr 47) (Seq (Plus Word) (Chr 47)))).

(** [re.sub(r'[^\x09\x0A\x0D\x20-\uD7FF\uE000-\uFFFD]', '', xml_data)]: only
    the code points 9, 10, 13, 32 to 55295 and 57344 to 65533 stay. *)
Definition strip_control (xml_data : str) : str :=
  filter (fun c => (c =? 9) || (c =? 10) || (c =? 13)
                   || (32 <=? c) && (c <=? 55295)
                   || (57344 <=? c) && (c <=? 65533))%N
         xml_data.

(** [re.sub(r'\s+', ' ', xml_data)]; [in_run] tells that the previous
    character was whitespace. *)
Fixpoint collapse_whitespace (in_run : bool) (xml_data : str) : str :=
  match xml_data with
  | [] => []
  | c :: rest =>
      if isspace c then
        if in_run then collapse_whitespace true rest
        else 32%N :: collapse_whitespace true rest
      else c :: collapse_whitespace false rest
  end.

Section Parse.

Context {rt : PyRuntime}.

(** [x.text if x is not None else default] *)
Definition text_or (default : str) (e : option Xml.Element) : option str :=
  match e with
  | Some x => Xml.text x
  | None => Some default
  end.

(** Lines 118-125: the publication year of an entry. *)
Definition parse_year (entry : Xml.Element) : pyval :=
  match Xml.find (lit "published") entry with
  | Some published =>
      if otruthy (Xml.text published) then
        match fromisoformat_year
                (match Xml.text published with Some t => t | None => [] end) with
        | Some y => PInt y
        | None => PStr (lit "Unknown")
        end
      else PStr (lit "Unknown")
  | None => PStr (lit "Unknown")
  end.

(** Lines 135-140: the cover link of an entry; what [urljoin] raises is
    caught nowhere in the parser. *)
Definition parse_cover_link (self : CalibreWebPlatform) (entry : Xml.Element)
  : outside str :=
  let cover_suffix :=
    match Xml.find_with_attr (lit "link") (lit "rel")
            (lit "http://opds-spec.org/image") entry with
    | Some cover_element => Xml.attrib_get (lit "href") [] (Xml.attrib cover_element)
    | None => []
    end in
  if truthy cover_suffix && match_anchored cover_pattern cover_suffix
  then urljoin (base_url self) cover_suffix
  else Returned [].

(** [entry.find("default:link[@rel='http://opds-spec.org/acquisition']", namespace)] *)
Definition acquisition_element (entry : Xml.Element) : option Xml.Element :=
  Xml.find_with_attr (lit "link") (lit "rel")
    (lit "http://opds-spec.org/acquisition") entry.

(** Lines 142-153: the download link, the declared type and the declared
    length of an entry; again [urljoin] may raise. *)
Definition parse_acquisition (self : CalibreWebPlatform) (entry : Xml.Element)
  : outside (str * str * str) :=
  match acquisition_element entry with
  | Some acquisition =>
      let download_suffix := Xml.attrib_get (lit "href") [] (Xml.attrib acquisition) in
      match (if truthy download_suffix && match_anchored download_pattern download_suffix
             then urljoin (base_url self) download_suffix
             else Returned []) with
      | Returned download_link =>
          Returned
            (download_link,
             Xml.attrib_get (lit "type") (lit "Unknown") (Xml.attrib acquisition),
             Xml.attrib_get (lit "length") (lit "Unknown") (Xml.attrib acquisition))
      | Failed cls text => Failed cls text
      end
  | None => Returned ([], lit "Unknown", lit "Unknown")
  end.

(** The body of the [for entry in entries] loop: the cover link is joined
    before the download link, and the first [urljoin] that raises ends the
    loop and the parser. *)
Definition parse_entry (self : CalibreWebPlatform) (entry : Xml.Element)
  : outside opds_result :=
  let authors :=
    flat_map (fun a => if otruthy (Xml.text a)
                       then match Xml.text a with Some t => [t] | None => [] end
                       else [])
             (Xml.findall2 (lit "author") (lit "name") entry) in
  match parse_cover_link self entry with
  | Failed cls text => Failed cls text
  | Returned cover_link =>
      match parse_acquisition self entry with
      | Failed cls text => Failed cls text
      | Returned (download_link, ftype, fsize) =>
          Returned
            {| r_title := text_or (lit "Unknown") (Xml.find (lit "title") entry);
               r_authors := match authors with
                            | [] => lit "Unknown"
                            | _ :: _ => join (lit ", ") authors
                            end;
               r_summary := text_or (lit "No description")
                              (Xml.find (lit "summary") entry);
               r_year := parse_year entry;
               r_publisher := text_or (lit "Unknown")
                                (Xml.find2 (lit "publisher") (lit "name") entry);
               r_language := text_or (lit "Unknown")
                               (Xml.find (lit "dcterms:language") entry);
               r_cover_link := cover_link;
               r_download_link := download_link;
               r_file_type := ftype;
               r_file_size := fsize |}
      end
  end.

(** The [for entry in entries] loop, lines 99-166: one dict per entry, in
    the order of the feed, unless an entry raises. *)
Fixpoint parse_entries (self : CalibreWebPlatform) (entries : list Xml.Element)
  : outside (list opds_result) :=
  match entries with
  | [] => Returned []
  | entry :: rest =>
      match parse_entry self entry with
      | Failed cls text => Failed cls text
      | Returned r =>
          match parse_entries self rest with
          | Failed cls text => Failed cls text
          | Returned rs => Returned (r :: rs)
          end
      end
  end.

(** Lines 95-168 on the parsed tree: the loop, then
    [results[:limit] if limit else results]. *)
Definition parse_feed (self : CalibreWebPlatform) (root : Xml.Element)
  (limit : option Z) : outside (list opds_result) :=
  match parse_entries self (Xml.findall (lit "entry") root) with
  | Failed cls text => Failed cls text
  | Returned results =>
      Returned
        match limit with
        | Some n => if (n =? 0)%Z then results else slice_to n results
        | None => results
        end
  end.

(** [CalibreWebPlatform._parse_opds_response]: the handler of line 170 turns
    a [ParseError] into a [SearchError]; any other exception, that of
    [urljoin], goes through. *)
Definition _parse_opds_response (self : CalibreWebPlatform) (xml_data : str)
  (limit : option Z) : result (list opds_result) :=
  let xml_data := strip_control xml_data in
  let xml_data := collapse_whitespace false xml_data in
  match ET_fromstring xml_data with
  | inr root => to_result (parse_feed self root limit)
  | inl text =>
      Raise (SearchError (lit "Failed to parse Calibre-Web response: " ++ text)
                         (Some (lit "calibre_web")))
  end.

(** [CalibreWebPlatform._is_valid_calibre_url] *)
Definition _is_valid_calibre_url (u : str) : bool :=
  if negb (Base._is_valid_url u) then false
  else contains (lit "/opds/download/") u.

(** The pattern of line 256, the raw string
    [filename=[Q\']?([^;\']+)[Q\']?] with the double quote, code point 34,
    for [Q]; a raw string keeps the backslash in front of each single
    quote. *)
Definition filename_pattern : str :=
  lit "filename=[" ++ [34%N] ++ lit "\']?([^;\']+)[" ++ [34%N] ++ lit "\']?".

(** [CalibreWebPlatform._extract_filename_from_response] *)
Definition _extract_filename_from_response (response : Response) : option str :=
  let cd := content_disposition response in
  if negb (truthy cd) then None
  else
    match re_search_group1 (lit "filename\*=(?:UTF-8\'\')?([^;]+)") cd with
    | Some g => Some (unquote g)
    | None =>
        match re_search_group1 filename_pattern cd with
        | Some g => Some g
        | None => None
        end
    end.

Context {W : Type} {tr : Transport W}.

Local Open Scope eff_scope.

Definition fail (message : str) : exn :=
  DownloadError message (Some (lit "calibre_web")).

(** [CalibreWebPlatform.download] *)
Definition download (self : CalibreWebPlatform) (info : DownloadInfo)
  (save_path : option str) (return_content : bool) : M (W:=W) (X:=unit) DownloadResult :=
  try_except
    (if negb (otruthy (download_url info)) then
       raise (fail (lit "Calibre-Web download requires download_url"))
     else
       let u := match download_url info with Some u => u | None => [] end in
       if negb (_is_valid_calibre_url u) then
         raise (fail (lit "Invalid Calibre-Web download URL"))
       else
         _get_session ;;;
         response <- session_get u ;;
         if negb (status response =? 200)%Z then
           raise (fail (lit "Download failed with status " ++ of_Z (status response)))
         else
           let name :=
             match _extract_filename_from_response response with
             | Some n =>
                 if truthy n then n
                 else if otruthy (file_name info)
                      then match file_name info with Some f => f | None => [] end
                      else lit "unknown_book"
             | None =>
                 if otruthy (file_name info)
                 then match file_name info with Some f => f | None => [] end
                 else lit "unknown_book"
             end in
           name <- truncate_filename name ;;
           body <- of_outside (read response) ;;
           deliver name body save_path return_content)
    (fun e => raise (fail (lit "Calibre-Web download failed: " ++ exn_str e))).

End Parse.

End CalibreWeb.

(* ================================================================== *)
(** * platforms/archive_org.py: the download *)
(* ================================================================== *)

Module ArchiveOrg.

Import Eff.

(** [ArchiveOrgPlatform._is_valid_archive_url] *)
Definition _is_valid_archive_url (u : str) : bool :=
  if negb (Base._is_valid_url u) then false
  else contains (lit "archive.org/download/") u.

(** [path.split('/')[-1]] *)
Definition last_segment (path : str) : str :=
  match rsplit_last 47 path with
  | Some (_, e) => e
  | None => path
  end.

Section Download.

Context {rt : PyRuntime} {W : Type} {tr : Transport W}.

Local Open Scope eff_scope.

Definition fail (message : str) : exn :=
  DownloadError message (Some (lit "archive_org")).

(** [ArchiveOrgPlatform.download] *)
Definition download (info : DownloadInfo)
  (save_path : option str) (return_content : bool) : M (W:=W) (X:=unit) DownloadResult :=
  try_except
    (if negb (otruthy (download_url info)) then
       raise (fail (lit "Archive.org download requires download_url"))
     else
       let u := match download_url info with Some u => u | None => [] end in
       if negb (_is_valid_archive_url u) then
         raise (fail (lit "Invalid Archive.org download URL"))
       else
         _get_session ;;;
         response <- session_get u ;;
         if negb (status response =? 200)%Z then
           raise (fail (lit "Download failed with status " ++ of_Z (status response)))
         else
           let name :=
             if otruthy (file_name info)
             then match file_name info with Some f => f | None => [] end
             else
               let seg := last_segment (urlparse_path (url response)) in
               if truthy seg then seg else lit "unknown_book" in
           name <- truncate_filename name ;;
           body <- of_outside (read response) ;;
           deliver name body save_path return_content)
    (fun e => raise (fail (lit "Archive.org download failed: " ++ exn_str e))).

End Download.

End ArchiveOrg.

(* ================================================================== *)
(** * platforms/zlibrary.py *)
(* ================================================================== *)

Module ZLibrary.

Import Eff.

(** The session client [adapters.Zlibrary.Zlibrary], over its state [C]: a
    fresh client, whether it is logged in, and the four calls the adapter
    makes.  A call may raise and may change the client.  [downloadBook]
    hands back a false value or the pair the adapter unpacks into
    [book_name, book_content]. *)
Class ZlibraryClient (C : Type) : Type := {
  Zlibrary_new : C;
  isLoggedIn : C -> bool;
  login : str -> str -> C -> outside pyval * C;
  client_search : str -> Z -> C -> outside pyval * C;
  getBookInfo : str -> str -> C -> outside pyval * C;
  downloadBook : str -> str -> C -> outside (option (str * bytes)) * C
}.

(** The attributes [__init__] sets and no method changes.  The attribute
    [self.zlibrary], which does change, is the [self] component of the
    state: [None] or the client. *)
Record ZLibraryPlatform : Type := {
  email : str;
  password : str;
  _max_retries : Z
}.

(** [ZLibraryPlatform.__init__] *)
Definition new (email password : str) : ZLibraryPlatform :=
  {| email := email; password := password; _max_retries := 3 |}.

Section Adapter.

Context {rt : PyRuntime} {W : Type} {tr : Transport W}.
Context {C : Type} {cl : ZlibraryClient C}.

(** Lines 66-101 of [search]: the list built from what the client's search
    returned; on a record of an unexpected shape it raises a built-in
    exception. *)
Variable normalize_results : pyval -> outside (list SearchResult).

(** Lines 183-199 of [get_book_info]: the [BookInfo] built from the client's
    details, [None] when they report no success. *)
Variable details_to_info : pyval -> outside (option BookInfo).

Local Open Scope eff_scope.

Local Abbreviation MZ := (M (W:=W) (X:=option C)).

Definition none_has_no_attribute : exn :=
  PyException (lit "AttributeError") (builtin_text (lit "getattr") PNone).

(** [self.zlibrary.isLoggedIn()] *)
Definition client_isLoggedIn : MZ bool :=
  fun s =>
    match self s with
    | Some c => (Ok (isLoggedIn c), s)
    | None => (Raise none_has_no_attribute, s)
    end.

(** [self.zlibrary.method(...)]: the call is recorded, then made on the
    client, whose state it may change. *)
Definition on_client {A : Type} (ev : event) (op : C -> outside A * C) : MZ A :=
  fun s =>
    match self s with
    | Some c =>
        let (r, c') := op c in
        (to_result r, {| world := world s; self := Some c'; log := log s ++ [ev] |})
    | None => (Raise none_has_no_attribute, s)
    end.

Definition authentication_failed : exn :=
  AuthenticationError (lit "Failed to login to Z-Library after multiple attempts")
                      (Some (lit "zlibrary")).

(** The [while retry_count < self._max_retries] loop, by the number of
    iterations it has left.  An iteration calls [login]; it returns from
    [_ensure_logged_in] when the client is logged in afterwards, and goes on
    when it is not or when the attempt raised. *)
Fixpoint login_loop (p : ZLibraryPlatform) (left : nat) : MZ unit :=
  match left with
  | O => raise authentication_failed
  | S left' =>
      logged <- try_except
                  (on_client (EvLogin (email p) (password p))
                             (login (email p) (password p)) ;;;
                   client_isLoggedIn)
                  (fun _ => ret false) ;;
      if logged then ret tt else login_loop p left'
  end.

(** The same loop as it is written, with its counter [retry_count], run for
    at most [fuel] iterations; [login_loop] is this loop with fuel enough,
    see [login_loop_is_the_while_loop]. *)
Fixpoint login_while (p : ZLibraryPlatform) (fuel : nat) (retry_count : Z) : MZ unit :=
  match fuel with
  | O => raise authentication_failed
  | S fuel' =>
      if (retry_count <? _max_retries p)%Z then
        logged <- try_except
                    (on_client (EvLogin (email p) (password p))
                               (login (email p) (password p)) ;;;
                     client_isLoggedIn)
                    (fun _ => ret false) ;;
        if logged then ret tt else login_while p fuel' (retry_count + 1)
      else raise authentication_failed
  end.

(** [ZLibraryPlatform._ensure_logged_in] *)
Definition _ensure_logged_in (p : ZLibraryPlatform) : MZ unit :=
  z <- get_self ;;
  match z with
  | None => set_self (Some Zlibrary_new)
  | Some _ => ret tt
  end ;;;
  logged <- client_isLoggedIn ;;
  if negb logged then login_loop p (Z.to_nat (_max_retries p)) else ret tt.

(** [ZLibraryPlatform.search] *)
Definition search (p : ZLibraryPlatform) (query : str) (limit : Z)
  : MZ (list SearchResult) :=
  try_except
    (_ensure_logged_in p ;;;
     results <- on_client (EvClientSearch query limit) (client_search query limit) ;;
     of_outside (normalize_results results))
    (fun e =>
       if is_AuthenticationError e then raise e
       else raise (SearchError (lit "Z-Library search failed: " ++ exn_str e)
                               (Some (lit "zlibrary")))).

Definition fail (message : str) : exn :=
  DownloadError message (Some (lit "zlibrary")).

(** [ZLibraryPlatform.download] *)
Definition download (p : ZLibraryPlatform) (info : DownloadInfo)
  (save_path : option str) (return_content : bool) : MZ DownloadResult :=
  try_except
    (_ensure_logged_in p ;;;
     if negb (otruthy (book_id info)) || negb (otruthy (hash_id info)) then
       raise (fail (lit "Z-Library download requires both book_id and hash_id"))
     else
       let id := match book_id info with Some i => i | None => [] end in
       let h := match hash_id info with Some h => h | None => [] end in
       book_details <- on_client (EvGetBookInfo id h) (getBookInfo id h) ;;
       if negb (truth book_details) then
         raise (fail (lit "Could not get book details from Z-Library"))
       else
         download_result <- on_client (EvDownloadBook id h) (downloadBook id h) ;;
         match download_result with
         | None => raise (fail (lit "Failed to download book from Z-Library"))
         | Some (book_name, book_content) =>
             book_name <- truncate_filename book_name ;;
             deliver book_name book_content save_path return_content
         end)
    (fun e =>
       if is_AuthenticationError e then raise e
       else raise (fail (lit "Z-Library download failed: " ++ exn_str e))).

(** [ZLibraryPlatform.get_book_info] *)
Definition get_book_info (p : ZLibraryPlatform) (info : DownloadInfo)
  : MZ (option BookInfo) :=
  try_except
    (_ensure_logged_in p ;;;
     if negb (otruthy (book_id info)) || negb (otruthy (hash_id info)) then
       ret None
     else
       let id := match book_id info with Some i => i | None => [] end in
       let h := match hash_id info with Some h => h | None => [] end in
       book_details <- on_client (EvGetBookInfo id h) (getBookInfo id h) ;;
       of_outside (details_to_info book_details))
    (fun _ => ret None).

End Adapter.

End ZLibrary.

(* ================================================================== *)
(** * platforms/liber3.py: the batch detail call and the download *)
(* ================================================================== *)

Module Liber3.

Import Eff.

Definition detail_url : str := lit "https://lgate.glitternode.ru/v1/book".

(** The three keys of [additional_params]. *)
Definition k_ipfs_cid : str := lit "ipfs_cid".
Definition k_extension : str := lit "extension".
Definition k_title : str := lit "title".

(** [{"book_ids": book_ids}] *)
Definition detail_payload (book_ids : list str) : pyval :=
  PDict [(lit "book_ids", PList (map PStr book_ids))].

(** [key in v] for a string [key]: a key of a dict, an element of a list, a
    substring of a string; [None] stands for the [TypeError] on a value that
    is no container. *)
Definition py_in (key : str) (v : pyval) : option bool :=
  match v with
  | PDict items => Some (match lookup key items with Some _ => true | None => false end)
  | PList l => Some (existsb (fun x => match x with
                                       | PStr s => PyStr.eqb s key
                                       | _ => false
                                       end) l)
  | PStr s => Some (contains key s)
  | _ => None
  end.

(** [v[key]] for a string [key] that [v] holds: defined on a dict; [None]
    stands for the [TypeError] on a list or a string, and for the
    [KeyError]. *)
Definition py_item (key : str) (v : pyval) : option pyval :=
  match v with
  | PDict items => lookup key items
  | _ => None
  end.

(** [v.get(k, default)]; [None] stands for the [AttributeError] on a value
    that is no dict. *)
Definition py_get (k : str) (default : pyval) (v : pyval) : option pyval :=
  match v with
  | PDict items => Some (get_or k default items)
  | _ => None
  end.

(** [v.replace(" ", "_")]; [None] stands for the [AttributeError] on a value
    that is no string. *)
Definition py_replace_spaces (v : pyval) : option pyval :=
  match v with
  | PStr s => Some (PStr (replace_char 32 95 s))
  | _ => None
  end.

Section Adapter.

Context {rt : PyRuntime} {W : Type} {tr : Transport W}.

Local Open Scope eff_scope.

Local Abbreviation ML := (M (W:=W) (X:=unit)).

(** [str(v)], as an f-string formats [v]. *)
Definition py_str (v : pyval) : str :=
  match v with
  | PNone => lit "None"
  | PBool true => lit "True"
  | PBool false => lit "False"
  | PInt z => of_Z z
  | PFloat _ printed => printed
  | PStr s => s
  | PList _ | PDict _ => py_repr v
  end.

(** The built-in exception of operation [op] on [v] when it is undefined. *)
Definition or_raise {A : Type} (cls op : str) (v : pyval) (o : option A) : ML A :=
  match o with
  | Some a => ret a
  | None => raise (PyException cls (builtin_text op v))
  end.

(** [Liber3Platform._get_book_details]: the value of
    [data.get("data", {}).get("book", {})], or [None] on a status other than
    200 and on any exception. *)
Definition _get_book_details (book_ids : list str) : ML pyval :=
  try_except
    (response <- session_post detail_url (detail_payload book_ids) ;;
     if negb (status response =? 200)%Z then ret PNone
     else
       data <- of_outside (json response) ;;
       d <- or_raise (lit "AttributeError") (lit "get") data
              (py_get (lit "data") (PDict []) data) ;;
       or_raise (lit "AttributeError") (lit "get") d
         (py_get (lit "book") (PDict []) d))
    (fun _ => ret PNone).

Definition fail (message : str) : exn :=
  DownloadError message (Some (lit "liber3")).

Definition insufficient : exn :=
  fail (lit "Insufficient book information for download").

Definition no_details : exn :=
  fail (lit "Could not get book details from Liber3").

(** Lines 140-150: the details fetched again for the one identifier, and the
    three values read from them. *)
Definition refetch (id : str) : ML (pyval * pyval * pyval) :=
  _get_session ;;;
  book_details <- _get_book_details [id] ;;
  absent <- (if negb (truth book_details) then ret true
             else
               held <- or_raise (lit "TypeError") (lit "in") book_details
                         (py_in id book_details) ;;
               ret (negb held)) ;;
  if (absent : bool) then raise no_details
  else
    entry <- or_raise (lit "TypeError") (lit "getitem") book_details
               (py_item id book_details) ;;
    book_info <- or_raise (lit "AttributeError") (lit "get") entry
                   (py_get (lit "book") (PDict []) entry) ;;
    ipfs_cid <- or_raise (lit "AttributeError") (lit "get") book_info
                  (py_get k_ipfs_cid PNone book_info) ;;
    extension <- or_raise (lit "AttributeError") (lit "get") book_info
                   (py_get k_extension PNone book_info) ;;
    t <- or_raise (lit "AttributeError") (lit "get") book_info
           (py_get k_title (PStr (lit "unknown_book")) book_info) ;;
    title <- or_raise (lit "AttributeError") (lit "replace") t
               (py_replace_spaces t) ;;
    ret (ipfs_cid, extension, title).

(** Lines 155-195: with the three values at hand, the request to the
    gateway and the delivery of the file. *)
Definition fetch_and_deliver (ipfs_cid extension title : pyval)
  (save_path : option str) (return_content : bool) : ML DownloadResult :=
  let name := py_str title ++ lit "." ++ py_str extension in
  let u := lit "https://gateway-ipfs.st/ipfs/" ++ py_str ipfs_cid
           ++ lit "?filename=" ++ name in
  _get_session ;;;
  response <- session_get u ;;
  if negb (status response =? 200)%Z then
    raise (fail (lit "Download failed with status " ++ of_Z (status response)))
  else
    name <- truncate_filename name ;;
    body <- of_outside (read response) ;;
    deliver name body save_path return_content.

(** The [try] block of [Liber3Platform.download], lines 130-195. *)
Definition download_body (info : DownloadInfo)
  (save_path : option str) (return_content : bool) : ML DownloadResult :=
  if negb (otruthy (book_id info)) then
    raise (fail (lit "Liber3 download requires book_id"))
  else
    let id := match book_id info with Some i => i | None => [] end in
    let params :=
      match additional_params info with
      | Some items => items
      | None => []
      end in
    let ipfs_cid := get k_ipfs_cid params in
    let extension := get k_extension params in
    let title := get_or k_title (PStr (lit "unknown_book")) params in
    '(ipfs_cid, extension, title) <-
      (if negb (truth ipfs_cid) || negb (truth extension)
       then refetch id
       else ret (ipfs_cid, extension, title)) ;;
    if negb (truth ipfs_cid) || negb (truth extension) then
      raise insufficient
    else
      fetch_and_deliver ipfs_cid extension title save_path return_content.

(** The handler of lines 197-199. *)
Definition download_failed (e : exn) : exn :=
  fail (lit "Liber3 download failed: " ++ exn_str e).

(** [Liber3Platform.download] *)
Definition download (info : DownloadInfo)
  (save_path : option str) (return_content : bool) : ML DownloadResult :=
  try_except (download_body info save_path return_content)
             (fun e => raise (download_failed e)).

End Adapter.

End Liber3.

(* ================================================================== *)
(** * platforms/annas_archive.py: the download *)
(* ================================================================== *)

Module AnnasArchive.

Import Eff.

(** A link of [annas_py]: its label and its address. *)
Record URL : Type := {
  url_title : str;
  url_url : str
}.

(** What [get_information] returns, as far as [download] reads it. *)
Record Information : Type := {
  urls : list URL
}.

(** [adapters.annas_py.get_information], over the world. *)
Class AnnasPy (W : Type) : Type := {
  get_information : str -> W -> outside Information * W
}.

Definition fast_label : str := lit "Fast Partner Server".
Definition slow_label : str := lit "Slow Partner Server".

(** The three list comprehensions of lines 93, 100 and 107-109. *)
Definition fast_links (l : list URL) : list URL :=
  filter (fun x => contains fast_label (url_title x)) l.

Definition slow_links (l : list URL) : list URL :=
  filter (fun x => contains slow_label (url_title x)) l.

Definition other_links (l : list URL) : list URL :=
  filter (fun x => negb (contains fast_label (url_title x))
                   && negb (contains slow_label (url_title x))) l.

(** The lines [f"  {i}. {url.url}"] of [enumerate(links, 1)]. *)
Fixpoint numbered (i : nat) (links : list URL) : list str :=
  match links with
  | [] => []
  | x :: rest =>
      (lit "  " ++ of_nat i ++ lit ". " ++ url_url x) :: numbered (S i) rest
  end.

(** One [if links: links_info.append(heading); for ...] block. *)
Definition tier (heading : str) (links : list URL) : list str :=
  match links with
  | [] => []
  | _ :: _ => heading :: numbered 1 links
  end.

Definition links_info (l : list URL) : list str :=
  tier (lit "Fast links (paid):") (fast_links l)
  ++ tier (lit "Slow links (free with wait):") (slow_links l)
  ++ tier (lit "Other links:") (other_links l).

(** The message of line 120; the line break is code point 10. *)
Definition manual_download_message (l : list URL) : str :=
  lit "Anna's Archive requires manual download. Available links:"
  ++ [10%N] ++ join [10%N] (links_info l).

Section Adapter.

Context {W : Type} {an : AnnasPy W}.

Local Open Scope eff_scope.

Definition fail (message : str) : exn :=
  DownloadError message (Some (lit "annas_archive")).

(** [AnnasArchivePlatform.download] *)
Definition download (info : DownloadInfo)
  (save_path : option str) (return_content : bool) : M (W:=W) (X:=unit) DownloadResult :=
  try_except
    (if negb (otruthy (book_id info)) then
       raise (fail (lit "Anna's Archive download requires book_id"))
     else
       let id := match book_id info with Some i => i | None => [] end in
       book_info <- (emit (EvAnnasInformation id) ;;; on_world (get_information id)) ;;
       match urls book_info with
       | [] => raise (fail (lit "No download links found for this book"))
       | _ :: _ =>
           ret {| success := false; file_path := None; dr_file_name := None;
                  file_size := None;
                  error_message := Some (manual_download_message (urls book_info));
                  content := None |}
       end)
    (fun e => raise (fail (lit "Anna's Archive download info failed: " ++ exn_str e))).

End Adapter.

End AnnasArchive.

(* ================================================================== *)
(** * Sample collaborators *)
(* ================================================================== *)

(** Small concrete instances of the classes above, on which the general
    statements below are run. *)
Module Sample.

Import Eff.

Definition ascii_digit (c : N) : bool := ((48 <=? c) && (c <=? 57))%N.

(** The year of a date written [YYYY-MM-DD], the plainest text
    [fromisoformat] reads. *)
Definition iso_date_year (s : str) : option Z :=
  match s with
  | [y1; y2; y3; y4; 45; m1; m2; 45; d1; d2]%N =>
      if forallb ascii_digit [y1; y2; y3; y4; m1; m2; d1; d2]
      then Some (Z.of_N ((y1 - 48) * 1000 + (y2 - 48) * 100 + (y3 - 48) * 10 + (y4 - 48)))
      else None
  | _ => None
  end.

(** An element of the Atom namespace that holds text only. *)
Definition leaf (name value : str) : Xml.Element :=
  Xml.Elem (Xml.atom name) [] (Some value) [].

(** An acquisition link. *)
Definition acquisition (href : str) : Xml.Element :=
  Xml.Elem (Xml.atom (lit "link"))
    [(lit "rel", lit "http://opds-spec.org/acquisition");
     (lit "href", href);
     (lit "type", lit "application/epub+zip");
     (lit "length", lit "1024")]
    None [].

(** An entry with a publication date and an entry without one. *)
Definition dated_entry : Xml.Element :=
  Xml.Elem (Xml.atom (lit "entry")) [] None
    [leaf (lit "title") (lit "Dune");
     leaf (lit "published") (lit "1965-08-01");
     acquisition (lit "/opds/download/12/epub/")].

Definition undated_entry : Xml.Element :=
  Xml.Elem (Xml.atom (lit "entry")) [] None
    [leaf (lit "title") (lit "Emma");
     acquisition (lit "/download/13/epub")].

(** The text of the two entries. *)
Definition dated_entry_xml : str :=
  lit "<entry><title>Dune</title><published>1965-08-01</published>"
  ++ lit "<link rel='http://opds-spec.org/acquisition' href='/opds/download/12/epub/'"
  ++ lit " type='application/epub+zip' length='1024'/></entry>".

Definition undated_entry_xml : str :=
  lit "<entry><title>Emma</title>"
  ++ lit "<link rel='http://opds-spec.org/acquisition' href='/download/13/epub'"
  ++ lit " type='application/epub+zip' length='1024'/></entry>".

(** A feed of the two, the undated entry last, and its text. *)
Definition feed : Xml.Element :=
  Xml.Elem (Xml.atom (lit "feed")) [] None
    [leaf (lit "title") (lit "Search results"); dated_entry; undated_entry].

Definition feed_xml : str :=
  lit "<feed xmlns='http://www.w3.org/2005/Atom'><title>Search results</title>"
  ++ dated_entry_xml ++ undated_entry_xml ++ lit "</feed>".

(** The feed with the undated entry first, and its text. *)
Definition feed_undated_first : Xml.Element :=
  Xml.Elem (Xml.atom (lit "feed")) [] None
    [leaf (lit "title") (lit "Search results"); undated_entry; dated_entry].

Definition feed_undated_first_xml : str :=
  lit "<feed xmlns='http://www.w3.org/2005/Atom'><title>Search results</title>"
  ++ undated_entry_xml ++ dated_entry_xml ++ lit "</feed>".

(** An XML parser that knows the two feeds above by their text. *)
Definition parse_known_feeds (text : str) : str + Xml.Element :=
  if PyStr.eqb text feed_xml then inr feed
  else if PyStr.eqb text feed_undated_first_xml then inr feed_undated_first
  else inl (lit "syntax error: line 1, column 0").

(** A runtime that knows ASCII only, joins URLs by concatenation, finds no
    file name in a header, reads dates written [YYYY-MM-DD] and parses the
    two sample feeds. *)
Definition runtime : PyRuntime := {|
  unicode_decimal := fun _ => false;
  unicode_alnum := fun _ => false;
  re_search_group1 := fun _ _ => None;
  urljoin := fun base suffix => Returned (base ++ suffix);
  unquote := fun s => s;
  urlparse_path := fun s => s;
  fromisoformat_year := iso_date_year;
  ET_fromstring := parse_known_feeds;
  py_repr := fun _ => lit "[...]";
  builtin_text := fun op _ => op
|}.

(** A response with status 200, the given JSON document and a four-byte
    body. *)
Definition ok_response (u : str) (doc : pyval) : Response := {|
  status := 200;
  content_type := lit "application/json";
  content_disposition := [];
  url := u;
  read := Returned [37; 80; 68; 70]%N;
  json := Returned doc
|}.

(** A world without state in which every request is answered with status
    200, every POST with the JSON document [doc], and the file system
    accepts every write. *)
Definition transport (doc : pyval) : Transport unit := {|
  get_session := fun w => w;
  http_get := fun u w => (Returned (ok_response u PNone), w);
  http_post := fun u _ w => (Returned (ok_response u doc), w);
  path_cwd := fun w => (Returned (lit "/tmp"), w);
  path_join := fun d f => d ++ lit "/" ++ f;
  fs_mkdir := fun _ w => (Returned tt, w);
  fs_write := fun _ _ w => (Returned tt, w)
|}.

(** A world in which no request gets through. *)
Definition offline : Transport unit := {|
  get_session := fun w => w;
  http_get := fun _ w => (Failed (lit "ClientConnectorError") (lit "cannot connect"), w);
  http_post := fun _ _ w => (Failed (lit "ClientConnectorError") (lit "cannot connect"), w);
  path_cwd := fun w => (Returned (lit "/tmp"), w);
  path_join := fun d f => d ++ lit "/" ++ f;
  fs_mkdir := fun _ w => (Returned tt, w);
  fs_write := fun _ _ w => (Returned tt, w)
|}.

(** The answer of Liber3's detail endpoint that knows, for the identifier
    [id], the record [book]. *)
Definition detail_document (id : str) (book : pyval) : pyval :=
  PDict [(lit "data",
          PDict [(lit "book", PDict [(id, PDict [(lit "book", book)])])])].

(** The state a call starts in: nothing recorded yet. *)
Definition start {X : Type} (x : X) : state unit X :=
  {| world := tt; self := x; log := [] |}.

(** A Z-Library client whose state is whether it is logged in, and whose
    [login] is refused: the state stays as it is. *)
Definition refusing_client : ZLibrary.ZlibraryClient bool := {|
  ZLibrary.Zlibrary_new := false;
  ZLibrary.isLoggedIn := fun c => c;
  ZLibrary.login := fun _ _ c => (Returned (PDict [(lit "success", PInt 0)]), c);
  ZLibrary.client_search := fun _ _ c => (Returned (PDict []), c);
  ZLibrary.getBookInfo := fun _ _ c => (Returned (PDict [(lit "success", PInt 1)]), c);
  ZLibrary.downloadBook := fun _ _ c => (Returned (Some (lit "book.epub", [80; 75]%N)), c)
|}.

(** A Z-Library client whose [login] succeeds. *)
Definition accepting_client : ZLibrary.ZlibraryClient bool := {|
  ZLibrary.Zlibrary_new := false;
  ZLibrary.isLoggedIn := fun c => c;
  ZLibrary.login := fun _ _ _ => (Returned (PDict [(lit "success", PInt 1)]), true);
  ZLibrary.client_search := fun _ _ c => (Returned (PDict []), c);
  ZLibrary.getBookInfo := fun _ _ c => (Returned (PDict [(lit "success", PInt 1)]), c);
  ZLibrary.downloadBook := fun _ _ c => (Returned (Some (lit "book.epub", [80; 75]%N)), c)
|}.

(** An [annas_py] that knows the given links for every identifier. *)
Definition annas (links : list AnnasArchive.URL) : AnnasArchive.AnnasPy unit := {|
  AnnasArchive.get_information :=
    fun _ w => (Returned {| AnnasArchive.urls := links |}, w)
|}.

(** A handle of [p] with every optional field empty. *)
Definition handle (p : Platform) : DownloadInfo := {|
  platform := p;
  download_url := None;
  book_id := None;
  hash_id := None;
  file_name := None;
  requires_auth := false;
  additional_params := None
|}.

(** The configuration of [test_library.py]: three platforms enabled, at most
    three results, a timeout of 15 seconds. *)
Definition test_config : LibraryConfig := {|
  calibre_web_url := None;
  enable_calibre := false;
  zlib_email := None;
  zlib_password := None;
  enable_zlib := false;
  enable_archive := true;
  enable_liber3 := true;
  enable_annas := true;
  max_results := 3;
  proxy := None;
  timeout := 15;
  user_agent := lit "Mozilla/5.0 (Windows NT 10.0; Win64; x64) AppleWebKit/537.36"
|}.

(** An adapter whose [search] always raises. *)
Definition failing_search : nat -> Platform -> str -> Z -> result (list SearchResult) :=
  fun _ p _ _ =>
    Raise (SearchError (lit "search failed") (Some (Platform_value p))).

End Sample.

(* ================================================================== *)
(** * More of Python's strings *)
(* ================================================================== *)

Module PyText.

(** Functions of the interpreter and of libraries outside this repository
    that the code below calls; the development holds for every behaviour of
    them.
    - [unicode_isdigit]: the code points outside ASCII that [str.isdigit]
      accepts;
    - [str_lower]: [str.lower];
    - [quote_plus]: [urllib.parse.quote_plus], which raises a
      [UnicodeEncodeError] on a text it cannot encode, one with a lone
      surrogate;
    - [get_text]: [BeautifulSoup(html, "html.parser").get_text()]. *)
Class Functions : Type := {
  unicode_isdigit : N -> bool;
  str_lower : str -> str;
  quote_plus : str -> outside str;
  get_text : str -> outside str
}.

(** [s.endswith(suffix)] *)
Definition endswith (suffix s : str) : bool :=
  startswith (rev suffix) (rev s).

(** The longest beginning of [s] whose characters satisfy [p], and the rest. *)
Fixpoint span (p : N -> bool) (s : str) : str * str :=
  match s with
  | c :: r => if p c then let (a, b) := span p r in (c :: a, b) else ([], s)
  | [] => ([], [])
  end.

(** [s] without the beginning [prefix], when it begins with it. *)
Fixpoint strip_prefix (prefix s : str) : option str :=
  match prefix, s with
  | [], _ => Some s
  | x :: p', y :: s' => if N.eqb x y then strip_prefix p' s' else None
  | _ :: _, [] => None
  end.

Section Methods.

Context {fn : Functions}.

(** [str.isdigit] on one code point: within ASCII the digits [0] to [9]. *)
Definition isdigit_char (c : N) : bool :=
  if (c <? 128)%N then (48 <=? c)%N && (c <=? 57)%N else unicode_isdigit c.

(** [s.isdigit()]: at least one character, and digits only. *)
Definition isdigit (s : str) : bool := truthy s && forallb isdigit_char s.

End Methods.

End PyText.

(* ================================================================== *)
(** * More of the HTTP session *)
(* ================================================================== *)

Module Http.

(** What aiohttp decides beyond [Eff.Transport]:
    - [text]: what [await response.text()] produces;
    - [with_params]: the URL that [session.get(url, params=params)]
      requests. *)
Class Session : Type := {
  text : Eff.Response -> outside str;
  with_params : str -> list (str * pyval) -> str
}.

End Http.

(* ================================================================== *)
(** * platforms/zlibrary.py: the records of the client *)
(* ================================================================== *)

Module ZLibraryRecords.

(** [v == text] for a string literal [text] *)
Definition is_str (text : str) (v : pyval) : bool :=
  match v with PStr s => PyStr.eqb s text | _ => false end.

(** [ZLibraryPlatform._clean_description] *)
Definition _clean_description (description : pyval) : option str :=
  if negb (truth description) || is_str (lit "None") description then None
  else
    match description with
    | PStr s =>
        let s := strip s in
        Some (if Nat.ltb 300 (length s) then firstn 300 s ++ lit "..." else s)
    | _ => None
    end.

(** [ZLibraryPlatform._is_valid_book_id]; the value is a condition. *)
Definition _is_valid_book_id {fn : PyText.Functions} (book_id : str) : bool :=
  truthy book_id && PyText.isdigit book_id.

(** An [Optional[str]] as a value. *)
Definition of_option (o : option str) : pyval :=
  match o with Some s => PStr s | None => PNone end.

Section Records.

Context {rt : PyRuntime}.

(** The [BookInfo(...)] of lines 73-83 and 188-199, on the items of the dict
    [book]; [get_book_info] also reads the ISBN. *)
Definition book_record (with_isbn : bool) (book : list (str * pyval)) : BookInfo :=
  {| title := get_or (lit "title") (PStr (lit "Unknown")) book;
     authors := get_or (lit "author") (PStr (lit "Unknown")) book;
     year := PStr (Liber3.py_str (get_or (lit "year") (PStr (lit "Unknown")) book));
     publisher := if negb (is_str (lit "None") (get (lit "publisher") book))
                  then get (lit "publisher") book
                  else PStr (lit "Unknown");
     language := get_or (lit "language") (PStr (lit "Unknown")) book;
     description := of_option (_clean_description (get (lit "description") book));
     cover_url := get (lit "cover") book;
     bi_file_size := get (lit "filesize") book;
     file_type := get (lit "extension") book;
     isbn := if with_isbn then get (lit "isbn") book else PNone |}.

(** The [AttributeError] of [v.get] on a value that is no dict. *)
Definition no_get {A : Type} (v : pyval) : outside A :=
  Failed (lit "AttributeError") (builtin_text (lit "get") v).

(** Lines 183-199 of [get_book_info]: [None] when the details are a false
    value or report no success, the [BookInfo] of their [book] otherwise. *)
Definition details_to_info (book_details : pyval) : outside (option BookInfo) :=
  if negb (truth book_details) then Returned None
  else
    match book_details with
    | PDict details =>
        if negb (truth (get (lit "success") details)) then Returned None
        else
          match get_or (lit "book") (PDict []) details with
          | PDict book => Returned (Some (book_record true book))
          | other => no_get other
          end
    | _ => no_get book_details
    end.

End Records.

End ZLibraryRecords.

(* ================================================================== *)
(** * platforms/liber3.py: the details of one book *)
(* ================================================================== *)

Module Liber3Info.

Import Eff Liber3.

Section Adapter.

Context {rt : PyRuntime} {W : Type} {tr : Transport W}.

Local Open Scope eff_scope.

(** [v.get(k, default)] as a call: the [AttributeError] on a value that is no
    dict. *)
Definition dict_get (k : str) (default : pyval) (v : pyval) : M (W:=W) (X:=unit) pyval :=
  or_raise (lit "AttributeError") (lit "get") v (py_get k default v).

(** The [BookInfo(...)] of lines 215-223. *)
Definition book_record (book_info : pyval) : M (W:=W) (X:=unit) BookInfo :=
  t <- dict_get (lit "title") (PStr (lit "Unknown")) book_info ;;
  a <- dict_get (lit "author") (PStr (lit "Unknown")) book_info ;;
  y <- dict_get (lit "year") (PStr (lit "Unknown")) book_info ;;
  p <- dict_get (lit "publisher") (PStr (lit "Unknown")) book_info ;;
  l <- dict_get (lit "language") (PStr (lit "Unknown")) book_info ;;
  z <- dict_get (lit "filesize") (PStr (lit "Unknown")) book_info ;;
  x <- dict_get (lit "extension") (PStr (lit "Unknown")) book_info ;;
  ret {| title := t; authors := a; year := PStr (py_str y); publisher := p;
         language := l; description := PNone; cover_url := PNone;
         bi_file_size := z; file_type := x; isbn := PNone |}.

(** [Liber3Platform.get_book_info] *)
Definition get_book_info (info : DownloadInfo) : M (W:=W) (X:=unit) (option BookInfo) :=
  try_except
    (if negb (otruthy (book_id info)) then ret None
     else
       let id := match book_id info with Some i => i | None => [] end in
       _get_session ;;;
       book_details <- _get_book_details [id] ;;
       absent <- (if negb (truth book_details) then ret true
                  else
                    held <- or_raise (lit "TypeError") (lit "in") book_details
                              (py_in id book_details) ;;
                    ret (negb held)) ;;
       if (absent : bool) then ret None
       else
         entry <- or_raise (lit "TypeError") (lit "getitem") book_details
                    (py_item id book_details) ;;
         book_info <- dict_get (lit "book") (PDict []) entry ;;
         b <- book_record book_info ;;
         ret (Some b))
    (fun _ => ret None).

End Adapter.

End Liber3Info.

(* ================================================================== *)
(** * platforms/calibre_web.py: the search *)
(* ================================================================== *)

Module CalibreSearch.

Import Eff CalibreWeb PyText.

(** Where [$] matches without [re.MULTILINE]: at the end of the string and
    just before a newline that ends it. *)
Definition at_end (s : str) : bool :=
  match s with
  | [] => true
  | [c] => N.eqb c 10
  | _ => false
  end.

Section Search.

Context {rt : PyRuntime}.

(** The two groups of a match of [/opds/download/(\d+)/([^/]+)/?$] that
    begins where [s] begins.  Both repetitions are greedy: the digits run up
    to a slash, the second group up to the next slash or the end, and
    giving characters back cannot help either, since what follows each has
    to be a slash or the end. *)
Definition match_download_here (s : str) : option (str * str) :=
  match strip_prefix (lit "/opds/download/") s with
  | None => None
  | Some s1 =>
      let (book_id, s2) := span Regex.class_digit s1 in
      match book_id, s2 with
      | _ :: _, c :: s3 =>
          if negb (N.eqb c 47) then None
          else
            let (format_name, s4) := span (fun c => negb (N.eqb c 47)) s3 in
            match format_name, s4 with
            | _ :: _, [] => Some (book_id, format_name)
            | _ :: _, _ :: s5 => if at_end s5 then Some (book_id, format_name) else None
            | [], _ => None
            end
      | _, _ => None
      end
  end.

(** [re.search(r'/opds/download/(\d+)/([^/]+)/?$', url).groups()]: the match
    that begins first; [None] without a match. *)
Fixpoint search_download (url : str) : option (str * str) :=
  match match_download_here url with
  | Some groups => Some groups
  | None =>
      match url with
      | [] => None
      | _ :: rest => search_download rest
      end
  end.

Context {fn : PyText.Functions}.

(** [CalibreWebPlatform._extract_filename_from_url] *)
Definition _extract_filename_from_url (url : option str) : option str :=
  if negb (otruthy url) then None
  else
    match search_download (match url with Some u => u | None => [] end) with
    | Some (book_id, format_name) =>
        Some (lit "book_" ++ book_id ++ lit "." ++ PyText.str_lower format_name)
    | None => None
    end.

(** Lines 56-78: the [SearchResult] built from one dict of the parsed feed. *)
Definition search_result (result : opds_result) : SearchResult :=
  {| book_info :=
       {| title := ZLibraryRecords.of_option (r_title result);
          authors := PStr (r_authors result);
          year := PStr (Liber3.py_str (r_year result));
          publisher := ZLibraryRecords.of_option (r_publisher result);
          language := ZLibraryRecords.of_option (r_language result);
          description := ZLibraryRecords.of_option (r_summary result);
          cover_url := PStr (r_cover_link result);
          bi_file_size := PStr (r_file_size result);
          file_type := PStr (r_file_type result);
          isbn := PNone |};
     download_info :=
       {| platform := CALIBRE_WEB;
          download_url := Some (r_download_link result);
          book_id := None;
          hash_id := None;
          file_name := _extract_filename_from_url (Some (r_download_link result));
          requires_auth := false;
          additional_params := None |};
     sr_platform := CALIBRE_WEB;
     relevance_score := None |}.

Context {W : Type} {tr : Transport W} {ht : Http.Session}.

Local Open Scope eff_scope.

(** [f"{self.base_url}/opds/search/{quote_plus(query)}"], line 37. *)
Definition search_url (self : CalibreWebPlatform) (query : str) : outside str :=
  match PyText.quote_plus query with
  | Returned quoted => Returned (base_url self ++ lit "/opds/search/" ++ quoted)
  | Failed cls text => Failed cls text
  end.

(** The [try] block of [CalibreWebPlatform.search], lines 37-83: the URL is
    built first, then the session is opened. *)
Definition search_body (self : CalibreWebPlatform) (query : str) (limit : Z)
  : M (W:=W) (X:=unit) (list SearchResult) :=
  url <- of_outside (search_url self query) ;;
  _get_session ;;;
  response <- session_get url ;;
  if negb (status response =? 200)%Z then
    raise (SearchError (lit "Calibre-Web search returned status "
                        ++ of_Z (status response)) None)
  else if negb (contains (lit "application/atom+xml") (content_type response)) then
    raise (SearchError (lit "Unexpected content type from Calibre-Web: "
                        ++ content_type response) None)
  else
    xml_data <- of_outside (Http.text response) ;;
    results <- of_result (_parse_opds_response self xml_data (Some limit)) ;;
    ret (map search_result results).

(** [CalibreWebPlatform.search] *)
Definition search (self : CalibreWebPlatform) (query : str) (limit : Z)
  : M (W:=W) (X:=unit) (list SearchResult) :=
  try_except (search_body self query limit)
    (fun e => raise (SearchError (lit "Calibre-Web search failed: " ++ exn_str e)
                                 (Some (lit "calibre_web")))).

End Search.

End CalibreSearch.

(* ================================================================== *)
(** * platforms/archive_org.py: the search *)
(* ================================================================== *)

Module ArchiveSearch.

Import Eff PyText.

Definition base_search_url : str := lit "https://archive.org/advancedsearch.php".

Definition base_metadata_url : str := lit "https://archive.org/metadata/".

Definition supported_formats : list str := [lit "pdf"; lit "epub"].

(** A match of [<[^>]+>] whose [<] stands just before [rest]: the greedy
    repetition runs up to the next [>], which has to be there, and has to
    take one character at least. *)
Definition tag_here (rest : str) : bool :=
  let (inner, after) := span (fun c => negb (N.eqb c 62)) rest in
  truthy inner && truthy after.

(** [ArchiveOrgPlatform._is_html]: [re.search(r'<[^>]+>', content)] finds a
    match. *)
Fixpoint _is_html (content : str) : bool :=
  match content with
  | [] => false
  | c :: rest => N.eqb c 60 && tag_here rest || _is_html rest
  end.

(** The dict [_fetch_metadata] returns. *)
Record Metadata : Type := {
  m_cover : str;
  m_authors : pyval;
  m_year : pyval;
  m_publisher : pyval;
  m_language : pyval;
  m_description : pyval;
  m_download_url : str;
  m_file_name : str
}.

(** In the three definitions below and in [metadata_of], [None] stands for
    an exception, whichever it is: [_fetch_metadata] turns every one into
    the result [None]. *)

(** [len(v)] *)
Definition py_len (v : pyval) : option nat :=
  match v with
  | PStr s => Some (length s)
  | PList l => Some (length l)
  | PDict items => Some (length items)
  | _ => None
  end.

(** [v[:4]] *)
Definition py_first4 (v : pyval) : option pyval :=
  match v with
  | PStr s => Some (PStr (firstn 4 s))
  | PList l => Some (PList (firstn 4 l))
  | _ => None
  end.

(** The values [for x in v] runs through: the elements of a list, the
    characters of a string, the keys of a dict. *)
Definition py_iter (v : pyval) : option (list pyval) :=
  match v with
  | PList l => Some l
  | PStr s => Some (map (fun c => PStr [c]) s)
  | PDict items => Some (map (fun kv => PStr (fst kv)) items)
  | _ => None
  end.

(** Lines 130-134: the year of the publication date. *)
Definition year_of (pub_date : pyval) : option pyval :=
  if truth pub_date then
    match py_len pub_date with
    | Some n =>
        if Nat.leb 4 n then py_first4 pub_date else Some (PStr (lit "Unknown"))
    | None => None
    end
  else Some (PStr (lit "Unknown")).

Section Adapter.

Context {rt : PyRuntime} {fn : Functions}.

(** [ArchiveOrgPlatform._parse_html_to_text] *)
Definition _parse_html_to_text (html_content : str) : str :=
  match get_text html_content with
  | Returned t => strip t
  | Failed _ _ => html_content
  end.

(** Lines 136-142: a description that is a string is cleaned of its markup
    and cut after 300 characters. *)
Definition clean_description (description : pyval) : pyval :=
  let description :=
    match description with
    | PStr d => if _is_html d then PStr (_parse_html_to_text d) else description
    | _ => description
    end in
  match description with
  | PStr d =>
      if Nat.ltb 300 (length d) then PStr (firstn 300 d ++ lit "...")
      else description
  | _ => description
  end.

(** [f"https://archive.org/download/{identifier}/{file_name_candidate}"] *)
Definition download_url_of (identifier : pyval) (file_name_candidate : str) : str :=
  lit "https://archive.org/download/" ++ Liber3.py_str identifier
  ++ lit "/" ++ file_name_candidate.

(** Lines 148-153: the first file whose name, in lower case, ends with a
    supported format, as the download URL and the name. *)
Fixpoint first_supported (identifier : pyval) (files : list pyval)
  : option (option (str * str)) :=
  match files with
  | [] => Some None
  | file :: rest =>
      match Liber3.py_get (lit "name") (PStr []) file with
      | Some (PStr file_name_candidate) =>
          if existsb (fun fmt => endswith fmt (str_lower file_name_candidate))
                     supported_formats
          then Some (Some (download_url_of identifier file_name_candidate,
                           file_name_candidate))
          else first_supported identifier rest
      | _ => None
      end
  end.

(** Lines 115-167 of [_fetch_metadata], on the JSON document of the
    response. *)
Definition metadata_of (book_detail : pyval) : option (option Metadata) :=
  match Liber3.py_get (lit "metadata") (PDict []) book_detail with
  | Some (PDict metadata) =>
      let identifier := get (lit "identifier") metadata in
      if negb (truth identifier) then Some None
      else
        match Liber3.py_get (lit "files") (PList []) book_detail with
        | Some files =>
            let description :=
              get_or (lit "description") (PStr (lit "No description")) metadata in
            let authors := get_or (lit "creator") (PStr (lit "Unknown")) metadata in
            let language := get_or (lit "language") (PStr (lit "Unknown")) metadata in
            let publisher := get_or (lit "publisher") (PStr (lit "Unknown")) metadata in
            match year_of (get (lit "publicdate") metadata) with
            | Some year =>
                let description := clean_description description in
                match py_iter files with
                | Some files =>
                    match first_supported identifier files with
                    | Some (Some (download_url, file_name)) =>
                        Some (Some {|
                          m_cover := lit "https://archive.org/services/img/"
                                     ++ Liber3.py_str identifier;
                          m_authors := authors;
                          m_year := year;
                          m_publisher := publisher;
                          m_language := language;
                          m_description := description;
                          m_download_url := download_url;
                          m_file_name := file_name |})
                    | Some None => Some None
                    | None => None
                    end
                | None => None
                end
            | None => None
            end
        | None => None
        end
  | _ => None
  end.

(** [ArchiveOrgPlatform._fetch_metadata], on what [session.get(url)]
    produced. *)
Definition _fetch_metadata (got : outside Response) : option Metadata :=
  match got with
  | Returned response =>
      if negb (status response =? 200)%Z then None
      else
        match json response with
        | Returned book_detail =>
            match metadata_of book_detail with
            | Some found => found
            | None => None
            end
        | Failed _ _ => None
        end
  | Failed _ _ => None
  end.

(** Lines 73-94: the [SearchResult] built from a document of the search and
    the metadata fetched for it. *)
Definition search_result (doc : list (str * pyval)) (metadata : Metadata) : SearchResult :=
  {| book_info :=
       {| title := get_or (lit "title") (PStr (lit "Unknown")) doc;
          authors := m_authors metadata;
          year := m_year metadata;
          publisher := m_publisher metadata;
          language := m_language metadata;
          description := m_description metadata;
          cover_url := PStr (m_cover metadata);
          bi_file_size := PNone;
          file_type := PNone;
          isbn := PNone |};
     download_info :=
       {| platform := ARCHIVE_ORG;
          download_url := Some (m_download_url metadata);
          book_id := None;
          hash_id := None;
          file_name := Some (m_file_name metadata);
          requires_auth := false;
          additional_params := None |};
     sr_platform := ARCHIVE_ORG;
     relevance_score := None |}.

(** The loop of lines 64-98 over [zip(docs, metadata_results)], with the
    number of results appended so far. *)
Fixpoint collect (limit : Z) (appended : nat)
  (pairs : list (list (str * pyval) * option Metadata)) : list SearchResult :=
  match pairs with
  | [] => []
  | (_, None) :: rest => collect limit appended rest
  | (doc, Some metadata) :: rest =>
      search_result doc metadata
      :: (if (Z.of_nat (S appended) >=? limit)%Z then []
          else collect limit (S appended) rest)
  end.

(** The built-in exception of operation [op] on [v]. *)
Definition builtin (cls op : str) (v : pyval) : exn :=
  PyException cls (builtin_text op v).

(** [doc["identifier"]] of one element of [docs], with the element: the
    value has to be a string to be added to the URL of line 58. *)
Definition identified (doc : pyval) : result (list (str * pyval) * str) :=
  match doc with
  | PDict items =>
      match lookup (lit "identifier") items with
      | Some (PStr identifier) => Ok (items, identifier)
      | Some other => Raise (builtin (lit "TypeError") (lit "add") other)
      | None => Raise (builtin (lit "KeyError") (lit "getitem") doc)
      end
  | _ => Raise (builtin (lit "TypeError") (lit "getitem") doc)
  end.

(** The list comprehension of lines 56-59 up to the first element it fails
    on. *)
Fixpoint identified_all (docs : list pyval) : result (list (list (str * pyval) * str)) :=
  match docs with
  | [] => Ok []
  | doc :: rest =>
      match identified doc with
      | Raise e => Raise e
      | Ok d =>
          match identified_all rest with
          | Raise e => Raise e
          | Ok ds => Ok (d :: ds)
          end
      end
  end.

Context {ht : Http.Session}.

(** The parameters of lines 31-38; the double quote is code point 34. *)
Definition search_params (query : str) (limit : Z) : list (str * pyval) :=
  [(lit "q", PStr (lit "title:" ++ [34%N] ++ query ++ [34%N] ++ lit " mediatype:texts"));
   (lit "fl[]", PStr (lit "identifier,title"));
   (lit "sort[]", PStr (lit "downloads desc"));
   (lit "rows", PInt (limit + 10));
   (lit "page", PInt 1);
   (lit "output", PStr (lit "json"))].

(** The URL the search requests. *)
Definition search_request (query : str) (limit : Z) : str :=
  Http.with_params base_search_url (search_params query limit).

(** The URLs of the metadata tasks, in the order of the documents. *)
Definition metadata_requests (docs : list (list (str * pyval) * str)) : list str :=
  map (fun d => base_metadata_url ++ snd d) docs.

(** What the metadata tasks return, task [i] being the one of the document
    number [i]. *)
Fixpoint gather (fetched : nat -> str -> outside Response) (i : nat)
  (docs : list (list (str * pyval) * str))
  : list (list (str * pyval) * option Metadata) :=
  match docs with
  | [] => []
  | (doc, identifier) :: rest =>
      (doc, _fetch_metadata (fetched i (base_metadata_url ++ identifier)))
      :: gather fetched (S i) rest
  end.

(** The [try] block of [ArchiveOrgPlatform.search], lines 30-102, on what
    the requests produce: [answer] for the search request, and
    [fetched i url] for the request of metadata task [i], which leaves the
    schedule of the concurrent tasks open. *)
Definition search_body (query : str) (limit : Z) (answer : outside Response)
  (fetched : nat -> str -> outside Response) : result (list SearchResult) :=
  match answer with
  | Failed cls text => Raise (PyException cls text)
  | Returned response =>
      if negb (status response =? 200)%Z then
        Raise (SearchError (lit "Archive.org search returned status "
                            ++ of_Z (status response)) None)
      else
        match json response with
        | Failed cls text => Raise (PyException cls text)
        | Returned result_data =>
            match Liber3.py_get (lit "response") (PDict []) result_data with
            | None => Raise (builtin (lit "AttributeError") (lit "get") result_data)
            | Some r =>
                match Liber3.py_get (lit "docs") (PList []) r with
                | None => Raise (builtin (lit "AttributeError") (lit "get") r)
                | Some docs =>
                    if negb (truth docs) then Ok []
                    else
                      match py_iter docs with
                      | None => Raise (builtin (lit "TypeError") (lit "iter") docs)
                      | Some elements =>
                          match identified_all elements with
                          | Raise e => Raise e
                          | Ok ds => Ok (collect limit 0 (gather fetched 0 ds))
                          end
                      end
                end
            end
        end
  end.

(** [ArchiveOrgPlatform.search] *)
Definition search (query : str) (limit : Z) (answer : outside Response)
  (fetched : nat -> str -> outside Response) : result (list SearchResult) :=
  match search_body query limit answer fetched with
  | Ok results => Ok results
  | Raise e =>
      Raise (SearchError (lit "Archive.org search failed: " ++ exn_str e)
                         (Some (lit "archive_org")))
  end.

End Adapter.

End ArchiveSearch.

(* ================================================================== *)
(** * Results whose handle holds what the source sent *)
(* ================================================================== *)

Module Untyped.

(** The [DownloadInfo] of a result of Liber3 or Z-Library.  The dataclass
    does not check the annotations of its fields: [book_id] and [hash_id]
    hold the values the search read from the answer of the service, which
    are strings only if the service sent strings. *)
Record Handle : Type := {
  h_platform : Platform;
  h_book_id : pyval;
  h_hash_id : pyval;
  h_requires_auth : bool;
  h_additional_params : option (list (str * pyval))
}.

(** The [SearchResult] around it. *)
Record Result : Type := {
  u_book_info : BookInfo;
  u_download_info : Handle;
  u_platform : Platform
}.

(** A value as an [Optional[str]], if it is one. *)
Definition optional_str (v : pyval) : option (option str) :=
  match v with
  | PNone => Some None
  | PStr s => Some (Some s)
  | _ => None
  end.

(** The handle as a [DownloadInfo], when its fields have the types of their
    annotations. *)
Definition typed (h : Handle) : option DownloadInfo :=
  match optional_str (h_book_id h), optional_str (h_hash_id h) with
  | Some b, Some x =>
      Some {| platform := h_platform h; download_url := None; book_id := b;
              hash_id := x; file_name := None;
              requires_auth := h_requires_auth h;
              additional_params := h_additional_params h |}
  | _, _ => None
  end.

End Untyped.

(* ================================================================== *)
(** * platforms/liber3.py: the search *)
(* ================================================================== *)

Module Liber3Search.

Import Eff Liber3 Liber3Info.

Definition search_url : str := lit "https://lgate.glitternode.ru/v1/searchV2".

(** [{"address": "", "word": query}] *)
Definition search_payload (query : str) : pyval :=
  PDict [(lit "address", PStr []); (lit "word", PStr query)].

(** [d.get(key, default)] for a key that is a value: [None] stands for the
    [TypeError] of a key that cannot be hashed, a list or a dict.  The keys
    of a JSON document are strings, so a key that is no string is not
    found. *)
Definition get_by (key default : pyval) (items : list (str * pyval)) : option pyval :=
  match key with
  | PStr k => Some (get_or k default items)
  | PList _ | PDict _ => None
  | _ => Some default
  end.

Section Adapter.

Context {rt : PyRuntime} {W : Type} {tr : Transport W}.

Local Open Scope eff_scope.

Local Abbreviation ML := (M (W:=W) (X:=unit)).

(** [Liber3Platform._get_book_details] for identifiers of any type, as
    [search] passes them; [Liber3._get_book_details] is this call on
    strings. *)
Definition get_book_details (book_ids : list pyval) : ML pyval :=
  try_except
    (response <- session_post detail_url (PDict [(lit "book_ids", PList book_ids)]) ;;
     if negb (status response =? 200)%Z then ret PNone
     else
       data <- of_outside (json response) ;;
       d <- dict_get (lit "data") (PDict []) data ;;
       dict_get (lit "book") (PDict []) d)
    (fun _ => ret PNone).

(** [book_data[:limit]], as the list of what [for item in book_data] runs
    through. *)
Definition sliced (book_data : pyval) (limit : Z) : ML (list pyval) :=
  match book_data with
  | PList l => ret (slice_to limit l)
  | PStr s => ret (map (fun c => PStr [c]) (slice_to limit s))
  | _ => raise (PyException (lit "TypeError") (builtin_text (lit "getitem") book_data))
  end.

(** [[item.get("id") for item in book_data if item.get("id")]] *)
Fixpoint book_ids_of (book_data : list pyval) : ML (list pyval) :=
  match book_data with
  | [] => ret []
  | item :: rest =>
      condition <- dict_get (lit "id") PNone item ;;
      if truth condition then
        id <- dict_get (lit "id") PNone item ;;
        ids <- book_ids_of rest ;;
        ret (id :: ids)
      else book_ids_of rest
  end.

(** Line 63: the details of one book among those that were fetched. *)
Definition detail_of (detailed_books book_id : pyval) : ML pyval :=
  if truth detailed_books then
    match detailed_books with
    | PDict items =>
        entry <- or_raise (lit "TypeError") (lit "hash") book_id
                   (get_by book_id (PDict []) items) ;;
        dict_get (lit "book") (PDict []) entry
    | _ => raise (PyException (lit "AttributeError")
                              (builtin_text (lit "get") detailed_books))
    end
  else ret (PDict []).

(** Lines 62-91: the result built for one book. *)
Definition result_of (detailed_books book : pyval) : ML Untyped.Result :=
  book_id <- dict_get (lit "id") PNone book ;;
  detail <- detail_of detailed_books book_id ;;
  t <- dict_get (lit "title") (PStr (lit "Unknown")) book ;;
  a <- dict_get (lit "author") (PStr (lit "Unknown")) book ;;
  y <- dict_get (lit "year") (PStr (lit "Unknown")) detail ;;
  p <- dict_get (lit "publisher") (PStr (lit "Unknown")) detail ;;
  l <- dict_get (lit "language") (PStr (lit "Unknown")) detail ;;
  z <- dict_get (lit "filesize") (PStr (lit "Unknown")) detail ;;
  x <- dict_get (lit "extension") (PStr (lit "Unknown")) detail ;;
  ipfs_cid <- dict_get k_ipfs_cid PNone detail ;;
  extension <- dict_get k_extension PNone detail ;;
  t' <- dict_get k_title (PStr (lit "unknown_book")) book ;;
  title <- or_raise (lit "AttributeError") (lit "replace") t' (py_replace_spaces t') ;;
  ret {| Untyped.u_book_info :=
           {| title := t; authors := a; year := PStr (py_str y); publisher := p;
              language := l; description := PNone; cover_url := PNone;
              bi_file_size := z; file_type := x; isbn := PNone |};
         Untyped.u_download_info :=
           {| Untyped.h_platform := LIBER3;
              Untyped.h_book_id := book_id;
              Untyped.h_hash_id := PNone;
              Untyped.h_requires_auth := false;
              Untyped.h_additional_params :=
                Some [(k_ipfs_cid, ipfs_cid); (k_extension, extension);
                      (k_title, title)] |};
         Untyped.u_platform := LIBER3 |}.

(** The loop of lines 61-91. *)
Fixpoint results_of (detailed_books : pyval) (book_data : list pyval)
  : ML (list Untyped.Result) :=
  match book_data with
  | [] => ret []
  | book :: rest =>
      r <- result_of detailed_books book ;;
      rs <- results_of detailed_books rest ;;
      ret (r :: rs)
  end.

(** The [try] block of [Liber3Platform.search], lines 27-94. *)
Definition search_body (query : str) (limit : Z) : ML (list Untyped.Result) :=
  _get_session ;;;
  response <- session_post search_url (search_payload query) ;;
  if negb (status response =? 200)%Z then
    raise (SearchError (lit "Liber3 search returned status "
                        ++ of_Z (status response)) None)
  else
    data <- of_outside (json response) ;;
    d <- dict_get (lit "data") (PDict []) data ;;
    book_data <- dict_get (lit "book") (PList []) d ;;
    if negb (truth book_data) then ret []
    else
      book_data <- sliced book_data limit ;;
      book_ids <- book_ids_of book_data ;;
      match book_ids with
      | [] => ret []
      | _ :: _ =>
          detailed_books <- get_book_details book_ids ;;
          results_of detailed_books book_data
      end.

(** [Liber3Platform.search] *)
Definition search (query : str) (limit : Z) : ML (list Untyped.Result) :=
  try_except (search_body query limit)
    (fun e => raise (SearchError (lit "Liber3 search failed: " ++ exn_str e)
                                 (Some (lit "liber3")))).

End Adapter.

End Liber3Search.

(* ================================================================== *)
(** * core.py: downloads, book details and the queries on the platforms *)
(* ================================================================== *)

Module Library.

Import Eff.

(** [str(platform)], as an f-string formats a member of the enumeration. *)
Definition Platform_str (p : Platform) : str :=
  lit "Platform." ++
  match p with
  | CALIBRE_WEB => lit "CALIBRE_WEB"
  | ZLIBRARY => lit "ZLIBRARY"
  | ARCHIVE_ORG => lit "ARCHIVE_ORG"
  | LIBER3 => lit "LIBER3"
  | ANNAS_ARCHIVE => lit "ANNAS_ARCHIVE"
  end.

(** [EbooksLibrary.get_enabled_platforms] *)
Definition get_enabled_platforms (lib : Core.EbooksLibrary) : list Platform :=
  Core.platforms lib.

(** [EbooksLibrary.is_platform_enabled] *)
Definition is_platform_enabled (lib : Core.EbooksLibrary) (p : Platform) : bool :=
  Core.enabled lib p.

(** The two adapter objects [_setup_platforms] builds with arguments of the
    configuration (lines 59-63 and 66-71). *)
Definition calibre_web (lib : Core.EbooksLibrary) : CalibreWeb.CalibreWebPlatform :=
  CalibreWeb.new (match calibre_web_url (Core.config lib) with
                  | Some u => u
                  | None => []
                  end).

Definition zlibrary (lib : Core.EbooksLibrary) : ZLibrary.ZLibraryPlatform :=
  ZLibrary.new
    (match zlib_email (Core.config lib) with Some e => e | None => [] end)
    (match zlib_password (Core.config lib) with Some p => p | None => [] end).

Section Calls.

Context {rt : PyRuntime} {W : Type} {tr : Transport W}.
Context {an : AnnasArchive.AnnasPy W}.
Context {C : Type} {cl : ZLibrary.ZlibraryClient C}.

(** [AnnasArchivePlatform.get_book_info], which builds its answer from a
    record of [adapters.annas_py]. *)
Variable annas_get_book_info : DownloadInfo -> M (W:=W) (X:=unit) (option BookInfo).

Local Open Scope eff_scope.

(** The state of the library is the state of the world and the one attribute
    of an adapter that changes, the client of the Z-Library adapter.  A call
    of an adapter without such an attribute leaves the client alone. *)
Definition stateless {A : Type} (c : M (W:=W) (X:=unit) A) : M (W:=W) (X:=option C) A :=
  fun s =>
    let (r, s') := c {| world := world s; self := tt; log := log s |} in
    (r, {| world := world s'; self := self s; log := log s' |}).

(** [platform_obj.download(download_info, save_path, return_content)] for
    [platform_obj = self.platforms[platform]]. *)
Definition adapter_download (lib : Core.EbooksLibrary) (info : DownloadInfo)
  (save_path : option str) (return_content : bool)
  : M (W:=W) (X:=option C) DownloadResult :=
  match platform info with
  | CALIBRE_WEB =>
      stateless (CalibreWeb.download (calibre_web lib) info save_path return_content)
  | ZLIBRARY => ZLibrary.download (zlibrary lib) info save_path return_content
  | ARCHIVE_ORG => stateless (ArchiveOrg.download info save_path return_content)
  | LIBER3 => stateless (Liber3.download info save_path return_content)
  | ANNAS_ARCHIVE => stateless (AnnasArchive.download info save_path return_content)
  end.

(** The error of line 188. *)
Definition not_enabled (p : Platform) : exn :=
  DownloadError (lit "Platform " ++ Platform_str p ++ lit " is not enabled")
                (Some (Platform_value p)).

(** The error of line 198. *)
Definition download_failed (p : Platform) (e : exn) : exn :=
  DownloadError (lit "Download failed: " ++ exn_str e) (Some (Platform_value p)).

(** [EbooksLibrary.download] *)
Definition download (lib : Core.EbooksLibrary) (info : DownloadInfo)
  (save_path : option str) (return_content : bool)
  : M (W:=W) (X:=option C) DownloadResult :=
  let p := platform info in
  if negb (Core.enabled lib p) then raise (not_enabled p)
  else
    try_except (adapter_download lib info save_path return_content)
               (fun e => raise (download_failed p e)).

(** [platform_obj.get_book_info(download_info)]: the Calibre-Web and the
    Archive.org adapter inherit [BasePlatform.get_book_info], which returns
    [None]. *)
Definition adapter_get_book_info (lib : Core.EbooksLibrary) (info : DownloadInfo)
  : M (W:=W) (X:=option C) (option BookInfo) :=
  match platform info with
  | CALIBRE_WEB | ARCHIVE_ORG => ret None
  | ZLIBRARY =>
      ZLibrary.get_book_info ZLibraryRecords.details_to_info (zlibrary lib) info
  | LIBER3 => stateless (Liber3Info.get_book_info info)
  | ANNAS_ARCHIVE => stateless (annas_get_book_info info)
  end.

(** [EbooksLibrary.get_book_info] *)
Definition get_book_info (lib : Core.EbooksLibrary) (info : DownloadInfo)
  : M (W:=W) (X:=option C) (option BookInfo) :=
  if negb (Core.enabled lib (platform info)) then ret None
  else try_except (adapter_get_book_info lib info) (fun _ => ret None).

End Calls.

End Library.

(* ================================================================== *)
(** * cli.py: the handle of a download asked for on the command line *)
(* ================================================================== *)

Module Cli.

Import Eff.

(** [Platform(value)]: the member with that value; [None] stands for the
    [ValueError] of a value that no member has. *)
Definition Platform_of_value (value : str) : option Platform :=
  if PyStr.eqb value (lit "calibre_web") then Some CALIBRE_WEB
  else if PyStr.eqb value (lit "zlibrary") then Some ZLIBRARY
  else if PyStr.eqb value (lit "archive_org") then Some ARCHIVE_ORG
  else if PyStr.eqb value (lit "liber3") then Some LIBER3
  else if PyStr.eqb value (lit "annas_archive") then Some ANNAS_ARCHIVE
  else None.

Definition cannot_detect (what : str) : exn :=
  PyException (lit "ValueError") (lit "Cannot detect platform from " ++ what).

Section Handles.

Context {fn : PyText.Functions}.

(** [detect_platform] *)
Definition detect_platform (identifier : str) : result Platform :=
  if startswith (lit "http") identifier then
    if contains (lit "archive.org") identifier then Ok ARCHIVE_ORG
    else if contains (lit "opds/download") identifier then Ok CALIBRE_WEB
    else Raise (cannot_detect (lit "URL"))
  else if Nat.eqb (length identifier) 32 && startswith (lit "L") identifier then
    Ok LIBER3
  else if Nat.eqb (length identifier) 32 && startswith (lit "A") identifier then
    Ok ANNAS_ARCHIVE
  else if PyText.isdigit identifier then Ok ZLIBRARY
  else Raise (cannot_detect (lit "identifier")).

Context {rt : PyRuntime}.

(** Lines 84-102 of [download_book]: the platform that was named or is
    detected, and the handle built for it from the identifier. *)
Definition download_handle (identifier : str) (platform : option str)
  (hash_id : option str) : result DownloadInfo :=
  let platform_enum :=
    if otruthy platform then
      let value := match platform with Some v => v | None => [] end in
      match Platform_of_value value with
      | Some p => Ok p
      | None => Raise (PyException (lit "ValueError")
                                   (builtin_text (lit "Platform") (PStr value)))
      end
    else detect_platform identifier in
  match platform_enum with
  | Raise e => Raise e
  | Ok p =>
      Ok (if startswith (lit "http") identifier then
            {| platform := p; download_url := Some identifier; book_id := None;
               hash_id := None; file_name := None; requires_auth := false;
               additional_params := None |}
          else
            {| platform := p; download_url := None; book_id := Some identifier;
               hash_id := hash_id; file_name := None; requires_auth := false;
               additional_params := None |})
  end.

Context {W : Type} {tr : Transport W} {an : AnnasArchive.AnnasPy W}.
Context {C : Type} {cl : ZLibrary.ZlibraryClient C}.

(** Lines 84-104 of [download_book]: the handle, and the download of it into
    the directory [save_path] through the library. *)
Definition requested_download (lib : Core.EbooksLibrary) (identifier save_path : str)
  (platform : option str) (hash_id : option str)
  : M (W:=W) (X:=option C) DownloadResult :=
  match download_handle identifier platform hash_id with
  | Ok info => Library.download lib info (Some save_path) false
  | Raise e => raise e
  end.

End Handles.

End Cli.

(* ================================================================== *)
(** * A sample library *)
(* ================================================================== *)

(** A configuration with the five platforms enabled, and handles of its
    platforms, on which the general statements about the library are run
    with the collaborators of [Sample]. *)
Module SampleLibrary.

Import Eff.

Definition config : LibraryConfig := {|
  calibre_web_url := Some (lit "http://localhost:8083/");
  enable_calibre := true;
  zlib_email := Some (lit "reader@example.org");
  zlib_password := Some (lit "secret");
  enable_zlib := true;
  enable_archive := true;
  enable_liber3 := true;
  enable_annas := true;
  max_results := 20;
  proxy := None;
  timeout := 30;
  user_agent := lit "Mozilla/5.0 (Windows NT 10.0; Win64; x64) AppleWebKit/537.36"
|}.

Definition library : Core.EbooksLibrary := Core.new (Some config).

(** A handle of Archive.org with a download URL. *)
Definition archive_handle : DownloadInfo := {|
  platform := ARCHIVE_ORG;
  download_url := Some (lit "https://archive.org/download/emma/emma.pdf");
  book_id := None;
  hash_id := None;
  file_name := Some (lit "emma.pdf");
  requires_auth := false;
  additional_params := None
|}.

(** A handle of Z-Library with an identifier and a hash. *)
Definition zlibrary_handle : DownloadInfo := {|
  platform := ZLIBRARY;
  download_url := None;
  book_id := Some (lit "1269938");
  hash_id := Some (lit "a1b2c3");
  file_name := None;
  requires_auth := true;
  additional_params := None
|}.

(** A handle of Liber3 with an identifier only. *)
Definition liber3_handle : DownloadInfo := {|
  platform := LIBER3;
  download_url := None;
  book_id := Some (lit "d41d8cd98f00b204e9800998ecf8427e");
  hash_id := None;
  file_name := None;
  requires_auth := false;
  additional_params := None
|}.

(** An Anna's Archive adapter whose [get_book_info] finds nothing. *)
Definition annas_finds_nothing : DownloadInfo -> M (W:=unit) (X:=unit) (option BookInfo) :=
  fun _ => ret None.

End SampleLibrary.

(** Text functions that know ASCII only. *)
Module SampleText.

Definition ascii_lower (s : str) : str :=
  map (fun c => if (65 <=? c)%N && (c <=? 90)%N then (c + 32)%N else c) s.

(** Digits and lower case within ASCII; [quote_plus] writes a plus sign for
    a space and leaves the rest; [get_text] hands the markup back. *)
Definition ascii_only : PyText.Functions := {|
  PyText.unicode_isdigit := fun _ => false;
  PyText.str_lower := ascii_lower;
  PyText.quote_plus := fun text => Returned (replace_char 32 43 text);
  PyText.get_text := fun html => Returned html
|}.

End SampleText.

(** A Calibre-Web server that answers every request with the feed of
    [Sample]. *)
Module SampleCalibre.

Import Eff.

Definition feed_response (u : str) : Response := {|
  status := 200;
  content_type := lit "application/atom+xml; charset=utf-8";
  content_disposition := [];
  url := u;
  read := Returned (utf8 Sample.feed_xml);
  json := Failed (lit "ContentTypeError") (lit "unexpected mimetype")
|}.

Definition transport : Transport unit := {|
  get_session := fun w => w;
  http_get := fun u w => (Returned (feed_response u), w);
  http_post := fun u _ w => (Returned (feed_response u), w);
  path_cwd := fun w => (Returned (lit "/tmp"), w);
  path_join := fun d f => d ++ lit "/" ++ f;
  fs_mkdir := fun _ w => (Returned tt, w);
  fs_write := fun _ _ w => (Returned tt, w)
|}.

(** The body of every response read as text is the feed; parameters are
    left off the URL. *)
Definition session : Http.Session := {|
  Http.text := fun _ => Returned Sample.feed_xml;
  Http.with_params := fun u _ => u
|}.

Definition server : CalibreWeb.CalibreWebPlatform :=
  CalibreWeb.new (lit "http://localhost:8083/").

End SampleCalibre.

(** Answers of Archive.org: the metadata of one item with two files, and a
    search that finds two items. *)
Module SampleArchive.

Import Eff.

Definition book_detail : pyval :=
  PDict [(lit "metadata",
          PDict [(lit "identifier", PStr (lit "emma00aust"));
                 (lit "creator", PStr (lit "Austen, Jane"));
                 (lit "publicdate", PStr (lit "2008-06-13 21:11:38"));
                 (lit "description", PStr (lit "<p>A novel.</p>"))]);
         (lit "files",
          PList [PDict [(lit "name", PStr (lit "emma00aust_meta.xml"))];
                 PDict [(lit "name", PStr (lit "Emma.PDF"))];
                 PDict [(lit "name", PStr (lit "emma.epub"))]])].

Definition search_document : pyval :=
  PDict [(lit "response",
          PDict [(lit "docs",
                  PList [PDict [(lit "identifier", PStr (lit "emma00aust"));
                                (lit "title", PStr (lit "Emma"))];
                         PDict [(lit "identifier", PStr (lit "persuasion00aust"));
                                (lit "title", PStr (lit "Persuasion"))]])])].

(** Every metadata request is answered with the metadata above. *)
Definition fetched : nat -> str -> outside Response :=
  fun _ u => Returned (Sample.ok_response u book_detail).

Definition answer : outside Response :=
  Returned (Sample.ok_response ArchiveSearch.base_search_url search_document).

End SampleArchive.

(* ================================================================== *)
(** * platforms/zlibrary.py: the results of a search *)
(* ================================================================== *)

Module ZLibrarySearch.

Import Eff ZLibrary ZLibraryRecords.

Section Records.

Context {rt : PyRuntime}.

(** Lines 72-99: the result built for one book. *)
Definition search_result (book : pyval) : outside Untyped.Result :=
  match book with
  | PDict items =>
      Returned
        {| Untyped.u_book_info := book_record false items;
           Untyped.u_download_info :=
             {| Untyped.h_platform := ZLIBRARY;
                Untyped.h_book_id := PStr (Liber3.py_str (get (lit "id") items));
                Untyped.h_hash_id := get (lit "hash") items;
                Untyped.h_requires_auth := true;
                Untyped.h_additional_params := None |};
           Untyped.u_platform := ZLIBRARY |}
  | other => no_get other
  end.

(** The loop of lines 71-99. *)
Fixpoint search_results (books : list pyval) : outside (list Untyped.Result) :=
  match books with
  | [] => Returned []
  | book :: rest =>
      match search_result book with
      | Returned r =>
          match search_results rest with
          | Returned rs => Returned (r :: rs)
          | Failed cls text => Failed cls text
          end
      | Failed cls text => Failed cls text
      end
  end.

(** Lines 66-101 of [search]: the list built from what the client's search
    returned. *)
Definition normalize_results (results : pyval) : outside (list Untyped.Result) :=
  if negb (truth results) then Returned []
  else
    match results with
    | PDict items =>
        if negb (truth (get (lit "books") items)) then Returned []
        else
          let books := get_or (lit "books") (PList []) items in
          match ArchiveSearch.py_iter books with
          | Some books => search_results books
          | None => Failed (lit "TypeError") (builtin_text (lit "iter") books)
          end
    | other => no_get other
    end.

End Records.

Section Adapter.

Context {rt : PyRuntime} {W : Type} {C : Type} {cl : ZlibraryClient C}.

Local Open Scope eff_scope.

(** [ZLibraryPlatform.search] with the results it builds, whose handles hold
    the hash as the client sent it; [ZLibrary.search] is this call for a
    normaliser whose results are typed. *)
Definition search (p : ZLibraryPlatform) (query : str) (limit : Z)
  : M (W:=W) (X:=option C) (list Untyped.Result) :=
  try_except
    (_ensure_logged_in p ;;;
     results <- on_client (EvClientSearch query limit) (client_search query limit) ;;
     of_outside (normalize_results results))
    (fun e =>
       if is_AuthenticationError e then raise e
       else raise (SearchError (lit "Z-Library search failed: " ++ exn_str e)
                               (Some (lit "zlibrary")))).

End Adapter.

End ZLibrarySearch.

(** Answers of Liber3: a search that finds two books, the second without
    an identifier, and the details of the first. *)
Module SampleLiber3.

Import Eff.

Definition emma_id : str := lit "d41d8cd98f00b204e9800998ecf8427e".

Definition search_document : pyval :=
  PDict [(lit "data",
          PDict [(lit "book",
                  PList [PDict [(lit "id", PStr emma_id);
                                (lit "title", PStr (lit "Emma by Jane Austen"));
                                (lit "author", PStr (lit "Jane Austen"))];
                         PDict [(lit "title", PStr (lit "Persuasion"))]])])].

Definition detail_document : pyval :=
  Sample.detail_document emma_id
    (PDict [(lit "year", PInt 1815);
            (lit "extension", PStr (lit "epub"));
            (lit "ipfs_cid", PStr (lit "bafykbzacedemma"))]).

(** The search endpoint answers with the search document, every other
    endpoint with the details. *)
Definition transport : Transport unit := {|
  get_session := fun w => w;
  http_get := fun u w => (Returned (Sample.ok_response u PNone), w);
  http_post := fun u _ w =>
    (Returned (Sample.ok_response u
                 (if PyStr.eqb u Liber3Search.search_url then search_document
                  else detail_document)), w);
  path_cwd := fun w => (Returned (lit "/tmp"), w);
  path_join := fun d f => d ++ lit "/" ++ f;
  fs_mkdir := fun _ w => (Returned tt, w);
  fs_write := fun _ _ w => (Returned tt, w)
|}.

(** The same service when its detail endpoint is out of order: the search
    endpoint answers, every other request fails. *)
Definition transport_without_details : Transport unit := {|
  get_session := fun w => w;
  http_get := fun u w => (Returned (Sample.ok_response u PNone), w);
  http_post := fun u _ w =>
    (if PyStr.eqb u Liber3Search.search_url
     then Returned (Sample.ok_response u search_document)
     else Failed (lit "ClientConnectorError") (lit "Cannot connect to host"), w);
  path_cwd := fun w => (Returned (lit "/tmp"), w);
  path_join := fun d f => d ++ lit "/" ++ f;
  fs_mkdir := fun _ w => (Returned tt, w);
  fs_write := fun _ _ w => (Returned tt, w)
|}.

End SampleLiber3.

(** A Z-Library client that accepts the login and finds two books, the
    second without an identifier. *)
Module SampleZLibrary.

Definition found : pyval :=
  PDict [(lit "success", PInt 1);
         (lit "books",
          PList [PDict [(lit "id", PInt 5393918);
                        (lit "hash", PStr (lit "a1b2c3"));
                        (lit "title", PStr (lit "Emma"));
                        (lit "author", PStr (lit "Jane Austen"));
                        (lit "year", PInt 1815);
                        (lit "publisher", PStr (lit "None"));
                        (lit "description", PStr (lit "  A novel.  "))];
                 PDict [(lit "title", PStr (lit "Persuasion"))]])].

Definition searching_client : ZLibrary.ZlibraryClient bool := {|
  ZLibrary.Zlibrary_new := false;
  ZLibrary.isLoggedIn := fun c => c;
  ZLibrary.login := fun _ _ _ => (Returned (PDict [(lit "success", PInt 1)]), true);
  ZLibrary.client_search := fun _ _ c => (Returned found, c);
  ZLibrary.getBookInfo := fun _ _ c => (Returned (PDict [(lit "success", PInt 1)]), c);
  ZLibrary.downloadBook := fun _ _ c => (Returned (Some (lit "book.epub", [80; 75]%N)), c)
|}.

End SampleZLibrary.

(* ================================================================== *)
(** * platforms/calibre_web.py: the file name of a response *)
(* ================================================================== *)

Module CalibreHeaders.

Import Eff.

(** [[^;]] *)
Definition not_semicolon (c : N) : bool := negb (N.eqb c 59).

(** [[^;']] *)
Definition name_char (c : N) : bool := negb (N.eqb c 59) && negb (N.eqb c 39).

(** A greedy [[...]+]: the longest beginning of [s] made of characters of
    the class, if it has one character at least. *)
Definition run (class : N -> bool) (s : str) : option str :=
  match fst (PyText.span class s) with
  | [] => None
  | g => Some g
  end.

(** [re.match(r"filename\*=(?:UTF-8'')?([^;]+)", s)]: the first group.  The
    optional prefix is taken when the group can follow it, and left to the
    group otherwise. *)
Definition match_star_here (s : str) : option str :=
  match PyText.strip_prefix (lit "filename*=") s with
  | None => None
  | Some t =>
      match PyText.strip_prefix (lit "UTF-8''") t with
      | Some t' =>
          match run not_semicolon t' with
          | Some g => Some g
          | None => run not_semicolon t
          end
      | None => run not_semicolon t
      end
  end.

(** [re.match(r"filename=[QUOTES]?([^;']+)[QUOTES]?", s)], where [QUOTES]
    are the double and the single quote: the first group.  An opening quote
    is skipped when the group can follow it, and left to the group
    otherwise. *)
Definition match_plain_here (s : str) : option str :=
  match PyText.strip_prefix (lit "filename=") s with
  | None => None
  | Some t =>
      match t with
      | q :: t' =>
          if N.eqb q 34 || N.eqb q 39 then
            match run name_char t' with
            | Some g => Some g
            | None => run name_char t
            end
          else run name_char t
      | [] => None
      end
  end.

(** [re.search]: the match at the first position that has one. *)
Fixpoint search_from (match_here : str -> option str) (s : str) : option str :=
  match match_here s with
  | Some g => Some g
  | None =>
      match s with
      | [] => None
      | _ :: r => search_from match_here r
      end
  end.

(** [CalibreWebPlatform._extract_filename_from_response], with the two
    patterns worked out; [CalibreWeb._extract_filename_from_response] is
    this function for a [re.search] that is given by the runtime. *)
Definition _extract_filename_from_response {rt : PyRuntime} (response : Response)
  : option str :=
  let cd := content_disposition response in
  if negb (truthy cd) then None
  else
    match search_from match_star_here cd with
    | Some g => Some (unquote g)
    | None =>
        match search_from match_plain_here cd with
        | Some g => Some g
        | None => None
        end
    end.

End CalibreHeaders.

(* ================================================================== *)
(** * adapters/annas_py/extractors/generic.py *)
(* ================================================================== *)

Module Extractors.

(** [unicode_isdecimal]: the code points outside ASCII that [str.isdecimal]
    accepts; the development holds for every such set. *)
Class Unicode : Type := {
  unicode_isdecimal : N -> bool
}.

(** [s.split(sep)] for the separator [sep] of the two characters [a], [b]:
    the text is cut at every occurrence of [sep], found from left to
    right. *)
Fixpoint split2 (a b : N) (s : str) : list str :=
  match s with
  | [] => [[]]
  | c :: r =>
      match r with
      | d :: r' =>
          if N.eqb c a && N.eqb d b then [] :: split2 a b r'
          else
            match split2 a b r with
            | p :: ps => (c :: p) :: ps
            | [] => [[c]]
            end
      | [] => [[c]]
      end
  end.

(** [s.split(", ")] *)
Definition split_comma (s : str) : list str := split2 44 32 s.

(** [s.split()[0]]: the first run of characters that are no whitespace;
    [None] stands for the [IndexError] on a text of whitespace only. *)
Definition first_word (s : str) : option str :=
  match lstrip s with
  | [] => None
  | w => Some (fst (PyText.span (fun c => negb (isspace c)) w))
  end.

(** [s.lstrip(".")] *)
Fixpoint lstrip_dots (s : str) : str :=
  match s with
  | c :: r => if N.eqb c 46 then lstrip_dots r else s
  | [] => []
  end.

(** [info_list[0]] and [info_list[-1]] on an empty list. *)
Definition index_error {A : Type} : outside A :=
  Failed (lit "IndexError") (lit "list index out of range").

(** [info_list.pop(0)]: the first element and the list without it. *)
Definition pop0 (info_list : list str) : outside (str * list str) :=
  match info_list with
  | x :: rest => Returned (x, rest)
  | [] => Failed (lit "IndexError") (lit "pop from empty list")
  end.

(** ["[" in part and "]" in part] *)
Definition bracketed (part : str) : bool :=
  contains (lit "[") part && contains (lit "]") part.

(** The [while] loop of [extract_file_info]: the parts it moves to
    [language_parts], and what it leaves of [info_list]. *)
Fixpoint take_languages (info_list : list str) : outside (list str * list str) :=
  match info_list with
  | [] => index_error
  | part :: rest =>
      if bracketed part then
        match take_languages rest with
        | Returned (language_parts, info_list) =>
            Returned (part :: language_parts, info_list)
        | Failed cls text => Failed cls text
        end
      else Returned ([], info_list)
  end.

(** The arguments of [FileInfo(extension, size, language, library)]. *)
Record FileInfo : Type := {
  fi_extension : str;
  fi_size : str;
  fi_language : option str;
  fi_library : str
}.

(** [extract_file_info] *)
Definition extract_file_info (raw : str) : outside FileInfo :=
  let info_list := split_comma raw in
  match take_languages info_list with
  | Failed cls text => Failed cls text
  | Returned (language_parts, info_list) =>
      let language :=
        match language_parts with
        | [] => None
        | _ :: _ => Some (join (lit ", ") language_parts)
        end in
      match pop0 info_list with
      | Failed cls text => Failed cls text
      | Returned (part, info_list) =>
          let extension := lstrip_dots part in
          match pop0 info_list with
          | Failed cls text => Failed cls text
          | Returned (part, info_list) =>
              let library := ArchiveOrg.last_segment part in
              match pop0 info_list with
              | Failed cls text => Failed cls text
              | Returned (size, _) =>
                  Returned {| fi_extension := extension; fi_size := size;
                              fi_language := language; fi_library := library |}
              end
          end
      end
  end.

Section Dates.

Context {un : Unicode}.

(** [str.isdecimal] on one code point: within ASCII the digits [0] to [9]. *)
Definition isdecimal_char (c : N) : bool :=
  if (c <? 128)%N then (48 <=? c)%N && (c <=? 57)%N else unicode_isdecimal c.

(** [s.isdecimal()]: at least one character, and decimal digits only. *)
Definition isdecimal (s : str) : bool := truthy s && forallb isdecimal_char s.

(** [extract_publish_info]: the pair of the publisher and the date. *)
Definition extract_publish_info (raw : str) : outside (option str * option str) :=
  let raw := strip raw in
  if negb (truthy raw) then Returned (None, None)
  else
    let info := split_comma raw in
    match hd_error info with
    | None => index_error
    | Some first =>
        let publisher := if negb (isdecimal first) then Some first else None in
        match hd_error (rev info) with
        | None => index_error
        | Some final =>
            match first_word final with
            | None => index_error
            | Some word =>
                Returned (publisher, if isdecimal word then Some final else None)
            end
        end
    end.

End Dates.

End Extractors.

(** Decimal digits within ASCII only. *)
Module SampleExtractors.

Definition ascii_only : Extractors.Unicode := {|
  Extractors.unicode_isdecimal := fun _ => false
|}.

End SampleExtractors.

(** A response whose header names the file between double quotes:
    [attachment; filename="book.epub"]. *)
Module SampleHeaders.

Definition quoted_response : Eff.Response := {|
  Eff.status := 200;
  Eff.content_type := lit "application/epub+zip";
  Eff.content_disposition :=
    lit "attachment; filename=" ++ 34%N :: lit "book.epub" ++ [34%N];
  Eff.url := lit "http://books.example/opds/download/7/epub/";
  Eff.read := Returned [];
  Eff.json := Returned PNone
|}.

End SampleHeaders.

(** A standard library that refuses what it cannot handle: [urljoin] a base
    URL with an opening bracket and no closing one, as [urlsplit] does for
    a malformed IPv6 host, and [quote_plus] a text with a surrogate. *)
Module SampleStrict.

Definition runtime : PyRuntime := {|
  unicode_decimal := fun _ => false;
  unicode_alnum := fun _ => false;
  re_search_group1 := fun _ _ => None;
  urljoin := fun base suffix =>
    if contains (lit "[") base && negb (contains (lit "]") base)
    then Failed (lit "ValueError") (lit "Invalid IPv6 URL")
    else Returned (base ++ suffix);
  unquote := fun s => s;
  urlparse_path := fun s => s;
  fromisoformat_year := Sample.iso_date_year;
  ET_fromstring := Sample.parse_known_feeds;
  py_repr := fun _ => lit "[...]";
  builtin_text := fun op _ => op
|}.

Definition surrogate (c : N) : bool := ((55296 <=? c) && (c <=? 57343))%N.

Definition text : PyText.Functions := {|
  PyText.unicode_isdigit := fun _ => false;
  PyText.str_lower := SampleText.ascii_lower;
  PyText.quote_plus := fun t =>
    if existsb surrogate t
    then Failed (lit "UnicodeEncodeError") (lit "surrogates not allowed")
    else Returned (replace_char 32 43 t);
  PyText.get_text := fun html => Returned html
|}.

End SampleStrict.
(* ================================================================== *)
(** * Notions the properties are stated with *)
(* ================================================================== *)

Module Props.

Import Eff.

(** A string without a dot. *)
Definition no_dot (s : str) : bool := forallb (fun c => negb (N.eqb c 46)) s.

(** An optional field that holds a value. *)
Definition populated {A : Type} (o : option A) : bool :=
  match o with Some _ => true | None => false end.

(** The invariant of a download result: on success exactly one of the saved
    path and the in-memory content is populated, together with a file name;
    on failure the error message is populated. *)
Definition outcome_invariant (r : DownloadResult) : bool :=
  if success r then
    xorb (populated (file_path r)) (populated (content r))
    && populated (dr_file_name r)
  else populated (error_message r).

(** Every value the call [c] can return satisfies [P]. *)
Definition returns_only {W X A : Type} (P : A -> Prop) (c : M (W:=W) (X:=X) A) : Prop :=
  forall s a s', c s = (Ok a, s') -> P a.

(** [r] is returned by the [download] of one of the five adapters, in some
    world, from some state, for some handle and arguments. *)
Inductive returned_by_a_download (r : DownloadResult) : Prop :=
| by_calibre_web (rt : PyRuntime) (W : Type) (tr : Transport W)
    (self : CalibreWeb.CalibreWebPlatform) (info : DownloadInfo)
    (save_path : option str) (return_content : bool) (s s' : state W unit) :
    CalibreWeb.download self info save_path return_content s = (Ok r, s') ->
    returned_by_a_download r
| by_archive_org (rt : PyRuntime) (W : Type) (tr : Transport W)
    (info : DownloadInfo)
    (save_path : option str) (return_content : bool) (s s' : state W unit) :
    ArchiveOrg.download info save_path return_content s = (Ok r, s') ->
    returned_by_a_download r
| by_zlibrary (rt : PyRuntime) (W : Type) (tr : Transport W)
    (C : Type) (cl : ZLibrary.ZlibraryClient C)
    (p : ZLibrary.ZLibraryPlatform) (info : DownloadInfo)
    (save_path : option str) (return_content : bool) (s s' : state W (option C)) :
    ZLibrary.download p info save_path return_content s = (Ok r, s') ->
    returned_by_a_download r
| by_liber3 (rt : PyRuntime) (W : Type) (tr : Transport W)
    (info : DownloadInfo)
    (save_path : option str) (return_content : bool) (s s' : state W unit) :
    Liber3.download info save_path return_content s = (Ok r, s') ->
    returned_by_a_download r
| by_annas_archive (W : Type) (an : AnnasArchive.AnnasPy W)
    (info : DownloadInfo)
    (save_path : option str) (return_content : bool) (s s' : state W unit) :
    AnnasArchive.download info save_path return_content s = (Ok r, s') ->
    returned_by_a_download r.

(** The pattern of the spec's wire contract, [^/download/\d+/[\w]+/?$],
    between its anchors. *)
Definition spec_download_pattern : Regex.re :=
  Regex.Seq (Regex.Lit (lit "/download/"))
    (Regex.Seq (Regex.Plus Regex.Digit)
       (Regex.Seq (Regex.Chr 47)
          (Regex.Seq (Regex.Plus Regex.Word) (Regex.Opt (Regex.Chr 47))))).

(** Some part of [u] from a position to its end matches the spec's pattern:
    the most a URL can have in common with it. *)
Fixpoint some_tail_matches {rt : PyRuntime} (u : str) : bool :=
  Regex.match_anchored spec_download_pattern u ||
  match u with
  | [] => false
  | _ :: u' => some_tail_matches u'
  end.

(** A limit that cuts nothing off a list of [n] results. *)
Definition keeps_all (limit : option Z) (n : nat) : Prop :=
  match limit with
  | None => True
  | Some k => k = 0%Z \/ (Z.of_nat n <= k)%Z
  end.

(** Whatever the state, the call [c] only adds calls of kind [P] to the
    log, after those already there. *)
Definition adds_only {W X A : Type} (P : event -> bool) (c : M (W:=W) (X:=X) A) : Prop :=
  forall s, exists evs, log (snd (c s)) = log s ++ evs /\ forallb P evs = true.

(** Whatever the state, the call [c] adds the calls [pre] to the log and
    after them only calls of kind [P]. *)
Definition adds_after {W X A : Type} (pre : list event) (P : event -> bool)
  (c : M (W:=W) (X:=X) A) : Prop :=
  forall s, exists evs, log (snd (c s)) = log s ++ pre ++ evs /\ forallb P evs = true.

(** Whatever the state, the call [c] returns and adds exactly the calls
    [pre] to the log. *)
Definition adds_exactly {W X A : Type} (pre : list event)
  (c : M (W:=W) (X:=X) A) : Prop :=
  forall s, exists a s', c s = (Ok a, s') /\ log s' = log s ++ pre.

(** Every exception the call [c] can raise satisfies [Q]. *)
Definition raises_only {W X A : Type} (Q : exn -> Prop) (c : M (W:=W) (X:=X) A) : Prop :=
  forall s e s', c s = (Raise e, s') -> Q e.

(** Kinds of recorded calls. *)
Definition is_login (ev : event) : bool :=
  match ev with EvLogin _ _ => true | _ => false end.

Definition is_post (ev : event) : bool :=
  match ev with EvPost _ _ => true | _ => false end.

Definition no_login (ev : event) : bool := negb (is_login ev).

Definition no_post (ev : event) : bool := negb (is_post ev).

End Props.

(** What it means for a pattern to match a whole string, stated without the
    matcher. *)
Module RegexSem.

Import Regex.

Section Sem.

Context {rt : PyRuntime}.

Inductive matches : re -> str -> Prop :=
| m_eps : matches Eps []
| m_chr (c : N) : matches (Chr c) [c]
| m_digit (c : N) : class_digit c = true -> matches Digit [c]
| m_word (c : N) : class_word c = true -> matches Word [c]
| m_seq (a b : re) (s t : str) :
    matches a s -> matches b t -> matches (Seq a b) (s ++ t)
| m_alt_l (a b : re) (s : str) : matches a s -> matches (Alt a b) s
| m_alt_r (a b : re) (s : str) : matches b s -> matches (Alt a b) s
| m_star_nil (a : re) : matches (Star a) []
| m_star_cons (a : re) (s t : str) :
    matches a s -> matches (Star a) t -> matches (Star a) (s ++ t).

(** The strings the code's acquisition pattern accepts: [/opds/download/],
    one or more digits, [/], one or more word characters, [/], and possibly
    one final line break. *)
Definition acquisition_path (href : str) : Prop :=
  exists ds ws nl,
    href = lit "/opds/download/" ++ ds ++ [47%N] ++ ws ++ [47%N] ++ nl
    /\ ds <> [] /\ forallb class_digit ds = true
    /\ ws <> [] /\ forallb class_word ws = true
    /\ (nl = [] \/ nl = [10%N]).

End Sem.

End RegexSem.

(** States of the Z-Library adapter the properties speak of. *)
Module ZStates.

Import Eff ZLibrary.

Section States.

Context {W C : Type} {cl : ZlibraryClient C}.

(** The state after [k] recorded login attempts that left the client in
    state [c]. *)
Definition after_logins (p : ZLibraryPlatform) (s : state W (option C))
  (c : C) (k : nat) : state W (option C) :=
  {| world := world s; self := Some c;
     log := log s ++ repeat (EvLogin (email p) (password p)) k |}.

(** The client [_ensure_logged_in] works with: the one the adapter holds, or
    a fresh one. *)
Definition held_client (s : state W (option C)) : C :=
  match self s with Some c => c | None => Zlibrary_new end.

End States.

End ZStates.

(** What a Liber3 handle carries. *)
Module L3Handles.

(** [download_info.additional_params or {}] *)
Definition params (info : DownloadInfo) : list (str * pyval) :=
  match additional_params info with Some items => items | None => [] end.

(** The handle carries a content identifier and a file extension that count
    as present: both are true values. *)
Definition carries_cid_and_extension (info : DownloadInfo) : bool :=
  truth (get Liber3.k_ipfs_cid (params info))
  && truth (get Liber3.k_extension (params info)).

(** The handle carries a title. *)
Definition carries_title (info : DownloadInfo) : bool :=
  match lookup Liber3.k_title (params info) with Some _ => true | None => false end.

(** The batch-detail call for the single identifier [id], as recorded. *)
Definition refetch_of (id : str) : Eff.event :=
  Eff.EvPost Liber3.detail_url (Liber3.detail_payload [id]).

End L3Handles.

(** Errors of the Liber3 download the properties speak of. *)
Module L3Parts.

(** An exception other than the one of line 153. *)
Definition not_insufficient (e : exn) : Prop := e <> Liber3.insufficient.

End L3Parts.

(** Results and calls the properties of the library speak of. *)
Module Outcomes.

Import Eff Props.

(** A successful result that holds the bytes exactly when [return_content]
    was set and the path of a file exactly when it was not. *)
Definition delivered (return_content : bool) (r : DownloadResult) : Prop :=
  success r = true
  /\ populated (content r) = return_content
  /\ populated (file_path r) = negb return_content
  /\ populated (dr_file_name r) = true
  /\ populated (error_message r) = false.

(** A failure that says why. *)
Definition declined (r : DownloadResult) : Prop :=
  success r = false
  /\ populated (error_message r) = true
  /\ populated (content r) = false
  /\ populated (file_path r) = false.

(** A [DownloadError] of platform [p]. *)
Definition download_error_of (p : Platform) (e : exn) : Prop :=
  exists message, e = DownloadError message (Some (Platform_value p)).

(** A call that leaves the file system alone. *)
Definition no_file_system (ev : event) : bool :=
  match ev with
  | EvCwd | EvMkdir _ | EvWrite _ _ => false
  | _ => true
  end.

(** A call other than the creation of a directory and the writing of a
    file. *)
Definition no_write (ev : event) : bool :=
  match ev with
  | EvMkdir _ | EvWrite _ _ => false
  | _ => true
  end.

(** Every value the call [c] can return satisfies [Q] together with the
    calls [c] has added to the log by then. *)
Definition returns_having {W X A : Type} (Q : A -> list event -> Prop)
  (c : M (W:=W) (X:=X) A) : Prop :=
  forall s a s', c s = (Ok a, s') -> exists evs, log s' = log s ++ evs /\ Q a evs.

(** The result [r] reports the one file the calls [evs] have written: they
    end with the creation of a directory and the writing of [body] to the
    file [name] in it, nothing was written before, and [r] carries the path,
    the name and the size of that file.  A directory that was asked for is
    the one used. *)
Definition saved {W : Type} {tr : Transport W} (save_path : option str)
  (r : DownloadResult) (evs : list event) : Prop :=
  exists before dir name body,
    evs = before ++ [EvMkdir dir; EvWrite (path_join dir name) body]
    /\ forallb no_write before = true
    /\ file_path r = Some (path_join dir name)
    /\ dr_file_name r = Some name
    /\ file_size r = Some (Z.of_nat (length body))
    /\ content r = None
    /\ (forall d, save_path = Some d -> dir = d).

(** No call at all. *)
Definition no_call (ev : event) : bool := false.

(** Any call. *)
Definition any_call (ev : event) : bool := true.

(** The five members of [Platform], in the order [_setup_platforms] looks at
    them. *)
Definition all_platforms : list Platform :=
  [CALIBRE_WEB; ZLIBRARY; ARCHIVE_ORG; LIBER3; ANNAS_ARCHIVE].

End Outcomes.

(** Answers of Liber3's detail endpoint. *)
Module L3Answers.

(** The JSON document that holds, under [data], [book] and the identifier
    [id], an entry whose [book] is the dict of the items [book]. *)
Definition details_for (id : str) (book : list (str * pyval)) : pyval :=
  PDict [(lit "data",
          PDict [(lit "book", PDict [(id, PDict [(lit "book", PDict book)])])])].

(** The answer of the search endpoint that names the books [books]. *)
Definition found (books : list pyval) : pyval :=
  PDict [(lit "data", PDict [(lit "book", PList books)])].

(** An entry the search can read: a dict whose title, where it has one, is
    a string. *)
Definition readable (book : pyval) : Prop :=
  exists items t,
    book = PDict items
    /\ get_or (lit "title") (PStr (lit "unknown_book")) items = PStr t.

(** An entry with an identifier that is a true value. *)
Definition has_id (book : pyval) : bool :=
  match book with
  | PDict items => truth (get_or (lit "id") PNone items)
  | _ => false
  end.

End L3Answers.

(** What the properties say of a search result. *)
Module Found.

(** A result of platform [p]: the result and its handle both name it. *)
Definition tagged (p : Platform) (r : SearchResult) : Prop :=
  sr_platform r = p /\ platform (download_info r) = p.

(** The year of a result is text: ["Unknown"], or an integer in decimal. *)
Definition year_is_text (r : SearchResult) : Prop :=
  year (book_info r) = PStr (lit "Unknown")
  \/ exists y, year (book_info r) = PStr (of_Z y).

(** A [SearchError] of platform [p] whose message begins with [prefix]. *)
Definition search_error_of (p : Platform) (prefix : str) (e : exn) : Prop :=
  exists text, e = SearchError (prefix ++ text) (Some (Platform_value p)).

End Found.

(** Calls that leave the state alone. *)
Module Pure.

Import Eff.

(** The call [c] changes nothing, neither the world nor the log, and what
    it returns satisfies [P]. *)
Definition returning {W X A : Type} (P : A -> Prop) (c : M (W:=W) (X:=X) A) : Prop :=
  forall s, (exists e, c s = (Raise e, s)) \/ (exists a, c s = (Ok a, s) /\ P a).

End Pure.

(** What the properties say of a result of the Liber3 search. *)
Module L3Found.

Import Untyped.

(** A string without a space. *)
Definition no_space (t : str) : bool := forallb (fun c => negb (N.eqb c 32)) t.

(** The result and its handle name Liber3; the handle has no hash and asks
    for no authentication; the year is a string; and the three extra
    parameters are there: the content identifier and the extension as the
    details gave them, and a title without spaces. *)
Definition well_formed (r : Result) : Prop :=
  u_platform r = LIBER3
  /\ h_platform (u_download_info r) = LIBER3
  /\ h_hash_id (u_download_info r) = PNone
  /\ h_requires_auth (u_download_info r) = false
  /\ (exists y, year (u_book_info r) = PStr y)
  /\ exists ipfs_cid extension t,
       h_additional_params (u_download_info r)
       = Some [(Liber3.k_ipfs_cid, ipfs_cid); (Liber3.k_extension, extension);
               (Liber3.k_title, PStr t)]
       /\ no_space t = true.

(** A result built without the details of its book: the year and the file
    type are unknown, and the handle carries neither a content identifier
    nor an extension. *)
Definition without_details (r : Result) : Prop :=
  year (u_book_info r) = PStr (lit "Unknown")
  /\ file_type (u_book_info r) = PStr (lit "Unknown")
  /\ exists t,
       h_additional_params (u_download_info r)
       = Some [(Liber3.k_ipfs_cid, PNone); (Liber3.k_extension, PNone);
               (Liber3.k_title, PStr t)].

End L3Found.

(** What the properties say of a result of the Z-Library search. *)
Module ZFound.

Import Untyped.

(** The result and its handle name Z-Library; the handle asks for
    authentication, holds an identifier that is a string and no extra
    parameters; the year is a string; the publisher is not the string
    ["None"]; the description is [None] or a string of at most 303
    characters; and there is no ISBN. *)
Definition well_formed (r : Result) : Prop :=
  u_platform r = ZLIBRARY
  /\ h_platform (u_download_info r) = ZLIBRARY
  /\ h_requires_auth (u_download_info r) = true
  /\ h_additional_params (u_download_info r) = None
  /\ (exists id, h_book_id (u_download_info r) = PStr id)
  /\ (exists y, year (u_book_info r) = PStr y)
  /\ publisher (u_book_info r) <> PStr (lit "None")
  /\ (description (u_book_info r) = PNone
      \/ exists d, description (u_book_info r) = PStr d /\ length d <= 303)
  /\ isbn (u_book_info r) = PNone.

End ZFound.

(** Parts of a text cut at a separator. *)
Module Parts.

(** [part] is the text of [s] in front of the first [sep], the whole of [s]
    when [sep] does not occur: [s] begins with [part], what follows is
    nothing or begins with [sep], and [part] holds no [sep]. *)
Definition before_first (sep part s : str) : Prop :=
  contains sep part = false
  /\ exists rest, s = part ++ rest /\ (rest = [] \/ startswith sep rest = true).

(** [part] is the text of [s] behind the last [sep], the whole of [s] when
    [sep] does not occur. *)
Definition after_last (sep part s : str) : Prop :=
  contains sep part = false
  /\ exists front, s = front ++ part /\ (front = [] \/ PyText.endswith sep front = true).

(** [rest] is nothing, or begins with a character outside [class]: a run
    of characters of [class] in front of it cannot go on. *)
Definition stops (class : N -> bool) (rest : str) : Prop :=
  match rest with
  | [] => True
  | c :: _ => class c = false
  end.

End Parts.

(* ================================================================== *)
(** * Properties of the orchestrator *)
(* ================================================================== *)

Unset Implicit Arguments.

Section CoreFacts.

Import Core.

Variable adapter_search : nat -> Platform -> str -> Z -> result (list SearchResult).

Lemma lstrip_whitespace_only (q : str) :
  forallb isspace q = true -> lstrip q = [].
Proof.
  induction q as [|c q IH]; simpl; [reflexivity|].
  intros H. apply andb_prop in H as [Hc Hq].
  rewrite Hc. auto.
Qed.

Lemma strip_whitespace_only (q : str) :
  forallb isspace q = true -> strip q = [].
Proof.
  intros H. unfold strip. rewrite (lstrip_whitespace_only q H). reflexivity.
Qed.

Lemma strip_nil : strip [] = [].
Proof. reflexivity. Qed.

(** A query the first test of [search] lets through. *)
Lemma search_accepts (lib : EbooksLibrary) (q : str)
  (requested : option (list Platform)) (limit : option Z) :
  strip q <> [] ->
  search adapter_search lib q requested limit =
  match target_platforms lib requested with
  | [] => {| dispatched := []; outcome := Raise no_platforms |}
  | _ :: _ =>
      let tasks := create_tasks adapter_search 0 (target_platforms lib requested) q
                     (search_limit lib limit) in
      {| dispatched := map fst tasks;
         outcome := Ok (combine_results (map snd tasks)) |}
  end.
Proof.
  intros Hq. unfold search.
  destruct q as [|c q]; [exfalso; apply Hq; reflexivity|].
  destruct (strip (c :: q)) eqn:E; [contradiction|]. reflexivity.
Qed.

Lemma create_tasks_dispatch (targets : list Platform) (q : str) (lim : Z) (i : nat) :
  map fst (create_tasks adapter_search i targets q lim) =
  map (fun p => {| d_platform := p; d_query := q; d_limit := lim |}) targets.
Proof.
  revert i. induction targets as [|p ps IH]; intros i; simpl; [reflexivity|].
  now rewrite IH.
Qed.

Lemma all_failed_combine (targets : list Platform) (q : str) (lim : Z) (i : nat) :
  (forall j p, In p targets -> is_Ok (adapter_search j p q lim) = false) ->
  combine_results (map snd (create_tasks adapter_search i targets q lim)) = [].
Proof.
  revert i. induction targets as [|p ps IH]; intros i H; simpl; [reflexivity|].
  unfold _search_platform.
  pose proof (H i p (or_introl eq_refl)) as Hp.
  destruct (adapter_search i p q lim); [discriminate|].
  apply IH. intros j p' Hin. apply H. now right.
Qed.

End CoreFacts.

(** ** C2: a blank query is refused before anything is dispatched *)

(** C2.  For every library object (hence every configuration), every list of
    requested platforms, every limit and every behaviour of the adapters:
    when the query is the empty string or consists of whitespace only,
    [EbooksLibrary.search] raises [SearchError("Search query cannot be
    empty")], the spec's InvalidQuery, and has dispatched no adapter call. *)
Theorem search_blank_query_is_invalid
  (adapter_search : nat -> Platform -> str -> Z -> result (list SearchResult))
  (lib : Core.EbooksLibrary) (q : str)
  (requested : option (list Platform)) (limit : option Z) :
  forallb isspace q = true ->
  Core.search adapter_search lib q requested limit =
  {| Core.dispatched := []; Core.outcome := Raise Core.invalid_query |}.
Proof.
  intros H. unfold Core.search.
  rewrite (strip_whitespace_only q H). simpl.
  now rewrite orb_true_r.
Qed.

(** The two queries of the spec, on the default configuration. *)
Lemma search_blank_query_is_invalid_witness :
  Core.search Sample.failing_search (Core.new None) (lit "") None None =
  {| Core.dispatched := []; Core.outcome := Raise Core.invalid_query |}
  /\ Core.search Sample.failing_search (Core.new None) (lit "   ")
       (Some [LIBER3]) (Some 5%Z) =
     {| Core.dispatched := []; Core.outcome := Raise Core.invalid_query |}.
Proof.
  split; apply search_blank_query_is_invalid; reflexivity.
Defined.

(** ** C10: a limit of 0, or none, becomes the configured maximum *)

Lemma search_limit_default (lib : Core.EbooksLibrary) (limit : option Z) :
  limit = None \/ limit = Some 0%Z ->
  Core.search_limit lib limit = max_results (Core.config lib).
Proof. intros [-> | ->]; reflexivity. Qed.

(** C10.  When the caller omits [limit] or passes [limit = 0], the limit the
    orchestrator works with is [config.max_results]: every adapter call it
    dispatches carries that limit, the calls are one per target platform, in
    order, and the whole run is the run of [limit = config.max_results].  So
    0 is never handed to an adapter as "no results".  The default of
    [max_results] is 20. *)
Theorem search_limit_zero_or_missing_is_max_results
  (adapter_search : nat -> Platform -> str -> Z -> result (list SearchResult))
  (lib : Core.EbooksLibrary) (q : str)
  (requested : option (list Platform)) (limit : option Z) :
  limit = None \/ limit = Some 0%Z ->
  Core.search_limit lib limit = max_results (Core.config lib)
  /\ Forall (fun d => Core.d_limit d = max_results (Core.config lib))
            (Core.dispatched (Core.search adapter_search lib q requested limit))
  /\ (strip q <> [] ->
      Core.dispatched (Core.search adapter_search lib q requested limit) =
      map (fun p => {| Core.d_platform := p; Core.d_query := q;
                       Core.d_limit := max_results (Core.config lib) |})
          (Core.target_platforms lib requested))
  /\ Core.search adapter_search lib q requested limit =
     Core.search adapter_search lib q requested (Some (max_results (Core.config lib)))
  /\ max_results default_config = 20%Z.
Proof.
  intros Hl.
  pose proof (search_limit_default lib limit Hl) as Hlim.
  assert (Hsame : Core.search_limit lib (Some (max_results (Core.config lib)))
                  = max_results (Core.config lib)).
  { unfold Core.search_limit.
    destruct (Z.eqb_spec (max_results (Core.config lib)) 0); congruence. }
  assert (Hdisp : Core.dispatched (Core.search adapter_search lib q requested limit) = []
          \/ Core.dispatched (Core.search adapter_search lib q requested limit) =
             map (fun p => {| Core.d_platform := p; Core.d_query := q;
                              Core.d_limit := max_results (Core.config lib) |})
                 (Core.target_platforms lib requested)).
  { unfold Core.search.
    destruct (negb (truthy q) || negb (truthy (strip q))); [now left|].
    destruct (Core.target_platforms lib requested) as [|p ps] eqn:E; [now left|].
    right. cbn [Core.dispatched]. rewrite create_tasks_dispatch, Hlim. reflexivity. }
  repeat split.
  - exact Hlim.
  - destruct Hdisp as [-> | ->]; [constructor|].
    apply Forall_forall. intros d Hd. apply in_map_iff in Hd as [p [<- _]]. reflexivity.
  - intros Hq. rewrite (search_accepts adapter_search lib q requested limit Hq).
    destruct (Core.target_platforms lib requested) as [|p ps] eqn:E; [reflexivity|].
    cbn [Core.dispatched]. rewrite create_tasks_dispatch, Hlim. reflexivity.
  - unfold Core.search. rewrite Hlim, Hsame. reflexivity.
Qed.

(** [limit = 0] on the library of [test_library.py], configured with
    [max_results = 3]: the three enabled platforms are called with limit 3. *)
Lemma search_limit_zero_or_missing_is_max_results_witness :
  Core.dispatched
    (Core.search Sample.failing_search (Core.new (Some Sample.test_config))
       (lit "python") None (Some 0%Z)) =
  [ {| Core.d_platform := ARCHIVE_ORG; Core.d_query := lit "python"; Core.d_limit := 3 |};
    {| Core.d_platform := LIBER3; Core.d_query := lit "python"; Core.d_limit := 3 |};
    {| Core.d_platform := ANNAS_ARCHIVE; Core.d_query := lit "python";
       Core.d_limit := 3 |} ].
Proof.
  pose proof (search_limit_zero_or_missing_is_max_results Sample.failing_search
                (Core.new (Some Sample.test_config))
                (lit "python") None (Some 0%Z) (or_intror eq_refl)) as [_ [_ [H _]]].
  rewrite H; [reflexivity | vm_compute; discriminate].
Defined.

(** ** C1: every source failing is not a failure of the search *)

(** C1, as stated, fails on the code.  (1) The query of one space is not
    empty, the default library has two target platforms and every adapter
    call would raise, yet [search] raises instead of returning the empty
    list: the first test of [search] also refuses whitespace.  (2) With an
    empty list of requested platforms the intersection of the requested and
    the enabled platforms is empty, yet [search] raises nothing: [platforms
    or list(self.platforms.keys())] replaces the empty list by every enabled
    platform. *)
Lemma search_all_fail_counterexample :
  lit " " <> []
  /\ Core.target_platforms (Core.new None) None = [ARCHIVE_ORG; LIBER3]
  /\ Core.outcome (Core.search Sample.failing_search (Core.new None) (lit " ") None None)
     = Raise Core.invalid_query
  /\ filter (Core.enabled (Core.new None)) [] = []
  /\ Core.search Sample.failing_search (Core.new None) (lit "python") (Some []) None
     = {| Core.dispatched :=
            [ {| Core.d_platform := ARCHIVE_ORG; Core.d_query := lit "python";
                 Core.d_limit := 20 |};
              {| Core.d_platform := LIBER3; Core.d_query := lit "python";
                 Core.d_limit := 20 |} ];
          Core.outcome := Ok [] |}.
Proof.
  repeat split; try reflexivity. vm_compute. discriminate.
Qed.

(** C1, amended.  For every query that is neither empty nor whitespace only:
    [search] raises [SearchError("No platforms available for search")], the
    spec's NoSourcesAvailable, exactly when the list of target platforms is
    empty, where the target platforms are the requested ones (every enabled
    one when none or an empty list is requested) that are enabled; with a
    target it raises nothing and dispatches one call per target; and when
    every dispatched adapter call raises an exception, it returns the empty
    list. *)
Theorem search_all_fail_returns_empty
  (adapter_search : nat -> Platform -> str -> Z -> result (list SearchResult))
  (lib : Core.EbooksLibrary) (q : str)
  (requested : option (list Platform)) (limit : option Z) :
  strip q <> [] ->
  (Core.target_platforms lib requested = [] <->
   Core.outcome (Core.search adapter_search lib q requested limit) = Raise Core.no_platforms)
  /\ (Core.target_platforms lib requested <> [] ->
      exists rs,
        Core.outcome (Core.search adapter_search lib q requested limit) = Ok rs
        /\ length (Core.dispatched (Core.search adapter_search lib q requested limit))
           = length (Core.target_platforms lib requested))
  /\ (Core.target_platforms lib requested <> [] ->
      (forall i p, In p (Core.target_platforms lib requested) ->
                   is_Ok (adapter_search i p q (Core.search_limit lib limit)) = false) ->
      Core.outcome (Core.search adapter_search lib q requested limit) = Ok []).
Proof.
  intros Hq. rewrite (search_accepts adapter_search lib q requested limit Hq).
  destruct (Core.target_platforms lib requested) as [|p ps] eqn:E.
  - repeat split; try reflexivity; intros; congruence.
  - split; [split; intros H; discriminate|]. split.
    + intros _. eexists. split; [reflexivity|].
      cbn [Core.dispatched]. now rewrite create_tasks_dispatch, length_map.
    + intros _ Hall. cbn [Core.outcome]. f_equal.
      now apply all_failed_combine.
Qed.

(** The default library, a query of one word, and adapters that all raise. *)
Lemma search_all_fail_returns_empty_witness :
  Core.outcome (Core.search Sample.failing_search (Core.new None) (lit "python") None None)
  = Ok [].
Proof.
  assert (Hq : strip (lit "python") <> []) by (vm_compute; discriminate).
  assert (Ht : Core.target_platforms (Core.new None) None <> [])
    by (vm_compute; discriminate).
  exact (proj2 (proj2 (search_all_fail_returns_empty Sample.failing_search
                         (Core.new None) (lit "python") None None Hq))
               Ht (fun _ _ _ => eq_refl)).
Defined.

(* ================================================================== *)
(** * Properties of the shared helpers *)
(* ================================================================== *)

Section BaseFacts.

Import Base.

Lemma utf8_len_app (a b : str) : utf8_len (a ++ b) = (utf8_len a + utf8_len b)%Z.
Proof.
  unfold utf8_len, utf8. rewrite flat_map_app, length_app. lia.
Qed.

Lemma utf8_len_nonneg (a : str) : (0 <= utf8_len a)%Z.
Proof. unfold utf8_len. lia. Qed.

Lemma utf8_len_marker : utf8_len ellipsis_marker = 9%Z.
Proof. reflexivity. Qed.

(** When the loop of [_truncate_filename] stops, the base fits, provided
    there is room at all. *)
Lemma trim_loop_rev_fits (available : Z) (rb : str) :
  (0 <= available)%Z ->
  (utf8_len (rev (trim_loop_rev available rb)) <= available)%Z.
Proof.
  intros Ha. induction rb as [|c r IH].
  - simpl. exact Ha.
  - cbn [trim_loop_rev].
    destruct (Z.gtb_spec (utf8_len (rev (c :: r))) available) as [Hgt | Hle].
    + exact IH.
    + exact Hle.
Qed.

(** The loop only drops characters from the end. *)
Lemma trim_loop_rev_suffix (available : Z) (rb : str) :
  exists dropped, rb = dropped ++ trim_loop_rev available rb.
Proof.
  induction rb as [|c r [d IH]].
  - exists []. reflexivity.
  - cbn [trim_loop_rev].
    destruct (utf8_len (rev (c :: r)) >? available)%Z.
    + exists (c :: d). simpl. now rewrite <- IH.
    + exists []. reflexivity.
Qed.

Lemma trim_loop_prefix (available : Z) (base : str) :
  exists dropped, base = trim_loop available base ++ dropped.
Proof.
  unfold trim_loop.
  destruct (trim_loop_rev_suffix available (rev base)) as [d Hd].
  exists (rev d).
  rewrite <- rev_app_distr, <- Hd. now rewrite rev_involutive.
Qed.

Lemma truthy_snoc (s : str) (c : N) : truthy (s ++ [c]) = true.
Proof. now destruct s. Qed.

Lemma trim_while_rev (available : Z) (rb : str) :
  trim_while (length rb) available (rev rb) = rev (trim_loop_rev available rb).
Proof.
  induction rb as [|c r IH]; [reflexivity|].
  cbn [length trim_while trim_loop_rev].
  change (rev (c :: r)) with (rev r ++ [c]).
  rewrite truthy_snoc, andb_true_r.
  destruct (utf8_len (rev r ++ [c]) >? available)%Z; [|reflexivity].
  now rewrite removelast_last.
Qed.

(** The structural loop is the loop of the source, which ends within as many
    iterations as the base name has characters. *)
Lemma trim_loop_is_the_while_loop (available : Z) (base : str) :
  trim_loop available base = trim_while (length base) available base.
Proof.
  unfold trim_loop.
  rewrite <- (trim_while_rev available (rev base)).
  now rewrite length_rev, rev_involutive.
Qed.

Lemma trim_loop_fits (available : Z) (base : str) :
  (0 <= available)%Z -> (utf8_len (trim_loop available base) <= available)%Z.
Proof. intros H. unfold trim_loop. now apply trim_loop_rev_fits. Qed.

Lemma startswith_app (n b : str) : startswith n (n ++ b) = true.
Proof.
  induction n as [|c n IH]; simpl; [reflexivity|].
  now rewrite N.eqb_refl, IH.
Qed.

Lemma contains_here (n h : str) : startswith n h = true -> contains n h = true.
Proof. destruct h; cbn [contains]; intros ->; reflexivity. Qed.

Lemma contains_later (n h : str) (c : N) :
  contains n h = true -> contains n (c :: h) = true.
Proof. intros H. cbn [contains]. rewrite H. apply orb_true_r. Qed.

Lemma contains_middle (a n b : str) : contains n (a ++ n ++ b) = true.
Proof.
  induction a as [|c a IH].
  - change ([] ++ n ++ b) with (n ++ b). apply contains_here, startswith_app.
  - change ((c :: a) ++ n ++ b) with (c :: (a ++ n ++ b)). apply contains_later, IH.
Qed.

(** What [_truncate_filename] returns on a name that is too long. *)
Lemma truncate_long (filename : str) (max_length : Z) :
  forallb encodable filename = true ->
  (max_length < utf8_len filename)%Z ->
  _truncate_filename filename max_length =
  Some (trim_loop (max_length - utf8_len (snd (split_ext filename))
                   - utf8_len ellipsis_marker)
                  (fst (split_ext filename))
        ++ ellipsis_marker ++ snd (split_ext filename)).
Proof.
  intros He Hl. unfold _truncate_filename. rewrite He. cbn [negb].
  destruct (Z.leb_spec (utf8_len filename) max_length) as [H | H]; [lia|].
  destruct (split_ext filename) as [base ext]. reflexivity.
Qed.

End BaseFacts.

(** ** C3: the budget of a file name *)

Section SplitFacts.

Import Base Props.

Lemma rsplit_last_none (s : str) :
  no_dot s = true -> rsplit_last 46 s = None.
Proof.
  unfold no_dot. induction s as [|c s IH]; simpl; [reflexivity|].
  intros H. apply andb_prop in H as [Hc Hs].
  rewrite (IH Hs). now destruct (N.eqb c 46).
Qed.

Lemma rsplit_last_at (base e : str) :
  no_dot e = true -> rsplit_last 46 (base ++ 46%N :: e) = Some (base, e).
Proof.
  intros He. induction base as [|c base IH].
  - cbn [app rsplit_last]. now rewrite (rsplit_last_none e He).
  - cbn [app rsplit_last]. cbn [app] in IH. now rewrite IH.
Qed.

Lemma split_ext_at (base e : str) :
  no_dot e = true ->
  split_ext (base ++ 46%N :: e) = (base, if truthy e then 46%N :: e else []).
Proof.
  intros He. unfold split_ext. rewrite (rsplit_last_at base e He).
  now destruct e.
Qed.

Lemma split_ext_no_dot (s : str) :
  no_dot s = true -> split_ext s = (s, []).
Proof. intros H. unfold split_ext. now rewrite (rsplit_last_none s H). Qed.

End SplitFacts.

(** C3, as stated, fails on the code: the name [a.] followed by 120 letters
    [b] has a UTF-8 encoding of 122 bytes; its extension alone, 121 bytes
    with the dot, leaves a negative room for the base name, the loop empties
    the base name and stops there, and [_truncate_filename] returns the
    marker followed by the extension: 130 bytes, more than the budget of
    100. *)
Lemma truncate_filename_long_extension_counterexample :
  let filename := lit "a." ++ repeat 98%N 120 in
  forallb encodable filename = true
  /\ utf8_len filename = 122%Z
  /\ Base._truncate_filename filename Base.default_max_length =
       Some (Base.ellipsis_marker ++ lit "." ++ repeat 98%N 120)
  /\ utf8_len (Base.ellipsis_marker ++ lit "." ++ repeat 98%N 120) = 130%Z.
Proof.
  cbv zeta. repeat split; vm_compute; reflexivity.
Qed.

(** C3, amended.  For a file name that has a UTF-8 encoding: if the encoding
    is within the budget, [_truncate_filename] returns the name unchanged;
    if it exceeds the budget and the extension (the text after the last dot,
    with the dot, or nothing when the name has no dot or ends with one)
    together with the 9-byte marker fits into the budget, it returns a name
    whose encoding is within the budget, that consists of a prefix of the
    base name, the fixed marker and the original extension, in this order.
    The budget is 100 bytes by default. *)
Theorem truncate_filename_within_budget (filename : str) (max_length : Z) :
  forallb encodable filename = true ->
  (utf8_len filename <= max_length ->
   Base._truncate_filename filename max_length = Some filename)%Z
  /\ ((max_length < utf8_len filename)%Z ->
      (utf8_len (snd (Base.split_ext filename)) + 9 <= max_length)%Z ->
      exists kept dropped,
        Base._truncate_filename filename max_length =
          Some (kept ++ Base.ellipsis_marker ++ snd (Base.split_ext filename))
        /\ fst (Base.split_ext filename) = kept ++ dropped
        /\ (utf8_len (kept ++ Base.ellipsis_marker ++ snd (Base.split_ext filename))
            <= max_length)%Z
        /\ contains Base.ellipsis_marker
             (kept ++ Base.ellipsis_marker ++ snd (Base.split_ext filename)) = true)
  /\ (forall base e,
        filename = base ++ 46%N :: e -> Props.no_dot e = true ->
        Base.split_ext filename = (base, if truthy e then 46%N :: e else []))
  /\ (Props.no_dot filename = true -> Base.split_ext filename = (filename, []))
  /\ Base.default_max_length = 100%Z.
Proof.
  intros He. split; [|split; [|split; [|split]]].
  - intros Hl. unfold Base._truncate_filename. rewrite He. cbn [negb].
    destruct (Z.leb_spec (utf8_len filename) max_length) as [H | H];
      [reflexivity | lia].
  - intros Hl Hfit.
    rewrite (truncate_long filename max_length He Hl).
    set (available := (max_length - utf8_len (snd (Base.split_ext filename))
                       - utf8_len Base.ellipsis_marker)%Z) in *.
    destruct (trim_loop_prefix available (fst (Base.split_ext filename))) as [d Hd].
    exists (Base.trim_loop available (fst (Base.split_ext filename))), d.
    split; [reflexivity|]. split; [exact Hd|]. split.
    + rewrite !utf8_len_app.
      assert (0 <= available)%Z by (unfold available; rewrite utf8_len_marker; lia).
      pose proof (trim_loop_fits available (fst (Base.split_ext filename)) H).
      unfold available in *. lia.
    + apply contains_middle.
  - intros base e -> Hd. now apply split_ext_at.
  - apply split_ext_no_dot.
  - reflexivity.
Qed.

(** The two names of the spec: 120 bytes with the 4-byte extension [.pdf],
    cut to 100 bytes, and a name of 50 bytes, unchanged. *)
Lemma truncate_filename_within_budget_witness :
  (exists kept dropped,
     Base._truncate_filename (repeat 97%N 116 ++ lit ".pdf") 100 =
       Some (kept ++ Base.ellipsis_marker ++ lit ".pdf")
     /\ repeat 97%N 116 = kept ++ dropped
     /\ (utf8_len (kept ++ Base.ellipsis_marker ++ lit ".pdf") <= 100)%Z
     /\ contains Base.ellipsis_marker (kept ++ Base.ellipsis_marker ++ lit ".pdf") = true)
  /\ Base._truncate_filename (repeat 97%N 46 ++ lit ".pdf") 100 =
       Some (repeat 97%N 46 ++ lit ".pdf").
Proof.
  split.
  - exact (proj1 (proj2 (truncate_filename_within_budget
                           (repeat 97%N 116 ++ lit ".pdf") 100 eq_refl))
             ltac:(vm_compute; reflexivity) ltac:(vm_compute; discriminate)).
  - apply (proj1 (truncate_filename_within_budget
                    (repeat 97%N 46 ++ lit ".pdf") 100 eq_refl)).
    vm_compute. discriminate.
Defined.

(** The first name of the spec, evaluated: 87 letters of the base name are
    kept, and the result is 100 bytes long. *)
Example truncate_filename_spec_scenario :
  Base._truncate_filename (repeat 97%N 116 ++ lit ".pdf") 100 =
    Some (repeat 97%N 87 ++ Base.ellipsis_marker ++ lit ".pdf")
  /\ utf8_len (repeat 97%N 87 ++ Base.ellipsis_marker ++ lit ".pdf") = 100%Z.
Proof. split; vm_compute; reflexivity. Qed.

(* ================================================================== *)
(** * What a call can return *)
(* ================================================================== *)

Section Returns.

Import Eff Props.

Context {W X : Type}.

Local Open Scope eff_scope.

Lemma returns_only_ret {A : Type} (P : A -> Prop) (a : A) :
  P a -> returns_only (W:=W) (X:=X) P (ret a).
Proof. intros H s a' s' E. unfold ret in E. now inversion E; subst. Qed.

Lemma returns_only_raise {A : Type} (P : A -> Prop) (e : exn) :
  returns_only (W:=W) (X:=X) P (raise e).
Proof. intros s a s' E. discriminate. Qed.

Lemma returns_only_bind {A B : Type} (P : B -> Prop)
  (c : M (W:=W) (X:=X) A) (k : A -> M (W:=W) (X:=X) B) :
  (forall a, returns_only P (k a)) -> returns_only P (bind c k).
Proof.
  intros H s b s' E. unfold bind in E.
  destruct (c s) as [[a | e] s1]; [|discriminate].
  exact (H a s1 b s' E).
Qed.

Lemma returns_only_try {A : Type} (P : A -> Prop)
  (c : M (W:=W) (X:=X) A) (h : exn -> M (W:=W) (X:=X) A) :
  returns_only P c -> (forall e, returns_only P (h e)) ->
  returns_only P (try_except c h).
Proof.
  intros Hc Hh s a s' E. unfold try_except in E.
  destruct (c s) as [[a1 | e] s1] eqn:Ec.
  - inversion E; subst. exact (Hc s a s' Ec).
  - exact (Hh e s1 a s' E).
Qed.

Lemma returns_only_if {A : Type} (P : A -> Prop) (b : bool)
  (c1 c2 : M (W:=W) (X:=X) A) :
  returns_only P c1 -> returns_only P c2 ->
  returns_only P (if b then c1 else c2).
Proof. destruct b; auto. Qed.

End Returns.

(** Steps through the structure of a call, leaving what its [ret]s return. *)
Ltac returns_step :=
  first
    [ progress intros
    | apply returns_only_raise
    | apply returns_only_try
    | apply returns_only_bind; intros ?
    | apply returns_only_if
    | apply returns_only_ret ].

(** ** C4: the shape of every download result *)

Section DownloadResults.

Import Eff Props.

Lemma deliver_invariant {W X : Type} {tr : Transport W}
  (name : str) (body : bytes) (save_path : option str) (return_content : bool) :
  returns_only (W:=W) (X:=X) (fun r => outcome_invariant r = true)
    (deliver name body save_path return_content).
Proof.
  unfold deliver. destruct return_content.
  - apply returns_only_ret. reflexivity.
  - repeat returns_step. reflexivity.
Qed.

Lemma truncate_then_deliver_invariant {W X : Type} {tr : Transport W} {rt : PyRuntime}
  (name : str) (k : str -> M (W:=W) (X:=X) DownloadResult) :
  (forall n, returns_only (fun r => outcome_invariant r = true) (k n)) ->
  returns_only (fun r => outcome_invariant r = true)
    (bind (truncate_filename name) k).
Proof. intros H. now apply returns_only_bind. Qed.

Lemma calibre_download_invariant {rt : PyRuntime} {W : Type} {tr : Transport W}
  (self : CalibreWeb.CalibreWebPlatform) (info : DownloadInfo)
  (save_path : option str) (return_content : bool) :
  returns_only (fun r => outcome_invariant r = true)
    (CalibreWeb.download self info save_path return_content).
Proof.
  unfold CalibreWeb.download.
  repeat first [ apply deliver_invariant | returns_step ].
Qed.

Lemma archive_download_invariant {rt : PyRuntime} {W : Type} {tr : Transport W}
  (info : DownloadInfo) (save_path : option str) (return_content : bool) :
  returns_only (fun r => outcome_invariant r = true)
    (ArchiveOrg.download info save_path return_content).
Proof.
  unfold ArchiveOrg.download.
  repeat first [ apply deliver_invariant | returns_step ].
Qed.

Lemma zlibrary_download_invariant {rt : PyRuntime} {W : Type} {tr : Transport W}
  {C : Type} {cl : ZLibrary.ZlibraryClient C}
  (p : ZLibrary.ZLibraryPlatform) (info : DownloadInfo)
  (save_path : option str) (return_content : bool) :
  returns_only (fun r => outcome_invariant r = true)
    (ZLibrary.download p info save_path return_content).
Proof.
  unfold ZLibrary.download.
  repeat first [ apply deliver_invariant | returns_step
               | match goal with |- returns_only _ (match ?x with _ => _ end) =>
                   destruct x as [[? ?]|] end ].
Qed.

Lemma liber3_download_invariant {rt : PyRuntime} {W : Type} {tr : Transport W}
  (info : DownloadInfo) (save_path : option str) (return_content : bool) :
  returns_only (fun r => outcome_invariant r = true)
    (Liber3.download info save_path return_content).
Proof.
  unfold Liber3.download, Liber3.download_body.
  repeat first [ apply deliver_invariant | returns_step
               | match goal with |- returns_only _ (match ?x with _ => _ end) =>
                   destruct x as [[? ?] ?] end ].
Qed.

Lemma annas_download_invariant {W : Type} {an : AnnasArchive.AnnasPy W}
  (info : DownloadInfo) (save_path : option str) (return_content : bool) :
  returns_only (fun r => outcome_invariant r = true)
    (AnnasArchive.download info save_path return_content).
Proof.
  unfold AnnasArchive.download.
  repeat first [ returns_step
               | match goal with |- returns_only _ (match ?x with _ => _ end) =>
                   destruct x end ];
    reflexivity.
Qed.

End DownloadResults.

(** C4.  Every [DownloadResult] the [download] of an adapter (Calibre-Web,
    Archive.org, Z-Library, Liber3, Anna's Archive) returns, in any world
    and for any handle and arguments, satisfies the invariant: when
    [success] is true exactly one of [file_path] and [content] is populated
    and [file_name] is populated; when [success] is false [error_message] is
    populated. *)
Theorem download_result_invariant (r : DownloadResult) :
  Props.returned_by_a_download r -> Props.outcome_invariant r = true.
Proof.
  intros [rt W tr self info sp rc s s' H
         | rt W tr info sp rc s s' H
         | rt W tr C cl p info sp rc s s' H
         | rt W tr info sp rc s s' H
         | W an info sp rc s s' H].
  - exact (calibre_download_invariant self info sp rc s r s' H).
  - exact (archive_download_invariant info sp rc s r s' H).
  - exact (zlibrary_download_invariant p info sp rc s r s' H).
  - exact (liber3_download_invariant info sp rc s r s' H).
  - exact (annas_download_invariant info sp rc s r s' H).
Qed.

(** A Calibre-Web download into memory, in a world that answers every
    request with status 200 and a body of four bytes. *)
Lemma download_result_invariant_witness :
  let r := {| success := true; file_path := None;
              dr_file_name := Some (lit "book_12.epub");
              file_size := Some 4%Z; error_message := None;
              content := Some [37; 80; 68; 70]%N |} in
  Props.returned_by_a_download r /\ Props.outcome_invariant r = true.
Proof.
  cbv zeta.
  assert (H : Props.returned_by_a_download
                {| success := true; file_path := None;
                   dr_file_name := Some (lit "book_12.epub");
                   file_size := Some 4%Z; error_message := None;
                   content := Some [37; 80; 68; 70]%N |}).
  { apply (@Props.by_calibre_web _ Sample.runtime unit (Sample.transport PNone)
             (CalibreWeb.new (lit "http://localhost:8083/"))
             {| platform := CALIBRE_WEB;
                download_url := Some (lit "http://localhost:8083/opds/download/12/epub/");
                book_id := None; hash_id := None;
                file_name := Some (lit "book_12.epub");
                requires_auth := false; additional_params := None |}
             None true (Sample.start tt)
             {| Eff.world := tt; Eff.self := tt;
                Eff.log := [Eff.EvSession;
                            Eff.EvGet (lit "http://localhost:8083/opds/download/12/epub/")] |}).
    vm_compute. reflexivity. }
  split; [exact H | exact (download_result_invariant _ H)].
Defined.

(** ** C8: Anna's Archive answers a download with the list of links *)

Section AnnasFacts.

Import Eff AnnasArchive.

Lemma tier_nonempty (heading : str) (links : list URL) :
  links <> [] -> tier heading links = heading :: numbered 1 links.
Proof. destruct links; [congruence | reflexivity]. Qed.

Lemma two_elements {A : Type} (l : list A) :
  length l = 2 -> exists a b, l = [a; b].
Proof.
  destruct l as [|a [|b [|c l]]]; simpl; try discriminate.
  intros _. now exists a, b.
Qed.

Lemma one_element {A : Type} (l : list A) :
  length l = 1 -> exists a, l = [a].
Proof.
  destruct l as [|a [|b l]]; simpl; try discriminate.
  intros _. now exists a.
Qed.

End AnnasFacts.

(** C8.  For a handle with a book identifier for which [get_information]
    returns a non-empty list of links, [AnnasArchivePlatform.download]
    returns (it does not raise) a result with [success = False], nothing
    else populated but the error message, and the message is the fixed
    heading followed by the lines of three tiers: the links whose label
    contains "Fast Partner Server", those whose label contains "Slow Partner
    Server", and those whose label contains neither, each tier under its own
    heading and numbered from 1, a tier without links being left out.  In
    particular, for links of which two are fast, one is slow and none is
    other, the message lists exactly the two fast links and the one slow
    link and has no "Other links:" part. *)
Theorem annas_download_lists_links_by_tier
  {W : Type} {an : AnnasArchive.AnnasPy W}
  (info : DownloadInfo) (save_path : option str) (return_content : bool)
  (s : Eff.state W unit) (id : str) (inf : AnnasArchive.Information) (w' : W) :
  book_id info = Some id -> id <> [] ->
  AnnasArchive.get_information id (Eff.world s) = (Returned inf, w') ->
  AnnasArchive.urls inf <> [] ->
  AnnasArchive.download info save_path return_content s =
    (Ok {| success := false; file_path := None; dr_file_name := None;
           file_size := None;
           error_message :=
             Some (lit "Anna's Archive requires manual download. Available links:"
                   ++ [10%N]
                   ++ join [10%N]
                        (AnnasArchive.tier (lit "Fast links (paid):")
                           (AnnasArchive.fast_links (AnnasArchive.urls inf))
                         ++ AnnasArchive.tier (lit "Slow links (free with wait):")
                              (AnnasArchive.slow_links (AnnasArchive.urls inf))
                         ++ AnnasArchive.tier (lit "Other links:")
                              (AnnasArchive.other_links (AnnasArchive.urls inf))));
           content := None |},
     {| Eff.world := w'; Eff.self := Eff.self s;
        Eff.log := Eff.log s ++ [Eff.EvAnnasInformation id] |})
  /\ (length (AnnasArchive.fast_links (AnnasArchive.urls inf)) = 2 ->
      length (AnnasArchive.slow_links (AnnasArchive.urls inf)) = 1 ->
      length (AnnasArchive.other_links (AnnasArchive.urls inf)) = 0 ->
      exists f1 f2 s1,
        AnnasArchive.fast_links (AnnasArchive.urls inf) = [f1; f2]
        /\ AnnasArchive.slow_links (AnnasArchive.urls inf) = [s1]
        /\ AnnasArchive.links_info (AnnasArchive.urls inf) =
           [ lit "Fast links (paid):";
             lit "  1. " ++ AnnasArchive.url_url f1;
             lit "  2. " ++ AnnasArchive.url_url f2;
             lit "Slow links (free with wait):";
             lit "  1. " ++ AnnasArchive.url_url s1 ]).
Proof.
  intros Hid Hne Hget Hurls. split.
  - unfold AnnasArchive.download, Eff.try_except, Eff.bind, Eff.emit, Eff.on_world.
    rewrite Hid. destruct id as [|c id]; [congruence|].
    cbn [otruthy truthy negb Eff.world Eff.self Eff.log].
    rewrite Hget. cbn [to_result].
    destruct (AnnasArchive.urls inf) as [|u us] eqn:E; [congruence|].
    reflexivity.
  - intros Hf Hs Ho.
    destruct (two_elements _ Hf) as [f1 [f2 Ef]].
    destruct (one_element _ Hs) as [s1 Es].
    exists f1, f2, s1. split; [exact Ef|]. split; [exact Es|].
    unfold AnnasArchive.links_info. rewrite Ef, Es.
    destruct (AnnasArchive.other_links (AnnasArchive.urls inf)); [|discriminate].
    reflexivity.
Qed.

(** The scenario of the spec: two links labelled "Fast Partner Server" and
    one labelled "Slow Partner Server". *)
Lemma annas_download_lists_links_by_tier_witness :
  let links :=
    [ {| AnnasArchive.url_title := lit "Fast Partner Server #1";
         AnnasArchive.url_url := lit "https://a.example/f1" |};
      {| AnnasArchive.url_title := lit "Slow Partner Server #1";
         AnnasArchive.url_url := lit "https://a.example/s1" |};
      {| AnnasArchive.url_title := lit "Fast Partner Server #2";
         AnnasArchive.url_url := lit "https://a.example/f2" |} ] in
  fst (@AnnasArchive.download unit (Sample.annas links)
         {| platform := ANNAS_ARCHIVE; download_url := None;
            book_id := Some (lit "0123456789abcdef0123456789abcdef");
            hash_id := None; file_name := None;
            requires_auth := false; additional_params := None |}
         None false (Sample.start tt))
  = Ok {| success := false; file_path := None; dr_file_name := None;
          file_size := None;
          error_message :=
            Some (lit "Anna's Archive requires manual download. Available links:"
                  ++ [10%N]
                  ++ join [10%N]
                       [ lit "Fast links (paid):";
                         lit "  1. https://a.example/f1";
                         lit "  2. https://a.example/f2";
                         lit "Slow links (free with wait):";
                         lit "  1. https://a.example/s1" ]);
          content := None |}.
Proof.
  cbv zeta.
  match goal with
  | |- fst (@AnnasArchive.download _ ?an ?info ?sp ?rc ?s) = _ =>
      pose proof (@annas_download_lists_links_by_tier unit an
                    info sp rc s (lit "0123456789abcdef0123456789abcdef")
                    {| AnnasArchive.urls := _ |} tt eq_refl
                    ltac:(vm_compute; discriminate) eq_refl
                    ltac:(discriminate)) as [H _]
  end.
  rewrite H. vm_compute. reflexivity.
Defined.

(* ================================================================== *)
(** * Properties of the Calibre-Web adapter *)
(* ================================================================== *)

Section CalibreFacts.

Import CalibreWeb.

Context {rt : PyRuntime}.

Lemma parse_year_missing (entry : Xml.Element) :
  Xml.find (lit "published") entry = None ->
  parse_year entry = PStr (lit "Unknown").
Proof. intros H. unfold parse_year. now rewrite H. Qed.

Lemma parse_year_empty (entry published : Xml.Element) :
  Xml.find (lit "published") entry = Some published ->
  otruthy (Xml.text published) = false ->
  parse_year entry = PStr (lit "Unknown").
Proof. intros H Ht. unfold parse_year. now rewrite H, Ht. Qed.

Lemma parse_year_invalid (entry published : Xml.Element) (t : str) :
  Xml.find (lit "published") entry = Some published ->
  Xml.text published = Some t ->
  fromisoformat_year t = None ->
  parse_year entry = PStr (lit "Unknown").
Proof.
  intros H Ht Hy. unfold parse_year. rewrite H, Ht, Hy.
  now destruct (otruthy (Some t)).
Qed.

Lemma parse_year_valid (entry published : Xml.Element) (t : str) (y : Z) :
  Xml.find (lit "published") entry = Some published ->
  Xml.text published = Some t -> t <> [] ->
  fromisoformat_year t = Some y ->
  parse_year entry = PInt y.
Proof.
  intros H Ht Hne Hy. unfold parse_year. rewrite H, Ht, Hy.
  destruct t; [congruence | reflexivity].
Qed.

Lemma parse_entry_year (self : CalibreWebPlatform) (entry : Xml.Element)
  (r : opds_result) :
  parse_entry self entry = Returned r -> r_year r = parse_year entry.
Proof.
  unfold parse_entry.
  destruct (parse_cover_link self entry) as [cover_link|]; [|discriminate].
  destruct (parse_acquisition self entry) as [[[? ?] ?]|]; [|discriminate].
  intros H. inversion H; subst. reflexivity.
Qed.

(** An entry only fails with what [urljoin] raised on the base URL. *)
Lemma parse_entry_failed (self : CalibreWebPlatform) (entry : Xml.Element)
  (cls text : str) :
  parse_entry self entry = Failed cls text ->
  exists suffix, urljoin (base_url self) suffix = Failed cls text.
Proof.
  unfold parse_entry, parse_cover_link, parse_acquisition.
  match goal with
  | |- context [if ?b then urljoin ?u ?x else Returned []] =>
      destruct b; [destruct (urljoin u x) eqn:E|]
  end.
  2:{ intros H. inversion H; subst. eexists. exact E. }
  all: destruct (acquisition_element entry) as [acquisition|]; try discriminate.
  all: match goal with
       | |- context [if ?b then urljoin ?u ?x else Returned []] =>
           destruct b; [destruct (urljoin u x) eqn:E2|]
       end; try discriminate.
  all: intros H; inversion H; subst; eexists; exact E2.
Qed.

(** What the loop over the entries has done when it ends. *)
Lemma parse_entries_spec (self : CalibreWebPlatform) (entries : list Xml.Element) :
  (exists results,
     parse_entries self entries = Returned results
     /\ Forall2 (fun entry r => parse_entry self entry = Returned r) entries results)
  \/ (exists suffix cls text,
        urljoin (base_url self) suffix = Failed cls text
        /\ parse_entries self entries = Failed cls text).
Proof.
  induction entries as [|entry rest IH]; cbn [parse_entries].
  - left. exists []. split; [reflexivity | constructor].
  - destruct (parse_entry self entry) as [r | cls text] eqn:E.
    + destruct IH as [[rs [-> HF]] | [suffix [cls [text [Hu ->]]]]].
      * left. exists (r :: rs). split; [reflexivity | now constructor].
      * right. now exists suffix, cls, text.
    + right. destruct (parse_entry_failed self entry cls text E) as [suffix Hu].
      now exists suffix, cls, text.
Qed.

Lemma slice_to_all {A : Type} (k : Z) (l : list A) :
  (Z.of_nat (length l) <= k)%Z -> slice_to k l = l.
Proof.
  intros H. unfold slice_to.
  destruct (Z.ltb_spec k 0); [lia|].
  apply firstn_all2. lia.
Qed.

(** A limit that cuts nothing off leaves one result per entry, in the order
    of the feed. *)
Lemma parse_feed_keeps_all (self : CalibreWebPlatform) (root : Xml.Element)
  (limit : option Z) :
  Props.keeps_all limit (length (Xml.findall (lit "entry") root)) ->
  parse_feed self root limit = parse_entries self (Xml.findall (lit "entry") root).
Proof.
  unfold parse_feed, Props.keeps_all.
  destruct (parse_entries_spec self (Xml.findall (lit "entry") root))
    as [[rs [-> HF]] | [suffix [cls [text [_ ->]]]]]; [|reflexivity].
  destruct limit as [k|]; [|reflexivity].
  intros [-> | Hk]; [reflexivity|].
  destruct (Z.eqb_spec k 0); [reflexivity|].
  f_equal. apply slice_to_all. now rewrite <- (Forall2_length HF).
Qed.

(** The parser on a feed that [ET.fromstring] reads, with a limit that cuts
    nothing off. *)
Lemma parse_opds_response_spec (self : CalibreWebPlatform) (xml_data : str)
  (root : Xml.Element) (limit : option Z) :
  ET_fromstring (collapse_whitespace false (strip_control xml_data)) = inr root ->
  Props.keeps_all limit (length (Xml.findall (lit "entry") root)) ->
  (exists results,
     _parse_opds_response self xml_data limit = Ok results
     /\ Forall2 (fun entry r => parse_entry self entry = Returned r)
                (Xml.findall (lit "entry") root) results)
  \/ (exists suffix cls text,
        urljoin (base_url self) suffix = Failed cls text
        /\ _parse_opds_response self xml_data limit = Raise (PyException cls text)).
Proof.
  intros Hparse Hkeep. unfold _parse_opds_response.
  rewrite Hparse, (parse_feed_keeps_all self root limit Hkeep).
  destruct (parse_entries_spec self (Xml.findall (lit "entry") root))
    as [[rs [-> HF]] | [suffix [cls [text [Hu ->]]]]].
  - left. now exists rs.
  - right. now exists suffix, cls, text.
Qed.

End CalibreFacts.

(** ** C9: the publication year of an OPDS entry *)

(** C9, as stated, fails on the code: the feed of text [Sample.feed_xml]
    has two entries, the second without a [published] element, and parsed
    with [limit = 1] (the limit [search(..., limit=1)] hands down) it
    produces one result, not two; the entry without a date is not among the
    results. *)
Lemma opds_two_entries_counterexample :
  Xml.findall (lit "entry") Sample.feed = [Sample.dated_entry; Sample.undated_entry]
  /\ Xml.find (lit "published") Sample.undated_entry = None
  /\ exists r,
       @CalibreWeb._parse_opds_response Sample.runtime
         (CalibreWeb.new (lit "http://localhost:8083")) Sample.feed_xml (Some 1%Z)
       = Ok [r]
       /\ CalibreWeb.r_title r = Some (lit "Dune")
       /\ CalibreWeb.r_year r = PInt 1965.
Proof.
  split; [reflexivity|]. split; [reflexivity|].
  eexists. split; [vm_compute; reflexivity|]. split; reflexivity.
Qed.

(** C9, amended.  In [_parse_opds_response], an entry without a [published]
    element, with an empty one, or with a text [datetime.fromisoformat]
    refuses gets the year "Unknown"; an entry whose [published] text
    [fromisoformat] reads gets the year read; a missing or unreadable date
    never removes an entry: parsed with no limit, or with a limit that is 0
    or not below the number of entries, the results are one per entry in the
    order of the feed.  The one way for the parser to produce no results at
    all is that [urljoin] raises on the base URL: its exception is caught
    nowhere in the parser.  So a feed of two entries, one without a date,
    parsed with no limit or with a limit of 0 or of at least 2, produces
    exactly two results, with the year "Unknown" for the one and the parsed
    year for the other, or raises what [urljoin] raised. *)
Theorem opds_year_unknown_or_parsed {rt : PyRuntime}
  (self : CalibreWeb.CalibreWebPlatform) (xml_data : str) (root : Xml.Element)
  (limit : option Z) :
  ET_fromstring
    (CalibreWeb.collapse_whitespace false (CalibreWeb.strip_control xml_data))
  = inr root ->
  Props.keeps_all limit (length (Xml.findall (lit "entry") root)) ->
  ((exists results,
      CalibreWeb._parse_opds_response self xml_data limit = Ok results
      /\ Forall2 (fun entry r => CalibreWeb.parse_entry self entry = Returned r)
                 (Xml.findall (lit "entry") root) results)
   \/ (exists suffix cls text,
         urljoin (CalibreWeb.base_url self) suffix = Failed cls text
         /\ CalibreWeb._parse_opds_response self xml_data limit
            = Raise (PyException cls text)))
  /\ (forall entry r,
        CalibreWeb.parse_entry self entry = Returned r ->
        Xml.find (lit "published") entry = None ->
        CalibreWeb.r_year r = PStr (lit "Unknown"))
  /\ (forall entry r published,
        CalibreWeb.parse_entry self entry = Returned r ->
        Xml.find (lit "published") entry = Some published ->
        (otruthy (Xml.text published) = false
         \/ exists t, Xml.text published = Some t /\ fromisoformat_year t = None) ->
        CalibreWeb.r_year r = PStr (lit "Unknown"))
  /\ (forall entry r published t y,
        CalibreWeb.parse_entry self entry = Returned r ->
        Xml.find (lit "published") entry = Some published ->
        Xml.text published = Some t -> t <> [] ->
        fromisoformat_year t = Some y ->
        CalibreWeb.r_year r = PInt y)
  /\ (forall e1 e2 published t y,
        Xml.findall (lit "entry") root = [e1; e2] ->
        Xml.find (lit "published") e1 = None ->
        Xml.find (lit "published") e2 = Some published ->
        Xml.text published = Some t -> t <> [] ->
        fromisoformat_year t = Some y ->
        (exists r1 r2,
           CalibreWeb._parse_opds_response self xml_data limit = Ok [r1; r2]
           /\ CalibreWeb.r_year r1 = PStr (lit "Unknown")
           /\ CalibreWeb.r_year r2 = PInt y)
        \/ (exists suffix cls text,
              urljoin (CalibreWeb.base_url self) suffix = Failed cls text
              /\ CalibreWeb._parse_opds_response self xml_data limit
                 = Raise (PyException cls text))).
Proof.
  intros Hparse Hkeep.
  pose proof (parse_opds_response_spec self xml_data root limit Hparse Hkeep) as Hall.
  split; [exact Hall|]. split; [|split; [|split]].
  - intros entry r Hr H. rewrite (parse_entry_year self entry r Hr).
    now apply parse_year_missing.
  - intros entry r published Hr H [Ht | [t [Ht Hy]]];
      rewrite (parse_entry_year self entry r Hr).
    + now apply (parse_year_empty entry published).
    + now apply (parse_year_invalid entry published t).
  - intros entry r published t y Hr H Ht Hne Hy.
    rewrite (parse_entry_year self entry r Hr).
    now apply (parse_year_valid entry published t y).
  - intros e1 e2 published t y He H1 H2 Ht Hne Hy.
    destruct Hall as [[results [E HF]] | Hfail]; [left | right; exact Hfail].
    rewrite He in HF.
    inversion HF as [|? r1 ? rs1 Hr1 HF1]; subst.
    inversion HF1 as [|? r2 ? rs2 Hr2 HF2]; subst.
    inversion HF2; subst.
    exists r1, r2. split; [exact E|].
    rewrite (parse_entry_year self e1 r1 Hr1), (parse_entry_year self e2 r2 Hr2).
    split.
    + now apply parse_year_missing.
    + now apply (parse_year_valid e2 published t y).
Qed.

(** The feed with the undated entry first, parsed with [limit = 20]: two
    results, the first "Unknown", the second 1965. *)
Lemma opds_year_unknown_or_parsed_witness :
  exists r1 r2,
    @CalibreWeb._parse_opds_response Sample.runtime
      (CalibreWeb.new (lit "http://localhost:8083")) Sample.feed_undated_first_xml
      (Some 20%Z)
    = Ok [r1; r2]
    /\ CalibreWeb.r_year r1 = PStr (lit "Unknown")
    /\ CalibreWeb.r_year r2 = PInt 1965.
Proof.
  destruct (proj2 (proj2 (proj2 (proj2
    (@opds_year_unknown_or_parsed Sample.runtime
       (CalibreWeb.new (lit "http://localhost:8083")) Sample.feed_undated_first_xml
       Sample.feed_undated_first (Some 20%Z)
       ltac:(vm_compute; reflexivity) ltac:(right; vm_compute; discriminate)))))
    Sample.undated_entry Sample.dated_entry
    (Sample.leaf (lit "published") (lit "1965-08-01")) (lit "1965-08-01") 1965%Z
    eq_refl eq_refl eq_refl eq_refl ltac:(vm_compute; discriminate) eq_refl)
    as [H | [suffix [cls [text [Hu _]]]]].
  - exact H.
  - discriminate Hu.
Defined.

(* ================================================================== *)
(** * The matcher agrees with the meaning of the patterns *)
(* ================================================================== *)

Section RegexFacts.

Import Regex RegexSem.

Context {rt : PyRuntime}.

Lemma matches_void (s : str) : ~ matches Void s.
Proof. intros H. inversion H. Qed.

Lemma nullable_matches (r : re) : nullable r = true <-> matches r [].
Proof.
  induction r as [| |c| | |a IHa b IHb|a IHa b IHb|a IHa]; simpl.
  - split; [discriminate | intros H; inversion H].
  - split; [constructor | reflexivity].
  - split; [discriminate | intros H; inversion H].
  - split; [discriminate | intros H; inversion H].
  - split; [discriminate | intros H; inversion H].
  - split; intros H.
    + apply andb_prop in H as [Ha Hb].
      change (@nil N) with (@nil N ++ []).
      constructor; [now apply IHa | now apply IHb].
    + inversion H as [| | | |a' b' s t Hs Ht E1 E2| | | |]; subst.
      apply app_eq_nil in E2 as [-> ->].
      apply andb_true_intro. split; [now apply IHa | now apply IHb].
  - split; intros H.
    + apply orb_prop in H as [Ha | Hb];
        [apply m_alt_l; now apply IHa | apply m_alt_r; now apply IHb].
    + apply orb_true_intro.
      inversion H; subst; [left; now apply IHa | right; now apply IHb].
  - split; [constructor | reflexivity].
Qed.

Lemma star_cons_inv (a : re) (c : N) (s : str) :
  matches (Star a) (c :: s) ->
  exists s1 s2, s = s1 ++ s2 /\ matches a (c :: s1) /\ matches (Star a) s2.
Proof.
  intros H. remember (Star a) as r eqn:Er. remember (c :: s) as w eqn:Ew.
  revert s Ew.
  induction H as [| | | | | | | |a' u t Hu _ Ht IHt]; intros s0 Ew; try discriminate.
  injection Er as ->.
  destruct u as [|c' u].
  - simpl in Ew. exact (IHt eq_refl s0 Ew).
  - simpl in Ew. injection Ew as -> <-.
    exists u, t. repeat split; assumption.
Qed.

Lemma deriv_matches (r : re) (c : N) (s : str) :
  matches (deriv c r) s <-> matches r (c :: s).
Proof.
  revert s.
  induction r as [| |a| | |a IHa b IHb|a IHa b IHb|a IHa]; intros s; simpl.
  - split; intros H; inversion H.
  - split; intros H; inversion H.
  - destruct (N.eqb_spec a c) as [-> | Hne]; split; intros H.
    + inversion H; subst. constructor.
    + inversion H; subst. constructor.
    + inversion H.
    + inversion H; subst. congruence.
  - destruct (class_digit c) eqn:E; split; intros H.
    + inversion H; subst. now constructor.
    + inversion H; subst. constructor.
    + inversion H.
    + inversion H; subst. congruence.
  - destruct (class_word c) eqn:E; split; intros H.
    + inversion H; subst. now constructor.
    + inversion H; subst. constructor.
    + inversion H.
    + inversion H; subst. congruence.
  - destruct (nullable a) eqn:Na; split; intros H.
    + inversion H as [| | | | |a' b' s' Hl|a' b' s' Hr| |]; subst.
      * inversion Hl as [| | | |a' b' u t Hu Ht E1 E2| | | |]; subst.
        change (c :: u ++ t) with ((c :: u) ++ t).
        constructor; [now apply IHa | assumption].
      * change (c :: s) with ([] ++ c :: s).
        constructor; [now apply nullable_matches | now apply IHb].
    + inversion H as [| | | |a' b' u t Hu Ht E1 E2| | | |]; subst.
      destruct u as [|c' u].
      * simpl in E2. subst t. apply m_alt_r. now apply IHb.
      * simpl in E2. injection E2 as -> <-.
        apply m_alt_l. constructor; [now apply IHa | assumption].
    + inversion H as [| | | |a' b' u t Hu Ht E1 E2| | | |]; subst.
      change (c :: u ++ t) with ((c :: u) ++ t).
      constructor; [now apply IHa | assumption].
    + inversion H as [| | | |a' b' u t Hu Ht E1 E2| | | |]; subst.
      destruct u as [|c' u].
      * apply nullable_matches in Hu. congruence.
      * simpl in E2. injection E2 as -> <-.
        constructor; [now apply IHa | assumption].
  - split; intros H; inversion H; subst;
      solve [apply m_alt_l; now apply IHa | apply m_alt_r; now apply IHb].
  - split; intros H.
    + inversion H as [| | | |a' b' u t Hu Ht E1 E2| | | |]; subst.
      change (c :: u ++ t) with ((c :: u) ++ t).
      constructor; [now apply IHa | assumption].
    + apply star_cons_inv in H as [s1 [s2 [-> [H1 H2]]]].
      constructor; [now apply IHa | assumption].
Qed.

(** The matcher decides the meaning of a pattern. *)
Lemma fullmatch_matches (r : re) (s : str) :
  fullmatch r s = true <-> matches r s.
Proof.
  revert r. induction s as [|c s IH]; intros r; simpl.
  - apply nullable_matches.
  - rewrite IH. apply deriv_matches.
Qed.

Lemma matches_lit (p s : str) : matches (Lit p) s <-> s = p.
Proof.
  revert s. induction p as [|c p IH]; intros s; simpl; split; intros H.
  - now inversion H.
  - subst. constructor.
  - inversion H as [| | | |a' b' u t Hu Ht E1 E2| | | |]; subst.
    inversion Hu; subst. apply IH in Ht. now subst.
  - subst. change (c :: p) with ([c] ++ p). constructor; [constructor | now apply IH].
Qed.

Lemma matches_star_digit (s : str) :
  matches (Star Digit) s <-> forallb class_digit s = true.
Proof.
  split.
  - intros H. remember (Star Digit) as r eqn:Er.
    induction H as [| | | | | | | |a u t Hu _ Ht IHt]; try discriminate; [reflexivity|].
    injection Er as ->. inversion Hu; subst. simpl.
    apply andb_true_intro. split; [assumption | now apply IHt].
  - induction s as [|c s IH]; simpl; intros H; [constructor|].
    apply andb_prop in H as [Hc Hs].
    change (c :: s) with ([c] ++ s). constructor; [now constructor | now apply IH].
Qed.

Lemma matches_star_word (s : str) :
  matches (Star Word) s <-> forallb class_word s = true.
Proof.
  split.
  - intros H. remember (Star Word) as r eqn:Er.
    induction H as [| | | | | | | |a u t Hu _ Ht IHt]; try discriminate; [reflexivity|].
    injection Er as ->. inversion Hu; subst. simpl.
    apply andb_true_intro. split; [assumption | now apply IHt].
  - induction s as [|c s IH]; simpl; intros H; [constructor|].
    apply andb_prop in H as [Hc Hs].
    change (c :: s) with ([c] ++ s). constructor; [now constructor | now apply IH].
Qed.

Lemma matches_plus_digit (s : str) :
  matches (Plus Digit) s <-> s <> [] /\ forallb class_digit s = true.
Proof.
  unfold Plus. split.
  - intros H. inversion H as [| | | |a' b' u t Hu Ht E1 E2| | | |]; subst.
    inversion Hu; subst. apply matches_star_digit in Ht.
    split; [discriminate|]. simpl. now apply andb_true_intro.
  - intros [Hne H]. destruct s as [|c s]; [congruence|].
    simpl in H. apply andb_prop in H as [Hc Hs].
    change (c :: s) with ([c] ++ s).
    constructor; [now constructor | now apply matches_star_digit].
Qed.

Lemma matches_plus_word (s : str) :
  matches (Plus Word) s <-> s <> [] /\ forallb class_word s = true.
Proof.
  unfold Plus. split.
  - intros H. inversion H as [| | | |a' b' u t Hu Ht E1 E2| | | |]; subst.
    inversion Hu; subst. apply matches_star_word in Ht.
    split; [discriminate|]. simpl. now apply andb_true_intro.
  - intros [Hne H]. destruct s as [|c s]; [congruence|].
    simpl in H. apply andb_prop in H as [Hc Hs].
    change (c :: s) with ([c] ++ s).
    constructor; [now constructor | now apply matches_star_word].
Qed.

Lemma matches_seq (a b : re) (s : str) :
  matches (Seq a b) s <-> exists u t, s = u ++ t /\ matches a u /\ matches b t.
Proof.
  split.
  - intros H. inversion H; subst. eauto.
  - intros [u [t [-> [Hu Ht]]]]. now constructor.
Qed.

Lemma matches_chr (c : N) (s : str) : matches (Chr c) s <-> s = [c].
Proof.
  split; intros H; [now inversion H | subst; constructor].
Qed.

(** The strings between the anchors of the code's acquisition pattern. *)
Lemma matches_download_pattern (s : str) :
  matches CalibreWeb.download_pattern s <->
  exists ds ws,
    s = lit "/opds/download/" ++ ds ++ [47%N] ++ ws ++ [47%N]
    /\ ds <> [] /\ forallb class_digit ds = true
    /\ ws <> [] /\ forallb class_word ws = true.
Proof.
  unfold CalibreWeb.download_pattern. split.
  - intros H.
    apply matches_seq in H as [p [r1 [-> [Hp H]]]]. apply matches_lit in Hp as ->.
    apply matches_seq in H as [ds [r2 [-> [Hd H]]]]. apply matches_plus_digit in Hd as [Hd1 Hd2].
    apply matches_seq in H as [sl [r3 [-> [Hs H]]]]. apply matches_chr in Hs as ->.
    apply matches_seq in H as [ws [r4 [-> [Hw H]]]]. apply matches_plus_word in Hw as [Hw1 Hw2].
    apply matches_chr in H as ->.
    exists ds, ws. repeat split; assumption.
  - intros [ds [ws [-> [Hd1 [Hd2 [Hw1 Hw2]]]]]].
    apply matches_seq. exists (lit "/opds/download/"), (ds ++ [47%N] ++ ws ++ [47%N]).
    split; [reflexivity|]. split; [now apply matches_lit|].
    apply matches_seq. exists ds, ([47%N] ++ ws ++ [47%N]).
    split; [reflexivity|]. split; [now apply matches_plus_digit|].
    apply matches_seq. exists [47%N], (ws ++ [47%N]).
    split; [reflexivity|]. split; [now apply matches_chr|].
    apply matches_seq. exists ws, [47%N].
    split; [reflexivity|]. split; [now apply matches_plus_word | now apply matches_chr].
Qed.

Lemma rev_cons_eq (s rest : str) (c : N) : rev s = c :: rest -> s = rev rest ++ [c].
Proof.
  intros H. rewrite <- (rev_involutive s), H. reflexivity.
Qed.

(** [re.match] with the code's acquisition pattern accepts exactly the
    acquisition paths. *)
Lemma match_download_pattern (href : str) :
  match_anchored CalibreWeb.download_pattern href = true <-> acquisition_path href.
Proof.
  unfold match_anchored, acquisition_path. split.
  - intros H. apply orb_prop in H as [H | H].
    + apply fullmatch_matches, matches_download_pattern in H
        as [ds [ws [-> [Hd1 [Hd2 [Hw1 Hw2]]]]]].
      exists ds, ws, []. rewrite app_nil_r. repeat split; auto.
    + destruct (rev href) as [|c rest] eqn:E; [discriminate|].
      destruct (N.eqb_spec c 10) as [-> | Hne].
      * apply fullmatch_matches, matches_download_pattern in H
          as [ds [ws [Hs [Hd1 [Hd2 [Hw1 Hw2]]]]]].
        apply rev_cons_eq in E. rewrite Hs in E.
        exists ds, ws, [10%N]. split; [|repeat split; auto].
        rewrite E. now rewrite <- !app_assoc.
      * exfalso. revert H.
        destruct c as [|p]; [discriminate|].
        repeat (destruct p as [p|p|]; try discriminate). congruence.
  - intros [ds [ws [nl [-> [Hd1 [Hd2 [Hw1 [Hw2 [-> | ->]]]]]]]]].
    + rewrite app_nil_r. apply orb_true_intro. left.
      apply fullmatch_matches, matches_download_pattern. exists ds, ws. repeat split; auto.
    + apply orb_true_intro. right.
      replace (lit "/opds/download/" ++ ds ++ [47%N] ++ ws ++ [47%N] ++ [10%N])
        with ((lit "/opds/download/" ++ ds ++ [47%N] ++ ws ++ [47%N]) ++ [10%N])
        by (now rewrite <- !app_assoc).
      rewrite rev_unit, rev_involutive.
      apply fullmatch_matches, matches_download_pattern. exists ds, ws. repeat split; auto.
Qed.

End RegexFacts.

(** ** C5: which acquisition links and download URLs are accepted *)

Section CalibreLinks.

Import CalibreWeb.

Context {rt : PyRuntime}.

Lemma parse_entry_download_link (self : CalibreWebPlatform) (entry : Xml.Element)
  (r : opds_result) :
  parse_entry self entry = Returned r ->
  Returned (r_download_link r) =
  match acquisition_element entry with
  | Some acquisition =>
      let href := Xml.attrib_get (lit "href") [] (Xml.attrib acquisition) in
      if truthy href && Regex.match_anchored download_pattern href
      then urljoin (base_url self) href
      else Returned []
  | None => Returned []
  end.
Proof.
  unfold parse_entry, parse_acquisition.
  destruct (parse_cover_link self entry) as [cover_link|]; [|discriminate].
  destruct (acquisition_element entry) as [acquisition|].
  - cbv zeta.
    destruct (if truthy (Xml.attrib_get (lit "href") [] (Xml.attrib acquisition))
                 && Regex.match_anchored download_pattern
                      (Xml.attrib_get (lit "href") [] (Xml.attrib acquisition))
              then urljoin (base_url self)
                     (Xml.attrib_get (lit "href") [] (Xml.attrib acquisition))
              else Returned []) as [link|]; [|discriminate].
    intros H. inversion H; subst. reflexivity.
  - intros H. inversion H; subst. reflexivity.
Qed.

Lemma acquisition_path_nonempty (href : str) :
  RegexSem.acquisition_path href -> truthy href = true.
Proof. intros [ds [ws [nl [-> _]]]]. reflexivity. Qed.

Lemma valid_calibre_url_iff (u : str) :
  _is_valid_calibre_url u = true <->
  (startswith (lit "http://") u = true \/ startswith (lit "https://") u = true)
  /\ contains (lit "/opds/download/") u = true.
Proof.
  unfold _is_valid_calibre_url, Base._is_valid_url.
  destruct u as [|c u].
  - simpl. split; [discriminate | intros [[H | H] _]; discriminate].
  - cbn [truthy andb].
    destruct (startswith (lit "http://") (c :: u)),
             (startswith (lit "https://") (c :: u)); cbn [orb negb];
      split; intros H; try discriminate; try tauto;
      try (split; [tauto | exact H]);
      try (destruct H as [[H | H] _]; discriminate).
Qed.

End CalibreLinks.

(** C5, as stated, fails on the code.  The parser: the entry
    [Sample.dated_entry] carries the acquisition link
    [/opds/download/12/epub/], which the spec's pattern
    [^/download/\d+/[\w]+/?$] does not match, and gets a download link; the
    entry [Sample.undated_entry] carries [/download/13/epub], which the
    spec's pattern matches, and gets none.  The download: no part of the URL
    [http://localhost:8083/opds/download/cover] matches the spec's pattern,
    and the download does not fail: it requests the URL and returns the
    bytes. *)
Lemma opds_acquisition_pattern_counterexample :
  @Regex.match_anchored Sample.runtime Props.spec_download_pattern
     (lit "/opds/download/12/epub/") = false
  /\ (exists r,
        @CalibreWeb.parse_entry Sample.runtime
          (CalibreWeb.new (lit "http://localhost:8083")) Sample.dated_entry
        = Returned r
        /\ CalibreWeb.r_download_link r
           = lit "http://localhost:8083/opds/download/12/epub/")
  /\ @Regex.match_anchored Sample.runtime Props.spec_download_pattern
       (lit "/download/13/epub") = true
  /\ (exists r,
        @CalibreWeb.parse_entry Sample.runtime
          (CalibreWeb.new (lit "http://localhost:8083")) Sample.undated_entry
        = Returned r
        /\ CalibreWeb.r_download_link r = [])
  /\ @Props.some_tail_matches Sample.runtime
       (lit "http://localhost:8083/opds/download/cover") = false
  /\ @CalibreWeb.download Sample.runtime unit (Sample.transport PNone)
       (CalibreWeb.new (lit "http://localhost:8083"))
       {| platform := CALIBRE_WEB;
          download_url := Some (lit "http://localhost:8083/opds/download/cover");
          book_id := None; hash_id := None; file_name := None;
          requires_auth := false; additional_params := None |}
       None true (Sample.start tt)
     = (Ok {| success := true; file_path := None;
              dr_file_name := Some (lit "unknown_book");
              file_size := Some 4%Z; error_message := None;
              content := Some [37; 80; 68; 70]%N |},
        {| Eff.world := tt; Eff.self := tt;
           Eff.log := [Eff.EvSession;
                       Eff.EvGet (lit "http://localhost:8083/opds/download/cover")] |}).
Proof.
  split; [vm_compute; reflexivity|].
  split; [eexists; split; vm_compute; reflexivity|].
  split; [vm_compute; reflexivity|].
  split; [eexists; split; vm_compute; reflexivity|].
  split; vm_compute; reflexivity.
Qed.

(** C5, amended.  The parser gives an entry a download link only if the
    entry has an acquisition link whose [href] matches the code's pattern
    [^/opds/download/\d+/[\w]+/$], that is, consists of [/opds/download/],
    one or more digits, [/], one or more word characters and [/] (with at
    most one line break after it); then the link is what [urljoin(base_url,
    href)] returned, and otherwise it is the empty string.  The download
    requires a
    non-empty URL that starts with [http://] or [https://] and contains
    [/opds/download/]: on a non-empty URL that fails this test it raises
    [DownloadError("Calibre-Web download failed: Invalid Calibre-Web download
    URL")], the spec's InvalidDownloadTarget, and on a missing or empty URL
    [DownloadError("Calibre-Web download failed: Calibre-Web download
    requires download_url")], in both cases without having made a request. *)
Theorem opds_acquisition_link_and_download_url
  {rt : PyRuntime} {W : Type} {tr : Eff.Transport W}
  (self : CalibreWeb.CalibreWebPlatform) (entry : Xml.Element)
  (info : DownloadInfo) (save_path : option str) (return_content : bool)
  (s : Eff.state W unit) :
  (forall r,
     CalibreWeb.parse_entry self entry = Returned r ->
     CalibreWeb.r_download_link r <> [] ->
     exists acquisition,
       CalibreWeb.acquisition_element entry = Some acquisition
       /\ RegexSem.acquisition_path
            (Xml.attrib_get (lit "href") [] (Xml.attrib acquisition)))
  /\ (forall r acquisition,
        CalibreWeb.parse_entry self entry = Returned r ->
        CalibreWeb.acquisition_element entry = Some acquisition ->
        RegexSem.acquisition_path
          (Xml.attrib_get (lit "href") [] (Xml.attrib acquisition)) ->
        urljoin (CalibreWeb.base_url self)
          (Xml.attrib_get (lit "href") [] (Xml.attrib acquisition))
        = Returned (CalibreWeb.r_download_link r))
  /\ (forall u,
        CalibreWeb._is_valid_calibre_url u = true <->
        (startswith (lit "http://") u = true \/ startswith (lit "https://") u = true)
        /\ contains (lit "/opds/download/") u = true)
  /\ (forall u,
        download_url info = Some u -> u <> [] ->
        CalibreWeb._is_valid_calibre_url u = false ->
        CalibreWeb.download self info save_path return_content s =
        (Raise (DownloadError
                  (lit "Calibre-Web download failed: Invalid Calibre-Web download URL")
                  (Some (lit "calibre_web"))), s))
  /\ (download_url info = None \/ download_url info = Some [] ->
      CalibreWeb.download self info save_path return_content s =
      (Raise (DownloadError
                (lit "Calibre-Web download failed: Calibre-Web download requires download_url")
                (Some (lit "calibre_web"))), s)).
Proof.
  split; [|split; [|split; [|split]]].
  - intros r Hr H. pose proof (parse_entry_download_link self entry r Hr) as L.
    destruct (CalibreWeb.acquisition_element entry) as [a|]; [|congruence].
    exists a. split; [reflexivity|].
    cbv zeta in L.
    destruct (truthy (Xml.attrib_get (lit "href") [] (Xml.attrib a)));
      [|simpl in L; congruence].
    destruct (Regex.match_anchored CalibreWeb.download_pattern
                (Xml.attrib_get (lit "href") [] (Xml.attrib a))) eqn:E;
      [|simpl in L; congruence].
    now apply match_download_pattern.
  - intros r a Hr Ha Hp. pose proof (parse_entry_download_link self entry r Hr) as L.
    rewrite Ha in L. cbv zeta in L.
    rewrite (acquisition_path_nonempty _ Hp) in L.
    apply match_download_pattern in Hp. rewrite Hp in L. now symmetry.
  - apply valid_calibre_url_iff.
  - intros u Hu Hne Hv. unfold CalibreWeb.download, Eff.try_except.
    rewrite Hu. destruct u as [|c u]; [congruence|].
    cbn [otruthy truthy negb]. rewrite Hv. reflexivity.
  - intros [H | H]; unfold CalibreWeb.download, Eff.try_except; rewrite H; reflexivity.
Qed.

(** A handle whose URL has no scheme, in the world that answers every
    request: the download is refused and nothing is requested. *)
Lemma opds_acquisition_link_and_download_url_witness :
  @CalibreWeb.download Sample.runtime unit (Sample.transport PNone)
    (CalibreWeb.new (lit "http://localhost:8083"))
    {| platform := CALIBRE_WEB;
       download_url := Some (lit "/opds/download/12/epub/");
       book_id := None; hash_id := None; file_name := None;
       requires_auth := false; additional_params := None |}
    None true (Sample.start tt)
  = (Raise (DownloadError
              (lit "Calibre-Web download failed: Invalid Calibre-Web download URL")
              (Some (lit "calibre_web"))), Sample.start tt)
  /\ exists r,
       @CalibreWeb.parse_entry Sample.runtime
         (CalibreWeb.new (lit "http://localhost:8083")) Sample.dated_entry
       = Returned r
       /\ CalibreWeb.r_download_link r
          = lit "http://localhost:8083" ++ lit "/opds/download/12/epub/".
Proof.
  pose proof (@opds_acquisition_link_and_download_url Sample.runtime unit
                (Sample.transport PNone)
                (CalibreWeb.new (lit "http://localhost:8083")) Sample.dated_entry
                {| platform := CALIBRE_WEB;
                   download_url := Some (lit "/opds/download/12/epub/");
                   book_id := None; hash_id := None; file_name := None;
                   requires_auth := false; additional_params := None |}
                None true (Sample.start tt)) as [_ [Hlink [_ [Hurl _]]]].
  split.
  - apply (Hurl (lit "/opds/download/12/epub/") eq_refl);
      [vm_compute; discriminate | reflexivity].
  - assert (E : exists r,
                @CalibreWeb.parse_entry Sample.runtime
                  (CalibreWeb.new (lit "http://localhost:8083")) Sample.dated_entry
                = Returned r) by (eexists; vm_compute; reflexivity).
    destruct E as [r E]. exists r. split; [exact E|].
    assert (H : @urljoin Sample.runtime
                  (CalibreWeb.base_url (CalibreWeb.new (lit "http://localhost:8083")))
                  (Xml.attrib_get (lit "href") []
                     (Xml.attrib (Sample.acquisition (lit "/opds/download/12/epub/"))))
                = Returned (CalibreWeb.r_download_link r)).
    { apply (Hlink r (Sample.acquisition (lit "/opds/download/12/epub/")) E eq_refl).
      exists (lit "12"), (lit "epub"), []. repeat split; try (vm_compute; discriminate).
      now left. }
    change (Returned (lit "http://localhost:8083" ++ lit "/opds/download/12/epub/")
            = Returned (CalibreWeb.r_download_link r)) in H.
    injection H as H. now symmetry.
Defined.

(* ================================================================== *)
(** * Properties of the Z-Library adapter *)
(* ================================================================== *)

Section ZLibraryFacts.

Import Eff ZLibrary ZStates.

Context {rt : PyRuntime} {W : Type} {tr : Transport W}.
Context {C : Type} {cl : ZlibraryClient C}.

Lemma after_logins_step (p : ZLibraryPlatform) (s : state W (option C))
  (c1 c : C) (k : nat) :
  after_logins p {| world := world s; self := Some c1;
                    log := log s ++ [EvLogin (email p) (password p)] |} c k
  = after_logins p s c (S k).
Proof.
  unfold after_logins. cbn [world self log repeat].
  now rewrite <- app_assoc.
Qed.

(** The loop by iterations left is the loop of the source with its counter,
    which ends within [_max_retries - retry_count] iterations. *)
Lemma login_loop_is_the_while_loop (p : ZLibraryPlatform) (fuel : nat) :
  forall (retry_count : Z) (s : state W (option C)),
    Z.to_nat (_max_retries p - retry_count) <= fuel ->
    login_while p fuel retry_count s =
    login_loop p (Z.to_nat (_max_retries p - retry_count)) s.
Proof.
  induction fuel as [|fuel IH]; intros rc s Hf.
  - replace (Z.to_nat (_max_retries p - rc)) with 0 by lia. reflexivity.
  - cbn [login_while].
    destruct (Z.ltb_spec rc (_max_retries p)) as [Hlt | Hge].
    + replace (Z.to_nat (_max_retries p - rc))
        with (S (Z.to_nat (_max_retries p - (rc + 1)))) by lia.
      cbn [login_loop]. unfold bind at 1 3.
      destruct (try_except _ _ s) as [[[|] | e] s1]; try reflexivity.
      apply IH. lia.
    + replace (Z.to_nat (_max_retries p - rc)) with 0 by lia. reflexivity.
Qed.

(** The retry loop: it makes at most [n] attempts, each a call of [login];
    it returns after the first attempt that leaves the client logged in, and
    raises [AuthenticationError] when all [n] attempts are used up. *)
Lemma login_loop_spec (p : ZLibraryPlatform) (n : nat) :
  forall (s : state W (option C)) (c : C),
    self s = Some c ->
    exists c' k,
      k <= n
      /\ snd (login_loop p n s) = after_logins p s c' k
      /\ ((fst (login_loop p n s) = Ok tt /\ isLoggedIn c' = true /\ 1 <= k)
          \/ (fst (login_loop p n s) = Raise authentication_failed /\ k = n)).
Proof.
  induction n as [|n IH]; intros s c Hs.
  - exists c, 0. split; [lia|]. split.
    + unfold after_logins. cbn [login_loop raise snd repeat].
      rewrite app_nil_r. destruct s as [w x l]. cbn in *. now subst.
    + right. split; reflexivity.
  - cbn [login_loop]. unfold bind at 1. unfold try_except, bind, on_client, client_isLoggedIn.
    rewrite Hs.
    destruct (login (email p) (password p) c) as [[v | cls text] c1];
      cbn [to_result self].
    + destruct (isLoggedIn c1) eqn:E.
      * exists c1, 1. split; [lia|]. split; [reflexivity|].
        left. repeat split; [assumption | lia].
      * destruct (IH {| world := world s; self := Some c1;
                        log := log s ++ [EvLogin (email p) (password p)] |}
                     c1 eq_refl) as [c' [k [Hk [Hsnd Hfst]]]].
        exists c', (S k). split; [lia|]. split.
        -- rewrite <- after_logins_step with (c1 := c1). exact Hsnd.
        -- destruct Hfst as [[H1 [H2 H3]] | [H1 H2]];
             [left; repeat split; [assumption | assumption | lia]
             | right; split; [assumption | lia]].
    + destruct (IH {| world := world s; self := Some c1;
                      log := log s ++ [EvLogin (email p) (password p)] |}
                   c1 eq_refl) as [c' [k [Hk [Hsnd Hfst]]]].
      exists c', (S k). split; [lia|]. split.
      * rewrite <- after_logins_step with (c1 := c1). exact Hsnd.
      * destruct Hfst as [[H1 [H2 H3]] | [H1 H2]];
          [left; repeat split; [assumption | assumption | lia]
          | right; split; [assumption | lia]].
Qed.

Lemma ensure_logged_in_already (p : ZLibraryPlatform) (s : state W (option C)) :
  isLoggedIn (held_client s) = true ->
  _ensure_logged_in p s =
  (Ok tt, {| world := world s; self := Some (held_client s); log := log s |}).
Proof.
  destruct s as [w x l].
  unfold _ensure_logged_in, bind, get_self, set_self, client_isLoggedIn, held_client.
  cbn [self world log]. intros H.
  destruct x as [c|]; cbn [self ret]; rewrite H; reflexivity.
Qed.

Lemma ensure_logged_in_not_yet (p : ZLibraryPlatform) (s : state W (option C)) :
  isLoggedIn (held_client s) = false ->
  _ensure_logged_in p s =
  login_loop p (Z.to_nat (_max_retries p))
    {| world := world s; self := Some (held_client s); log := log s |}.
Proof.
  destruct s as [w x l].
  unfold _ensure_logged_in, bind, get_self, set_self, client_isLoggedIn, held_client.
  cbn [self world log]. intros H.
  destruct x as [c|]; cbn [self ret]; rewrite H; reflexivity.
Qed.

(** What [_ensure_logged_in] does, in full. *)
Lemma ensure_logged_in_spec (p : ZLibraryPlatform) (s : state W (option C)) :
  exists c' k,
    k <= Z.to_nat (_max_retries p)
    /\ snd (_ensure_logged_in p s) = after_logins p s c' k
    /\ (isLoggedIn (held_client s) = true -> k = 0)
    /\ ((fst (_ensure_logged_in p s) = Ok tt /\ isLoggedIn c' = true)
        \/ (fst (_ensure_logged_in p s) = Raise authentication_failed
            /\ k = Z.to_nat (_max_retries p)
            /\ isLoggedIn (held_client s) = false)).
Proof.
  destruct (isLoggedIn (held_client s)) eqn:E.
  - exists (held_client s), 0. rewrite (ensure_logged_in_already p s E).
    split; [lia|]. split; [|split; [reflexivity|left; now split]].
    unfold after_logins. cbn [snd repeat]. now rewrite app_nil_r.
  - rewrite (ensure_logged_in_not_yet p s E).
    destruct (login_loop_spec p (Z.to_nat (_max_retries p))
                {| world := world s; self := Some (held_client s); log := log s |}
                (held_client s) eq_refl) as [c' [k [Hk [Hsnd Hfst]]]].
    exists c', k. split; [exact Hk|]. split; [exact Hsnd|]. split; [discriminate|].
    destruct Hfst as [[H1 [H2 _]] | [H1 H2]]; [left | right]; repeat split; assumption.
Qed.

End ZLibraryFacts.

(* ================================================================== *)
(** * What a call adds to the log *)
(* ================================================================== *)

Section Adds.

Import Eff Props.

Context {W X : Type}.

Variable P : event -> bool.

Lemma adds_nothing {A : Type} (c : M (W:=W) (X:=X) A) :
  (forall s, log (snd (c s)) = log s) -> adds_only P c.
Proof.
  intros H s. exists []. rewrite H, app_nil_r. now split.
Qed.

Lemma adds_only_ret {A : Type} (a : A) : adds_only (W:=W) (X:=X) P (ret a).
Proof. now apply adds_nothing. Qed.

Lemma adds_only_raise {A : Type} (e : exn) : adds_only (W:=W) (X:=X) (A:=A) P (raise e).
Proof. now apply adds_nothing. Qed.

Lemma adds_only_of_outside {A : Type} (o : outside A) :
  adds_only (W:=W) (X:=X) P (of_outside o).
Proof. now apply adds_nothing. Qed.

Lemma adds_only_get_self : adds_only (W:=W) (X:=X) P get_self.
Proof. now apply adds_nothing. Qed.

Lemma adds_only_set_self (x : X) : adds_only (W:=W) (X:=X) P (set_self x).
Proof. now apply adds_nothing. Qed.

Lemma adds_only_on_world {A : Type} (op : W -> outside A * W) :
  adds_only (W:=W) (X:=X) P (on_world op).
Proof.
  apply adds_nothing. intros s. unfold on_world.
  now destruct (op (world s)).
Qed.

Lemma adds_only_emit (ev : event) :
  P ev = true -> adds_only (W:=W) (X:=X) P (emit ev).
Proof.
  intros H s. exists [ev]. split; [reflexivity|]. simpl. now rewrite H.
Qed.

Lemma adds_only_bind {A B : Type} (c : M (W:=W) (X:=X) A) (k : A -> M (W:=W) (X:=X) B) :
  adds_only P c -> (forall a, adds_only P (k a)) -> adds_only P (bind c k).
Proof.
  intros Hc Hk s. unfold bind.
  destruct (Hc s) as [e1 [H1 P1]].
  destruct (c s) as [[a | e] s1]; cbn [snd] in *.
  - destruct (Hk a s1) as [e2 [H2 P2]].
    exists (e1 ++ e2). split.
    + now rewrite H2, H1, app_assoc.
    + rewrite forallb_app, P1, P2. reflexivity.
  - exists e1. now split.
Qed.

Lemma adds_only_try {A : Type} (c : M (W:=W) (X:=X) A) (h : exn -> M (W:=W) (X:=X) A) :
  adds_only P c -> (forall e, adds_only P (h e)) -> adds_only P (try_except c h).
Proof.
  intros Hc Hh s. unfold try_except.
  destruct (Hc s) as [e1 [H1 P1]].
  destruct (c s) as [[a | e] s1]; cbn [snd] in *.
  - exists e1. now split.
  - destruct (Hh e s1) as [e2 [H2 P2]].
    exists (e1 ++ e2). split.
    + now rewrite H2, H1, app_assoc.
    + rewrite forallb_app, P1, P2. reflexivity.
Qed.

Lemma adds_only_if {A : Type} (b : bool) (c1 c2 : M (W:=W) (X:=X) A) :
  adds_only P c1 -> adds_only P c2 -> adds_only P (if b then c1 else c2).
Proof. destruct b; auto. Qed.

Lemma adds_only_truncate {rt : PyRuntime} (name : str) :
  adds_only (W:=W) (X:=X) P (truncate_filename name).
Proof.
  unfold truncate_filename.
  destruct (Base._truncate_filename name Base.default_max_length);
    [apply adds_only_ret | apply adds_only_raise].
Qed.

Lemma adds_only_get_session {tr : Transport W} :
  P EvSession = true -> adds_only (W:=W) (X:=X) P _get_session.
Proof.
  intros H s. exists [EvSession]. split; [reflexivity|]. simpl. now rewrite H.
Qed.

Lemma adds_only_session_get {tr : Transport W} (u : str) :
  P (EvGet u) = true -> adds_only (W:=W) (X:=X) P (session_get u).
Proof.
  intros H. unfold session_get.
  apply adds_only_bind; [now apply adds_only_emit | intros; apply adds_only_on_world].
Qed.

Lemma adds_only_deliver {tr : Transport W}
  (name : str) (body : bytes) (save_path : option str) (return_content : bool) :
  P EvCwd = true -> (forall d, P (EvMkdir d) = true) ->
  (forall f b, P (EvWrite f b) = true) ->
  adds_only (W:=W) (X:=X) P (deliver name body save_path return_content).
Proof.
  intros H1 H2 H3. unfold deliver. destruct return_content; [apply adds_only_ret|].
  apply adds_only_bind.
  - destruct save_path; [apply adds_only_ret|].
    apply adds_only_bind; [now apply adds_only_emit | intros; apply adds_only_on_world].
  - intros d. apply adds_only_bind; [apply adds_only_emit, H2|]. intros _.
    apply adds_only_bind; [apply adds_only_on_world|]. intros _.
    apply adds_only_bind; [apply adds_only_emit, H3|]. intros _.
    apply adds_only_bind; [apply adds_only_on_world|]. intros _.
    apply adds_only_ret.
Qed.

End Adds.

(** Steps through the structure of a call, leaving the kinds of the calls it
    records. *)
Ltac adds_step :=
  first
    [ progress intros
    | apply adds_only_ret
    | apply adds_only_raise
    | apply adds_only_of_outside
    | apply adds_only_get_self
    | apply adds_only_set_self
    | apply adds_only_on_world
    | apply adds_only_truncate
    | apply adds_only_deliver; [reflexivity | reflexivity | reflexivity]
    | apply adds_only_get_session; reflexivity
    | apply adds_only_session_get; reflexivity
    | apply adds_only_emit; reflexivity
    | apply adds_only_try
    | apply adds_only_bind
    | apply adds_only_if ].

(** ** C6: the login check in front of the Z-Library calls *)

Section ZLibraryCalls.

Import Eff ZLibrary ZStates Props.

Context {rt : PyRuntime} {W : Type} {tr : Transport W}.
Context {C : Type} {cl : ZlibraryClient C}.

Lemma try_bind {X A B : Type} (c : M (W:=W) (X:=X) A) (k : A -> M (W:=W) (X:=X) B)
  (h : exn -> M (W:=W) (X:=X) B) (s : state W X) :
  try_except (bind c k) h s =
  match c s with
  | (Ok a, s1) => try_except (k a) h s1
  | (Raise e, s1) => h e s1
  end.
Proof.
  unfold try_except, bind. now destruct (c s) as [[a | e] s1].
Qed.

Lemma adds_only_on_client {A : Type} (P : event -> bool) (ev : event)
  (op : C -> outside A * C) :
  P ev = true -> adds_only (W:=W) P (on_client ev op).
Proof.
  intros H s. unfold on_client.
  destruct (self s) as [c|].
  - destruct (op c) as [r c']. exists [ev]. split; [reflexivity|].
    simpl. now rewrite H.
  - exists []. rewrite app_nil_r. now split.
Qed.

Ltac zl_adds :=
  repeat first
    [ apply adds_only_on_client; reflexivity
    | adds_step
    | match goal with
      | |- adds_only _ (match ?x with _ => _ end) => destruct x as [[? ?]|]
      end ].

(** What follows the login check in [search] makes no login attempt. *)
Lemma search_rest_no_login
  (normalize_results : pyval -> outside (list SearchResult))
  (query : str) (limit : Z) :
  adds_only (W:=W) no_login
    (try_except
       (bind (on_client (EvClientSearch query limit) (client_search query limit))
             (fun results => of_outside (normalize_results results)))
       (fun e =>
          if is_AuthenticationError e then raise e
          else raise (SearchError (lit "Z-Library search failed: " ++ exn_str e)
                                  (Some (lit "zlibrary"))))).
Proof. zl_adds. Qed.

Lemma search_after_check
  (normalize_results : pyval -> outside (list SearchResult))
  (p : ZLibraryPlatform) (query : str) (limit : Z) (s s1 : state W (option C)) :
  _ensure_logged_in p s = (Ok tt, s1) ->
  exists evs,
    log (snd (search normalize_results p query limit s)) = log s1 ++ evs
    /\ forallb no_login evs = true.
Proof.
  intros H. unfold search. rewrite try_bind, H.
  apply (search_rest_no_login normalize_results query limit s1).
Qed.

Lemma download_after_check
  (p : ZLibraryPlatform) (info : DownloadInfo)
  (save_path : option str) (return_content : bool) (s s1 : state W (option C)) :
  _ensure_logged_in p s = (Ok tt, s1) ->
  exists evs,
    log (snd (download p info save_path return_content s)) = log s1 ++ evs
    /\ forallb no_login evs = true.
Proof.
  intros H. unfold download. rewrite try_bind, H.
  match goal with
  | |- exists evs, log (snd (?c s1)) = _ /\ _ =>
      assert (Hc : adds_only no_login c) by zl_adds; exact (Hc s1)
  end.
Qed.

Lemma get_book_info_after_check
  (details_to_info : pyval -> outside (option BookInfo))
  (p : ZLibraryPlatform) (info : DownloadInfo) (s s1 : state W (option C)) :
  _ensure_logged_in p s = (Ok tt, s1) ->
  exists evs,
    log (snd (get_book_info details_to_info p info s)) = log s1 ++ evs
    /\ forallb no_login evs = true.
Proof.
  intros H. unfold get_book_info. rewrite try_bind, H.
  match goal with
  | |- exists evs, log (snd (?c s1)) = _ /\ _ =>
      assert (Hc : adds_only no_login c) by zl_adds; exact (Hc s1)
  end.
Qed.

Lemma calls_after_failed_check
  (normalize_results : pyval -> outside (list SearchResult))
  (details_to_info : pyval -> outside (option BookInfo))
  (p : ZLibraryPlatform) (info : DownloadInfo) (query : str) (limit : Z)
  (save_path : option str) (return_content : bool) (s s1 : state W (option C)) :
  _ensure_logged_in p s = (Raise authentication_failed, s1) ->
  search normalize_results p query limit s = (Raise authentication_failed, s1)
  /\ download p info save_path return_content s = (Raise authentication_failed, s1)
  /\ get_book_info details_to_info p info s = (Ok None, s1).
Proof.
  intros H. unfold search, download, get_book_info.
  rewrite !try_bind, H. repeat split.
Qed.

End ZLibraryCalls.

(** C6, as stated, fails on the code for the info call: with a client whose
    [login] is refused, [get_book_info] makes the three login attempts and
    then returns [None]; it does not fail with [AuthenticationError].  The
    handler of [get_book_info] catches every [Exception], while those of
    [search] and [download] re-raise an [AuthenticationError]. *)
Lemma zlibrary_info_counterexample :
  @ZLibrary.get_book_info Sample.runtime unit bool Sample.refusing_client
    (fun _ => Returned None)
    (ZLibrary.new (lit "reader@example.org") (lit "secret"))
    {| platform := ZLIBRARY; download_url := None;
       book_id := Some (lit "5393918"); hash_id := Some (lit "a9bc43");
       file_name := None; requires_auth := true; additional_params := None |}
    (Sample.start None)
  = (Ok None,
     {| Eff.world := tt; Eff.self := Some false;
        Eff.log := [ Eff.EvLogin (lit "reader@example.org") (lit "secret");
                     Eff.EvLogin (lit "reader@example.org") (lit "secret");
                     Eff.EvLogin (lit "reader@example.org") (lit "secret") ] |}).
Proof. vm_compute. reflexivity. Qed.

(** C6, amended.  [search], [download] and [get_book_info] of the Z-Library
    adapter start with [_ensure_logged_in], which works on the client the
    adapter holds (a fresh one if it holds none) and records [k] calls of
    [login], with [k] at most 3.  If that client is logged in, no login is
    attempted ([k = 0]).  Either the check ends with a client that is logged
    in, and each of the three calls goes on from the state the check left,
    attempting no further login; or all 3 attempts have been used up, and
    then [search] and [download] fail with [AuthenticationError("Failed to
    login to Z-Library after multiple attempts")], while [get_book_info]
    returns [None]. *)
Theorem zlibrary_login_check_before_calls
  {rt : PyRuntime} {W : Type} {tr : Eff.Transport W}
  {C : Type} {cl : ZLibrary.ZlibraryClient C}
  (normalize_results : pyval -> outside (list SearchResult))
  (details_to_info : pyval -> outside (option BookInfo))
  (email password : str) (info : DownloadInfo) (query : str) (limit : Z)
  (save_path : option str) (return_content : bool)
  (s : Eff.state W (option C)) :
  let p := ZLibrary.new email password in
  exists c' k,
    k <= 3
    /\ snd (ZLibrary._ensure_logged_in p s) = ZStates.after_logins p s c' k
    /\ (ZLibrary.isLoggedIn (ZStates.held_client s) = true -> k = 0)
    /\ ((fst (ZLibrary._ensure_logged_in p s) = Ok tt
         /\ ZLibrary.isLoggedIn c' = true
         /\ (exists evs,
               Eff.log (snd (ZLibrary.search normalize_results p query limit s))
               = Eff.log (ZStates.after_logins p s c' k) ++ evs
               /\ forallb Props.no_login evs = true)
         /\ (exists evs,
               Eff.log (snd (ZLibrary.download p info save_path return_content s))
               = Eff.log (ZStates.after_logins p s c' k) ++ evs
               /\ forallb Props.no_login evs = true)
         /\ (exists evs,
               Eff.log (snd (ZLibrary.get_book_info details_to_info p info s))
               = Eff.log (ZStates.after_logins p s c' k) ++ evs
               /\ forallb Props.no_login evs = true))
        \/ (fst (ZLibrary._ensure_logged_in p s) = Raise ZLibrary.authentication_failed
            /\ k = 3
            /\ ZLibrary.isLoggedIn (ZStates.held_client s) = false
            /\ ZLibrary.search normalize_results p query limit s
               = (Raise ZLibrary.authentication_failed, ZStates.after_logins p s c' 3)
            /\ ZLibrary.download p info save_path return_content s
               = (Raise ZLibrary.authentication_failed, ZStates.after_logins p s c' 3)
            /\ ZLibrary.get_book_info details_to_info p info s
               = (Ok None, ZStates.after_logins p s c' 3))).
Proof.
  intros p.
  destruct (ensure_logged_in_spec p s) as [c' [k [Hk [Hsnd [Hzero Hfst]]]]].
  exists c', k. split; [exact Hk|]. split; [exact Hsnd|]. split; [exact Hzero|].
  destruct Hfst as [[Hok Hlogged] | [Hfail [Hk3 Hnot]]].
  - left. split; [exact Hok|]. split; [exact Hlogged|].
    assert (E : ZLibrary._ensure_logged_in p s = (Ok tt, ZStates.after_logins p s c' k)).
    { rewrite <- Hok, <- Hsnd. apply surjective_pairing. }
    split; [|split].
    + exact (search_after_check normalize_results p query limit s _ E).
    + exact (download_after_check p info save_path return_content s _ E).
    + exact (get_book_info_after_check details_to_info p info s _ E).
  - right. split; [exact Hfail|]. split; [exact Hk3|]. split; [exact Hnot|].
    assert (E : ZLibrary._ensure_logged_in p s
                = (Raise ZLibrary.authentication_failed, ZStates.after_logins p s c' 3)).
    { change 3 with (Z.to_nat (ZLibrary._max_retries p)). rewrite <- Hk3.
      rewrite <- Hfail, <- Hsnd. apply surjective_pairing. }
    exact (calls_after_failed_check normalize_results details_to_info p info query limit
             save_path return_content s _ E).
Qed.

(* ================================================================== *)
(** * Calls that add a known beginning to the log, and what calls raise *)
(* ================================================================== *)

Section AddsAfter.

Import Eff Props.

Context {W X : Type}.

Variable P : event -> bool.

Lemma adds_after_nil {A : Type} (c : M (W:=W) (X:=X) A) :
  adds_only P c -> adds_after [] P c.
Proof. intros H s. exact (H s). Qed.

Lemma adds_only_after {A : Type} (c : M (W:=W) (X:=X) A) :
  adds_after [] P c -> adds_only P c.
Proof. intros H s. exact (H s). Qed.

Lemma adds_after_bind_l {A B : Type} (pre : list event)
  (c : M (W:=W) (X:=X) A) (k : A -> M (W:=W) (X:=X) B) :
  adds_after pre P c -> (forall a, adds_only P (k a)) -> adds_after pre P (bind c k).
Proof.
  intros Hc Hk s. unfold bind.
  destruct (Hc s) as [e1 [H1 P1]].
  destruct (c s) as [[a | e] s1]; cbn [snd] in *.
  - destruct (Hk a s1) as [e2 [H2 P2]].
    exists (e1 ++ e2). split.
    + rewrite H2, H1. now rewrite <- !app_assoc.
    + rewrite forallb_app, P1, P2. reflexivity.
  - exists e1. now split.
Qed.

Lemma adds_after_bind_r {A B : Type} (pre1 pre2 : list event)
  (c : M (W:=W) (X:=X) A) (k : A -> M (W:=W) (X:=X) B) :
  adds_exactly pre1 c -> (forall a, adds_after pre2 P (k a)) ->
  adds_after (pre1 ++ pre2) P (bind c k).
Proof.
  intros Hc Hk s. unfold bind.
  destruct (Hc s) as [a [s1 [E H1]]]. rewrite E.
  destruct (Hk a s1) as [e2 [H2 P2]].
  exists e2. split; [|exact P2].
  rewrite H2, H1. now rewrite <- !app_assoc.
Qed.

Lemma adds_after_try {A : Type} (pre : list event)
  (c : M (W:=W) (X:=X) A) (h : exn -> M (W:=W) (X:=X) A) :
  adds_after pre P c -> (forall e, adds_only P (h e)) ->
  adds_after pre P (try_except c h).
Proof.
  intros Hc Hh s. unfold try_except.
  destruct (Hc s) as [e1 [H1 P1]].
  destruct (c s) as [[a | e] s1]; cbn [snd] in *.
  - exists e1. now split.
  - destruct (Hh e s1) as [e2 [H2 P2]].
    exists (e1 ++ e2). split.
    + rewrite H2, H1. now rewrite <- !app_assoc.
    + rewrite forallb_app, P1, P2. reflexivity.
Qed.

Lemma adds_exactly_emit (ev : event) : adds_exactly (W:=W) (X:=X) [ev] (emit ev).
Proof. intros s. now exists tt, {| world := world s; self := self s; log := log s ++ [ev] |}. Qed.

Lemma adds_exactly_get_session {tr : Transport W} :
  adds_exactly (W:=W) (X:=X) [EvSession] _get_session.
Proof.
  intros s.
  now exists tt, {| world := get_session (world s); self := self s;
                    log := log s ++ [EvSession] |}.
Qed.

End AddsAfter.

Section Raises.

Import Eff Props.

Context {W X : Type}.

Variable Q : exn -> Prop.

Lemma raises_only_ret {A : Type} (a : A) : raises_only (W:=W) (X:=X) Q (ret a).
Proof. intros s e s' E. discriminate. Qed.

Lemma raises_only_raise {A : Type} (e : exn) :
  Q e -> raises_only (W:=W) (X:=X) (A:=A) Q (raise e).
Proof. intros H s e' s' E. unfold raise in E. now inversion E; subst. Qed.

Lemma raises_only_bind {A B : Type}
  (c : M (W:=W) (X:=X) A) (k : A -> M (W:=W) (X:=X) B) :
  raises_only Q c -> (forall a, raises_only Q (k a)) -> raises_only Q (bind c k).
Proof.
  intros Hc Hk s e s' E. unfold bind in E.
  destruct (c s) as [[a | e1] s1] eqn:Ec.
  - exact (Hk a s1 e s' E).
  - inversion E; subst. exact (Hc s e s' Ec).
Qed.

Lemma raises_only_try {A : Type}
  (c : M (W:=W) (X:=X) A) (h : exn -> M (W:=W) (X:=X) A) :
  (forall e, raises_only Q (h e)) -> raises_only Q (try_except c h).
Proof.
  intros Hh s e s' E. unfold try_except in E.
  destruct (c s) as [[a | e1] s1]; [discriminate|].
  exact (Hh e1 s1 e s' E).
Qed.

Lemma raises_only_if {A : Type} (b : bool) (c1 c2 : M (W:=W) (X:=X) A) :
  raises_only Q c1 -> raises_only Q c2 -> raises_only Q (if b then c1 else c2).
Proof. destruct b; auto. Qed.

Hypothesis outside_errors : forall cls text, Q (PyException cls text).

Lemma raises_only_of_outside {A : Type} (o : outside A) :
  raises_only (W:=W) (X:=X) Q (of_outside o).
Proof.
  intros s e s' E. unfold of_outside, of_result in E.
  destruct o; inversion E; subst. apply outside_errors.
Qed.

Lemma raises_only_on_world {A : Type} (op : W -> outside A * W) :
  raises_only (W:=W) (X:=X) Q (on_world op).
Proof.
  intros s e s' E. unfold on_world in E.
  destruct (op (world s)) as [[a | cls text] w]; inversion E; subst.
  apply outside_errors.
Qed.

Lemma raises_only_emit (ev : event) : raises_only (W:=W) (X:=X) Q (emit ev).
Proof. intros s e s' E. discriminate. Qed.

Lemma raises_only_get_session {tr : Transport W} :
  raises_only (W:=W) (X:=X) Q _get_session.
Proof. intros s e s' E. discriminate. Qed.

Lemma raises_only_session_get {tr : Transport W} (u : str) :
  raises_only (W:=W) (X:=X) Q (session_get u).
Proof.
  unfold session_get.
  apply raises_only_bind; [apply raises_only_emit | intros; apply raises_only_on_world].
Qed.

Lemma raises_only_truncate {rt : PyRuntime} (name : str) :
  raises_only (W:=W) (X:=X) Q (truncate_filename name).
Proof.
  unfold truncate_filename.
  destruct (Base._truncate_filename name Base.default_max_length);
    [apply raises_only_ret | apply raises_only_raise, outside_errors].
Qed.

Lemma raises_only_deliver {tr : Transport W}
  (name : str) (body : bytes) (save_path : option str) (return_content : bool) :
  raises_only (W:=W) (X:=X) Q (deliver name body save_path return_content).
Proof.
  unfold deliver. destruct return_content; [apply raises_only_ret|].
  apply raises_only_bind.
  - destruct save_path; [apply raises_only_ret|].
    apply raises_only_bind; [apply raises_only_emit | intros; apply raises_only_on_world].
  - intros d. apply raises_only_bind; [apply raises_only_emit|]. intros _.
    apply raises_only_bind; [apply raises_only_on_world|]. intros _.
    apply raises_only_bind; [apply raises_only_emit|]. intros _.
    apply raises_only_bind; [apply raises_only_on_world|]. intros _.
    apply raises_only_ret.
Qed.

End Raises.

(* ================================================================== *)
(** * Properties of the Liber3 adapter *)
(* ================================================================== *)

Section Liber3Facts.

Import Eff Props Liber3 L3Handles L3Parts.

Context {rt : PyRuntime} {W : Type} {tr : Transport W}.

Lemma adds_only_or_raise {A : Type} (P : event -> bool) (cls op : str) (v : pyval)
  (o : option A) :
  adds_only (W:=W) (X:=unit) P (or_raise cls op v o).
Proof. unfold or_raise. destruct o; [apply adds_only_ret | apply adds_only_raise]. Qed.

Lemma raises_only_or_raise {A : Type} (Q : exn -> Prop) (cls op : str) (v : pyval)
  (o : option A) :
  (forall c t, Q (PyException c t)) ->
  raises_only (W:=W) (X:=unit) Q (or_raise cls op v o).
Proof.
  intros H. unfold or_raise. destruct o; [apply raises_only_ret | apply raises_only_raise, H].
Qed.

Ltac l3_adds :=
  repeat first
    [ apply adds_only_or_raise
    | adds_step
    | match goal with
      | |- adds_only _ (match ?x with _ => _ end) => destruct x as [[? ?] ?]
      end ].

(** The batch detail call posts once, to the detail URL, with the
    identifiers it was given, and posts nothing else. *)
Lemma book_details_posts_once (book_ids : list str) :
  adds_after (W:=W) (X:=unit)
    [EvPost detail_url (detail_payload book_ids)] no_post
    (_get_book_details book_ids).
Proof.
  unfold _get_book_details. apply adds_after_try; [|l3_adds].
  apply adds_after_bind_l; [|l3_adds].
  unfold session_post.
  change [EvPost detail_url (detail_payload book_ids)]
    with ([EvPost detail_url (detail_payload book_ids)] ++ []).
  apply adds_after_bind_r; [apply adds_exactly_emit|].
  intros _. apply adds_after_nil, adds_only_on_world.
Qed.

Lemma refetch_posts_once (id : str) :
  adds_after (W:=W) (X:=unit) [EvSession; refetch_of id] no_post (refetch id).
Proof.
  unfold refetch, refetch_of.
  change [EvSession; EvPost detail_url (detail_payload [id])]
    with ([EvSession] ++ [EvPost detail_url (detail_payload [id])]).
  apply adds_after_bind_r; [apply adds_exactly_get_session|].
  intros _. apply adds_after_bind_l; [apply book_details_posts_once|].
  l3_adds.
Qed.

Lemma outside_not_insufficient (cls text : str) : not_insufficient (PyException cls text).
Proof. discriminate. Qed.

Lemma no_details_not_insufficient : not_insufficient no_details.
Proof. vm_compute. discriminate. Qed.

Lemma status_not_insufficient (t : str) :
  not_insufficient (fail (lit "Download failed with status " ++ t)).
Proof. vm_compute. discriminate. Qed.

Ltac l3_raises :=
  repeat first
    [ progress intros
    | apply raises_only_or_raise; apply outside_not_insufficient
    | apply raises_only_ret
    | apply raises_only_raise;
        first [ apply outside_not_insufficient | apply no_details_not_insufficient
              | apply status_not_insufficient ]
    | apply raises_only_of_outside; apply outside_not_insufficient
    | apply raises_only_on_world; apply outside_not_insufficient
    | apply raises_only_get_session
    | apply raises_only_session_get; apply outside_not_insufficient
    | apply raises_only_truncate; apply outside_not_insufficient
    | apply raises_only_deliver; apply outside_not_insufficient
    | apply raises_only_try
    | apply raises_only_bind
    | apply raises_only_if ].

(** The re-fetch never raises the "insufficient" error itself. *)
Lemma refetch_never_insufficient (id : str) :
  raises_only (W:=W) (X:=unit) not_insufficient (refetch id).
Proof. unfold refetch, _get_book_details. l3_raises. Qed.

Lemma fetch_and_deliver_never_insufficient (c e t : pyval)
  (save_path : option str) (return_content : bool) :
  raises_only not_insufficient (fetch_and_deliver c e t save_path return_content).
Proof. unfold fetch_and_deliver. l3_raises. Qed.

Lemma fetch_and_deliver_no_post (c e t : pyval)
  (save_path : option str) (return_content : bool) :
  adds_only no_post (fetch_and_deliver c e t save_path return_content).
Proof. unfold fetch_and_deliver. l3_adds. Qed.

(** [download_body] on a handle with an identifier, by whether the handle
    carries a content identifier and an extension. *)
Lemma download_body_complete (info : DownloadInfo) (id : str)
  (save_path : option str) (return_content : bool) :
  book_id info = Some id -> id <> [] ->
  carries_cid_and_extension info = true ->
  download_body info save_path return_content =
  fetch_and_deliver (get k_ipfs_cid (params info)) (get k_extension (params info))
    (get_or k_title (PStr (lit "unknown_book")) (params info))
    save_path return_content.
Proof.
  intros Hid Hne Hc. unfold download_body. rewrite Hid.
  destruct id as [|ch id]; [congruence|]. cbn [otruthy truthy negb].
  unfold carries_cid_and_extension, params in Hc.
  apply andb_prop in Hc as [H1 H2].
  unfold params. rewrite H1, H2. cbn [negb orb].
  unfold bind at 1. unfold ret. cbn beta iota.
  rewrite H1, H2. reflexivity.
Qed.

Lemma download_body_incomplete (info : DownloadInfo) (id : str)
  (save_path : option str) (return_content : bool) :
  book_id info = Some id -> id <> [] ->
  carries_cid_and_extension info = false ->
  download_body info save_path return_content =
  bind (refetch id)
    (fun '(c, e, t) =>
       if negb (truth c) || negb (truth e) then raise insufficient
       else fetch_and_deliver c e t save_path return_content).
Proof.
  intros Hid Hne Hc. unfold download_body. rewrite Hid.
  destruct id as [|ch id]; [congruence|]. cbn [otruthy truthy negb].
  unfold carries_cid_and_extension, params in Hc.
  replace (negb (truth (get k_ipfs_cid
                          match additional_params info with
                          | Some items => items | None => [] end))
           || negb (truth (get k_extension
                             match additional_params info with
                             | Some items => items | None => [] end)))
    with true.
  - reflexivity.
  - rewrite <- negb_andb, Hc. reflexivity.
Qed.

End Liber3Facts.

(** ** C7: when the Liber3 download fetches the details again *)

(** C7, as stated, fails on the code: this handle lacks the title, one of
    the three extra parameters, and its download makes no batch-detail call
    at all (the log holds the session and the one GET); the title defaults
    to [unknown_book]. *)
Lemma liber3_missing_title_counterexample :
  let info := {| platform := LIBER3; download_url := None;
                 book_id := Some (lit "d41d8cd98f00b204e9800998ecf8427e");
                 hash_id := None; file_name := None; requires_auth := false;
                 additional_params :=
                   Some [(lit "ipfs_cid", PStr (lit "bafykbzaced"));
                         (lit "extension", PStr (lit "epub"))] |} in
  L3Handles.carries_title info = false
  /\ @Liber3.download Sample.runtime unit (Sample.transport PNone) info None true
       (Sample.start tt)
     = (Ok {| success := true; file_path := None;
              dr_file_name := Some (lit "unknown_book.epub");
              file_size := Some 4%Z; error_message := None;
              content := Some [37; 80; 68; 70]%N |},
        {| Eff.world := tt; Eff.self := tt;
           Eff.log :=
             [Eff.EvSession;
              Eff.EvGet (lit "https://gateway-ipfs.st/ipfs/bafykbzaced?filename=unknown_book.epub")] |}).
Proof. cbv zeta. split; vm_compute; reflexivity. Qed.

(** C7, amended.  For a Liber3 handle with a book identifier: if the handle
    carries a content identifier and a file extension (both true values),
    the download makes no batch-detail call, whether or not it carries a
    title; if one of the two is missing, the download opens the session and
    makes exactly one batch-detail call, for that single identifier, before
    anything else.  The error "Insufficient book information for download"
    (the spec's InsufficientDownloadInfo) is raised exactly when one of the
    two was missing and the re-fetch returned values of which the content
    identifier or the extension is still missing; [download] hands every
    error on as [DownloadError("Liber3 download failed: ...")]. *)
Theorem liber3_refetch_once_when_cid_or_extension_missing
  {rt : PyRuntime} {W : Type} {tr : Eff.Transport W}
  (info : DownloadInfo) (id : str)
  (save_path : option str) (return_content : bool) (s : Eff.state W unit) :
  book_id info = Some id -> id <> [] ->
  (L3Handles.carries_cid_and_extension info = true ->
   exists evs,
     Eff.log (snd (Liber3.download info save_path return_content s)) = Eff.log s ++ evs
     /\ forallb Props.no_post evs = true)
  /\ (L3Handles.carries_cid_and_extension info = false ->
      exists evs,
        Eff.log (snd (Liber3.download info save_path return_content s))
        = Eff.log s ++ [Eff.EvSession; L3Handles.refetch_of id] ++ evs
        /\ forallb Props.no_post evs = true)
  /\ (fst (Liber3.download_body info save_path return_content s) = Raise Liber3.insufficient
      <-> L3Handles.carries_cid_and_extension info = false
          /\ exists c e t s1,
               Liber3.refetch id s = (Ok (c, e, t), s1)
               /\ truth c && truth e = false)
  /\ (forall e s1,
        Liber3.download_body info save_path return_content s = (Raise e, s1) ->
        Liber3.download info save_path return_content s
        = (Raise (DownloadError (lit "Liber3 download failed: " ++ exn_str e)
                                (Some (lit "liber3"))), s1)).
Proof.
  intros Hid Hne. split; [|split; [|split]].
  - intros Hc. unfold Liber3.download.
    rewrite (download_body_complete info id save_path return_content Hid Hne Hc).
    apply (adds_only_try Props.no_post); [apply fetch_and_deliver_no_post|].
    intros e. apply adds_only_raise.
  - intros Hc. unfold Liber3.download.
    rewrite (download_body_incomplete info id save_path return_content Hid Hne Hc).
    apply (adds_after_try Props.no_post); [|intros e; apply adds_only_raise].
    apply adds_after_bind_l; [apply refetch_posts_once|].
    intros [[c e] t].
    apply adds_only_if; [apply adds_only_raise | apply fetch_and_deliver_no_post].
  - destruct (L3Handles.carries_cid_and_extension info) eqn:Hc.
    + rewrite (download_body_complete info id save_path return_content Hid Hne Hc).
      split.
      * intros H. exfalso.
        destruct (Liber3.fetch_and_deliver _ _ _ save_path return_content s)
          as [r s1] eqn:E.
        cbn [fst] in H. subst r.
        exact (fetch_and_deliver_never_insufficient _ _ _ save_path return_content
                 s _ s1 E eq_refl).
      * intros [H _]. discriminate.
    + rewrite (download_body_incomplete info id save_path return_content Hid Hne Hc).
      unfold Eff.bind.
      destruct (Liber3.refetch id s) as [[[[c e] t] | e0] s1] eqn:E.
      * destruct (truth c && truth e) eqn:Hce.
        -- apply andb_prop in Hce as [H1 H2]. rewrite H1, H2. cbn [negb orb].
           split.
           ++ intros H. exfalso.
              destruct (Liber3.fetch_and_deliver c e t save_path return_content s1)
                as [r s2] eqn:E2.
              cbn [fst] in H. subst r.
              exact (fetch_and_deliver_never_insufficient c e t save_path return_content
                       s1 _ s2 E2 eq_refl).
           ++ intros [_ [c' [e' [t' [s1' [H Hf]]]]]].
              inversion H; subst. rewrite H1, H2 in Hf. discriminate.
        -- rewrite <- negb_andb, Hce. cbn [negb fst].
           split; [|reflexivity].
           intros _. split; [reflexivity|]. now exists c, e, t, s1.
      * cbn [fst]. split.
        -- intros H. exfalso. injection H as ->.
           exact (refetch_never_insufficient id s _ s1 E eq_refl).
        -- intros [_ [c [e [t [s1' [H _]]]]]]. discriminate.
  - intros e s1 H. unfold Liber3.download, Eff.try_except. rewrite H. reflexivity.
Qed.

(** A handle without a content identifier, in a world whose detail endpoint
    knows the title and the extension of the book but no content
    identifier: one batch-detail call, then the "insufficient" error. *)
Lemma liber3_refetch_once_when_cid_or_extension_missing_witness :
  let id := lit "d41d8cd98f00b204e9800998ecf8427e" in
  let info := {| platform := LIBER3; download_url := None;
                 book_id := Some id;
                 hash_id := None; file_name := None; requires_auth := false;
                 additional_params :=
                   Some [(lit "extension", PStr (lit "epub"));
                         (lit "title", PStr (lit "Emma"))] |} in
  let tr := Sample.transport
              (Sample.detail_document id
                 (PDict [(lit "title", PStr (lit "Emma"));
                         (lit "extension", PStr (lit "epub"))])) in
  fst (@Liber3.download_body Sample.runtime unit tr info None true (Sample.start tt))
  = Raise Liber3.insufficient.
Proof.
  cbv zeta.
  apply (proj2 (proj1 (proj2 (proj2
    (@liber3_refetch_once_when_cid_or_extension_missing Sample.runtime unit
       (Sample.transport
          (Sample.detail_document (lit "d41d8cd98f00b204e9800998ecf8427e")
             (PDict [(lit "title", PStr (lit "Emma"));
                     (lit "extension", PStr (lit "epub"))])))
       {| platform := LIBER3; download_url := None;
          book_id := Some (lit "d41d8cd98f00b204e9800998ecf8427e");
          hash_id := None; file_name := None; requires_auth := false;
          additional_params :=
            Some [(lit "extension", PStr (lit "epub"));
                  (lit "title", PStr (lit "Emma"))] |}
       (lit "d41d8cd98f00b204e9800998ecf8427e") None true (Sample.start tt)
       eq_refl ltac:(vm_compute; discriminate)))))).
  split; [reflexivity|].
  exists PNone, (PStr (lit "epub")), (PStr (lit "Emma")).
  eexists. split; [vm_compute; reflexivity | reflexivity].
Defined.

(* ================================================================== *)
(** * Runs of the embedding on concrete inputs *)
(* ================================================================== *)

(** [str(n)], [strip] and the UTF-8 encoding. *)
Example of_Z_runs :
  of_Z 2020 = lit "2020" /\ of_Z (-7) = lit "-7" /\ of_Z 0 = lit "0"
  /\ of_nat 10 = lit "10".
Proof. repeat split; vm_compute; reflexivity. Qed.

Example strip_runs :
  strip ([32; 9] ++ lit "x y" ++ [12288; 10])%N = lit "x y".
Proof. vm_compute. reflexivity. Qed.

Example utf8_runs :
  utf8 [30465%N] = [231; 156; 129]%N
  /\ utf8 [233%N] = [195; 169]%N
  /\ utf8 [128512%N] = [240; 159; 152; 128]%N
  /\ utf8 (lit "a.b") = [97; 46; 98]%N.
Proof. repeat split; vm_compute; reflexivity. Qed.

(** Forty times U+4E66 and [.epub], 125 bytes: 28 characters of the base
    name stay, the result has 98 bytes. *)
Example truncate_multibyte_runs :
  Base._truncate_filename (repeat 20070%N 40 ++ lit ".epub") 100 =
    Some (repeat 20070%N 28 ++ Base.ellipsis_marker ++ lit ".epub")
  /\ utf8_len (repeat 20070%N 28 ++ Base.ellipsis_marker ++ lit ".epub") = 98%Z.
Proof. split; vm_compute; reflexivity. Qed.

(** A name of 150 letters without a dot: 91 letters stay. *)
Example truncate_no_extension_runs :
  Base._truncate_filename (repeat 120%N 150) 100 =
    Some (repeat 120%N 91 ++ Base.ellipsis_marker).
Proof. vm_compute. reflexivity. Qed.

(** A name that holds a lone surrogate cannot be encoded. *)
Example truncate_surrogate_runs :
  Base._truncate_filename [97; 55296; 98]%N 100 = None.
Proof. vm_compute. reflexivity. Qed.

(** The acquisition pattern of the code on four links. *)
Example download_pattern_runs :
  @Regex.match_anchored Sample.runtime CalibreWeb.download_pattern
     (lit "/opds/download/12/epub/") = true
  /\ @Regex.match_anchored Sample.runtime CalibreWeb.download_pattern
       (lit "/opds/download/12/epub/" ++ [10%N]) = true
  /\ @Regex.match_anchored Sample.runtime CalibreWeb.download_pattern
       (lit "/opds/download/12/epub") = false
  /\ @Regex.match_anchored Sample.runtime CalibreWeb.download_pattern
       (lit "/download/13/epub") = false.
Proof. repeat split; vm_compute; reflexivity. Qed.

(** The sample feed parsed without a limit. *)
Example parse_feed_runs :
  exists results,
    @CalibreWeb.parse_feed Sample.runtime
      (CalibreWeb.new (lit "http://localhost:8083/")) Sample.feed None
    = Returned results
    /\ map (fun r => (CalibreWeb.r_title r, CalibreWeb.r_year r,
                      CalibreWeb.r_download_link r)) results
       = [ (Some (lit "Dune"), PInt 1965,
            lit "http://localhost:8083/opds/download/12/epub/");
           (Some (lit "Emma"), PStr (lit "Unknown"), []) ].
Proof. eexists. split; vm_compute; reflexivity. Qed.

(** A Z-Library search with a client that accepts the login: one login,
    then the search of the client. *)
Example zlibrary_search_runs :
  @ZLibrary.search Sample.runtime unit bool Sample.accepting_client
    (fun _ => Returned [])
    (ZLibrary.new (lit "reader@example.org") (lit "secret"))
    (lit "dune") 5 (Sample.start None)
  = (Ok [],
     {| Eff.world := tt; Eff.self := Some true;
        Eff.log := [ Eff.EvLogin (lit "reader@example.org") (lit "secret");
                     Eff.EvClientSearch (lit "dune") 5 ] |}).
Proof. vm_compute. reflexivity. Qed.

(** The same search with a client that refuses the login: three attempts,
    then the error. *)
Example zlibrary_search_refused_runs :
  @ZLibrary.search Sample.runtime unit bool Sample.refusing_client
    (fun _ => Returned [])
    (ZLibrary.new (lit "reader@example.org") (lit "secret"))
    (lit "dune") 5 (Sample.start None)
  = (Raise ZLibrary.authentication_failed,
     {| Eff.world := tt; Eff.self := Some false;
        Eff.log := [ Eff.EvLogin (lit "reader@example.org") (lit "secret");
                     Eff.EvLogin (lit "reader@example.org") (lit "secret");
                     Eff.EvLogin (lit "reader@example.org") (lit "secret") ] |}).
Proof. vm_compute. reflexivity. Qed.

(** A Liber3 download of a handle without extra parameters, in a world whose
    detail endpoint knows the book: one batch-detail call, then the file. *)
Example liber3_download_runs :
  let id := lit "d41d8cd98f00b204e9800998ecf8427e" in
  @Liber3.download Sample.runtime unit
    (Sample.transport
       (Sample.detail_document id
          (PDict [(lit "title", PStr (lit "Pride and Prejudice"));
                  (lit "extension", PStr (lit "epub"));
                  (lit "ipfs_cid", PStr (lit "bafykbzaced"))])))
    {| platform := LIBER3; download_url := None; book_id := Some id;
       hash_id := None; file_name := None; requires_auth := false;
       additional_params := None |}
    (Some (lit "/books")) false (Sample.start tt)
  = (Ok {| success := true;
           file_path := Some (lit "/books/Pride_and_Prejudice.epub");
           dr_file_name := Some (lit "Pride_and_Prejudice.epub");
           file_size := Some 4%Z; error_message := None; content := None |},
     {| Eff.world := tt; Eff.self := tt;
        Eff.log :=
          [ Eff.EvSession;
            Eff.EvPost Liber3.detail_url (Liber3.detail_payload [id]);
            Eff.EvSession;
            Eff.EvGet (lit "https://gateway-ipfs.st/ipfs/bafykbzaced?filename=Pride_and_Prejudice.epub");
            Eff.EvMkdir (lit "/books");
            Eff.EvWrite (lit "/books/Pride_and_Prejudice.epub") [37; 80; 68; 70]%N ] |}).
Proof. cbv zeta. vm_compute. reflexivity. Qed.

(** The same download when nothing answers: the re-fetch yields nothing and
    the download fails with the error of line 145. *)
Example liber3_download_offline_runs :
  @Liber3.download Sample.runtime unit Sample.offline
    {| platform := LIBER3; download_url := None;
       book_id := Some (lit "d41d8cd98f00b204e9800998ecf8427e");
       hash_id := None; file_name := None; requires_auth := false;
       additional_params := None |}
    None false (Sample.start tt)
  = (Raise (DownloadError
              (lit "Liber3 download failed: Could not get book details from Liber3")
              (Some (lit "liber3"))),
     {| Eff.world := tt; Eff.self := tt;
        Eff.log :=
          [ Eff.EvSession;
            Eff.EvPost Liber3.detail_url
              (Liber3.detail_payload [lit "d41d8cd98f00b204e9800998ecf8427e"]) ] |}).
Proof. vm_compute. reflexivity. Qed.

(* ================================================================== *)
(** * Properties of the library's downloads and queries *)
(* ================================================================== *)

Section StatelessFacts.

Import Eff Props.

Context {W C : Type}.

Lemma stateless_returns {A : Type} (P : A -> Prop) (c : M (W:=W) (X:=unit) A) :
  returns_only P c -> returns_only P (Library.stateless (C:=C) c).
Proof.
  intros H s a s' E. unfold Library.stateless in E.
  destruct (c _) as [r s1] eqn:Ec. inversion E; subst.
  exact (H _ _ _ Ec).
Qed.

Lemma stateless_raises {A : Type} (Q : exn -> Prop) (c : M (W:=W) (X:=unit) A) :
  raises_only Q c -> raises_only Q (Library.stateless (C:=C) c).
Proof.
  intros H s e s' E. unfold Library.stateless in E.
  destruct (c _) as [r s1] eqn:Ec. inversion E; subst.
  exact (H _ _ _ Ec).
Qed.

Lemma stateless_adds {A : Type} (P : event -> bool) (c : M (W:=W) (X:=unit) A) :
  adds_only P c -> adds_only P (Library.stateless (C:=C) c).
Proof.
  intros H s. unfold Library.stateless.
  destruct (H {| world := world s; self := tt; log := log s |}) as [evs [E F]].
  destruct (c _) as [r s1]. cbn [snd log] in *. now exists evs.
Qed.

End StatelessFacts.

Section LibraryDownloads.

Import Eff Props Outcomes.

Context {rt : PyRuntime} {W : Type} {tr : Transport W}.

Lemma deliver_delivered {X : Type}
  (name : str) (body : bytes) (save_path : option str) (return_content : bool) :
  returns_only (W:=W) (X:=X) (delivered return_content)
    (deliver name body save_path return_content).
Proof.
  unfold deliver. destruct return_content.
  - apply returns_only_ret. repeat split.
  - repeat returns_step. repeat split.
Qed.

Lemma calibre_download_delivered
  (self : CalibreWeb.CalibreWebPlatform) (info : DownloadInfo)
  (save_path : option str) (return_content : bool) :
  returns_only (delivered return_content)
    (CalibreWeb.download self info save_path return_content).
Proof.
  unfold CalibreWeb.download.
  repeat first [ apply deliver_delivered | returns_step ].
Qed.

Lemma archive_download_delivered
  (info : DownloadInfo) (save_path : option str) (return_content : bool) :
  returns_only (delivered return_content)
    (ArchiveOrg.download info save_path return_content).
Proof.
  unfold ArchiveOrg.download.
  repeat first [ apply deliver_delivered | returns_step ].
Qed.

Lemma zlibrary_download_delivered {C : Type} {cl : ZLibrary.ZlibraryClient C}
  (p : ZLibrary.ZLibraryPlatform) (info : DownloadInfo)
  (save_path : option str) (return_content : bool) :
  returns_only (delivered return_content)
    (ZLibrary.download p info save_path return_content).
Proof.
  unfold ZLibrary.download.
  repeat first [ apply deliver_delivered | returns_step
               | match goal with |- returns_only _ (match ?x with _ => _ end) =>
                   destruct x as [[? ?]|] end ].
Qed.

Lemma liber3_download_delivered
  (info : DownloadInfo) (save_path : option str) (return_content : bool) :
  returns_only (delivered return_content)
    (Liber3.download info save_path return_content).
Proof.
  unfold Liber3.download, Liber3.download_body.
  repeat first [ apply deliver_delivered | returns_step
               | match goal with |- returns_only _ (match ?x with _ => _ end) =>
                   destruct x as [[? ?] ?] end ].
Qed.

Lemma annas_download_declined {an : AnnasArchive.AnnasPy W}
  (info : DownloadInfo) (save_path : option str) (return_content : bool) :
  returns_only declined (AnnasArchive.download info save_path return_content).
Proof.
  unfold AnnasArchive.download.
  repeat first [ returns_step
               | match goal with |- returns_only _ (match ?x with _ => _ end) =>
                   destruct x end ];
    repeat split.
Qed.

End LibraryDownloads.

(** [EbooksLibrary.download] (core.py 165-198) composed with the five
    adapters.  A download that returns has succeeded, with the bytes in memory
    exactly when [return_content] was set and the path of a file exactly
    when it was not, unless the handle is one of Anna's Archive: then the
    download that returns has not succeeded and carries a message and no
    file. *)
Theorem library_download_succeeds_or_lists_links
  {rt : PyRuntime} {W : Type} {tr : Eff.Transport W}
  {an : AnnasArchive.AnnasPy W} {C : Type} {cl : ZLibrary.ZlibraryClient C}
  (lib : Core.EbooksLibrary) (info : DownloadInfo)
  (save_path : option str) (return_content : bool)
  (s s' : Eff.state W (option C)) (r : DownloadResult) :
  Library.download lib info save_path return_content s = (Ok r, s') ->
  Core.enabled lib (platform info) = true
  /\ (if Platform_eqb (platform info) ANNAS_ARCHIVE
      then Outcomes.declined r
      else Outcomes.delivered return_content r).
Proof.
  intros H. unfold Library.download in H.
  destruct (Core.enabled lib (platform info)) eqn:En; [|discriminate].
  split; [reflexivity|]. cbn [negb] in H.
  revert H. generalize s r s'.
  change (Props.returns_only
            (fun r => if Platform_eqb (platform info) ANNAS_ARCHIVE
                      then Outcomes.declined r
                      else Outcomes.delivered return_content r)
            (Eff.try_except
               (Library.adapter_download lib info save_path return_content)
               (fun e => Eff.raise (Library.download_failed (platform info) e)))).
  apply returns_only_try; [|intros; apply returns_only_raise].
  unfold Library.adapter_download.
  destruct (platform info); cbn [Platform_eqb].
  - apply stateless_returns, calibre_download_delivered.
  - apply zlibrary_download_delivered.
  - apply stateless_returns, archive_download_delivered.
  - apply stateless_returns, liber3_download_delivered.
  - apply stateless_returns, annas_download_declined.
Qed.

Lemma library_download_succeeds_or_lists_links_witness :
  exists r s',
    @Library.download Sample.runtime unit (Sample.transport PNone) (Sample.annas [])
      bool Sample.accepting_client
      SampleLibrary.library SampleLibrary.archive_handle None true (Sample.start None)
    = (Ok r, s')
    /\ Outcomes.delivered true r.
Proof.
  eexists; eexists.
  match goal with |- ?E /\ _ => assert (H : E) by (vm_compute; reflexivity) end.
  split; [exact H|].
  exact (proj2 (library_download_succeeds_or_lists_links _ _ _ _ _ _ _ H)).
Defined.

Lemma library_download_raises_only
  {rt : PyRuntime} {W : Type} {tr : Eff.Transport W}
  {an : AnnasArchive.AnnasPy W} {C : Type} {cl : ZLibrary.ZlibraryClient C}
  (lib : Core.EbooksLibrary) (info : DownloadInfo)
  (save_path : option str) (return_content : bool) :
  Props.raises_only (W:=W) (X:=option C) (Outcomes.download_error_of (platform info))
    (Library.download lib info save_path return_content).
Proof.
  unfold Library.download.
  apply raises_only_if; [apply raises_only_raise; now eexists|].
  apply raises_only_try. intros e. apply raises_only_raise. now eexists.
Qed.

(** [EbooksLibrary.download] (core.py 185-198) only fails with a
    [DownloadError] that names the platform of the handle.  For a platform
    that is not enabled it fails before any adapter is called, so nothing
    is done to the world, the client or the log; whatever an adapter
    raises, its own [DownloadError] or [AuthenticationError] included, is
    wrapped as ["Download failed: " + str(e)]. *)
Theorem library_download_fails_with_download_error
  {rt : PyRuntime} {W : Type} {tr : Eff.Transport W}
  {an : AnnasArchive.AnnasPy W} {C : Type} {cl : ZLibrary.ZlibraryClient C}
  (lib : Core.EbooksLibrary) (info : DownloadInfo)
  (save_path : option str) (return_content : bool)
  (s : Eff.state W (option C)) :
  (forall e s',
     Library.download lib info save_path return_content s = (Raise e, s') ->
     Outcomes.download_error_of (platform info) e)
  /\ (Library.is_platform_enabled lib (platform info) = false ->
      Library.download lib info save_path return_content s
      = (Raise (DownloadError
                  (lit "Platform " ++ Library.Platform_str (platform info)
                   ++ lit " is not enabled")
                  (Some (Platform_value (platform info)))), s))
  /\ (Library.is_platform_enabled lib (platform info) = true ->
      forall e s',
        Library.adapter_download lib info save_path return_content s = (Raise e, s') ->
        Library.download lib info save_path return_content s
        = (Raise (DownloadError (lit "Download failed: " ++ exn_str e)
                                (Some (Platform_value (platform info)))), s')).
Proof.
  split; [exact (library_download_raises_only lib info save_path return_content s)|].
  unfold Library.is_platform_enabled, Library.download.
  destruct (Core.enabled lib (platform info)); cbn [negb]; repeat split;
    try discriminate.
  intros _ e s' H. unfold Eff.try_except. now rewrite H.
Qed.

(** [EbooksLibrary.download] on a Z-Library handle (core.py 192-198 over
    zlibrary.py 36-56 and 168-169): when the login check fails, the adapter
    raises [AuthenticationError] but the library raises the [DownloadError]
    that wraps its text, after exactly three recorded login attempts. *)
Theorem library_download_wraps_authentication_failure
  {rt : PyRuntime} {W : Type} {tr : Eff.Transport W}
  {an : AnnasArchive.AnnasPy W} {C : Type} {cl : ZLibrary.ZlibraryClient C}
  (lib : Core.EbooksLibrary) (info : DownloadInfo)
  (save_path : option str) (return_content : bool)
  (s : Eff.state W (option C)) :
  Library.is_platform_enabled lib ZLIBRARY = true ->
  platform info = ZLIBRARY ->
  fst (ZLibrary._ensure_logged_in (Library.zlibrary lib) s)
  = Raise ZLibrary.authentication_failed ->
  exists s1,
    ZLibrary.download (Library.zlibrary lib) info save_path return_content s
    = (Raise (AuthenticationError
                (lit "Failed to login to Z-Library after multiple attempts")
                (Some (lit "zlibrary"))), s1)
    /\ Library.download lib info save_path return_content s
       = (Raise (DownloadError
                   (lit "Download failed: Failed to login to Z-Library after multiple attempts")
                   (Some (lit "zlibrary"))), s1)
    /\ Eff.log s1
       = Eff.log s
         ++ repeat (Eff.EvLogin (ZLibrary.email (Library.zlibrary lib))
                                (ZLibrary.password (Library.zlibrary lib))) 3.
Proof.
  intros En Hp Hfail.
  destruct (ZLibrary._ensure_logged_in (Library.zlibrary lib) s) as [r s1] eqn:E.
  cbn [fst] in Hfail. subst r. exists s1.
  destruct (calls_after_failed_check (fun _ => Returned []) (fun _ => Returned None)
              (Library.zlibrary lib) info [] 0%Z save_path return_content s s1 E)
    as [_ [Hd _]].
  split; [exact Hd|]. split.
  - unfold Library.download, Library.is_platform_enabled in *.
    rewrite Hp, En. cbn [negb]. unfold Eff.try_except, Library.adapter_download.
    rewrite Hp, Hd. reflexivity.
  - destruct (ensure_logged_in_spec (Library.zlibrary lib) s)
      as [c' [k [_ [Hsnd [_ [[Hok _] | [_ [Hk _]]]]]]]].
    + rewrite E in Hok. discriminate.
    + rewrite E in Hsnd. cbn [snd] in Hsnd. subst s1 k. reflexivity.
Qed.

Lemma library_download_wraps_authentication_failure_witness :
  exists s1,
    @Library.download Sample.runtime unit (Sample.transport PNone) (Sample.annas [])
      bool Sample.refusing_client
      SampleLibrary.library SampleLibrary.zlibrary_handle None true (Sample.start None)
    = (Raise (DownloadError
                (lit "Download failed: Failed to login to Z-Library after multiple attempts")
                (Some (lit "zlibrary"))), s1)
    /\ Eff.log s1
       = repeat (Eff.EvLogin (lit "reader@example.org") (lit "secret")) 3.
Proof.
  destruct (@library_download_wraps_authentication_failure
              Sample.runtime unit (Sample.transport PNone) (Sample.annas [])
              bool Sample.refusing_client
              SampleLibrary.library SampleLibrary.zlibrary_handle None true
              (Sample.start None) eq_refl eq_refl eq_refl)
    as [s1 [_ [H1 H2]]].
  exists s1. split; [exact H1 | exact H2].
Defined.

(** [EbooksLibrary.get_book_info] (core.py 200-221) never raises: it returns
    in every state, whatever the adapters and the world do.  For a platform
    that is not enabled, and for Calibre-Web and Archive.org, whose
    adapters inherit [BasePlatform.get_book_info] (base.py 85-97), it
    returns [None] and does nothing to the world, the client or the log. *)
Theorem library_get_book_info_never_raises
  {rt : PyRuntime} {W : Type} {tr : Eff.Transport W}
  {C : Type} {cl : ZLibrary.ZlibraryClient C}
  (annas_get_book_info : DownloadInfo -> Eff.M (W:=W) (X:=unit) (option BookInfo))
  (lib : Core.EbooksLibrary) (info : DownloadInfo)
  (s : Eff.state W (option C)) :
  (exists o s', Library.get_book_info annas_get_book_info lib info s = (Ok o, s'))
  /\ (Library.is_platform_enabled lib (platform info) = false ->
      Library.get_book_info annas_get_book_info lib info s = (Ok None, s))
  /\ (platform info = CALIBRE_WEB \/ platform info = ARCHIVE_ORG ->
      Library.get_book_info annas_get_book_info lib info s = (Ok None, s)).
Proof.
  unfold Library.is_platform_enabled, Library.get_book_info.
  destruct (Core.enabled lib (platform info)); cbn [negb].
  - split; [|split; [discriminate|]].
    + unfold Eff.try_except.
      destruct (Library.adapter_get_book_info annas_get_book_info lib info s)
        as [[o | e] s1]; eexists; eexists; reflexivity.
    + unfold Eff.try_except, Library.adapter_get_book_info.
      intros [H | H]; rewrite H; reflexivity.
  - split; [now exists None, s | split; reflexivity].
Qed.

Lemma setup_platforms_by_cases (b1 b2 b3 b4 b5 : bool) :
  let l := (if b1 then [CALIBRE_WEB] else [])
           ++ (if b2 then [ZLIBRARY] else [])
           ++ (if b3 then [ARCHIVE_ORG] else [])
           ++ (if b4 then [LIBER3] else [])
           ++ (if b5 then [ANNAS_ARCHIVE] else []) in
  l = filter (fun p => existsb (Platform_eqb p) l) Outcomes.all_platforms
  /\ NoDup l
  /\ existsb (Platform_eqb CALIBRE_WEB) l = b1
  /\ existsb (Platform_eqb ZLIBRARY) l = b2
  /\ existsb (Platform_eqb ARCHIVE_ORG) l = b3
  /\ existsb (Platform_eqb LIBER3) l = b4
  /\ existsb (Platform_eqb ANNAS_ARCHIVE) l = b5.
Proof.
  destruct b1, b2, b3, b4, b5; cbn; repeat split;
    repeat constructor; simpl; intuition discriminate.
Qed.

(** [EbooksLibrary._setup_platforms], [get_enabled_platforms] and
    [is_platform_enabled] (core.py 56-91, 223-229).  The enabled platforms
    are listed once each, in the order Calibre-Web, Z-Library, Archive.org,
    Liber3, Anna's Archive.  A platform is enabled exactly when its switch
    is on and, for Calibre-Web, the URL is a non-empty string, for
    Z-Library, the email and the password both are; a library built without
    a configuration has Archive.org and Liber3. *)
Theorem enabled_platforms_follow_configuration (cfg : option LibraryConfig) :
  let lib := Core.new cfg in
  let c := match cfg with Some c => c | None => default_config end in
  Library.get_enabled_platforms lib
  = filter (Library.is_platform_enabled lib) Outcomes.all_platforms
  /\ NoDup (Library.get_enabled_platforms lib)
  /\ (forall p, In p (Library.get_enabled_platforms lib)
                <-> Library.is_platform_enabled lib p = true)
  /\ Library.is_platform_enabled lib CALIBRE_WEB
     = enable_calibre c && otruthy (calibre_web_url c)
  /\ Library.is_platform_enabled lib ZLIBRARY
     = enable_zlib c && otruthy (zlib_email c) && otruthy (zlib_password c)
  /\ Library.is_platform_enabled lib ARCHIVE_ORG = enable_archive c
  /\ Library.is_platform_enabled lib LIBER3 = enable_liber3 c
  /\ Library.is_platform_enabled lib ANNAS_ARCHIVE = enable_annas c
  /\ Library.get_enabled_platforms (Core.new None) = [ARCHIVE_ORG; LIBER3].
Proof.
  cbv zeta.
  set (c := match cfg with Some c => c | None => default_config end).
  unfold Library.get_enabled_platforms, Library.is_platform_enabled, Core.enabled,
    Core.new. cbn [Core.platforms Core.config]. fold c.
  unfold Core._setup_platforms.
  destruct (setup_platforms_by_cases
              (enable_calibre c && otruthy (calibre_web_url c))
              (enable_zlib c && otruthy (zlib_email c) && otruthy (zlib_password c))
              (enable_archive c) (enable_liber3 c) (enable_annas c))
    as [H0 [H1 [H2 [H3 [H4 [H5 H6]]]]]].
  repeat split; try assumption.
  - intros Hin. apply existsb_exists. exists p. split; [exact Hin|].
    now destruct p.
  - intros Hex. apply existsb_exists in Hex as [q [Hin Hq]].
    now destruct p, q; try discriminate.
Qed.

(* ================================================================== *)
(** * What a download does to the file system *)
(* ================================================================== *)

Section ReturnsHaving.

Import Eff Props Outcomes.

Context {W X : Type}.

Lemma returns_having_raise {A : Type} (Q : A -> list event -> Prop) (e : exn) :
  returns_having (W:=W) (X:=X) Q (raise e).
Proof. intros s a s' E. discriminate. Qed.

Lemma returns_having_if {A : Type} (Q : A -> list event -> Prop) (b : bool)
  (c1 c2 : M (W:=W) (X:=X) A) :
  returns_having Q c1 -> returns_having Q c2 ->
  returns_having Q (if b then c1 else c2).
Proof. destruct b; auto. Qed.

Lemma returns_having_bind {A B : Type} (P : event -> bool)
  (Q : B -> list event -> Prop)
  (c : M (W:=W) (X:=X) A) (k : A -> M (W:=W) (X:=X) B) :
  adds_only P c ->
  (forall b e1 e2, forallb P e1 = true -> Q b e2 -> Q b (e1 ++ e2)) ->
  (forall a, returns_having Q (k a)) ->
  returns_having Q (bind c k).
Proof.
  intros Hc HQ Hk s b s' E. unfold bind in E.
  destruct (Hc s) as [e1 [H1 P1]].
  destruct (c s) as [[a | e] s1]; [|discriminate]. cbn [snd] in H1.
  destruct (Hk a s1 b s' E) as [e2 [H2 Q2]].
  exists (e1 ++ e2). split; [now rewrite H2, H1, app_assoc | now apply HQ].
Qed.

Lemma returns_having_try {A : Type} (Q : A -> list event -> Prop)
  (c : M (W:=W) (X:=X) A) (h : exn -> M (W:=W) (X:=X) A) :
  returns_having Q c -> (forall e, returns_only (fun _ => False) (h e)) ->
  returns_having Q (try_except c h).
Proof.
  intros Hc Hh s a s' E. unfold try_except in E.
  destruct (c s) as [[a1 | e] s1] eqn:Ec.
  - inversion E; subst. exact (Hc s a s' Ec).
  - destruct (Hh e s1 a s' E).
Qed.

Lemma returns_having_stateless {C A : Type} (Q : A -> list event -> Prop)
  (c : M (W:=W) (X:=unit) A) :
  returns_having Q c -> returns_having Q (Library.stateless (C:=C) c).
Proof.
  intros H s a s' E. unfold Library.stateless in E.
  destruct (c _) as [r s1] eqn:Ec. inversion E; subst.
  exact (H _ _ _ Ec).
Qed.

Context {tr : Transport W}.

Lemma saved_after (save_path : option str) (r : DownloadResult) (e1 e2 : list event) :
  forallb no_write e1 = true -> saved save_path r e2 -> saved save_path r (e1 ++ e2).
Proof.
  intros H1 [before [dir [name [body [E [Hb Hr]]]]]].
  exists (e1 ++ before), dir, name, body. split.
  - now rewrite E, app_assoc.
  - split; [now rewrite forallb_app, H1, Hb | exact Hr].
Qed.

Lemma deliver_saved (name : str) (body : bytes) (save_path : option str) :
  returns_having (W:=W) (X:=X) (saved save_path) (deliver name body save_path false).
Proof.
  intros s r s' E. unfold deliver in E.
  destruct save_path as [d|].
  - unfold bind, ret, emit, on_world in E. cbn [world self log] in E.
    destruct (fs_mkdir d (world s)) as [[[] | c t] w1]; [|discriminate].
    cbn [to_result world self log] in E.
    destruct (fs_write (path_join d name) body w1) as [[[] | c t] w2]; [|discriminate].
    cbn [to_result] in E. inversion E; subst. cbn [log].
    exists [EvMkdir d; EvWrite (path_join d name) body].
    split; [now rewrite <- app_assoc|].
    exists [], d, name, body. repeat split. intros d' Hd. now inversion Hd.
  - unfold bind, ret, emit, on_world in E. cbn [world self log] in E.
    destruct (path_cwd (world s)) as [[d | c t] w0]; [|discriminate].
    cbn [to_result world self log] in E.
    destruct (fs_mkdir d w0) as [[[] | c t] w1]; [|discriminate].
    cbn [to_result world self log] in E.
    destruct (fs_write (path_join d name) body w1) as [[[] | c t] w2]; [|discriminate].
    cbn [to_result] in E. inversion E; subst. cbn [log].
    exists [EvCwd; EvMkdir d; EvWrite (path_join d name) body].
    split; [now rewrite <- !app_assoc|].
    exists [EvCwd], d, name, body. repeat split. discriminate.
Qed.

Lemma deliver_in_memory (P : event -> bool) (name : str) (body : bytes)
  (save_path : option str) :
  adds_only (W:=W) (X:=X) P (deliver name body save_path true).
Proof. apply adds_only_ret. Qed.

End ReturnsHaving.

Section LoginCalls.

Import Eff Props ZLibrary.

Context {rt : PyRuntime} {W C : Type} {cl : ZlibraryClient C}.

Variable P : event -> bool.

Hypothesis logins_allowed : forall e p, P (EvLogin e p) = true.

Lemma adds_only_isLoggedIn : adds_only (W:=W) P client_isLoggedIn.
Proof.
  apply adds_nothing. intros s. unfold client_isLoggedIn. now destruct (self s).
Qed.

Lemma adds_only_login_loop (p : ZLibraryPlatform) (left : nat) :
  adds_only (W:=W) P (login_loop p left).
Proof.
  induction left as [|left IH]; cbn [login_loop]; [apply adds_only_raise|].
  apply adds_only_bind.
  - apply adds_only_try; [|intros; apply adds_only_ret].
    apply adds_only_bind; [|intros; apply adds_only_isLoggedIn].
    apply adds_only_on_client, logins_allowed.
  - intros [|]; [apply adds_only_ret | exact IH].
Qed.

Lemma adds_only_ensure_logged_in (p : ZLibraryPlatform) :
  adds_only (W:=W) P (_ensure_logged_in p).
Proof.
  unfold _ensure_logged_in.
  apply adds_only_bind; [apply adds_only_get_self|]. intros z.
  apply adds_only_bind.
  - destruct z; [apply adds_only_ret | apply adds_only_set_self].
  - intros _. apply adds_only_bind; [apply adds_only_isLoggedIn|].
    intros [|]; cbn [negb]; [apply adds_only_ret | apply adds_only_login_loop].
Qed.

End LoginCalls.

(** Steps through the calls of an adapter, leaving the kinds of the calls it
    records. *)
Ltac calls_step :=
  first
    [ apply deliver_in_memory
    | apply adds_only_ensure_logged_in; reflexivity
    | apply adds_only_on_client; reflexivity
    | apply adds_only_or_raise
    | adds_step
    | match goal with
      | |- Props.adds_only _ (match ?x with _ => _ end) => destruct x
      end ].

(** Steps through a download up to the delivery of the file. *)
Ltac having_step :=
  first
    [ progress intros
    | apply returns_having_raise
    | apply deliver_saved
    | apply returns_having_try; [|solve [repeat returns_step]]
    | apply returns_having_if
    | apply (returns_having_bind Outcomes.no_write);
        [ solve [ unfold Liber3.refetch, Liber3._get_book_details, Eff.session_post;
                  repeat calls_step ]
        | apply saved_after
        | intros ? ] ].

Section DownloadsAndFiles.

Import Eff Props Outcomes.

Context {rt : PyRuntime} {W : Type} {tr : Transport W}.

Lemma calibre_download_saved (self : CalibreWeb.CalibreWebPlatform)
  (info : DownloadInfo) (save_path : option str) :
  returns_having (saved save_path) (CalibreWeb.download self info save_path false).
Proof. unfold CalibreWeb.download. repeat having_step. Qed.

Lemma archive_download_saved (info : DownloadInfo) (save_path : option str) :
  returns_having (saved save_path) (ArchiveOrg.download info save_path false).
Proof. unfold ArchiveOrg.download. repeat having_step. Qed.

Lemma liber3_download_saved (info : DownloadInfo) (save_path : option str) :
  returns_having (saved save_path) (Liber3.download info save_path false).
Proof.
  unfold Liber3.download, Liber3.download_body, Liber3.fetch_and_deliver.
  repeat first
    [ having_step
    | match goal with
      | |- returns_having _ (match ?x with _ => _ end) => destruct x as [[? ?] ?]
      end ].
Qed.

Lemma zlibrary_download_saved {C : Type} {cl : ZLibrary.ZlibraryClient C}
  (p : ZLibrary.ZLibraryPlatform) (info : DownloadInfo) (save_path : option str) :
  returns_having (saved save_path) (ZLibrary.download p info save_path false).
Proof.
  unfold ZLibrary.download.
  repeat first
    [ having_step
    | match goal with
      | |- returns_having _ (match ?x with _ => _ end) => destruct x as [[? ?]|]
      end ].
Qed.

Lemma calibre_download_in_memory (self : CalibreWeb.CalibreWebPlatform)
  (info : DownloadInfo) (save_path : option str) :
  adds_only no_file_system (CalibreWeb.download self info save_path true).
Proof. unfold CalibreWeb.download. repeat calls_step. Qed.

Lemma archive_download_in_memory (info : DownloadInfo) (save_path : option str) :
  adds_only no_file_system (ArchiveOrg.download info save_path true).
Proof. unfold ArchiveOrg.download. repeat calls_step. Qed.

Lemma liber3_download_in_memory (info : DownloadInfo) (save_path : option str) :
  adds_only no_file_system (Liber3.download info save_path true).
Proof.
  unfold Liber3.download, Liber3.download_body, Liber3.fetch_and_deliver,
    Liber3.refetch, Liber3._get_book_details, session_post.
  repeat calls_step.
Qed.

Lemma zlibrary_download_in_memory {C : Type} {cl : ZLibrary.ZlibraryClient C}
  (p : ZLibrary.ZLibraryPlatform) (info : DownloadInfo) (save_path : option str) :
  adds_only no_file_system (ZLibrary.download p info save_path true).
Proof. unfold ZLibrary.download. repeat calls_step. Qed.

Lemma annas_download_no_files {an : AnnasArchive.AnnasPy W}
  (info : DownloadInfo) (save_path : option str) (return_content : bool) :
  adds_only no_file_system (AnnasArchive.download info save_path return_content).
Proof. unfold AnnasArchive.download. repeat calls_step. Qed.

End DownloadsAndFiles.

(** [EbooksLibrary.download] with [return_content=True] (core.py 192-195
    over the [if return_content:] blocks of the adapters): whether it
    returns or raises, it never asks for the working directory, creates no
    directory and writes no file. *)
Theorem library_download_in_memory_leaves_files_alone
  {rt : PyRuntime} {W : Type} {tr : Eff.Transport W}
  {an : AnnasArchive.AnnasPy W} {C : Type} {cl : ZLibrary.ZlibraryClient C}
  (lib : Core.EbooksLibrary) (info : DownloadInfo) (save_path : option str)
  (s : Eff.state W (option C)) :
  exists evs,
    Eff.log (snd (Library.download lib info save_path true s)) = Eff.log s ++ evs
    /\ forallb Outcomes.no_file_system evs = true.
Proof.
  revert s.
  change (Props.adds_only Outcomes.no_file_system
            (Library.download lib info save_path true)).
  unfold Library.download.
  apply adds_only_if; [apply adds_only_raise|].
  apply adds_only_try; [|intros; apply adds_only_raise].
  unfold Library.adapter_download. destruct (platform info).
  - apply stateless_adds, calibre_download_in_memory.
  - apply zlibrary_download_in_memory.
  - apply stateless_adds, archive_download_in_memory.
  - apply stateless_adds, liber3_download_in_memory.
  - apply stateless_adds, annas_download_no_files.
Qed.

(** [EbooksLibrary.download] with [return_content=False] (core.py 192-195
    over the "Save to file" blocks of the adapters, calibre_web.py 209-228,
    zlibrary.py 147-166, archive_org.py 214-233, liber3.py 177-195).  When
    it returns for a handle that is not of Anna's Archive, the last two
    calls it made created a directory and wrote the downloaded bytes to the
    file of the reported name in it; nothing else was written; the result
    carries the path, the name and the size of that file and no content;
    and a [save_path] that was given is the directory used. *)
Theorem library_download_reports_the_file_it_wrote
  {rt : PyRuntime} {W : Type} {tr : Eff.Transport W}
  {an : AnnasArchive.AnnasPy W} {C : Type} {cl : ZLibrary.ZlibraryClient C}
  (lib : Core.EbooksLibrary) (info : DownloadInfo) (save_path : option str)
  (s s' : Eff.state W (option C)) (r : DownloadResult) :
  Library.download lib info save_path false s = (Ok r, s') ->
  Platform_eqb (platform info) ANNAS_ARCHIVE = false ->
  exists evs, Eff.log s' = Eff.log s ++ evs /\ Outcomes.saved save_path r evs.
Proof.
  intros H Hp. revert s r s' H.
  change (Outcomes.returns_having (Outcomes.saved save_path)
            (Library.download lib info save_path false)).
  unfold Library.download.
  apply returns_having_if; [apply returns_having_raise|].
  apply returns_having_try; [|intros; apply returns_only_raise].
  unfold Library.adapter_download. destruct (platform info); [| | | |discriminate].
  - apply returns_having_stateless, calibre_download_saved.
  - apply zlibrary_download_saved.
  - apply returns_having_stateless, archive_download_saved.
  - apply returns_having_stateless, liber3_download_saved.
Qed.

Lemma library_download_reports_the_file_it_wrote_witness :
  exists r s',
    @Library.download Sample.runtime unit (Sample.transport PNone) (Sample.annas [])
      bool Sample.accepting_client
      SampleLibrary.library SampleLibrary.zlibrary_handle (Some (lit "/books")) false
      (Sample.start None)
    = (Ok r, s')
    /\ exists evs,
         Eff.log s' = evs
         /\ @Outcomes.saved unit (Sample.transport PNone) (Some (lit "/books")) r evs.
Proof.
  eexists; eexists.
  match goal with |- ?E /\ _ => assert (H : E) by (vm_compute; reflexivity) end.
  split; [exact H|].
  exact (library_download_reports_the_file_it_wrote _ _ _ _ _ _ H eq_refl).
Defined.

(* ================================================================== *)
(** * Properties of the details Liber3 gives of one book *)
(* ================================================================== *)

Section Liber3InfoFacts.

Import Eff Props Outcomes Liber3 L3Handles.

Context {rt : PyRuntime} {W : Type} {tr : Transport W}.

Lemma no_call_nil (evs : list event) : forallb no_call evs = true -> evs = [].
Proof. destruct evs; [reflexivity | discriminate]. Qed.

(** The batch detail call posts once and makes no other call. *)
Lemma book_details_posts_only (P : event -> bool) (book_ids : list str) :
  adds_after (W:=W) (X:=unit) [EvPost detail_url (detail_payload book_ids)] P
    (_get_book_details book_ids).
Proof.
  unfold _get_book_details. apply adds_after_try; [|repeat calls_step].
  apply adds_after_bind_l; [|repeat calls_step].
  unfold session_post.
  change [EvPost detail_url (detail_payload book_ids)]
    with ([EvPost detail_url (detail_payload book_ids)] ++ []).
  apply adds_after_bind_r; [apply adds_exactly_emit|].
  intros _. apply adds_after_nil, adds_only_on_world.
Qed.

Lemma get_book_info_calls (info : DownloadInfo) (id : str) :
  book_id info = Some id -> id <> [] ->
  adds_after [EvSession; refetch_of id] no_call (Liber3Info.get_book_info info).
Proof.
  intros Hid Hne. unfold Liber3Info.get_book_info. rewrite Hid.
  destruct id as [|ch id]; [congruence|]. cbn [otruthy truthy negb].
  apply adds_after_try; [|intros; apply adds_only_ret].
  unfold refetch_of.
  change [EvSession; EvPost detail_url (detail_payload [ch :: id])]
    with ([EvSession] ++ [EvPost detail_url (detail_payload [ch :: id])]).
  apply adds_after_bind_r; [apply adds_exactly_get_session|].
  intros _. apply adds_after_bind_l; [apply book_details_posts_only|].
  unfold Liber3Info.book_record, Liber3Info.dict_get.
  repeat calls_step.
Qed.

(** What [_get_book_details] returns when the endpoint answers with status
    200 and a JSON document. *)
Lemma book_details_of_answer (book_ids : list str) (s : state W unit)
  (response : Response) (w : W) (doc : pyval) :
  http_post detail_url (detail_payload book_ids) (world s) = (Returned response, w) ->
  status response = 200%Z -> json response = Returned doc ->
  _get_book_details book_ids s
  = (match py_get (lit "data") (PDict []) doc with
     | Some d =>
         match py_get (lit "book") (PDict []) d with
         | Some b => Ok b
         | None => Ok PNone
         end
     | None => Ok PNone
     end,
     {| world := w; self := self s;
        log := log s ++ [EvPost detail_url (detail_payload book_ids)] |}).
Proof.
  intros Hp Hs Hj.
  unfold _get_book_details, try_except, bind, session_post, bind, emit, on_world.
  cbn [world self log]. rewrite Hp. cbn [to_result]. rewrite Hs. cbn [Z.eqb negb].
  change (negb (200 =? 200)%Z) with false. cbv iota.
  unfold of_outside, of_result. rewrite Hj. cbn [to_result].
  unfold or_raise, ret, raise.
  destruct (py_get (lit "data") (PDict []) doc) as [d|]; [|reflexivity].
  destruct (py_get (lit "book") (PDict []) d) as [b|]; reflexivity.
Qed.

Lemma str_eqb_refl (a : str) : PyStr.eqb a a = true.
Proof. induction a as [|c a IH]; simpl; [reflexivity | now rewrite N.eqb_refl, IH]. Qed.

Lemma str_eqb_eq (a b : str) : PyStr.eqb a b = true -> a = b.
Proof.
  revert b. induction a as [|c a IH]; intros [|d b]; simpl; try discriminate;
    [reflexivity|].
  intros H. apply andb_prop in H as [H1 H2].
  apply N.eqb_eq in H1. now rewrite H1, (IH b H2).
Qed.

(** The record built from the details of one book. *)
Lemma book_record_of_dict (book : list (str * pyval)) (s : state W unit) :
  Liber3Info.book_record (PDict book) s
  = (Ok {| title := get_or (lit "title") (PStr (lit "Unknown")) book;
           authors := get_or (lit "author") (PStr (lit "Unknown")) book;
           year := PStr (py_str (get_or (lit "year") (PStr (lit "Unknown")) book));
           publisher := get_or (lit "publisher") (PStr (lit "Unknown")) book;
           language := get_or (lit "language") (PStr (lit "Unknown")) book;
           description := PNone;
           cover_url := PNone;
           bi_file_size := get_or (lit "filesize") (PStr (lit "Unknown")) book;
           file_type := get_or (lit "extension") (PStr (lit "Unknown")) book;
           isbn := PNone |}, s).
Proof. reflexivity. Qed.

(** [get_book_info] once the details are at hand. *)
Lemma get_book_info_of_details (info : DownloadInfo) (id : str)
  (book : list (str * pyval)) (s s1 : state W unit) :
  book_id info = Some id -> id <> [] ->
  _get_book_details [id]
    {| world := get_session (world s); self := self s; log := log s ++ [EvSession] |}
  = (Ok (PDict [(id, PDict [(lit "book", PDict book)])]), s1) ->
  exists b,
    Liber3Info.book_record (PDict book) s1 = (Ok b, s1)
    /\ Liber3Info.get_book_info info s = (Ok (Some b), s1).
Proof.
  intros Hid Hne Hd.
  eexists. split; [apply book_record_of_dict|].
  unfold Liber3Info.get_book_info. rewrite Hid.
  destruct id as [|ch id]; [congruence|]. cbn [otruthy truthy negb].
  unfold try_except, bind at 1, _get_session. unfold bind at 1. rewrite Hd.
  cbn [truth negb]. unfold bind at 1. unfold bind at 1. cbn [py_in lookup].
  rewrite str_eqb_refl. unfold or_raise at 1. unfold ret at 1. unfold ret at 1.
  cbn [negb]. unfold bind at 1. cbn [py_item lookup]. rewrite str_eqb_refl.
  unfold or_raise at 1. unfold ret at 1.
  unfold bind at 1. unfold Liber3Info.dict_get at 1.
  change (py_get (lit "book") (PDict []) (PDict [(lit "book", PDict book)]))
    with (Some (PDict book)).
  unfold or_raise at 1. unfold ret at 1.
  unfold bind at 1. rewrite book_record_of_dict. reflexivity.
Qed.

End Liber3InfoFacts.

(** [Liber3Platform.get_book_info] (liber3.py 201-227) never raises.
    Without an identifier it returns [None] and calls nothing.  With one it
    opens the session and posts the identifier to the detail endpoint once,
    and makes no other call.  When the endpoint answers with status 200 and
    the details of that identifier, the result takes [title], [author],
    [publisher], [language], [filesize] and [extension] from them, each
    ["Unknown"] when missing, the year as a string, and leaves the
    description, the cover and the ISBN empty. *)
Theorem liber3_get_book_info_asks_once_and_never_raises
  {rt : PyRuntime} {W : Type} {tr : Eff.Transport W}
  (info : DownloadInfo) (s : Eff.state W unit) :
  (exists o s', Liber3Info.get_book_info info s = (Ok o, s'))
  /\ (otruthy (book_id info) = false -> Liber3Info.get_book_info info s = (Ok None, s))
  /\ (forall id,
        book_id info = Some id -> id <> [] ->
        Eff.log (snd (Liber3Info.get_book_info info s))
        = Eff.log s ++ [Eff.EvSession;
                        Eff.EvPost Liber3.detail_url (Liber3.detail_payload [id])])
  /\ (forall id book response w,
        book_id info = Some id -> id <> [] ->
        Eff.http_post Liber3.detail_url (Liber3.detail_payload [id])
          (Eff.get_session (Eff.world s)) = (Returned response, w) ->
        Eff.status response = 200%Z ->
        Eff.json response = Returned (L3Answers.details_for id book) ->
        fst (Liber3Info.get_book_info info s)
        = Ok (Some {| title := get_or (lit "title") (PStr (lit "Unknown")) book;
                      authors := get_or (lit "author") (PStr (lit "Unknown")) book;
                      year := PStr (Liber3.py_str
                                      (get_or (lit "year") (PStr (lit "Unknown")) book));
                      publisher := get_or (lit "publisher") (PStr (lit "Unknown")) book;
                      language := get_or (lit "language") (PStr (lit "Unknown")) book;
                      description := PNone;
                      cover_url := PNone;
                      bi_file_size := get_or (lit "filesize") (PStr (lit "Unknown")) book;
                      file_type := get_or (lit "extension") (PStr (lit "Unknown")) book;
                      isbn := PNone |})).
Proof.
  repeat split.
  - unfold Liber3Info.get_book_info, Eff.try_except.
    match goal with |- context [match ?c s with _ => _ end] =>
      destruct (c s) as [[o | e] s1] end; eexists; eexists; reflexivity.
  - intros H. unfold Liber3Info.get_book_info. now rewrite H.
  - intros id Hid Hne.
    destruct (get_book_info_calls info id Hid Hne s) as [evs [E F]].
    apply no_call_nil in F. subst evs. now rewrite app_nil_r in E.
  - intros id book response w Hid Hne Hp Hs Hj.
    pose proof (book_details_of_answer [id]
                  {| Eff.world := Eff.get_session (Eff.world s); Eff.self := Eff.self s;
                     Eff.log := Eff.log s ++ [Eff.EvSession] |} response w _ Hp Hs Hj)
      as Hd.
    change (match Liber3.py_get (lit "data") (PDict []) (L3Answers.details_for id book) with
            | Some d =>
                match Liber3.py_get (lit "book") (PDict []) d with
                | Some b => Ok b
                | None => Ok PNone
                end
            | None => Ok PNone
            end)
      with (@Ok pyval (PDict [(id, PDict [(lit "book", PDict book)])])) in Hd.
    destruct (get_book_info_of_details info id book s _ Hid Hne Hd) as [b [Hb Hg]].
    rewrite Hg. rewrite book_record_of_dict in Hb. inversion Hb. reflexivity.
Qed.


(* ================================================================== *)
(** * Properties of the handles built on the command line *)
(* ================================================================== *)

Section CliFacts.

Import PyText.

Lemma startswith_prefix (a b u : str) :
  startswith (a ++ b) u = true -> startswith a u = true.
Proof.
  revert u. induction a as [|c a IH]; intros u H; [now destruct u|].
  destruct u as [|d u]; [discriminate|]. cbn [app startswith] in *.
  apply andb_prop in H as [H1 H2]. now rewrite H1, (IH u H2).
Qed.

Lemma contains_prefix (a b u : str) :
  contains (a ++ b) u = true -> contains a u = true.
Proof.
  induction u as [|d u IH]; cbn [contains]; intros H.
  - apply orb_prop in H as [H | H]; [|discriminate].
    now rewrite (startswith_prefix a b [] H).
  - apply orb_prop in H as [H | H].
    + now rewrite (startswith_prefix a b _ H).
    + rewrite (IH H). apply orb_true_r.
Qed.

Lemma startswith_split (n u : str) :
  startswith n u = true -> exists post, u = n ++ post.
Proof.
  revert u. induction n as [|c n IH]; intros u H; [now exists u|].
  destruct u as [|d u]; [discriminate|]. cbn [startswith] in H.
  apply andb_prop in H as [H1 H2]. apply N.eqb_eq in H1. subst d.
  destruct (IH u H2) as [post ->]. now exists post.
Qed.

Lemma contains_split (n u : str) :
  contains n u = true -> exists pre post, u = pre ++ n ++ post.
Proof.
  induction u as [|d u IH]; cbn [contains]; intros H.
  - apply orb_prop in H as [H | H]; [|discriminate].
    destruct (startswith_split n [] H) as [post E]. now exists [], post.
  - apply orb_prop in H as [H | H].
    + destruct (startswith_split n _ H) as [post E]. now exists [], post.
    + destruct (IH H) as [pre [post ->]]. now exists (d :: pre), post.
Qed.

(** A string that contains [a ++ n ++ b] contains [n]. *)
Lemma contains_infix (a n b u : str) :
  contains (a ++ n ++ b) u = true -> contains n u = true.
Proof.
  intros H. destruct (contains_split _ u H) as [pre [post ->]].
  replace (pre ++ (a ++ n ++ b) ++ post) with ((pre ++ a) ++ n ++ (b ++ post))
    by now rewrite <- !app_assoc.
  apply contains_middle.
Qed.

Lemma valid_url_starts_with_http (u : str) :
  Base._is_valid_url u = true -> startswith (lit "http") u = true.
Proof.
  unfold Base._is_valid_url. intros H.
  apply andb_prop in H as [_ H]. apply orb_prop in H as [H | H].
  - exact (startswith_prefix (lit "http") (lit "://") u H).
  - exact (startswith_prefix (lit "http") (lit "s://") u H).
Qed.

Context {fn : Functions}.

(** A string of digits begins with a digit. *)
Lemma isdigit_head (s : str) :
  isdigit s = true ->
  exists c r, s = c :: r /\ isdigit_char c = true.
Proof.
  unfold isdigit. destruct s as [|c r]; [discriminate|].
  cbn [truthy forallb andb]. intros H. apply andb_prop in H as [H _].
  now exists c, r.
Qed.

Lemma isdigit_not_letter (s : str) (letter : N) (rest : str) :
  isdigit s = true -> isdigit_char letter = false ->
  startswith (letter :: rest) s = false.
Proof.
  intros H Hl. destruct (isdigit_head s H) as [c [r [-> Hc]]].
  cbn [startswith]. destruct (N.eqb letter c) eqn:E; [|reflexivity].
  apply N.eqb_eq in E. subst c. congruence.
Qed.

Lemma detect_digits (s : str) :
  isdigit s = true -> Cli.detect_platform s = Ok ZLIBRARY.
Proof.
  intros H. unfold Cli.detect_platform.
  assert (H1 : startswith (lit "http") s = false)
    by exact (isdigit_not_letter s 104 (lit "ttp") H eq_refl).
  assert (H2 : startswith (lit "L") s = false)
    by exact (isdigit_not_letter s 76 [] H eq_refl).
  assert (H3 : startswith (lit "A") s = false)
    by exact (isdigit_not_letter s 65 [] H eq_refl).
  rewrite H1, H2, H3, !andb_false_r. now rewrite H.
Qed.

End CliFacts.

Lemma valid_archive_url_is_detected {fn : PyText.Functions} (u : str) :
  ArchiveOrg._is_valid_archive_url u = true ->
  Cli.detect_platform u = Ok ARCHIVE_ORG.
Proof.
  unfold ArchiveOrg._is_valid_archive_url. intros H.
  destruct (Base._is_valid_url u) eqn:V; [|discriminate]. cbn [negb] in H.
  unfold Cli.detect_platform.
  rewrite (valid_url_starts_with_http u V).
  now rewrite (contains_prefix (lit "archive.org") (lit "/download/") u H).
Qed.

(** [detect_platform] (cli.py 119-135) against the URL checks of the
    adapters (archive_org.py 243-247, calibre_web.py 238-242).  Every URL
    the Archive.org adapter accepts is detected as Archive.org.  A URL the
    Calibre-Web adapter accepts is detected as Calibre-Web unless it
    contains [archive.org], in which case it is detected as Archive.org. *)
Theorem detect_platform_agrees_with_url_checks {fn : PyText.Functions} (u : str) :
  (ArchiveOrg._is_valid_archive_url u = true ->
   Cli.detect_platform u = Ok ARCHIVE_ORG)
  /\ (CalibreWeb._is_valid_calibre_url u = true ->
      Cli.detect_platform u
      = Ok (if contains (lit "archive.org") u then ARCHIVE_ORG else CALIBRE_WEB)).
Proof.
  split.
  - apply valid_archive_url_is_detected.
  - unfold CalibreWeb._is_valid_calibre_url. intros H.
    destruct (Base._is_valid_url u) eqn:V; [|discriminate]. cbn [negb] in H.
    unfold Cli.detect_platform.
    rewrite (valid_url_starts_with_http u V).
    destruct (contains (lit "archive.org") u); [reflexivity|].
    now rewrite (contains_infix (lit "/") (lit "opds/download") (lit "/") u H).
Qed.


(** [detect_platform] (cli.py 119-135) against
    [ZLibraryPlatform._is_valid_book_id] (zlibrary.py 222-224): an identifier
    is detected as one of Z-Library exactly when the adapter takes it for a
    valid book identifier, a non-empty string of digits. *)
Theorem detect_platform_zlibrary_iff_valid_book_id {fn : PyText.Functions}
  (identifier : str) :
  Cli.detect_platform identifier = Ok ZLIBRARY
  <-> ZLibraryRecords._is_valid_book_id identifier = true.
Proof.
  unfold ZLibraryRecords._is_valid_book_id. split.
  - unfold Cli.detect_platform. intros H.
    destruct (startswith (lit "http") identifier).
    { destruct (contains (lit "archive.org") identifier); [discriminate|].
      destruct (contains (lit "opds/download") identifier); discriminate. }
    destruct (Nat.eqb (length identifier) 32 && startswith (lit "L") identifier);
      [discriminate|].
    destruct (Nat.eqb (length identifier) 32 && startswith (lit "A") identifier);
      [discriminate|].
    destruct (PyText.isdigit identifier) eqn:D; [|discriminate].
    rewrite andb_true_r. unfold PyText.isdigit in D.
    now apply andb_prop in D as [D1 _].
  - intros H. apply andb_prop in H as [_ H]. now apply detect_digits.
Qed.

Section CliDownloads.

Import Eff Props.

Context {fn : PyText.Functions} {rt : PyRuntime}.
Context {W : Type} {tr : Transport W} {an : AnnasArchive.AnnasPy W}.
Context {C : Type} {cl : ZLibrary.ZlibraryClient C}.

(** The Z-Library download of a handle without a hash never returns. *)
Lemma zlibrary_download_needs_hash (p : ZLibrary.ZLibraryPlatform)
  (info : DownloadInfo) (save_path : option str) (return_content : bool) :
  otruthy (hash_id info) = false ->
  returns_only (W:=W) (fun _ => False)
    (ZLibrary.download p info save_path return_content).
Proof.
  intros H. unfold ZLibrary.download. rewrite H, orb_true_r.
  repeat returns_step.
Qed.

End CliDownloads.

(** [download_book] (cli.py 84-104) for an identifier made of digits, with
    no platform named and no [--hash]: the handle built is one of Z-Library
    that carries the identifier and no hash, and its download through the
    library never returns a result; it raises a [DownloadError] of
    Z-Library, since the adapter asks for both (zlibrary.py 119-120). *)
Theorem requested_download_without_hash_fails
  {fn : PyText.Functions} {rt : PyRuntime}
  {W : Type} {tr : Eff.Transport W} {an : AnnasArchive.AnnasPy W}
  {C : Type} {cl : ZLibrary.ZlibraryClient C}
  (lib : Core.EbooksLibrary) (identifier save_path : str)
  (s : Eff.state W (option C)) :
  PyText.isdigit identifier = true ->
  Cli.download_handle identifier None None
  = Ok {| platform := ZLIBRARY; download_url := None; book_id := Some identifier;
          hash_id := None; file_name := None; requires_auth := false;
          additional_params := None |}
  /\ exists message s',
       Cli.requested_download lib identifier save_path None None s
       = (Raise (DownloadError message (Some (lit "zlibrary"))), s').
Proof.
  intros H.
  assert (Hh : Cli.download_handle identifier None None
               = Ok {| platform := ZLIBRARY; download_url := None;
                       book_id := Some identifier; hash_id := None;
                       file_name := None; requires_auth := false;
                       additional_params := None |}).
  { unfold Cli.download_handle. cbn [otruthy].
    rewrite (detect_digits identifier H).
    assert (H1 : startswith (lit "http") identifier = false)
      by exact (isdigit_not_letter identifier 104 (lit "ttp") H eq_refl).
    now rewrite H1. }
  split; [exact Hh|].
  unfold Cli.requested_download. rewrite Hh.
  match goal with |- context [Library.download lib ?i ?sp ?rc s] =>
    destruct (Library.download lib i sp rc s) as [[r | e] s'] eqn:E;
    [ exfalso | ] end.
  - unfold Library.download in E. cbn [platform] in E.
    destruct (Core.enabled lib ZLIBRARY); [|discriminate]. cbn [negb] in E.
    unfold Eff.try_except, Library.adapter_download in E. cbn [platform] in E.
    match type of E with context [ZLibrary.download ?p ?i ?sp ?rc s] =>
      destruct (ZLibrary.download p i sp rc s) as [[r1 | e1] s1] eqn:Ez;
      [ exact (zlibrary_download_needs_hash p i sp rc eq_refl s r1 s1 Ez)
      | discriminate ] end.
  - destruct (library_download_raises_only lib _ _ _ s e s' E) as [message ->].
    now exists message, s'.
Qed.

Lemma requested_download_without_hash_fails_witness :
  exists message s',
    @Cli.requested_download SampleText.ascii_only Sample.runtime unit
      (Sample.transport PNone) (Sample.annas []) bool Sample.accepting_client
      SampleLibrary.library (lit "1269938") (lit "./downloads") None None
      (Sample.start None)
    = (Raise (DownloadError message (Some (lit "zlibrary"))), s').
Proof.
  exact (proj2 (@requested_download_without_hash_fails SampleText.ascii_only
                  Sample.runtime unit (Sample.transport PNone) (Sample.annas [])
                  bool Sample.accepting_client
                  SampleLibrary.library (lit "1269938") (lit "./downloads")
                  (Sample.start None) eq_refl)).
Defined.

(** [download_book] (cli.py 84-102) with no platform named: when a handle is
    built, the identifier is not empty, the platform is the detected one,
    and the handle carries the identifier in the field the adapter of that
    platform reads first: as [download_url] for Archive.org and
    Calibre-Web, as [book_id], with the hash that was given, for Z-Library,
    Liber3 and Anna's Archive. *)
Theorem detected_handle_carries_what_its_adapter_reads
  {fn : PyText.Functions} {rt : PyRuntime}
  (identifier : str) (hash : option str) (info : DownloadInfo) :
  Cli.download_handle identifier None hash = Ok info ->
  truthy identifier = true
  /\ Cli.detect_platform identifier = Ok (platform info)
  /\ match platform info with
     | ARCHIVE_ORG | CALIBRE_WEB =>
         download_url info = Some identifier
         /\ book_id info = None /\ hash_id info = None
     | ZLIBRARY | LIBER3 | ANNAS_ARCHIVE =>
         book_id info = Some identifier
         /\ download_url info = None /\ hash_id info = hash
     end.
Proof.
  unfold Cli.download_handle. cbn [otruthy]. unfold Cli.detect_platform.
  destruct identifier as [|c identifier];
    [cbn; discriminate|]. cbn [truthy].
  destruct (startswith (lit "http") (c :: identifier)).
  - destruct (contains (lit "archive.org") (c :: identifier)).
    + intros H. inversion H; subst. cbn. auto.
    + destruct (contains (lit "opds/download") (c :: identifier));
        intros H; inversion H; subst; cbn; auto.
  - destruct (Nat.eqb (length (c :: identifier)) 32
              && startswith (lit "L") (c :: identifier)).
    { intros H. inversion H; subst. cbn. auto. }
    destruct (Nat.eqb (length (c :: identifier)) 32
              && startswith (lit "A") (c :: identifier)).
    { intros H. inversion H; subst. cbn. auto. }
    destruct (PyText.isdigit (c :: identifier));
      intros H; inversion H; subst; cbn; auto.
Qed.

Lemma detected_handle_carries_what_its_adapter_reads_witness :
  let u := lit "https://archive.org/download/emma/emma.pdf" in
  @Cli.detect_platform SampleText.ascii_only u = Ok ARCHIVE_ORG
  /\ download_url
       {| platform := ARCHIVE_ORG; download_url := Some u; book_id := None;
          hash_id := None; file_name := None; requires_auth := false;
          additional_params := None |} = Some u.
Proof.
  cbv zeta.
  destruct (@detected_handle_carries_what_its_adapter_reads SampleText.ascii_only
              Sample.runtime (lit "https://archive.org/download/emma/emma.pdf") None
              {| platform := ARCHIVE_ORG;
                 download_url := Some (lit "https://archive.org/download/emma/emma.pdf");
                 book_id := None; hash_id := None; file_name := None;
                 requires_auth := false; additional_params := None |}
              eq_refl) as [_ [H1 [H2 _]]].
  split; [exact H1 | exact H2].
Defined.

(* ================================================================== *)
(** * Properties of the records of the Z-Library adapter *)
(* ================================================================== *)

Section StripFacts.

Lemma lstrip_app (a b : str) :
  lstrip (a ++ b) = match lstrip a with [] => lstrip b | _ :: _ => lstrip a ++ b end.
Proof.
  induction a as [|c a IH]; [reflexivity|].
  cbn [app lstrip]. destruct (isspace c); [exact IH | reflexivity].
Qed.

Lemma rstrip_cons (c : N) (r : str) :
  rstrip (c :: r)
  = match rstrip r with
    | [] => if isspace c then [] else [c]
    | _ :: _ => c :: rstrip r
    end.
Proof.
  unfold rstrip. cbn [rev]. rewrite lstrip_app.
  destruct (lstrip (rev r)) as [|d l] eqn:E.
  - cbn [lstrip rev]. now destruct (isspace c).
  - rewrite rev_app_distr. cbn [rev app].
    destruct (rev l ++ [d]) as [|x y] eqn:R; [|reflexivity].
    apply app_eq_nil in R as [_ R]. discriminate.
Qed.

(** Stripping leaves no whitespace in front. *)
Lemma lstrip_idempotent (s : str) : lstrip (lstrip s) = lstrip s.
Proof.
  induction s as [|c s IH]; [reflexivity|].
  cbn [lstrip]. destruct (isspace c) eqn:E; [exact IH|].
  cbn [lstrip]. now rewrite E.
Qed.

Lemma lstrip_head (s : str) :
  match lstrip s with [] => True | c :: _ => isspace c = false end.
Proof.
  induction s as [|c s IH]; [exact I|].
  cbn [lstrip]. destruct (isspace c) eqn:E; [exact IH | exact E].
Qed.

Lemma rstrip_head (x : str) :
  match x with [] => True | c :: _ => isspace c = false end ->
  match rstrip x with [] => True | c :: _ => isspace c = false end.
Proof.
  destruct x as [|c r]; [intros _; exact I|]. intros H.
  rewrite rstrip_cons. destruct (rstrip r); [now rewrite H | exact H].
Qed.

Lemma strip_head (s : str) :
  match strip s with [] => True | c :: _ => isspace c = false end.
Proof. unfold strip. apply rstrip_head, lstrip_head. Qed.

Lemma lstrip_fixed (x : str) :
  match x with [] => True | c :: _ => isspace c = false end -> lstrip x = x.
Proof. destruct x as [|c r]; [reflexivity|]. cbn [lstrip]. now intros ->. Qed.

End StripFacts.

(** [ZLibraryPlatform._clean_description] (zlibrary.py 209-220).  It returns
    [None] exactly for a value that is no string, for the empty string and
    for the string ["None"].  For every other string it returns a string
    that does not begin with whitespace and has at most 303 characters: the
    stripped description when that has at most 300 characters, so the empty
    string for a description of whitespace only, and otherwise its first
    300 characters followed by three dots. *)
Theorem clean_description_strips_and_bounds (description : pyval) :
  (ZLibraryRecords._clean_description description = None
   <-> match description with
       | PStr s => s = [] \/ s = lit "None"
       | _ => True
       end)
  /\ (forall s,
        description = PStr s -> s <> [] -> s <> lit "None" ->
        exists t,
          ZLibraryRecords._clean_description description = Some t
          /\ length t <= 303
          /\ lstrip t = t
          /\ (length (strip s) <= 300 -> t = strip s)
          /\ (300 < length (strip s) -> t = firstn 300 (strip s) ++ lit "...")).
Proof.
  split.
  - destruct description as [| b | z | nz pr | s | l | items];
      try (split; [intros _; exact I | intros _]);
      try reflexivity.
    + unfold ZLibraryRecords._clean_description. cbn [truth].
      now destruct b.
    + unfold ZLibraryRecords._clean_description. cbn [truth].
      now destruct (negb (z =? 0)%Z).
    + unfold ZLibraryRecords._clean_description. cbn [truth].
      now destruct nz.
    + unfold ZLibraryRecords._clean_description, ZLibraryRecords.is_str.
      cbn [truth]. split.
      * destruct s as [|c s]; [now left|]. cbn [truthy negb orb].
        destruct (PyStr.eqb (c :: s) (lit "None")) eqn:E; [|discriminate].
        intros _. right. now apply str_eqb_eq.
      * intros [-> | ->]; reflexivity.
    + unfold ZLibraryRecords._clean_description. cbn [truth].
      now destruct l.
    + unfold ZLibraryRecords._clean_description. cbn [truth].
      now destruct items.
  - intros s -> Hne Hnn.
    unfold ZLibraryRecords._clean_description, ZLibraryRecords.is_str. cbn [truth].
    destruct s as [|c s]; [congruence|]. cbn [truthy negb orb].
    destruct (PyStr.eqb (c :: s) (lit "None")) eqn:E.
    { apply str_eqb_eq in E. congruence. }
    eexists. split; [reflexivity|].
    pose proof (strip_head (c :: s)) as Hh.
    destruct (Nat.ltb 300 (length (strip (c :: s)))) eqn:L.
    + apply Nat.ltb_lt in L. repeat split.
      * rewrite length_app, length_firstn. change (length (lit "...")) with 3. lia.
      * apply lstrip_fixed.
        destruct (strip (c :: s)) as [|d r]; [cbn in L; lia|].
        exact Hh.
      * intros H. lia.
    + apply Nat.ltb_ge in L. repeat split.
      * lia.
      * now apply lstrip_fixed.
      * intros H. lia.
Qed.

(* ================================================================== *)
(** * How much of a file name the truncation keeps *)
(* ================================================================== *)

Section TrimFacts.

Import Base.

(** When the loop stops, what is left fits or is empty. *)
Lemma trim_loop_rev_fits_or_empty (available : Z) (rb : str) :
  trim_loop_rev available rb = []
  \/ (utf8_len (rev (trim_loop_rev available rb)) <= available)%Z.
Proof.
  induction rb as [|c r IH]; [now left|].
  cbn [trim_loop_rev].
  destruct (Z.gtb_spec (utf8_len (rev (c :: r))) available) as [Hgt | Hle].
  - exact IH.
  - now right.
Qed.

(** The loop stops as soon as it can: the last character it dropped did not
    fit. *)
Lemma trim_loop_rev_maximal (available : Z) (rb pre : str) (c : N) :
  rb = pre ++ c :: trim_loop_rev available rb ->
  (available < utf8_len (rev (c :: trim_loop_rev available rb)))%Z.
Proof.
  revert pre. induction rb as [|x r IH]; intros pre H.
  - destruct pre; discriminate.
  - cbn [trim_loop_rev] in *.
    destruct (Z.gtb_spec (utf8_len (rev (x :: r))) available) as [Hgt | Hle].
    + destruct pre as [|y pre].
      * cbn [app] in H. rewrite <- H. exact Hgt.
      * cbn [app] in H. injection H as Hx Hr. exact (IH pre Hr).
    + apply (f_equal (@length N)) in H. rewrite length_app in H.
      cbn [length] in H. lia.
Qed.

Lemma trim_loop_maximal (available : Z) (base kept : str) (c : N) (rest : str) :
  kept = trim_loop available base -> base = kept ++ c :: rest ->
  (available < utf8_len (kept ++ [c]))%Z.
Proof.
  intros Hk Hb. unfold trim_loop in Hk.
  assert (Hr : rev base = rev rest ++ c :: trim_loop_rev available (rev base)).
  { rewrite Hb at 1. rewrite rev_app_distr. cbn [rev]. rewrite <- app_assoc.
    cbn [app]. rewrite Hk, rev_involutive. reflexivity. }
  pose proof (trim_loop_rev_maximal available (rev base) (rev rest) c Hr) as H.
  cbn [rev] in H. now rewrite <- Hk in H.
Qed.

End TrimFacts.

(** [BasePlatform._truncate_filename] (base.py 130-148) on a name that is
    too long keeps the longest beginning of the base name that fits the
    space left by the extension and the marker: what it keeps fits or is
    empty, the first character it dropped would not have fitted, and a base
    name that fits is kept whole. *)
Theorem truncate_filename_keeps_the_longest_base (filename : str) (max_length : Z) :
  forallb encodable filename = true ->
  (max_length < utf8_len filename)%Z ->
  let base := fst (Base.split_ext filename) in
  let ext := snd (Base.split_ext filename) in
  let available := (max_length - utf8_len ext - 9)%Z in
  exists kept dropped,
    base = kept ++ dropped
    /\ Base._truncate_filename filename max_length
       = Some (kept ++ Base.ellipsis_marker ++ ext)
    /\ (kept = [] \/ (utf8_len kept <= available)%Z)
    /\ (forall c rest, dropped = c :: rest -> (available < utf8_len (kept ++ [c]))%Z)
    /\ ((utf8_len base <= available)%Z -> dropped = []).
Proof.
  intros He Hl. cbv zeta.
  set (base := fst (Base.split_ext filename)).
  set (ext := snd (Base.split_ext filename)).
  set (available := (max_length - utf8_len ext - 9)%Z).
  destruct (trim_loop_prefix available base) as [dropped Hd].
  exists (Base.trim_loop available base), dropped.
  assert (Hmax : forall c rest, dropped = c :: rest ->
                   (available < utf8_len (Base.trim_loop available base ++ [c]))%Z).
  { intros c rest Hc. rewrite Hc in Hd.
    exact (trim_loop_maximal available base _ c rest eq_refl Hd). }
  split; [exact Hd|]. split.
  - rewrite (truncate_long filename max_length He Hl).
    now rewrite utf8_len_marker.
  - split; [|split; [exact Hmax|]].
    + unfold Base.trim_loop.
      destruct (trim_loop_rev_fits_or_empty available (rev base)) as [H | H].
      * left. now rewrite H.
      * now right.
    + intros Hfit. destruct dropped as [|c rest]; [reflexivity|].
      pose proof (Hmax c rest eq_refl) as H.
      rewrite Hd in Hfit. rewrite !utf8_len_app in *.
      pose proof (utf8_len_nonneg rest). 
      change (c :: rest) with ([c] ++ rest) in Hfit.
      rewrite utf8_len_app in Hfit. lia.
Qed.

Lemma truncate_filename_keeps_the_longest_base_witness :
  let filename := repeat 97%N 120 ++ lit ".txt" in
  exists kept dropped,
    fst (Base.split_ext filename) = kept ++ dropped
    /\ Base._truncate_filename filename 100
       = Some (kept ++ Base.ellipsis_marker ++ snd (Base.split_ext filename))
    /\ (kept = []
        \/ (utf8_len kept <= 100 - utf8_len (snd (Base.split_ext filename)) - 9)%Z)
    /\ (forall c rest,
          dropped = c :: rest ->
          (100 - utf8_len (snd (Base.split_ext filename)) - 9
           < utf8_len (kept ++ [c]))%Z)
    /\ ((utf8_len (fst (Base.split_ext filename))
         <= 100 - utf8_len (snd (Base.split_ext filename)) - 9)%Z ->
        dropped = []).
Proof.
  exact (truncate_filename_keeps_the_longest_base (repeat 97%N 120 ++ lit ".txt") 100
           ltac:(vm_compute; reflexivity) ltac:(vm_compute; reflexivity)).
Defined.

Example truncate_filename_keeps_87_of_120 :
  Base._truncate_filename (repeat 97%N 120 ++ lit ".txt") 100
  = Some (repeat 97%N 87 ++ Base.ellipsis_marker ++ lit ".txt").
Proof. vm_compute. reflexivity. Qed.

(* ================================================================== *)
(** * Properties of the Calibre-Web search *)
(* ================================================================== *)

Section CalibreSearchFacts.

Import Eff Props Outcomes CalibreWeb CalibreSearch.

Context {rt : PyRuntime} {fn : PyText.Functions}.
Context {W : Type} {tr : Transport W} {ht : Http.Session}.

(** What [search_body] has done when it returns. *)
Lemma search_body_returns (self : CalibreWebPlatform) (query : str) (limit : Z)
  (s s' : state W unit) (rs : list SearchResult) :
  search_body self query limit s = (Ok rs, s') ->
  exists url xml_data results,
    search_url self query = Returned url
    /\ _parse_opds_response self xml_data (Some limit) = Ok results
    /\ rs = map search_result results
    /\ log s' = log s ++ [EvSession; EvGet url].
Proof.
  unfold search_body, bind at 1, of_outside, of_result.
  destruct (search_url self query) as [url | c t]; cbn [to_result]; [|discriminate].
  unfold bind, _get_session, session_get, bind, emit, on_world.
  cbn [world Eff.self log].
  destruct (http_get url (get_session (world s)))
    as [[response | c t] w]; cbn [to_result]; [|discriminate].
  destruct (negb (status response =? 200)%Z); [discriminate|].
  destruct (negb (contains (lit "application/atom+xml") (content_type response)));
    [discriminate|].
  unfold of_outside, of_result.
  destruct (Http.text response) as [xml_data | c t]; cbn [to_result]; [|discriminate].
  destruct (_parse_opds_response self xml_data (Some limit)) as [results | e] eqn:E;
    [|discriminate].
  unfold ret. intros H. inversion H; subst. exists url, xml_data, results.
  split; [reflexivity|]. split; [exact E|]. split; [reflexivity|]. cbn [log].
  now rewrite <- app_assoc.
Qed.

(** The URL of the search is the base URL, the path of the search, and the
    query as [quote_plus] returned it. *)
Lemma search_url_returned (self : CalibreWebPlatform) (query url : str) :
  search_url self query = Returned url ->
  exists quoted,
    PyText.quote_plus query = Returned quoted
    /\ url = base_url self ++ lit "/opds/search/" ++ quoted.
Proof.
  unfold search_url. destruct (PyText.quote_plus query) as [quoted|]; [|discriminate].
  intros H. inversion H; subst. now exists quoted.
Qed.

Lemma parse_year_is_text (entry : Xml.Element) :
  parse_year entry = PStr (lit "Unknown") \/ exists y, parse_year entry = PInt y.
Proof.
  unfold parse_year.
  destruct (Xml.find (lit "published") entry) as [published|]; [|now left].
  destruct (otruthy (Xml.text published)); [|now left].
  destruct (fromisoformat_year _) as [y|]; [right; now exists y | now left].
Qed.

Lemma slice_to_length {A : Type} (n : Z) (l : list A) :
  (0 < n)%Z -> (Z.of_nat (length (slice_to n l)) <= n)%Z.
Proof.
  intros H. unfold slice_to. destruct (Z.ltb_spec n 0); [lia|].
  rewrite length_firstn. lia.
Qed.

Lemma slice_to_incl {A : Type} (n : Z) (l : list A) (x : A) :
  In x (slice_to n l) -> In x l.
Proof.
  assert (F : forall k, In x (firstn k l) -> In x l).
  { intros k H. rewrite <- (firstn_skipn k l). apply in_or_app. now left. }
  unfold slice_to. destruct (n <? 0)%Z; apply F.
Qed.

(** Every dict of the parsed feed comes from an entry. *)
Lemma parsed_results_are_entries (self : CalibreWebPlatform) (xml_data : str)
  (limit : Z) (results : list opds_result) :
  _parse_opds_response self xml_data (Some limit) = Ok results ->
  (forall r, In r results -> exists entry, parse_entry self entry = Returned r)
  /\ ((0 < limit)%Z -> (Z.of_nat (length results) <= limit)%Z).
Proof.
  unfold _parse_opds_response.
  destruct (ET_fromstring _) as [t | root]; [discriminate|].
  unfold parse_feed.
  destruct (parse_entries_spec self (Xml.findall (lit "entry") root))
    as [[all [-> HF]] | [suffix [cls [text [_ ->]]]]]; [|discriminate].
  cbn [to_result]. intros H. inversion H as [Hr]. clear H. split.
  - intros r Hin.
    assert (Hin' : In r all).
    { destruct (limit =? 0)%Z; [exact Hin | exact (slice_to_incl _ _ _ Hin)]. }
    clear Hin Hr. induction HF as [|entry r0 entries rest Hr0 _ IH]; [destruct Hin'|].
    destruct Hin' as [<- | Hin']; [now exists entry | exact (IH Hin')].
  - intros Hl. destruct (Z.eqb_spec limit 0); [lia|].
    now apply slice_to_length.
Qed.

End CalibreSearchFacts.

(** [CalibreWebPlatform.search] (calibre_web.py 34-87) when it returns.
    Every result and its handle name Calibre-Web; the year is text,
    ["Unknown"] or an integer in decimal; the handle asks for no
    authentication, has no [book_id], and carries the download link of the
    entry (which may be empty) with the file name derived from it.  A
    positive limit bounds the number of results.  The search has opened the
    session and sent one GET, to [base_url + "/opds/search/" +
    quote_plus(query)], which [quote_plus] has returned, and made no other
    call. *)
Theorem calibre_search_returns_tagged_results
  {rt : PyRuntime} {fn : PyText.Functions}
  {W : Type} {tr : Eff.Transport W} {ht : Http.Session}
  (self : CalibreWeb.CalibreWebPlatform) (query : str) (limit : Z)
  (s s' : Eff.state W unit) (rs : list SearchResult) :
  CalibreSearch.search self query limit s = (Ok rs, s') ->
  Forall (fun r =>
            Found.tagged CALIBRE_WEB r
            /\ Found.year_is_text r
            /\ requires_auth (download_info r) = false
            /\ book_id (download_info r) = None
            /\ exists link,
                 download_url (download_info r) = Some link
                 /\ file_name (download_info r)
                    = CalibreSearch._extract_filename_from_url (Some link)) rs
  /\ ((0 < limit)%Z -> (Z.of_nat (length rs) <= limit)%Z)
  /\ exists quoted,
       PyText.quote_plus query = Returned quoted
       /\ Eff.log s'
          = Eff.log s ++ [Eff.EvSession;
                          Eff.EvGet (CalibreWeb.base_url self ++ lit "/opds/search/"
                                     ++ quoted)].
Proof.
  intros H. unfold CalibreSearch.search, Eff.try_except in H.
  destruct (CalibreSearch.search_body self query limit s) as [[rs1 | e] s1] eqn:E;
    [|discriminate].
  inversion H; subst. clear H.
  destruct (search_body_returns self query limit s s' rs E)
    as [url [xml_data [results [Hu [Hp [-> Hlog]]]]]].
  destruct (search_url_returned self query url Hu) as [quoted [Hq ->]].
  destruct (parsed_results_are_entries self xml_data limit results Hp) as [Hent Hlen].
  split; [|split; [now rewrite length_map | now exists quoted]].
  apply Forall_forall. intros r Hin.
  apply in_map_iff in Hin as [x [<- Hx]].
  destruct (Hent x Hx) as [entry Hentry].
  repeat split.
  - unfold Found.year_is_text, CalibreSearch.search_result.
    cbn [book_info year]. rewrite (parse_entry_year self entry x Hentry).
    destruct (parse_year_is_text entry) as [-> | [y ->]]; [now left|].
    right. now exists y.
  - eexists. split; reflexivity.
Qed.

Lemma calibre_search_returns_tagged_results_witness :
  exists rs s',
    @CalibreSearch.search Sample.runtime SampleText.ascii_only unit
      SampleCalibre.transport SampleCalibre.session
      SampleCalibre.server (lit "jane austen") 1 (Sample.start tt)
    = (Ok rs, s')
    /\ length rs = 1
    /\ Forall (Found.tagged CALIBRE_WEB) rs
    /\ Eff.log s'
       = [Eff.EvSession;
          Eff.EvGet (lit "http://localhost:8083/opds/search/jane+austen")].
Proof.
  eexists; eexists.
  match goal with |- ?E /\ _ => assert (H : E) by (vm_compute; reflexivity) end.
  split; [exact H|].
  destruct (calibre_search_returns_tagged_results _ _ _ _ _ _ H)
    as [HF [_ [quoted [Hq HL]]]].
  split; [reflexivity|]. split.
  - apply Forall_forall. intros r Hr.
    exact (proj1 (proj1 (Forall_forall _ _) HF r Hr)).
  - injection Hq as Hq. rewrite HL, <- Hq. reflexivity.
Defined.

(** [CalibreWebPlatform.search] (calibre_web.py 34-87) when it fails, and
    what it calls.  It only fails with a [SearchError] of Calibre-Web whose
    message begins with ["Calibre-Web search failed: "].  The URL is built
    before the session is opened: when [quote_plus] raises on the query,
    the search fails with the text of that exception and has called
    nothing.  When [quote_plus] returns, the search opens the session and
    sends the one GET, and makes no other call, whether it returns or
    fails; a response with a status other than 200, and a response whose
    content type does not contain [application/atom+xml], fail with the
    message that names the status and the content type. *)
Theorem calibre_search_fails_with_search_error
  {rt : PyRuntime} {fn : PyText.Functions}
  {W : Type} {tr : Eff.Transport W} {ht : Http.Session}
  (self : CalibreWeb.CalibreWebPlatform) (query : str) (limit : Z)
  (s : Eff.state W unit) :
  (forall e s',
     CalibreSearch.search self query limit s = (Raise e, s') ->
     Found.search_error_of CALIBRE_WEB (lit "Calibre-Web search failed: ") e)
  /\ (forall cls text,
        PyText.quote_plus query = Failed cls text ->
        CalibreSearch.search self query limit s
        = (Raise (SearchError (lit "Calibre-Web search failed: " ++ text)
                              (Some (lit "calibre_web"))), s))
  /\ (forall quoted,
        PyText.quote_plus query = Returned quoted ->
        let url := CalibreWeb.base_url self ++ lit "/opds/search/" ++ quoted in
        Eff.log (snd (CalibreSearch.search self query limit s))
        = Eff.log s ++ [Eff.EvSession; Eff.EvGet url]
        /\ (forall response w,
              Eff.http_get url (Eff.get_session (Eff.world s)) = (Returned response, w) ->
              Eff.status response <> 200%Z ->
              fst (CalibreSearch.search self query limit s)
              = Raise (SearchError
                         (lit "Calibre-Web search failed: Calibre-Web search returned status "
                          ++ of_Z (Eff.status response))
                         (Some (lit "calibre_web"))))
        /\ (forall response w,
              Eff.http_get url (Eff.get_session (Eff.world s)) = (Returned response, w) ->
              Eff.status response = 200%Z ->
              contains (lit "application/atom+xml") (Eff.content_type response) = false ->
              fst (CalibreSearch.search self query limit s)
              = Raise (SearchError
                         (lit "Calibre-Web search failed: Unexpected content type from Calibre-Web: "
                          ++ Eff.content_type response)
                         (Some (lit "calibre_web"))))).
Proof.
  split; [|split].
  - intros e s' H. unfold CalibreSearch.search, Eff.try_except in H.
    destruct (CalibreSearch.search_body self query limit s) as [[rs | e1] s1];
      [discriminate|].
    unfold Eff.raise in H. inversion H; subst. now exists (exn_str e1).
  - intros cls text Hq.
    unfold CalibreSearch.search, Eff.try_except, CalibreSearch.search_body.
    unfold Eff.bind at 1. unfold Eff.of_outside, Eff.of_result, CalibreSearch.search_url.
    rewrite Hq. reflexivity.
  - intros quoted Hq url.
    assert (U : CalibreSearch.search_url self query = Returned url)
      by (unfold CalibreSearch.search_url; now rewrite Hq).
    clearbody url.
    unfold CalibreSearch.search, Eff.try_except, CalibreSearch.search_body.
    unfold Eff.bind at 1. rewrite U.
    unfold Eff.of_outside, Eff.of_result. cbn [to_result].
    unfold Eff.bind, Eff._get_session, Eff.session_get, Eff.bind, Eff.emit, Eff.on_world.
    cbn [Eff.world Eff.self Eff.log].
    split; [|split].
    + destruct (Eff.http_get url (Eff.get_session (Eff.world s)))
        as [[response | c t] w];
        cbn [to_result Eff.raise snd Eff.log];
        [|unfold Eff.raise; cbn [snd Eff.log]; now rewrite <- app_assoc].
      destruct (negb (Eff.status response =? 200)%Z);
        [unfold Eff.raise; cbn [snd Eff.log]; now rewrite <- app_assoc|].
      destruct (negb (contains (lit "application/atom+xml") (Eff.content_type response)));
        [unfold Eff.raise; cbn [snd Eff.log]; now rewrite <- app_assoc|].
      destruct (Http.text response) as [xml_data | c t]; cbn [to_result];
        [|unfold Eff.raise; cbn [snd Eff.log]; now rewrite <- app_assoc].
      destruct (CalibreWeb._parse_opds_response self xml_data (Some limit));
        unfold Eff.raise, Eff.ret; cbn [snd Eff.log]; now rewrite <- app_assoc.
    + intros response w Hg Hs. rewrite Hg. cbn [to_result].
      destruct (Z.eqb_spec (Eff.status response) 200); [contradiction|].
      reflexivity.
    + intros response w Hg Hs Hc. rewrite Hg. cbn [to_result].
      rewrite Hs, Hc. reflexivity.
Qed.

Section FilenameFacts.

Import PyText CalibreSearch.

Context {rt : PyRuntime}.

Lemma strip_prefix_app (p x : str) : strip_prefix p (p ++ x) = Some x.
Proof.
  induction p as [|c p IH]; [reflexivity|].
  cbn [app strip_prefix]. now rewrite N.eqb_refl.
Qed.

Lemma strip_prefix_split (p s x : str) : strip_prefix p s = Some x -> s = p ++ x.
Proof.
  revert s. induction p as [|c p IH]; intros s H.
  - cbn in H. now inversion H.
  - destruct s as [|d s]; [discriminate|]. cbn [strip_prefix] in H.
    destruct (N.eqb_spec c d); [|discriminate]. subst d.
    now rewrite (IH s H).
Qed.

(** [span] cuts where the first character fails. *)
Lemma span_split (p : N -> bool) (s a b : str) :
  span p s = (a, b) ->
  s = a ++ b /\ forallb p a = true
  /\ match b with [] => True | c :: _ => p c = false end.
Proof.
  revert a b. induction s as [|c s IH]; intros a b H.
  - cbn in H. inversion H; subst. now repeat split.
  - cbn [span] in H. destruct (p c) eqn:E.
    + destruct (span p s) as [a1 b1]. inversion H; subst.
      destruct (IH a1 b eq_refl) as [-> [H1 H2]].
      repeat split; [|exact H2]. cbn [forallb]. now rewrite E, H1.
    + inversion H; subst. now repeat split.
Qed.

Lemma span_app (p : N -> bool) (a b : str) :
  forallb p a = true ->
  match b with [] => True | c :: _ => p c = false end ->
  span p (a ++ b) = (a, b).
Proof.
  intros Ha Hb. induction a as [|c a IH].
  - destruct b as [|d b]; [reflexivity|]. cbn [app span]. now rewrite Hb.
  - cbn [forallb] in Ha. apply andb_prop in Ha as [H1 H2].
    cbn [app span]. now rewrite H1, (IH H2).
Qed.

(** The number of slashes of a string. *)
Let slashes (s : str) : nat := length (filter (N.eqb 47) s).

Lemma slashes_app (a b : str) : slashes (a ++ b) = slashes a + slashes b.
Proof. unfold slashes. now rewrite filter_app, length_app. Qed.

Lemma slashes_none (p : N -> bool) (a : str) :
  p 47%N = false -> forallb p a = true -> slashes a = 0.
Proof.
  intros Hp. unfold slashes. induction a as [|c a IH]; [reflexivity|].
  cbn [forallb filter]. intros H. apply andb_prop in H as [H1 H2].
  destruct (N.eqb_spec 47 c); [subst c; congruence | exact (IH H2)].
Qed.

Lemma at_end_slashes (s : str) : at_end s = true -> slashes s = 0.
Proof.
  destruct s as [|c [|d s]]; try discriminate; [reflexivity|].
  cbn [at_end]. intros H. apply N.eqb_eq in H. now subst c.
Qed.

(** A match begins with a slash and holds at most five. *)
Lemma match_download_here_slashes (t : str) (g : str * str) :
  match_download_here t = Some g ->
  (exists r, t = 47%N :: r) /\ slashes t <= 5.
Proof.
  unfold match_download_here.
  destruct (strip_prefix (lit "/opds/download/") t) as [s1|] eqn:E1; [|discriminate].
  apply strip_prefix_split in E1. subst t.
  destruct (span Regex.class_digit s1) as [ds s2] eqn:E2.
  apply span_split in E2 as [-> [Hd _]].
  destruct ds as [|d ds]; [discriminate|].
  destruct s2 as [|c s3]; [discriminate|].
  destruct (N.eqb_spec c 47) as [-> | Hc]; [|discriminate]. cbn [negb].
  destruct (span (fun c => negb (N.eqb c 47)) s3) as [fmt s4] eqn:E3.
  apply span_split in E3 as [-> [Hf Hs4]].
  intros H. split; [now eexists|].
  assert (Hds : slashes (d :: ds) = 0)
    by exact (slashes_none Regex.class_digit (d :: ds) eq_refl Hd).
  assert (Hfmt : slashes fmt = 0)
    by exact (slashes_none (fun c => negb (N.eqb c 47)) fmt eq_refl Hf).
  assert (H4 : slashes s4 <= 1).
  { destruct fmt as [|f fmt]; [discriminate|].
    destruct s4 as [|c s5]; [unfold slashes; cbn; lia|].
    destruct (at_end s5) eqn:A; [|discriminate].
    change (c :: s5) with ([c] ++ s5). rewrite slashes_app, (at_end_slashes s5 A).
    unfold slashes. cbn [filter]. destruct (N.eqb 47 c); cbn; lia. }
  rewrite slashes_app. change (47%N :: fmt ++ s4) with ([47%N] ++ fmt ++ s4).
  rewrite !slashes_app, Hds, Hfmt.
  change (slashes (lit "/opds/download/")) with 3.
  change (slashes [47%N]) with 1. lia.
Qed.

Lemma word_is_no_slash (ws : str) :
  forallb Regex.class_word ws = true ->
  forallb (fun c => negb (N.eqb c 47)) ws = true.
Proof.
  induction ws as [|c ws IH]; [reflexivity|].
  cbn [forallb]. intros H. apply andb_prop in H as [H1 H2].
  rewrite (IH H2), andb_true_r.
  destruct (N.eqb_spec c 47); [subst c; discriminate | reflexivity].
Qed.

(** The match on an acquisition path. *)
Lemma match_download_here_path (ds ws nl : str) :
  ds <> [] -> forallb Regex.class_digit ds = true ->
  ws <> [] -> forallb Regex.class_word ws = true ->
  nl = [] \/ nl = [10%N] ->
  match_download_here
    (lit "/opds/download/" ++ ds ++ [47%N] ++ ws ++ [47%N] ++ nl)
  = Some (ds, ws).
Proof.
  intros Hd1 Hd2 Hw1 Hw2 Hnl. unfold match_download_here.
  rewrite strip_prefix_app.
  rewrite (span_app Regex.class_digit ds ([47%N] ++ ws ++ [47%N] ++ nl) Hd2 eq_refl).
  destruct ds as [|d ds]; [congruence|]. cbn [app].
  rewrite (span_app (fun c => negb (N.eqb c 47)) ws (47%N :: nl)
             (word_is_no_slash ws Hw2) eq_refl).
  destruct ws as [|w ws]; [congruence|].
  destruct Hnl as [-> | ->]; reflexivity.
Qed.

Lemma path_slashes (ds ws nl : str) :
  forallb Regex.class_digit ds = true -> forallb Regex.class_word ws = true ->
  nl = [] \/ nl = [10%N] ->
  slashes (lit "/opds/download/" ++ ds ++ [47%N] ++ ws ++ [47%N] ++ nl) = 5.
Proof.
  intros Hd Hw Hnl. rewrite !slashes_app.
  rewrite (slashes_none Regex.class_digit ds eq_refl Hd).
  rewrite (slashes_none _ ws eq_refl (word_is_no_slash ws Hw)).
  destruct Hnl as [-> | ->]; reflexivity.
Qed.

Lemma search_download_here (u : str) (g : str * str) :
  match_download_here u = Some g -> search_download u = Some g.
Proof. intros H. destruct u; cbn [search_download]; now rewrite H. Qed.

(** The search passes over everything in front of an acquisition path. *)
Lemma search_download_path (base ds ws nl : str) :
  ds <> [] -> forallb Regex.class_digit ds = true ->
  ws <> [] -> forallb Regex.class_word ws = true ->
  nl = [] \/ nl = [10%N] ->
  search_download
    (base ++ lit "/opds/download/" ++ ds ++ [47%N] ++ ws ++ [47%N] ++ nl)
  = Some (ds, ws).
Proof.
  intros Hd1 Hd2 Hw1 Hw2 Hnl.
  induction base as [|c base IH].
  - cbn [app]. apply search_download_here.
    exact (match_download_here_path ds ws nl Hd1 Hd2 Hw1 Hw2 Hnl).
  - pose proof (path_slashes ds ws nl Hd2 Hw2 Hnl) as Hp.
    set (path := lit "/opds/download/" ++ ds ++ [47%N] ++ ws ++ [47%N] ++ nl) in *.
    change ((c :: base) ++ path) with (c :: (base ++ path)).
    cbn [search_download].
    destruct (match_download_here (c :: base ++ path)) as [g|] eqn:E;
      [exfalso | exact IH].
    apply match_download_here_slashes in E as [[r Hr] Hs].
    inversion Hr; subst c.
    change (47%N :: base ++ path) with ([47%N] ++ base ++ path) in Hs.
    rewrite slashes_app, slashes_app, Hp in Hs.
    change (slashes [47%N]) with 1 in Hs. lia.
Qed.

(** A match needs the literal beginning of the pattern somewhere. *)
Lemma search_download_contains (url : str) (g : str * str) :
  search_download url = Some g -> contains (lit "/opds/download/") url = true.
Proof.
  induction url as [|c url IH].
  - cbn [search_download]. destruct (match_download_here []) eqn:E; discriminate.
  - cbn [search_download].
    destruct (match_download_here (c :: url)) as [g1|] eqn:E.
    + intros _. unfold match_download_here in E.
      destruct (strip_prefix (lit "/opds/download/") (c :: url)) as [s1|] eqn:E1;
        [|discriminate].
      apply strip_prefix_split in E1. rewrite E1.
      apply contains_here, startswith_app.
    + intros H. apply contains_later, IH, H.
Qed.

End FilenameFacts.

(** [CalibreWebPlatform._extract_filename_from_url] (calibre_web.py
    262-273).  Without a URL, and for a URL that does not contain
    [/opds/download/], it returns [None].  For a URL that ends with a path
    the feed parser accepts as an acquisition link, [/opds/download/], the
    digits [ds], a slash, the word characters [ws] and a slash, whatever
    stands in front of that path, it returns ["book_" + ds + "." +
    ws.lower()]. *)
Theorem extract_filename_from_acquisition_url
  {rt : PyRuntime} {fn : PyText.Functions} (base : str) (ds ws nl : str) :
  ds <> [] -> forallb Regex.class_digit ds = true ->
  ws <> [] -> forallb Regex.class_word ws = true ->
  nl = [] \/ nl = [10%N] ->
  RegexSem.acquisition_path
    (lit "/opds/download/" ++ ds ++ [47%N] ++ ws ++ [47%N] ++ nl)
  /\ CalibreSearch._extract_filename_from_url
       (Some (base ++ lit "/opds/download/" ++ ds ++ [47%N] ++ ws ++ [47%N] ++ nl))
     = Some (lit "book_" ++ ds ++ lit "." ++ PyText.str_lower ws)
  /\ CalibreSearch._extract_filename_from_url None = None
  /\ CalibreSearch._extract_filename_from_url (Some []) = None
  /\ (forall url,
        contains (lit "/opds/download/") url = false ->
        CalibreSearch._extract_filename_from_url (Some url) = None).
Proof.
  intros Hd1 Hd2 Hw1 Hw2 Hnl. split; [|split; [|split; [|split]]].
  - exists ds, ws, nl. now repeat split.
  - unfold CalibreSearch._extract_filename_from_url.
    replace (otruthy (Some (base ++ lit "/opds/download/" ++ ds ++ [47%N] ++ ws
                            ++ [47%N] ++ nl))) with true
      by (now destruct base).
    cbn [negb].
    now rewrite (search_download_path base ds ws nl Hd1 Hd2 Hw1 Hw2 Hnl).
  - reflexivity.
  - reflexivity.
  - intros url Hc. unfold CalibreSearch._extract_filename_from_url.
    destruct (negb (otruthy (Some url))); [reflexivity|].
    destruct (CalibreSearch.search_download url) as [g|] eqn:E; [|reflexivity].
    rewrite (search_download_contains url g E) in Hc. discriminate.
Qed.

Lemma extract_filename_from_acquisition_url_witness :
  @CalibreSearch._extract_filename_from_url Sample.runtime SampleText.ascii_only
    (Some (lit "http://localhost:8083/opds/download/12/EPUB/"))
  = Some (lit "book_12.epub").
Proof.
  exact (proj1 (proj2 (@extract_filename_from_acquisition_url Sample.runtime
                         SampleText.ascii_only (lit "http://localhost:8083")
                         (lit "12") (lit "EPUB") []
                         ltac:(discriminate) eq_refl ltac:(discriminate) eq_refl
                         (or_introl eq_refl)))).
Defined.

(* ================================================================== *)
(** * Properties of the Archive.org search *)
(* ================================================================== *)

Section ArchiveSearchFacts.

Import Eff PyText ArchiveSearch.

Context {rt : PyRuntime} {fn : Functions}.

Lemma first_supported_found (identifier : pyval) (files : list pyval)
  (u name : str) :
  first_supported identifier files = Some (Some (u, name)) ->
  u = download_url_of identifier name
  /\ existsb (fun fmt => endswith fmt (str_lower name)) supported_formats = true.
Proof.
  induction files as [|file rest IH]; [discriminate|].
  cbn [first_supported].
  destruct (Liber3.py_get (lit "name") (PStr []) file) as [[| | | | n | |]|];
    try discriminate.
  destruct (existsb (fun fmt => endswith fmt (str_lower n)) supported_formats) eqn:E.
  - intros H. inversion H; subst. now split.
  - exact IH.
Qed.

Lemma archive_download_url_valid (identifier : pyval) (name : str) :
  ArchiveOrg._is_valid_archive_url (download_url_of identifier name) = true.
Proof.
  unfold ArchiveOrg._is_valid_archive_url, Base._is_valid_url, download_url_of.
  assert (H1 : startswith (lit "https://")
                 (lit "https://archive.org/download/" ++ Liber3.py_str identifier
                  ++ lit "/" ++ name) = true).
  { change (lit "https://archive.org/download/")
      with (lit "https://" ++ lit "archive.org/download/").
    rewrite <- app_assoc. apply startswith_app. }
  rewrite H1, orb_true_r. cbn [truthy andb negb app lit].
  change (contains (lit "archive.org/download/")
            (lit "https://" ++ lit "archive.org/download/"
             ++ (Liber3.py_str identifier ++ lit "/" ++ name)) = true).
  apply contains_middle.
Qed.

Lemma clean_description_bound (description : pyval) (d : str) :
  clean_description description = PStr d -> length d <= 303.
Proof.
  unfold clean_description.
  set (d1 := match description with
             | PStr d0 => if _is_html d0 then PStr (_parse_html_to_text d0)
                          else description
             | _ => description
             end).
  destruct d1 as [| b | z | nz pr | t | l | items]; try discriminate.
  destruct (Nat.ltb 300 (length t)) eqn:L; intros H.
  - assert (E : d = firstn 300 t ++ lit "...") by congruence.
    rewrite E, length_app, length_firstn. change (length (lit "...")) with 3. lia.
  - assert (E : d = t) by congruence. apply Nat.ltb_ge in L. rewrite E. lia.
Qed.

(** What [metadata_of] returns when it finds a file. *)
Lemma metadata_of_found (book_detail : pyval) (m : Metadata) :
  metadata_of book_detail = Some (Some m) ->
  exists identifier,
    truth identifier = true
    /\ m_download_url m = download_url_of identifier (m_file_name m)
    /\ m_cover m = lit "https://archive.org/services/img/" ++ Liber3.py_str identifier
    /\ existsb (fun fmt => endswith fmt (str_lower (m_file_name m)))
         supported_formats = true
    /\ (forall d, m_description m = PStr d -> length d <= 303).
Proof.
  unfold metadata_of.
  destruct (Liber3.py_get (lit "metadata") (PDict []) book_detail)
    as [[| | | | | | metadata]|]; try discriminate.
  destruct (truth (get (lit "identifier") metadata)) eqn:T; [|discriminate].
  cbn [negb].
  destruct (Liber3.py_get (lit "files") (PList []) book_detail) as [files|];
    [|discriminate].
  destruct (year_of (get (lit "publicdate") metadata)) as [year|]; [|discriminate].
  destruct (py_iter files) as [fl|]; [|discriminate].
  destruct (first_supported (get (lit "identifier") metadata) fl)
    as [[[u name]|]|] eqn:F; try discriminate.
  intros H. inversion H; subst. clear H.
  destruct (first_supported_found _ _ _ _ F) as [-> Hs].
  exists (get (lit "identifier") metadata). cbn.
  repeat split; try assumption.
  intros d Hd. exact (clean_description_bound _ d Hd).
Qed.

Lemma fetch_metadata_found (got : outside Response) (m : Metadata) :
  _fetch_metadata got = Some m ->
  exists response book_detail,
    got = Returned response /\ status response = 200%Z
    /\ json response = Returned book_detail
    /\ metadata_of book_detail = Some (Some m).
Proof.
  unfold _fetch_metadata.
  destruct got as [response | c t]; [|discriminate].
  destruct (Z.eqb_spec (status response) 200) as [Hs | Hs]; [|discriminate].
  cbn [negb].
  destruct (json response) as [book_detail | c t] eqn:J; [|discriminate].
  destruct (metadata_of book_detail) as [[m1|]|] eqn:E; try discriminate.
  intros H. inversion H; subst. now exists response, book_detail.
Qed.

(** Every result of the loop is built from a document and the metadata that
    was fetched for it. *)
Lemma collect_from_pairs (limit : Z) (appended : nat)
  (pairs : list (list (str * pyval) * option Metadata)) (r : SearchResult) :
  In r (collect limit appended pairs) ->
  exists doc m, In (doc, Some m) pairs /\ r = search_result doc m.
Proof.
  revert appended. induction pairs as [|[doc [m|]] rest IH]; intros appended H.
  - destruct H.
  - cbn [collect] in H. destruct H as [H | H].
    + exists doc, m. split; [now left | now symmetry].
    + destruct (Z.of_nat (S appended) >=? limit)%Z; [destruct H|].
      destruct (IH _ H) as [d [m1 [Hin E]]]. exists d, m1. split; [now right | exact E].
  - cbn [collect] in H. destruct (IH _ H) as [d [m1 [Hin E]]].
    exists d, m1. split; [now right | exact E].
Qed.

(** The loop stops when it has [limit] results, and not before it has one. *)
Lemma collect_length (limit : Z) (appended : nat)
  (pairs : list (list (str * pyval) * option Metadata)) :
  (Z.of_nat (length (collect limit appended pairs))
   <= Z.max 1 (limit - Z.of_nat appended))%Z.
Proof.
  revert appended. induction pairs as [|[doc [m|]] rest IH]; intros appended.
  - cbn. lia.
  - cbn [collect length].
    destruct (Z.geb_spec (Z.of_nat (S appended)) limit) as [H | H].
    + cbn [length]. lia.
    + specialize (IH (S appended)). lia.
  - cbn [collect]. apply IH.
Qed.

Lemma gather_fetched (fetched : nat -> str -> outside Response) (i : nat)
  (docs : list (list (str * pyval) * str)) (doc : list (str * pyval))
  (o : option Metadata) :
  In (doc, o) (gather fetched i docs) ->
  exists j url, o = _fetch_metadata (fetched j url).
Proof.
  revert i. induction docs as [|[d identifier] rest IH]; intros i H; [destruct H|].
  cbn [gather] in H. destruct H as [H | H].
  - inversion H; subst. now eexists; eexists.
  - exact (IH _ H).
Qed.

(** What [search_body] returns is the outcome of the loop, or nothing. *)
Lemma search_body_returns_collected (query : str) (limit : Z)
  (answer : outside Response) (fetched : nat -> str -> outside Response)
  (rs : list SearchResult) :
  search_body query limit answer fetched = Ok rs ->
  rs = [] \/ exists ds, rs = collect limit 0 (gather fetched 0 ds).
Proof.
  unfold search_body.
  destruct answer as [response | c t]; [|discriminate].
  destruct (negb (status response =? 200)%Z); [discriminate|].
  destruct (json response) as [result_data | c t]; [|discriminate].
  destruct (Liber3.py_get (lit "response") (PDict []) result_data) as [r|];
    [|discriminate].
  destruct (Liber3.py_get (lit "docs") (PList []) r) as [docs|]; [|discriminate].
  destruct (negb (truth docs)).
  { intros H. inversion H. now left. }
  destruct (py_iter docs) as [elements|]; [|discriminate].
  destruct (identified_all elements) as [ds | e]; [|discriminate].
  intros H. inversion H. right. now exists ds.
Qed.

End ArchiveSearchFacts.

(** [ArchiveOrgPlatform._fetch_metadata] (archive_org.py 108-171).  The
    metadata it returns name a file of a supported format: the name, in
    lower case, ends with [pdf] or [epub]; the download URL is
    [https://archive.org/download/], the identifier, a slash and that name,
    and the adapter's own check of download URLs accepts it; the cover URL
    is built on the same identifier, which is a true value; and a
    description that is a string has at most 303 characters. *)
Theorem fetch_metadata_names_a_supported_file
  {rt : PyRuntime} {fn : PyText.Functions}
  (got : outside Eff.Response) (m : ArchiveSearch.Metadata) :
  ArchiveSearch._fetch_metadata got = Some m ->
  exists identifier,
    truth identifier = true
    /\ ArchiveSearch.m_download_url m
       = lit "https://archive.org/download/" ++ Liber3.py_str identifier
         ++ lit "/" ++ ArchiveSearch.m_file_name m
    /\ ArchiveSearch.m_cover m
       = lit "https://archive.org/services/img/" ++ Liber3.py_str identifier
    /\ (PyText.endswith (lit "pdf")
          (PyText.str_lower (ArchiveSearch.m_file_name m)) = true
        \/ PyText.endswith (lit "epub")
             (PyText.str_lower (ArchiveSearch.m_file_name m)) = true)
    /\ ArchiveOrg._is_valid_archive_url (ArchiveSearch.m_download_url m) = true
    /\ (forall d, ArchiveSearch.m_description m = PStr d -> length d <= 303).
Proof.
  intros H.
  destruct (fetch_metadata_found got m H) as [response [book_detail [_ [_ [_ Hm]]]]].
  destruct (metadata_of_found book_detail m Hm) as [identifier [Ht [Hu [Hc [He Hd]]]]].
  exists identifier. split; [exact Ht|]. split; [exact Hu|]. split; [exact Hc|].
  split; [|split; [|exact Hd]].
  - unfold ArchiveSearch.supported_formats in He. cbn [existsb] in He.
    rewrite orb_false_r in He. now apply orb_prop in He.
  - rewrite Hu. apply archive_download_url_valid.
Qed.

Lemma fetch_metadata_names_a_supported_file_witness :
  exists m,
    @ArchiveSearch._fetch_metadata Sample.runtime SampleText.ascii_only
      (SampleArchive.fetched 0 (lit "https://archive.org/metadata/emma00aust"))
    = Some m
    /\ ArchiveSearch.m_file_name m = lit "Emma.PDF"
    /\ ArchiveOrg._is_valid_archive_url (ArchiveSearch.m_download_url m) = true.
Proof.
  eexists.
  match goal with |- ?E /\ _ => assert (H : E) by (vm_compute; reflexivity) end.
  split; [exact H|]. split; [reflexivity|].
  destruct (fetch_metadata_names_a_supported_file _ _ H) as [i [_ [_ [_ [_ [Hv _]]]]]].
  exact Hv.
Defined.

Section ArchiveDownloads.

Import Eff Props Outcomes.

Context {rt : PyRuntime} {W : Type} {tr : Transport W}.

Lemma adds_after_session_get {X : Type} (P : event -> bool) (u : str) :
  adds_after (W:=W) (X:=X) [EvGet u] P (session_get u).
Proof.
  unfold session_get.
  change [EvGet u] with ([EvGet u] ++ []).
  apply adds_after_bind_r; [apply adds_exactly_emit|].
  intros _. apply adds_after_nil, adds_only_on_world.
Qed.

(** The Archive.org download of a handle with a valid URL requests it. *)
Lemma archive_download_requests (info : DownloadInfo) (u : str)
  (save_path : option str) (return_content : bool) :
  download_url info = Some u -> ArchiveOrg._is_valid_archive_url u = true ->
  adds_after [EvSession; EvGet u] any_call
    (ArchiveOrg.download info save_path return_content).
Proof.
  intros Hu Hv. unfold ArchiveOrg.download. rewrite Hu.
  assert (Ht : otruthy (Some u) = true).
  { destruct u; [discriminate | reflexivity]. }
  rewrite Ht, Hv. cbn [negb].
  apply adds_after_try; [|intros; apply adds_only_raise].
  change [EvSession; EvGet u] with ([EvSession] ++ [EvGet u]).
  apply adds_after_bind_r; [apply adds_exactly_get_session|]. intros _.
  apply adds_after_bind_l; [apply adds_after_session_get|].
  repeat calls_step.
Qed.

End ArchiveDownloads.

(** [ArchiveOrgPlatform.search] (archive_org.py 30-106) over the metadata
    tasks (108-171), when it returns.  Every result and its handle name
    Archive.org; the handle carries a file name and a download URL that the
    adapter's own check of download URLs accepts and that [detect_platform]
    of the command line takes for one of Archive.org.  The number of
    results is at most [limit], and at most one when [limit] is less than
    one. *)
Theorem archive_search_results_are_downloadable
  {rt : PyRuntime} {fn : PyText.Functions}
  (query : str) (limit : Z) (answer : outside Eff.Response)
  (fetched : nat -> str -> outside Eff.Response) (rs : list SearchResult) :
  ArchiveSearch.search query limit answer fetched = Ok rs ->
  Forall (fun r =>
            Found.tagged ARCHIVE_ORG r
            /\ exists u name,
                 download_url (download_info r) = Some u
                 /\ file_name (download_info r) = Some name
                 /\ ArchiveOrg._is_valid_archive_url u = true
                 /\ Cli.detect_platform u = Ok ARCHIVE_ORG) rs
  /\ (Z.of_nat (length rs) <= Z.max 1 limit)%Z.
Proof.
  intros H. unfold ArchiveSearch.search in H.
  destruct (ArchiveSearch.search_body query limit answer fetched) as [rs1 | e] eqn:E;
    [|discriminate].
  inversion H; subst. clear H.
  destruct (search_body_returns_collected query limit answer fetched rs E)
    as [-> | [ds ->]].
  { split; [constructor | cbn; lia]. }
  split.
  - apply Forall_forall. intros r Hin.
    destruct (collect_from_pairs _ _ _ r Hin) as [doc [m [Hp ->]]].
    destruct (gather_fetched _ _ _ _ _ Hp) as [j [url Hm]].
    symmetry in Hm.
    destruct (fetch_metadata_found _ m Hm) as [response [bd [_ [_ [_ Hf]]]]].
    destruct (metadata_of_found bd m Hf) as [identifier [_ [Hu _]]].
    split; [now split|].
    exists (ArchiveSearch.m_download_url m), (ArchiveSearch.m_file_name m).
    assert (Hv : ArchiveOrg._is_valid_archive_url (ArchiveSearch.m_download_url m) = true)
      by (rewrite Hu; apply archive_download_url_valid).
    repeat split; [exact Hv | exact (valid_archive_url_is_detected _ Hv)].
  - pose proof (collect_length limit 0 (ArchiveSearch.gather fetched 0 ds)) as L.
    cbn [Z.of_nat] in L. now rewrite Z.sub_0_r in L.
Qed.

Lemma archive_search_results_are_downloadable_witness :
  exists rs,
    @ArchiveSearch.search Sample.runtime SampleText.ascii_only
      (lit "emma") 1 SampleArchive.answer SampleArchive.fetched
    = Ok rs
    /\ length rs = 1
    /\ Forall (Found.tagged ARCHIVE_ORG) rs.
Proof.
  eexists.
  match goal with |- ?E /\ _ => assert (H : E) by (vm_compute; reflexivity) end.
  split; [exact H|]. split; [reflexivity|].
  destruct (archive_search_results_are_downloadable _ _ _ _ _ H) as [HF _].
  apply Forall_forall. intros r Hr.
  exact (proj1 (proj1 (Forall_forall _ _) HF r Hr)).
Defined.

(** [ArchiveOrgPlatform.search] (archive_org.py 30-106) followed by
    [ArchiveOrgPlatform.download] (173-237) of the handle of one of its
    results: the download passes its two checks of the URL, opens the
    session and requests the download URL of the result, in every state
    and whatever the other arguments are. *)
Theorem archive_search_result_download_requests_the_file
  {rt : PyRuntime} {fn : PyText.Functions}
  {W : Type} {tr : Eff.Transport W}
  (query : str) (limit : Z) (answer : outside Eff.Response)
  (fetched : nat -> str -> outside Eff.Response)
  (rs : list SearchResult) (r : SearchResult)
  (save_path : option str) (return_content : bool) (s : Eff.state W unit) :
  ArchiveSearch.search query limit answer fetched = Ok rs ->
  In r rs ->
  exists u evs,
    download_url (download_info r) = Some u
    /\ Eff.log (snd (ArchiveOrg.download (download_info r) save_path return_content s))
       = Eff.log s ++ [Eff.EvSession; Eff.EvGet u] ++ evs.
Proof.
  intros H Hin. unfold ArchiveSearch.search in H.
  destruct (ArchiveSearch.search_body query limit answer fetched) as [rs1 | e] eqn:E;
    [|discriminate].
  inversion H; subst. clear H.
  destruct (search_body_returns_collected query limit answer fetched rs E)
    as [-> | [ds ->]]; [destruct Hin|].
  destruct (collect_from_pairs _ _ _ r Hin) as [doc [m [Hp ->]]].
  destruct (gather_fetched _ _ _ _ _ Hp) as [j [url Hm]].
  symmetry in Hm.
  destruct (fetch_metadata_found _ m Hm) as [response [bd [_ [_ [_ Hf]]]]].
  destruct (metadata_of_found bd m Hf) as [identifier [_ [Hu _]]].
  assert (Hv : ArchiveOrg._is_valid_archive_url (ArchiveSearch.m_download_url m) = true)
    by (rewrite Hu; apply archive_download_url_valid).
  destruct (archive_download_requests
              (download_info (ArchiveSearch.search_result doc m))
              (ArchiveSearch.m_download_url m) save_path return_content
              eq_refl Hv s) as [evs [Hl _]].
  exists (ArchiveSearch.m_download_url m), evs. split; [reflexivity | exact Hl].
Qed.

Lemma archive_search_result_download_requests_the_file_witness :
  exists r evs,
    @ArchiveSearch.search Sample.runtime SampleText.ascii_only
      (lit "emma") 1 SampleArchive.answer SampleArchive.fetched
    = Ok [r]
    /\ Eff.log (snd (@ArchiveOrg.download Sample.runtime unit (Sample.transport PNone)
                       (download_info r) None true (Sample.start tt)))
       = [Eff.EvSession;
          Eff.EvGet (lit "https://archive.org/download/emma00aust/Emma.PDF")] ++ evs.
Proof.
  eexists.
  assert (H : @ArchiveSearch.search Sample.runtime SampleText.ascii_only
                (lit "emma") 1 SampleArchive.answer
                SampleArchive.fetched = Ok [_]) by (vm_compute; reflexivity).
  destruct (@archive_search_result_download_requests_the_file
              Sample.runtime SampleText.ascii_only
              unit (Sample.transport PNone) _ _ _ _ _ _ None true (Sample.start tt)
              H (or_introl eq_refl)) as [u [evs [Hu Hl]]].
  exists evs. split; [exact H|].
  cbn in Hu. inversion Hu; subst u. exact Hl.
Defined.

(** [ArchiveOrgPlatform._is_html] (archive_org.py 249-251) takes a text for
    HTML exactly when it holds a [<], then one character or more none of
    which is a [>], then a [>]. *)
Theorem is_html_iff_some_tag (content : str) :
  ArchiveSearch._is_html content = true
  <-> exists before inner after,
        content = before ++ [60%N] ++ inner ++ [62%N] ++ after
        /\ inner <> []
        /\ forallb (fun c => negb (N.eqb c 62)) inner = true.
Proof.
  split.
  - induction content as [|c rest IH]; [discriminate|].
    cbn [ArchiveSearch._is_html]. intros H. apply orb_prop in H as [H | H].
    + apply andb_prop in H as [Hc Ht]. apply N.eqb_eq in Hc. subst c.
      unfold ArchiveSearch.tag_here in Ht.
      destruct (PyText.span (fun c => negb (N.eqb c 62)) rest) as [inner aft] eqn:E.
      apply span_split in E as [-> [Hi Ha]].
      apply andb_prop in Ht as [T1 T2].
      destruct aft as [|d aft]; [discriminate|].
      apply negb_false_iff, N.eqb_eq in Ha. subst d.
      exists [], inner, aft. repeat split; [|exact Hi].
      intros ->. discriminate.
    + destruct (IH H) as [before [inner [aft [-> [Hn Hi]]]]].
      exists (c :: before), inner, aft. now repeat split.
  - intros [before [inner [aft [-> [Hn Hi]]]]].
    induction before as [|c before IH].
    + cbn [app ArchiveSearch._is_html]. rewrite N.eqb_refl. cbn [andb].
      unfold ArchiveSearch.tag_here.
      rewrite (span_app (fun c => negb (N.eqb c 62)) inner (62%N :: aft) Hi eq_refl).
      destruct inner; [congruence | reflexivity].
    + cbn [app ArchiveSearch._is_html]. cbn [app] in IH. rewrite IH.
      apply orb_true_r.
Qed.

(* ================================================================== *)
(** * Properties of the Liber3 search *)
(* ================================================================== *)

Section PureCalls.

Import Eff Pure.

Context {W X : Type}.

Lemma pure_ret {A : Type} (P : A -> Prop) (a : A) :
  P a -> returning (W:=W) (X:=X) P (ret a).
Proof. intros H s. right. now exists a. Qed.

Lemma pure_raise {A : Type} (P : A -> Prop) (e : exn) :
  returning (W:=W) (X:=X) P (raise e).
Proof. intros s. left. now exists e. Qed.

Lemma pure_bind {A B : Type} (Q : A -> Prop) (P : B -> Prop)
  (c : M (W:=W) (X:=X) A) (k : A -> M (W:=W) (X:=X) B) :
  returning Q c -> (forall a, Q a -> returning P (k a)) -> returning P (bind c k).
Proof.
  intros Hc Hk s. unfold bind.
  destruct (Hc s) as [[e E] | [a [E Qa]]]; rewrite E.
  - left. now exists e.
  - exact (Hk a Qa s).
Qed.

Lemma pure_if {A : Type} (P : A -> Prop) (b : bool) (c1 c2 : M (W:=W) (X:=X) A) :
  returning P c1 -> returning P c2 -> returning P (if b then c1 else c2).
Proof. destruct b; auto. Qed.

Lemma pure_weaken {A : Type} (P Q : A -> Prop) (c : M (W:=W) (X:=X) A) :
  (forall a, P a -> Q a) -> returning P c -> returning Q c.
Proof.
  intros H Hc s. destruct (Hc s) as [[e E] | [a [E Pa]]]; [left | right].
  - now exists e.
  - exists a. split; [exact E | exact (H a Pa)].
Qed.

End PureCalls.

Section Liber3SearchFacts.

Import Eff Pure Liber3 Liber3Info Liber3Search L3Found.

Context {rt : PyRuntime} {W : Type} {tr : Transport W}.

Lemma pure_or_raise {A : Type} (P : A -> Prop) (cls op : str) (v : pyval)
  (o : option A) :
  (forall a, o = Some a -> P a) ->
  returning (W:=W) (X:=unit) P (or_raise cls op v o).
Proof.
  intros H. unfold or_raise.
  destruct o as [a|]; [apply pure_ret; now apply H | apply pure_raise].
Qed.

Lemma pure_dict_get_value (k : str) (default v : pyval) :
  returning (W:=W) (X:=unit) (fun a => py_get k default v = Some a)
    (dict_get k default v).
Proof. unfold dict_get. now apply pure_or_raise. Qed.

Lemma pure_dict_get (k : str) (default v : pyval) :
  returning (W:=W) (X:=unit) (fun _ => True) (dict_get k default v).
Proof. unfold dict_get. now apply pure_or_raise. Qed.

Lemma replace_char_no_space (s : str) : no_space (replace_char 32 95 s) = true.
Proof.
  unfold no_space, replace_char. induction s as [|c s IH]; [reflexivity|].
  cbn [map forallb]. rewrite IH, andb_true_r.
  destruct (N.eqb_spec c 32); [reflexivity|].
  now apply negb_true_iff, N.eqb_neq.
Qed.

Lemma pure_detail_of (detailed_books book_id : pyval) :
  returning (W:=W) (X:=unit) (fun _ => True) (detail_of detailed_books book_id).
Proof.
  unfold detail_of. apply pure_if; [|now apply pure_ret].
  destruct detailed_books; try apply pure_raise.
  apply (pure_bind (fun _ => True)); [now apply pure_or_raise|].
  intros entry _. apply pure_dict_get.
Qed.

Lemma pure_result_of (detailed_books book : pyval) :
  returning (W:=W) (X:=unit) well_formed (result_of detailed_books book).
Proof.
  unfold result_of.
  apply (pure_bind (fun _ => True)); [apply pure_dict_get|]. intros book_id _.
  apply (pure_bind (fun _ => True)); [apply pure_detail_of|]. intros detail _.
  do 9 (apply (pure_bind (fun _ => True)); [apply pure_dict_get|]; intros ? _).
  apply (pure_bind (fun _ => True)); [apply pure_dict_get|]. intros t' _.
  apply (pure_bind (fun title => exists t, title = PStr t /\ no_space t = true)).
  - apply pure_or_raise. intros title Ht. unfold py_replace_spaces in Ht.
    destruct t' as [| | | | t0 | |]; try discriminate.
    inversion Ht. eexists. split; [reflexivity | apply replace_char_no_space].
  - intros title [t [-> Hs]]. apply pure_ret.
    repeat split; cbn; [now eexists|].
    eexists; eexists; exists t. now split.
Qed.

Lemma pure_results_of (detailed_books : pyval) (book_data : list pyval) :
  returning (W:=W) (X:=unit)
    (fun rs => length rs = length book_data /\ Forall well_formed rs)
    (results_of detailed_books book_data).
Proof.
  induction book_data as [|book rest IH]; cbn [results_of].
  - apply pure_ret. now split.
  - apply (pure_bind well_formed); [apply pure_result_of|]. intros r Hr.
    apply (pure_bind (fun rs => length rs = length rest /\ Forall well_formed rs));
      [exact IH|].
    intros rs [Hl Hf]. apply pure_ret. cbn [length]. split; [now rewrite Hl|].
    now constructor.
Qed.

Lemma pure_book_ids_of (book_data : list pyval) :
  returning (W:=W) (X:=unit)
    (fun ids => length ids <= length book_data
                /\ Forall (fun v => truth v = true) ids)
    (book_ids_of book_data).
Proof.
  induction book_data as [|item rest IH]; cbn [book_ids_of].
  - apply pure_ret. now split.
  - apply (pure_bind (fun a => py_get (lit "id") PNone item = Some a));
      [apply pure_dict_get_value|].
    intros condition Hc.
    destruct (truth condition) eqn:T.
    + apply (pure_bind (fun a => py_get (lit "id") PNone item = Some a));
        [apply pure_dict_get_value|].
      intros id Hid.
      assert (E : id = condition) by congruence. subst id.
      apply (pure_bind (fun ids => length ids <= length rest
                                   /\ Forall (fun v => truth v = true) ids));
        [exact IH|].
      intros ids [Hl Hf]. apply pure_ret. cbn [length]. split; [lia|].
      now constructor.
    + apply (pure_weaken
               (fun ids => length ids <= length rest
                           /\ Forall (fun v => truth v = true) ids));
        [|exact IH].
      intros ids [Hl Hf]. cbn [length]. split; [lia | exact Hf].
Qed.

Lemma pure_sliced (book_data : pyval) (limit : Z) :
  returning (W:=W) (X:=unit)
    (fun items => (0 <= limit)%Z -> (Z.of_nat (length items) <= limit)%Z)
    (sliced book_data limit).
Proof.
  assert (F : forall (A : Type) (l : list A),
            (0 <= limit)%Z -> (Z.of_nat (length (slice_to limit l)) <= limit)%Z).
  { intros A l H. unfold slice_to. destruct (Z.ltb_spec limit 0); [lia|].
    rewrite length_firstn. lia. }
  unfold sliced. destruct book_data; try apply pure_raise; apply pure_ret.
  - intros H. rewrite length_map. now apply F.
  - now apply F.
Qed.

(** The batch detail call for identifiers of any type posts once. *)
Lemma get_book_details_posts (book_ids : list pyval) (s : state W unit) :
  exists r s',
    get_book_details book_ids s = (Ok r, s')
    /\ log s' = log s ++ [EvPost detail_url (PDict [(lit "book_ids", PList book_ids)])].
Proof.
  unfold get_book_details, try_except, bind, session_post, bind, emit, on_world.
  cbn [world self log].
  destruct (http_post detail_url _ (world s)) as [[response | c t] w];
    cbn [to_result]; [|eexists; eexists; split; reflexivity].
  destruct (negb (status response =? 200)%Z);
    [eexists; eexists; split; reflexivity|].
  unfold of_outside, of_result.
  destruct (json response) as [data | c t]; cbn [to_result];
    [|eexists; eexists; split; reflexivity].
  match goal with |- context [dict_get ?k ?d data ?st] =>
    destruct (pure_dict_get k d data st) as [[e E] | [a [E _]]]; rewrite E end;
    [eexists; eexists; split; reflexivity|].
  match goal with |- context [dict_get ?k ?d a ?st] =>
    destruct (pure_dict_get k d a st) as [[e E2] | [a2 [E2 _]]]; rewrite E2 end;
    eexists; eexists; split; reflexivity.
Qed.

(** [Liber3._get_book_details] is the call above on strings. *)
Lemma get_book_details_on_strings (book_ids : list str) :
  Liber3._get_book_details (W:=W) book_ids = get_book_details (map PStr book_ids).
Proof. reflexivity. Qed.

(** What [search_body] has done when it returns. *)
Lemma search_body_returns_well_formed (query : str) (limit : Z)
  (s s' : state W unit) (rs : list Untyped.Result) :
  search_body query limit s = (Ok rs, s') ->
  Forall well_formed rs
  /\ ((0 <= limit)%Z -> (Z.of_nat (length rs) <= limit)%Z)
  /\ exists evs,
       log s' = log s ++ [EvSession; EvPost search_url (search_payload query)] ++ evs
       /\ (evs = []
           \/ exists book_ids,
                evs = [EvPost detail_url (PDict [(lit "book_ids", PList book_ids)])]
                /\ book_ids <> []
                /\ Forall (fun v => truth v = true) book_ids
                /\ length book_ids <= length rs).
Proof.
  unfold search_body, bind at 1, _get_session. unfold bind at 1.
  unfold session_post, bind at 1, bind at 1, emit, on_world. cbn [world self log].
  destruct (http_post search_url (search_payload query) (get_session (world s)))
    as [[response | c t] w]; cbn [to_result]; [|discriminate].
  destruct (negb (status response =? 200)%Z); [discriminate|].
  unfold bind at 1, of_outside, of_result.
  destruct (json response) as [data | c t]; cbn [to_result]; [|discriminate].
  set (s1 := {| world := w; self := self s;
                log := (log s ++ [EvSession]) ++ [EvPost search_url (search_payload query)] |}).
  assert (Hs1 : log s1 = log s ++ [EvSession; EvPost search_url (search_payload query)] ++ [])
    by (unfold s1; cbn [log]; now rewrite <- app_assoc).
  unfold bind at 1.
  destruct (pure_dict_get (lit "data") (PDict []) data s1) as [[e E] | [d [E _]]];
    rewrite E; [discriminate|].
  unfold bind at 1.
  destruct (pure_dict_get (lit "book") (PList []) d s1) as [[e E1] | [book_data [E1 _]]];
    rewrite E1; [discriminate|].
  destruct (negb (truth book_data)).
  { unfold ret. intros H. inversion H; subst.
    split; [constructor|]. split; [cbn; lia|]. exists []. split; [exact Hs1 | now left]. }
  unfold bind at 1.
  destruct (pure_sliced book_data limit s1) as [[e E2] | [items [E2 Hitems]]];
    rewrite E2; [discriminate|].
  unfold bind at 1.
  destruct (pure_book_ids_of items s1) as [[e E3] | [ids [E3 [Hlen Htrue]]]];
    rewrite E3; [discriminate|].
  destruct ids as [|id ids].
  { unfold ret. intros H. inversion H; subst.
    split; [constructor|]. split; [cbn; lia|]. exists []. split; [exact Hs1 | now left]. }
  destruct (get_book_details_posts (id :: ids) s1) as [detailed_books [s2 [E4 Hs2]]].
  rewrite E4.
  destruct (pure_results_of detailed_books items s2) as [[e E5] | [rs1 [E5 [Hl Hf]]]];
    rewrite E5; [discriminate|].
  intros H. inversion H; subst. split; [exact Hf|]. split.
  - intros Hlim. rewrite Hl. now apply Hitems.
  - eexists. split.
    + rewrite Hs2, Hs1. rewrite app_nil_r. rewrite <- app_assoc. reflexivity.
    + right. exists (id :: ids). repeat split; [discriminate | exact Htrue | lia].
Qed.

End Liber3SearchFacts.

(** [Liber3Platform.search] (liber3.py 25-98) when it returns.  Every result
    and its handle name Liber3; the handle has no hash and asks for no
    authentication; the year is a string; the extra parameters hold the
    content identifier and the extension as the details gave them, and a
    title without spaces.  A limit that is not negative bounds the number
    of results.  The search has opened the session and posted the query to
    the search endpoint, and after that it has either called nothing or
    posted once to the detail endpoint, naming identifiers that are all
    true values, at least one and no more than there are results. *)
Theorem liber3_search_returns_well_formed_results
  {rt : PyRuntime} {W : Type} {tr : Eff.Transport W}
  (query : str) (limit : Z) (s s' : Eff.state W unit)
  (rs : list Untyped.Result) :
  Liber3Search.search query limit s = (Ok rs, s') ->
  Forall L3Found.well_formed rs
  /\ ((0 <= limit)%Z -> (Z.of_nat (length rs) <= limit)%Z)
  /\ exists evs,
       Eff.log s'
       = Eff.log s
         ++ [Eff.EvSession;
             Eff.EvPost Liber3Search.search_url (Liber3Search.search_payload query)]
         ++ evs
       /\ (evs = []
           \/ exists book_ids,
                evs = [Eff.EvPost Liber3.detail_url
                         (PDict [(lit "book_ids", PList book_ids)])]
                /\ book_ids <> []
                /\ Forall (fun v => truth v = true) book_ids
                /\ length book_ids <= length rs).
Proof.
  intros H. unfold Liber3Search.search, Eff.try_except in H.
  destruct (Liber3Search.search_body query limit s) as [[rs1 | e] s1] eqn:E;
    [|discriminate].
  inversion H; subst.
  exact (search_body_returns_well_formed query limit s s' rs E).
Qed.

Lemma liber3_search_returns_well_formed_results_witness :
  exists rs s',
    @Liber3Search.search Sample.runtime unit SampleLiber3.transport
      (lit "austen") 20 (Sample.start tt)
    = (Ok rs, s')
    /\ length rs = 2
    /\ Forall L3Found.well_formed rs
    /\ Eff.log s'
       = [Eff.EvSession;
          Eff.EvPost Liber3Search.search_url (Liber3Search.search_payload (lit "austen"));
          Eff.EvPost Liber3.detail_url
            (PDict [(lit "book_ids", PList [PStr SampleLiber3.emma_id])])].
Proof.
  eexists; eexists.
  match goal with |- ?E /\ _ => assert (H : E) by (vm_compute; reflexivity) end.
  split; [exact H|]. split; [reflexivity|].
  destruct (liber3_search_returns_well_formed_results _ _ _ _ _ H) as [HF _].
  split; [exact HF | reflexivity].
Defined.

Section Liber3SearchThenDownload.

Import Eff Props Liber3 L3Handles.

Context {rt : PyRuntime} {W : Type} {tr : Transport W}.

(** The download of a handle that carries a content identifier and an
    extension posts nothing. *)
Lemma download_complete_no_post (info : DownloadInfo) (id : str)
  (save_path : option str) (return_content : bool) :
  book_id info = Some id -> id <> [] ->
  carries_cid_and_extension info = true ->
  adds_only no_post (Liber3.download info save_path return_content).
Proof.
  intros Hid Hne Hc. unfold Liber3.download.
  rewrite (download_body_complete info id save_path return_content Hid Hne Hc).
  apply adds_only_try; [apply fetch_and_deliver_no_post|].
  intros e. apply adds_only_raise.
Qed.

End Liber3SearchThenDownload.

(** [Liber3Platform.search] (liber3.py 25-98) followed by
    [Liber3Platform.download] (122-199) of the handle of one of its
    results, when the identifier the service sent is a string.  The handle
    is one of Liber3 and carries a title, whatever the details were.  When
    it also carries a content identifier and an extension that are true
    values, the download posts nothing: it does not ask for the details
    again. *)
Theorem liber3_search_result_downloads_without_refetch
  {rt : PyRuntime} {W : Type} {tr : Eff.Transport W}
  (query : str) (limit : Z) (s s' : Eff.state W unit)
  (rs : list Untyped.Result) (r : Untyped.Result) (info : DownloadInfo) :
  Liber3Search.search query limit s = (Ok rs, s') ->
  In r rs ->
  Untyped.typed (Untyped.u_download_info r) = Some info ->
  platform info = LIBER3
  /\ L3Handles.carries_title info = true
  /\ forall id save_path return_content (s0 : Eff.state W unit),
       book_id info = Some id -> id <> [] ->
       L3Handles.carries_cid_and_extension info = true ->
       exists evs,
         Eff.log (snd (Liber3.download info save_path return_content s0))
         = Eff.log s0 ++ evs
         /\ forallb Props.no_post evs = true.
Proof.
  intros H Hin Ht.
  unfold Liber3Search.search, Eff.try_except in H.
  destruct (Liber3Search.search_body query limit s) as [[rs1 | e] s1] eqn:E;
    [|discriminate].
  inversion H; subst. clear H.
  destruct (search_body_returns_well_formed query limit s s' rs E) as [HF _].
  pose proof (proj1 (Forall_forall _ _) HF r Hin)
    as [_ [Hp [_ [_ [_ [c [e [t [Ha _]]]]]]]]].
  unfold Untyped.typed in Ht.
  destruct (Untyped.optional_str (Untyped.h_book_id (Untyped.u_download_info r)))
    as [b|]; [|discriminate].
  destruct (Untyped.optional_str (Untyped.h_hash_id (Untyped.u_download_info r)))
    as [x|]; [|discriminate].
  inversion Ht; subst info. clear Ht. cbn [platform].
  split; [exact Hp|]. split.
  - unfold L3Handles.carries_title, L3Handles.params. cbn [additional_params].
    rewrite Ha. reflexivity.
  - intros id sp rc s0 Hid Hne Hc.
    exact (download_complete_no_post _ id sp rc Hid Hne Hc s0).
Qed.

Lemma liber3_search_result_downloads_without_refetch_witness :
  exists r other s' info evs,
    @Liber3Search.search Sample.runtime unit SampleLiber3.transport
      (lit "austen") 20 (Sample.start tt)
    = (Ok [r; other], s')
    /\ Untyped.typed (Untyped.u_download_info r) = Some info
    /\ Eff.log (snd (@Liber3.download Sample.runtime unit SampleLiber3.transport
                       info None true (Sample.start tt)))
       = evs
    /\ forallb Props.no_post evs = true.
Proof.
  eexists; eexists; eexists; eexists.
  assert (H : @Liber3Search.search Sample.runtime unit SampleLiber3.transport
                (lit "austen") 20 (Sample.start tt) = (Ok [_; _], _))
    by (vm_compute; reflexivity).
  destruct (@liber3_search_result_downloads_without_refetch
              Sample.runtime unit SampleLiber3.transport _ _ _ _ _ _ _
              H (or_introl eq_refl) eq_refl) as [_ [_ Hd]].
  destruct (Hd SampleLiber3.emma_id None true (Sample.start tt) eq_refl
              ltac:(discriminate) eq_refl) as [evs [Hl Hn]].
  exists evs. split; [exact H|]. split; [reflexivity|]. split; [exact Hl | exact Hn].
Defined.

(** ** Z-Library: the results of a search *)

Section ZLibrarySearchFacts.

Import Eff Props ZLibrary ZLibraryRecords ZLibrarySearch.

Context {rt : PyRuntime}.

Lemma is_str_eq (text : str) (v : pyval) :
  is_str text v = true -> v = PStr text.
Proof.
  destruct v; cbn [is_str]; try discriminate.
  intros H. f_equal. exact (str_eqb_eq _ _ H).
Qed.

Lemma is_str_refl (text : str) : is_str text (PStr text) = true.
Proof. cbn [is_str]. apply str_eqb_refl. Qed.

Lemma clean_description_length (description : pyval) (d : str) :
  _clean_description description = Some d -> length d <= 303.
Proof.
  unfold _clean_description.
  destruct (negb (truth description) || is_str (lit "None") description);
    [discriminate|].
  destruct description; try discriminate.
  destruct (Nat.ltb 300 (length (strip s))) eqn:L; intros H.
  - assert (E : d = firstn 300 (strip s) ++ lit "...") by congruence.
    rewrite E, length_app, length_firstn. change (length (lit "...")) with 3. lia.
  - assert (E : d = strip s) by congruence. apply Nat.ltb_ge in L. rewrite E. lia.
Qed.

Lemma search_result_well_formed (book : pyval) (r : Untyped.Result) :
  search_result book = Returned r -> ZFound.well_formed r.
Proof.
  destruct book; cbn [search_result no_get]; try discriminate.
  intros H. inversion H; subst. clear H.
  unfold ZFound.well_formed, book_record.
  cbn [Untyped.u_platform Untyped.u_download_info Untyped.u_book_info
       Untyped.h_platform Untyped.h_requires_auth Untyped.h_additional_params
       Untyped.h_book_id year publisher description isbn].
  repeat split; eauto.
  - destruct (is_str (lit "None") (get (lit "publisher") items)) eqn:E;
      cbn [negb].
    + discriminate.
    + intros Hp. rewrite Hp, is_str_refl in E. discriminate.
  - destruct (_clean_description (get (lit "description") items)) as [d|] eqn:E;
      cbn [of_option]; [right | left; reflexivity].
    exists d. split; [reflexivity|]. exact (clean_description_length _ _ E).
Qed.

Lemma search_results_well_formed (books : list pyval) (rs : list Untyped.Result) :
  search_results books = Returned rs ->
  Forall ZFound.well_formed rs /\ length rs = length books.
Proof.
  revert rs. induction books as [|book rest IH]; intros rs; cbn [search_results].
  - intros H. inversion H; subst. split; [constructor | reflexivity].
  - destruct (search_result book) as [r|] eqn:E; [|discriminate].
    destruct (search_results rest) as [rs'|]; [|discriminate].
    intros H. inversion H; subst. destruct (IH rs' eq_refl) as [HF HL].
    split; [|cbn [length]; now rewrite HL].
    constructor; [exact (search_result_well_formed _ _ E) | exact HF].
Qed.

Lemma normalize_results_well_formed (results : pyval) (rs : list Untyped.Result) :
  normalize_results results = Returned rs -> Forall ZFound.well_formed rs.
Proof.
  unfold normalize_results.
  destruct (negb (truth results)); [intros H; inversion H; constructor|].
  destruct results; cbn [no_get]; try discriminate.
  destruct (negb (truth (get (lit "books") items)));
    [intros H; inversion H; constructor|].
  destruct (ArchiveSearch.py_iter _) as [books|]; [|discriminate].
  intros H. exact (proj1 (search_results_well_formed _ _ H)).
Qed.

End ZLibrarySearchFacts.

(** [ZLibraryPlatform.search] (zlibrary.py 58-107) when it returns.  Every
    result and its handle name Z-Library; the handle asks for
    authentication and its identifier is a string, the [str()] of what the
    client sent; the year is a string; the publisher is never the string
    'None'; the description is [None] or has at most 303 characters.  By
    then the adapter has made one search call to the client, with the query
    and the limit it was given, and before it nothing but logins. *)
Theorem zlibrary_search_returns_well_formed_results
  {rt : PyRuntime} {W : Type} {C : Type} {cl : ZLibrary.ZlibraryClient C}
  (p : ZLibrary.ZLibraryPlatform) (query : str) (limit : Z)
  (s s' : Eff.state W (option C)) (rs : list Untyped.Result) :
  ZLibrarySearch.search p query limit s = (Ok rs, s') ->
  Forall ZFound.well_formed rs
  /\ exists logins,
       Eff.log s' = Eff.log s ++ logins ++ [Eff.EvClientSearch query limit]
       /\ forallb Props.is_login logins = true.
Proof.
  intros H. unfold ZLibrarySearch.search, Eff.try_except in H.
  match type of H with
  | (match ?c s with _ => _ end) = _ => destruct (c s) as [[rs1 | e] s1] eqn:E
  end.
  2:{ destruct (is_AuthenticationError e); discriminate. }
  inversion H; subst. clear H.
  unfold Eff.bind in E.
  destruct (ZLibrary._ensure_logged_in p s) as [[[] | e] s1] eqn:E1;
    [|discriminate].
  destruct (adds_only_ensure_logged_in Props.is_login (fun _ _ => eq_refl) p s)
    as [logins [Hl Hp]].
  rewrite E1 in Hl. cbn [snd] in Hl.
  unfold ZLibrary.on_client in E.
  destruct (Eff.self s1) as [c|]; [|discriminate].
  destruct (ZLibrary.client_search query limit c) as [[results | cls text] c'];
    cbn [to_result] in E; [|discriminate].
  unfold Eff.of_outside in E.
  destruct (ZLibrarySearch.normalize_results results) as [rs1|] eqn:N;
    cbn [to_result] in E; [|discriminate].
  inversion E; subst. clear E.
  split; [exact (normalize_results_well_formed _ _ N)|].
  exists logins. cbn [Eff.log]. rewrite Hl, <- app_assoc. split; [reflexivity | exact Hp].
Qed.

Lemma zlibrary_search_returns_well_formed_results_witness :
  exists rs s',
    @ZLibrarySearch.search Sample.runtime unit bool SampleZLibrary.searching_client
      (ZLibrary.new (lit "reader@example.org") (lit "secret")) (lit "austen") 20
      (Sample.start None)
    = (Ok rs, s')
    /\ map (fun r => Untyped.h_book_id (Untyped.u_download_info r)) rs
       = [PStr (lit "5393918"); PStr (lit "None")]
    /\ map (fun r => publisher (Untyped.u_book_info r)) rs
       = [PStr (lit "Unknown"); PNone]
    /\ Forall ZFound.well_formed rs
    /\ Eff.log s'
       = [Eff.EvLogin (lit "reader@example.org") (lit "secret");
          Eff.EvClientSearch (lit "austen") 20].
Proof.
  eexists; eexists.
  match goal with |- ?E /\ _ => assert (H : E) by (vm_compute; reflexivity) end.
  split; [exact H|]. split; [reflexivity|]. split; [reflexivity|].
  destruct (zlibrary_search_returns_well_formed_results _ _ _ _ _ _ H) as [HF _].
  split; [exact HF | reflexivity].
Defined.

(* ================================================================== *)
(** * The extractors of [annas_py] *)
(* ================================================================== *)

Section SplitFacts.

Import PyText Extractors.

Variables a b : N.

Let sep : str := [a; b].

Lemma str_ind2 (P : str -> Prop) :
  P [] -> (forall c, P [c]) ->
  (forall c d r, P r -> P (d :: r) -> P (c :: d :: r)) ->
  forall s, P s.
Proof.
  intros H0 H1 H2 s.
  enough (H : P s /\ forall c, P (c :: s)) by exact (proj1 H).
  induction s as [|d r [IH1 IH2]].
  - split; [exact H0 | exact H1].
  - split; [apply IH2|]. intros c. apply H2; [exact IH1 | apply IH2].
Qed.

Lemma split2_cons2 (c d : N) (r : str) :
  split2 a b (c :: d :: r)
  = if N.eqb c a && N.eqb d b then [] :: split2 a b r
    else match split2 a b (d :: r) with
         | p :: ps => (c :: p) :: ps
         | [] => [[c]]
         end.
Proof. reflexivity. Qed.

Lemma split2_not_nil (s : str) : split2 a b s <> [].
Proof.
  induction s as [| c | c d r IH1 IH2] using str_ind2; try discriminate.
  rewrite split2_cons2. destruct (N.eqb c a && N.eqb d b); [discriminate|].
  destruct (split2 a b (d :: r)); discriminate.
Qed.

Lemma join_cons_head (c : N) (p : str) (ps : list str) :
  join sep ((c :: p) :: ps) = c :: join sep (p :: ps).
Proof. destruct ps; reflexivity. Qed.

Lemma join_cons (p : str) (ps : list str) :
  ps <> [] -> join sep (p :: ps) = p ++ sep ++ join sep ps.
Proof. destruct ps; [congruence | reflexivity]. Qed.

(** Joining the parts gives the text back. *)
Lemma join_split2 (s : str) : join sep (split2 a b s) = s.
Proof.
  induction s as [| c | c d r IH1 IH2] using str_ind2; try reflexivity.
  rewrite split2_cons2.
  destruct (N.eqb c a && N.eqb d b) eqn:E.
  - apply andb_prop in E as [Ea Eb].
    apply N.eqb_eq in Ea. apply N.eqb_eq in Eb. subst c d.
    etransitivity; [exact (join_cons [] _ (split2_not_nil r))|].
    rewrite IH1. reflexivity.
  - destruct (split2 a b (d :: r)) as [|p ps] eqn:S;
      [now destruct (split2_not_nil (d :: r))|].
    rewrite join_cons_head, IH2. reflexivity.
Qed.

Lemma contains_sep_cons (c : N) (p : str) :
  contains sep (c :: p)
  = N.eqb a c && match p with d :: _ => N.eqb b d | [] => false end
    || contains sep p.
Proof.
  unfold sep. cbn [contains startswith]. destruct p as [|d p]; [reflexivity|].
  now rewrite andb_true_r.
Qed.

Lemma contains_sep_nil : contains sep [] = false.
Proof. reflexivity. Qed.

(** The first part is nothing or begins like the text. *)
Lemma split2_first_head (d : N) (r : str) (p : str) (ps : list str) :
  split2 a b (d :: r) = p :: ps -> p = [] \/ exists p', p = d :: p'.
Proof.
  intros S. pose proof (join_split2 (d :: r)) as J. rewrite S in J.
  destruct p as [|x p']; [now left | right].
  rewrite join_cons_head in J. inversion J; subst. now exists p'.
Qed.

(** No part holds the separator. *)
Lemma split2_parts_free (s : str) :
  Forall (fun p => contains sep p = false) (split2 a b s).
Proof.
  induction s as [| c | c d r IH1 IH2] using str_ind2.
  - repeat constructor.
  - cbn [split2]. constructor; [|constructor].
    rewrite contains_sep_cons. now rewrite andb_false_r.
  - rewrite split2_cons2. destruct (N.eqb c a && N.eqb d b) eqn:E.
    + constructor; [reflexivity | exact IH1].
    + destruct (split2 a b (d :: r)) as [|p ps] eqn:S;
        [now destruct (split2_not_nil (d :: r))|].
      inversion IH2 as [|? ? Hp Hps]; subst.
      constructor; [|exact Hps].
      rewrite contains_sep_cons, Hp, orb_false_r.
      destruct (split2_first_head d r p ps S) as [-> | [p' ->]];
        [apply andb_false_r|].
      rewrite (N.eqb_sym a c), (N.eqb_sym b d). exact E.
Qed.

(** A text without the separator is one part. *)
Lemma split2_free (p : str) : contains sep p = false -> split2 a b p = [p].
Proof.
  induction p as [| c | c d r IH1 IH2] using str_ind2; try reflexivity.
  intros H. rewrite contains_sep_cons in H.
  apply orb_false_elim in H as [H1 H2].
  rewrite split2_cons2, (N.eqb_sym c a), (N.eqb_sym d b), H1, (IH2 H2).
  reflexivity.
Qed.

(** A part, the separator, and more text. *)
Lemma split2_app_sep (p t : str) :
  a <> b -> contains sep p = false ->
  split2 a b (p ++ a :: b :: t) = p :: split2 a b t.
Proof.
  intros Hab. induction p as [|c p IH]; intros H.
  - cbn [app]. rewrite split2_cons2, !N.eqb_refl. reflexivity.
  - rewrite contains_sep_cons in H. apply orb_false_elim in H as [H1 H2].
    destruct p as [|d p].
    + cbn [app] in *. rewrite split2_cons2.
      replace (N.eqb c a && N.eqb a b) with false.
      * rewrite (IH H2). reflexivity.
      * symmetry. apply andb_false_intro2. now apply N.eqb_neq.
    + cbn [app] in *. rewrite split2_cons2, (N.eqb_sym c a), (N.eqb_sym d b), H1.
      rewrite (IH H2). reflexivity.
Qed.

(** Cutting what was joined gives the parts back. *)
Lemma split2_join (parts : list str) :
  a <> b -> parts <> [] ->
  Forall (fun p => contains sep p = false) parts ->
  split2 a b (join sep parts) = parts.
Proof.
  intros Hab. induction parts as [|p ps IH]; [congruence|]. intros _ HF.
  inversion HF as [|? ? Hp Hps]; subst.
  destruct ps as [|q qs].
  - cbn [join]. exact (split2_free p Hp).
  - rewrite join_cons by discriminate.
    change (p ++ sep ++ join sep (q :: qs)) with (p ++ a :: b :: join sep (q :: qs)).
    rewrite (split2_app_sep p _ Hab Hp), IH; [reflexivity | discriminate | exact Hps].
Qed.

Lemma join_app_last (init : list str) (final : str) :
  init <> [] -> join sep (init ++ [final]) = join sep init ++ sep ++ final.
Proof.
  induction init as [|p ps IH]; [congruence|]. intros _.
  destruct ps as [|q qs]; [reflexivity|].
  specialize (IH ltac:(discriminate)).
  transitivity (p ++ sep ++ join sep ((q :: qs) ++ [final])).
  { exact (join_cons p ((q :: qs) ++ [final]) ltac:(cbn [app]; discriminate)). }
  rewrite IH.
  change (join sep (p :: q :: qs)) with (p ++ sep ++ join sep (q :: qs)).
  now rewrite <- !app_assoc.
Qed.

Lemma endswith_app (x y : str) : endswith y (x ++ y) = true.
Proof. unfold endswith. rewrite rev_app_distr. apply startswith_app. Qed.

(** The first part is the text in front of the first separator. *)
Lemma split2_first (s : str) :
  exists first ps,
    split2 a b s = first :: ps /\ Parts.before_first sep first s.
Proof.
  destruct (split2 a b s) as [|first ps] eqn:S; [now destruct (split2_not_nil s)|].
  exists first, ps. split; [reflexivity|].
  pose proof (split2_parts_free s) as HF. rewrite S in HF.
  inversion HF as [|? ? Hp _]; subst.
  split; [exact Hp|].
  pose proof (join_split2 s) as J. rewrite S in J.
  destruct ps as [|q qs].
  - exists []. cbn [join] in J. rewrite app_nil_r. split; [now symmetry | now left].
  - rewrite join_cons in J by discriminate.
    exists (sep ++ join sep (q :: qs)). split; [now symmetry | right].
    apply startswith_app.
Qed.

(** The last part is the text behind the last separator. *)
Lemma split2_last (s : str) :
  exists final,
    hd_error (rev (split2 a b s)) = Some final /\ Parts.after_last sep final s.
Proof.
  destruct (rev (split2 a b s)) as [|final ri] eqn:R.
  - apply (f_equal (@rev str)) in R. rewrite rev_involutive in R.
    now destruct (split2_not_nil s).
  - exists final. split; [reflexivity|].
    apply (f_equal (@rev str)) in R. rewrite rev_involutive in R. cbn [rev] in R.
    pose proof (split2_parts_free s) as HF. rewrite R in HF.
    apply Forall_app in HF as [_ HF]. inversion HF as [|? ? Hp _]; subst.
    split; [exact Hp|].
    pose proof (join_split2 s) as J. rewrite R in J.
    destruct (rev ri) as [|q qs] eqn:Q.
    + exists []. cbn [app join] in J. split; [now symmetry | now left].
    + rewrite join_app_last in J by discriminate.
      exists (join sep (q :: qs) ++ sep). rewrite <- app_assoc.
      split; [now symmetry | right]. apply endswith_app.
Qed.

End SplitFacts.

Section ExtractorFacts.

Import PyText Extractors.

(** A stripped text does not end with whitespace. *)
Lemma strip_last (raw : str) :
  match rev (strip raw) with [] => True | c :: _ => isspace c = false end.
Proof.
  unfold strip, rstrip. rewrite rev_involutive. apply lstrip_head.
Qed.

(** A text that ends with a character that is no whitespace has a first
    word. *)
Lemma first_word_found (front : str) (c : N) :
  isspace c = false -> exists word, first_word (front ++ [c]) = Some word.
Proof.
  intros Hc. unfold first_word.
  destruct (lstrip (front ++ [c])) as [|x w] eqn:E.
  - rewrite lstrip_app in E. destruct (lstrip front) as [|y l].
    + cbn [lstrip] in E. rewrite Hc in E. discriminate.
    + discriminate.
  - eexists. reflexivity.
Qed.

(** Behind the last [", "] of a text that does not end with whitespace
    there is a character that is no whitespace. *)
Lemma after_last_ends (x final : str) :
  x <> [] ->
  match rev x with [] => True | c :: _ => isspace c = false end ->
  Parts.after_last (lit ", ") final x ->
  exists front c, final = front ++ [c] /\ isspace c = false.
Proof.
  intros Hx Hl [_ [front [E Hf]]].
  destruct (rev x) as [|c t] eqn:R.
  { apply (f_equal (@rev N)) in R. rewrite rev_involutive in R. now destruct Hx. }
  destruct (rev final) as [|c' t'] eqn:F.
  - exfalso. apply (f_equal (@rev N)) in F. rewrite rev_involutive in F.
    cbn [rev] in F. subst final. rewrite app_nil_r in E. subst front.
    destruct Hf as [-> | Hf]; [now destruct Hx|].
    unfold endswith in Hf. rewrite R in Hf.
    change (rev (lit ", ")) with [32; 44]%N in Hf. cbn [startswith] in Hf.
    apply andb_prop in Hf as [Hf _]. apply N.eqb_eq in Hf. subst c.
    discriminate.
  - exists (rev t'), c'.
    apply (f_equal (@rev N)) in F. rewrite rev_involutive in F. cbn [rev] in F.
    split; [exact F|].
    rewrite E, rev_app_distr, F, rev_app_distr, rev_involutive in R.
    cbn [rev app] in R. inversion R; subst. exact Hl.
Qed.

End ExtractorFacts.

(** [extract_publish_info] (generic.py 33-46) never raises: the first word
    of the last part, which the code takes with [split()[0]], is always
    there.  For a text of whitespace only it returns no publisher and no
    date.  Otherwise, with the text stripped, the publisher is the text in
    front of the first [", "], unless that is a decimal number, and the
    date is the text behind the last [", "], provided its first word is a
    decimal number. *)
Theorem extract_publish_info_never_raises {un : Extractors.Unicode} (raw : str) :
  exists publisher date,
    Extractors.extract_publish_info raw = Returned (publisher, date)
    /\ (strip raw = [] -> publisher = None /\ date = None)
    /\ (strip raw <> [] ->
        exists first final word,
          Parts.before_first (lit ", ") first (strip raw)
          /\ Parts.after_last (lit ", ") final (strip raw)
          /\ Extractors.first_word final = Some word
          /\ publisher = (if Extractors.isdecimal first then None else Some first)
          /\ date = (if Extractors.isdecimal word then Some final else None)).
Proof.
  unfold Extractors.extract_publish_info, Extractors.split_comma.
  pose proof (strip_last raw) as Hl.
  destruct (strip raw) as [|x0 x1] eqn:X.
  - cbn [truthy negb]. exists None, None.
    split; [reflexivity|]. split; [now intros _ | congruence].
  - cbn [truthy negb].
    destruct (split2_first 44 32 (x0 :: x1)) as [first [ps [S Hfirst]]].
    destruct (split2_last 44 32 (x0 :: x1)) as [final [L Hfinal]].
    rewrite L, S. cbn [hd_error].
    destruct (after_last_ends (x0 :: x1) final ltac:(discriminate) Hl Hfinal)
      as [front [c [E Hc]]].
    destruct (first_word_found front c Hc) as [word Hw].
    rewrite <- E in Hw. rewrite Hw.
    eexists; eexists. split; [reflexivity|]. split; [discriminate|].
    intros _. exists first, final, word.
    split; [exact Hfirst|]. split; [exact Hfinal|]. split; [exact Hw|].
    split; [|reflexivity].
    now destruct (Extractors.isdecimal first).
Qed.

Section FileInfoFacts.

Import PyText Extractors.

Lemma take_languages_app (langs others : list str) :
  Forall (fun p => bracketed p = true) langs ->
  match others with o :: _ => bracketed o = false | [] => False end ->
  take_languages (langs ++ others) = Returned (langs, others).
Proof.
  intros HF Ho. induction HF as [|p ps Hp _ IH].
  - destruct others as [|o os]; [now destruct Ho|].
    cbn [app take_languages]. now rewrite Ho.
  - cbn [app take_languages]. now rewrite Hp, IH.
Qed.

(** What the loop has done when it stops. *)
Lemma take_languages_spec (info_list : list str) :
  match take_languages info_list with
  | Returned (langs, others) =>
      info_list = langs ++ others
      /\ Forall (fun p => bracketed p = true) langs
      /\ exists o os, others = o :: os /\ bracketed o = false
  | Failed cls text =>
      cls = lit "IndexError" /\ Forall (fun p => bracketed p = true) info_list
  end.
Proof.
  induction info_list as [|p ps IH]; cbn [take_languages].
  - split; [reflexivity | constructor].
  - destruct (bracketed p) eqn:B.
    + destruct (take_languages ps) as [[langs others] | cls text].
      * destruct IH as [E [HF Ho]]. split; [now rewrite E|].
        split; [now constructor | exact Ho].
      * destruct IH as [E HF]. split; [exact E | now constructor].
    + split; [reflexivity|]. split; [constructor|]. now exists p, ps.
Qed.

Lemma lstrip_dots_head (s : str) :
  startswith (lit ".") (lstrip_dots s) = false.
Proof.
  induction s as [|c s IH]; [reflexivity|].
  cbn [lstrip_dots]. destruct (N.eqb c 46) eqn:E; [exact IH|].
  change (lit ".") with [46%N]. cbn [startswith].
  now rewrite N.eqb_sym, E.
Qed.

Lemma contains_char (x : N) (s : str) :
  contains [x] s = existsb (N.eqb x) s.
Proof.
  induction s as [|c s IH]; [reflexivity|].
  cbn [contains existsb startswith]. now rewrite IH, andb_true_r.
Qed.

Lemma rsplit_last_free (x : N) (s : str) :
  match rsplit_last x s with
  | Some (_, e) => existsb (N.eqb x) e = false
  | None => existsb (N.eqb x) s = false
  end.
Proof.
  induction s as [|c s IH]; [reflexivity|].
  cbn [rsplit_last]. destruct (rsplit_last x s) as [[b0 e]|]; [exact IH|].
  destruct (N.eqb c x) eqn:E; [exact IH|].
  cbn [existsb]. now rewrite N.eqb_sym, E, IH.
Qed.

Lemma last_segment_free (path : str) :
  contains (lit "/") (ArchiveOrg.last_segment path) = false.
Proof.
  change (lit "/") with [47%N]. rewrite contains_char.
  unfold ArchiveOrg.last_segment.
  pose proof (rsplit_last_free 47 path) as H.
  now destruct (rsplit_last 47 path) as [[b0 e]|].
Qed.

Lemma contains_app_l (n x y : str) :
  contains n x = true -> contains n (x ++ y) = true.
Proof.
  intros H. destruct (contains_split n x H) as [pre [post ->]].
  rewrite <- !app_assoc. apply contains_middle.
Qed.

Lemma bracketed_join (p : str) (ps : list str) :
  bracketed p = true -> bracketed (join (lit ", ") (p :: ps)) = true.
Proof.
  unfold bracketed. intros H. apply andb_prop in H as [H1 H2].
  assert (E : exists t, join (lit ", ") (p :: ps) = p ++ t).
  { destruct ps; [exists []; now rewrite app_nil_r | eexists; reflexivity]. }
  destruct E as [t ->].
  now rewrite (contains_app_l _ p t H1), (contains_app_l _ p t H2).
Qed.

End FileInfoFacts.

(** [extract_file_info] (generic.py 6-30) on the three cases its comment
    names and on every longer one: the text is parts joined by [", "],
    first any number of language parts, which hold a ["["] and a ["]"],
    then an extension, which does not hold both, a library, a size, and
    possibly more; no part holds [", "].  It returns the extension without
    its leading dots, the size, the language parts joined again ([None]
    when there are none), and what follows the last ["/"] of the
    library. *)
Theorem extract_file_info_reads_joined_parts
  (langs : list str) (ext lib size : str) (more : list str) :
  Forall (fun p => Extractors.bracketed p = true) langs ->
  Extractors.bracketed ext = false ->
  Forall (fun p => contains (lit ", ") p = false)
         (langs ++ ext :: lib :: size :: more) ->
  Extractors.extract_file_info
    (join (lit ", ") (langs ++ ext :: lib :: size :: more))
  = Returned {| Extractors.fi_extension := Extractors.lstrip_dots ext;
                Extractors.fi_size := size;
                Extractors.fi_language :=
                  match langs with
                  | [] => None
                  | _ :: _ => Some (join (lit ", ") langs)
                  end;
                Extractors.fi_library := ArchiveOrg.last_segment lib |}.
Proof.
  intros HL He HF.
  unfold Extractors.extract_file_info, Extractors.split_comma.
  assert (S : Extractors.split2 44 32
                (join (lit ", ") (langs ++ ext :: lib :: size :: more))
              = langs ++ ext :: lib :: size :: more).
  { apply (split2_join 44 32); [discriminate | | exact HF].
    destruct langs; discriminate. }
  rewrite S, (take_languages_app langs (ext :: lib :: size :: more) HL He).
  cbn [Extractors.pop0]. reflexivity.
Qed.

Lemma extract_file_info_reads_joined_parts_witness :
  Extractors.extract_file_info
    (lit "German [de], .azw3, " ++ 128640%N :: lit "/zlib, 1.0MB, "
     ++ 128215%N :: lit " Book (unknown)")
  = Returned {| Extractors.fi_extension := lit "azw3";
                Extractors.fi_size := lit "1.0MB";
                Extractors.fi_language := Some (lit "German [de]");
                Extractors.fi_library := lit "zlib" |}.
Proof.
  exact (extract_file_info_reads_joined_parts
           [lit "German [de]"] (lit ".azw3") (128640%N :: lit "/zlib") (lit "1.0MB")
           [128215%N :: lit " Book (unknown)"]
           ltac:(repeat constructor) eq_refl ltac:(repeat constructor)).
Defined.

(** [extract_file_info] (generic.py 6-30) on any text.  The text is its
    parts joined by [", "]: first the language parts, each holding a ["["]
    and a ["]"], then the others, the first of which does not hold both.
    With fewer than three others the function raises an [IndexError].  With
    three or more it returns: the extension is the first of them without
    leading dots, so it does not begin with a dot; the library is what
    follows the last ["/"] of the second, so it holds no ["/"]; the size is
    the third; and there is a language exactly when there are language
    parts, and it then holds both brackets. *)
Theorem extract_file_info_returns_or_lacks_parts (raw : str) :
  exists langs others,
    raw = join (lit ", ") (langs ++ others)
    /\ Forall (fun p => Extractors.bracketed p = true) langs
    /\ match others with
       | o :: _ => Extractors.bracketed o = false
       | [] => True
       end
    /\ ((length others < 3
         /\ exists text,
              Extractors.extract_file_info raw = Failed (lit "IndexError") text)
        \/ exists ext lib size more fi,
             others = ext :: lib :: size :: more
             /\ Extractors.extract_file_info raw = Returned fi
             /\ Extractors.fi_extension fi = Extractors.lstrip_dots ext
             /\ startswith (lit ".") (Extractors.fi_extension fi) = false
             /\ Extractors.fi_library fi = ArchiveOrg.last_segment lib
             /\ contains (lit "/") (Extractors.fi_library fi) = false
             /\ Extractors.fi_size fi = size
             /\ match langs with
                | [] => Extractors.fi_language fi = None
                | _ :: _ =>
                    exists l, Extractors.fi_language fi = Some l
                              /\ Extractors.bracketed l = true
                end).
Proof.
  unfold Extractors.extract_file_info, Extractors.split_comma.
  pose proof (join_split2 44 32 raw) as J.
  pose proof (take_languages_spec (Extractors.split2 44 32 raw)) as T.
  destruct (Extractors.take_languages (Extractors.split2 44 32 raw))
    as [[langs others] | cls text].
  - destruct T as [E [HF [o [os [Ho Hb]]]]].
    exists langs, others. rewrite E in J.
    split; [now symmetry|]. split; [exact HF|]. subst others.
    split; [exact Hb|].
    destruct os as [|lib [|size more]].
    + left. split; [cbn; lia|]. eexists. reflexivity.
    + left. split; [cbn; lia|]. eexists. reflexivity.
    + right. cbn [Extractors.pop0]. eexists o, lib, size, more, _.
      split; [reflexivity|]. split; [reflexivity|].
      cbn [Extractors.fi_extension Extractors.fi_library Extractors.fi_size
           Extractors.fi_language].
      split; [reflexivity|]. split; [apply lstrip_dots_head|].
      split; [reflexivity|]. split; [apply last_segment_free|].
      split; [reflexivity|].
      destruct langs as [|p ps]; [reflexivity|].
      eexists. split; [reflexivity|].
      inversion HF; subst. now apply bracketed_join.
  - destruct T as [-> HF].
    exists (Extractors.split2 44 32 raw), [].
    rewrite app_nil_r. split; [now symmetry|]. split; [exact HF|].
    split; [exact I|]. left. split; [cbn; lia|]. now exists text.
Qed.

(* ================================================================== *)
(** * Calibre-Web: the file name of a response *)
(* ================================================================== *)

Section HeaderFacts.

Import PyText CalibreHeaders.

Lemma search_from_found (match_here : str -> option str) (s g : str) :
  search_from match_here s = Some g ->
  exists front rest, s = front ++ rest /\ match_here rest = Some g.
Proof.
  induction s as [|c s IH]; cbn [search_from].
  - destruct (match_here []) eqn:E; [|discriminate].
    intros H. inversion H; subst. now exists [], [].
  - destruct (match_here (c :: s)) eqn:E.
    + intros H. inversion H; subst. now exists [], (c :: s).
    + intros H. destruct (IH H) as [front [rest [-> Hm]]].
      now exists (c :: front), rest.
Qed.

Lemma search_from_none (match_here : str -> option str) (front rest : str) :
  search_from match_here (front ++ rest) = None -> match_here rest = None.
Proof.
  induction front as [|c front IH]; cbn [app].
  - destruct rest; cbn [search_from]; now destruct (match_here _).
  - cbn [search_from]. destruct (match_here (c :: front ++ rest)); [discriminate|].
    exact IH.
Qed.

Lemma run_found (class : N -> bool) (s g : str) :
  run class s = Some g ->
  g <> [] /\ forallb class g = true
  /\ exists rest, s = g ++ rest /\ Parts.stops class rest.
Proof.
  unfold run. destruct (span class s) as [x rest] eqn:E. cbn [fst].
  destruct (span_split class s x rest E) as [-> [Hx Hr]].
  destruct x as [|c x]; [discriminate|]. intros H. inversion H; subst.
  split; [discriminate|]. split; [exact Hx|]. now exists rest.
Qed.

Lemma run_none (class : N -> bool) (s : str) :
  run class s = None -> Parts.stops class s.
Proof.
  unfold run. destruct s as [|c s]; [intros _; exact I|].
  cbn [span]. destruct (class c) eqn:E; [|intros _; exact E].
  destruct (span class s). discriminate.
Qed.

Lemma match_star_here_found (s g : str) :
  match_star_here s = Some g ->
  exists prefix rest,
    s = lit "filename*=" ++ prefix ++ g ++ rest
    /\ (prefix = [] \/ prefix = lit "UTF-8''")
    /\ g <> [] /\ forallb not_semicolon g = true
    /\ Parts.stops not_semicolon rest.
Proof.
  unfold match_star_here.
  destruct (strip_prefix (lit "filename*=") s) as [t|] eqn:E; [|discriminate].
  apply strip_prefix_split in E. subst s.
  assert (plain : run not_semicolon t = Some g ->
          exists prefix rest,
            lit "filename*=" ++ t = lit "filename*=" ++ prefix ++ g ++ rest
            /\ (prefix = [] \/ prefix = lit "UTF-8''")
            /\ g <> [] /\ forallb not_semicolon g = true
            /\ Parts.stops not_semicolon rest).
  { intros H. destruct (run_found _ _ _ H) as [Hg [Hc [rest [-> Hr]]]].
    exists [], rest. repeat split; auto. }
  destruct (strip_prefix (lit "UTF-8''") t) as [t'|] eqn:U; [|exact plain].
  destruct (run not_semicolon t') as [g'|] eqn:R; [|exact plain].
  intros H. inversion H; subst g'.
  apply strip_prefix_split in U. subst t.
  destruct (run_found _ _ _ R) as [Hg [Hc [rest [-> Hr]]]].
  exists (lit "UTF-8''"), rest. repeat split; auto.
Qed.

(** Where the first pattern does not match, [filename*=] is followed by
    nothing or by a semicolon. *)
Lemma match_star_here_none (t : str) :
  match_star_here (lit "filename*=" ++ t) = None -> Parts.stops not_semicolon t.
Proof.
  unfold match_star_here. rewrite strip_prefix_app.
  destruct (strip_prefix (lit "UTF-8''") t) as [t'|];
    [destruct (run not_semicolon t')|]; try discriminate; apply run_none.
Qed.

Lemma match_plain_here_found (s g : str) :
  match_plain_here s = Some g ->
  exists quote rest,
    s = lit "filename=" ++ quote ++ g ++ rest
    /\ (quote = [] \/ quote = [34%N] \/ quote = [39%N])
    /\ g <> [] /\ forallb name_char g = true
    /\ Parts.stops name_char rest.
Proof.
  unfold match_plain_here.
  destruct (strip_prefix (lit "filename=") s) as [t|] eqn:E; [|discriminate].
  apply strip_prefix_split in E. subst s.
  assert (plain : run name_char t = Some g ->
          exists quote rest,
            lit "filename=" ++ t = lit "filename=" ++ quote ++ g ++ rest
            /\ (quote = [] \/ quote = [34%N] \/ quote = [39%N])
            /\ g <> [] /\ forallb name_char g = true
            /\ Parts.stops name_char rest).
  { intros H. destruct (run_found _ _ _ H) as [Hg [Hc [rest [-> Hr]]]].
    exists [], rest. repeat split; auto. }
  destruct t as [|q t']; [discriminate|].
  destruct (N.eqb q 34 || N.eqb q 39) eqn:Q; [|exact plain].
  destruct (run name_char t') as [g'|] eqn:R; [|exact plain].
  intros H. inversion H; subst g'.
  destruct (run_found _ _ _ R) as [Hg [Hc [rest [-> Hr]]]].
  exists [q], rest. split; [reflexivity|]. split.
  - right. apply orb_prop in Q as [Q | Q]; apply N.eqb_eq in Q; subst q; auto.
  - repeat split; auto.
Qed.

End HeaderFacts.

(** [CalibreWebPlatform._extract_filename_from_response] (calibre_web.py
    244-260) when it returns a name.  Either the header holds
    [filename*=], possibly [UTF-8''], and then a value that is not empty
    and runs up to the next semicolon or to the end, and the name is that
    value unquoted.  Or the header holds [filename=], possibly one quote
    after it, and then the name, which is not empty, holds no semicolon and
    no single quote, and runs up to the next semicolon or single quote or
    to the end: a double quote that closes the value belongs to the name.
    In the second case every [filename*=] of the header is followed by
    nothing or by a semicolon. *)
Theorem extract_filename_from_response_shape {rt : PyRuntime}
  (response : Eff.Response) (name : str) :
  CalibreHeaders._extract_filename_from_response response = Some name ->
  (exists front prefix value rest,
     Eff.content_disposition response
     = front ++ lit "filename*=" ++ prefix ++ value ++ rest
     /\ (prefix = [] \/ prefix = lit "UTF-8''")
     /\ value <> []
     /\ forallb CalibreHeaders.not_semicolon value = true
     /\ Parts.stops CalibreHeaders.not_semicolon rest
     /\ name = unquote value)
  \/ (exists front quote rest,
        Eff.content_disposition response
        = front ++ lit "filename=" ++ quote ++ name ++ rest
        /\ (quote = [] \/ quote = [34%N] \/ quote = [39%N])
        /\ name <> []
        /\ forallb CalibreHeaders.name_char name = true
        /\ Parts.stops CalibreHeaders.name_char rest)
     /\ forall front' rest',
          Eff.content_disposition response = front' ++ lit "filename*=" ++ rest' ->
          Parts.stops CalibreHeaders.not_semicolon rest'.
Proof.
  unfold CalibreHeaders._extract_filename_from_response.
  destruct (negb (truthy (Eff.content_disposition response))); [discriminate|].
  destruct (CalibreHeaders.search_from CalibreHeaders.match_star_here
              (Eff.content_disposition response)) as [g|] eqn:A.
  - intros H. inversion H; subst. left.
    destruct (search_from_found _ _ _ A) as [front [s [E M]]].
    destruct (match_star_here_found _ _ M) as [prefix [rest [-> [Hp [Hg [Hc Hr]]]]]].
    exists front, prefix, g, rest. repeat split; auto.
  - destruct (CalibreHeaders.search_from CalibreHeaders.match_plain_here
                (Eff.content_disposition response)) as [g|] eqn:B; [|discriminate].
    intros H. inversion H; subst. right. split.
    + destruct (search_from_found _ _ _ B) as [front [s [E M]]].
      destruct (match_plain_here_found _ _ M) as [quote [rest [-> [Hq [Hg [Hc Hr]]]]]].
      exists front, quote, rest. repeat split; auto.
    + intros front' rest' E. rewrite E in A.
      apply match_star_here_none.
      exact (search_from_none _ front' _ A).
Qed.

Lemma extract_filename_from_response_shape_witness :
  @CalibreHeaders._extract_filename_from_response Sample.runtime
    SampleHeaders.quoted_response
  = Some (lit "book.epub" ++ [34%N])
  /\ exists front quote rest,
       Eff.content_disposition SampleHeaders.quoted_response
       = front ++ lit "filename=" ++ quote ++ (lit "book.epub" ++ [34%N]) ++ rest
       /\ Parts.stops CalibreHeaders.name_char rest.
Proof.
  split; [reflexivity|].
  destruct (@extract_filename_from_response_shape Sample.runtime
              SampleHeaders.quoted_response (lit "book.epub" ++ [34%N]) eq_refl)
    as [[front [prefix [value [rest [E _]]]]] | [[front [quote [rest [E [_ [_ [_ Hr]]]]]]] _]].
  - exfalso.
    assert (H : contains (lit "filename*=")
                  (Eff.content_disposition SampleHeaders.quoted_response) = true).
    { rewrite E. apply contains_middle. }
    discriminate H.
  - now exists front, quote, rest.
Defined.

(* ================================================================== *)
(** * Liber3: a search whose details are not to be had *)
(* ================================================================== *)

Section Liber3WithoutDetails.

Import Eff Liber3 Liber3Info Liber3Search.

Context {rt : PyRuntime} {W : Type} {tr : Transport W}.

Lemma dict_get_dict (k : str) (default : pyval) (items : list (str * pyval))
  (s : state W unit) :
  dict_get k default (PDict items) s = (Ok (get_or k default items), s).
Proof. reflexivity. Qed.

Lemma book_ids_of_readable (items : list pyval) (s : state W unit) :
  Forall L3Answers.readable items ->
  exists ids,
    book_ids_of items s = (Ok ids, s)
    /\ match ids with
       | [] => existsb L3Answers.has_id items = false
       | _ :: _ => existsb L3Answers.has_id items = true
       end.
Proof.
  intros HF. induction HF as [|book rest [its [t [-> Ht]]] _ [ids [E Hi]]].
  - exists []. split; reflexivity.
  - cbn [book_ids_of existsb L3Answers.has_id]. unfold bind at 1.
    rewrite dict_get_dict.
    destruct (truth (get_or (lit "id") PNone its)) eqn:T.
    + unfold bind at 1. rewrite dict_get_dict. unfold bind at 1. rewrite E.
      eexists. split; reflexivity.
    + rewrite E. exists ids. split; [reflexivity | exact Hi].
Qed.

Lemma result_of_without_details (detailed_books book : pyval) (s : state W unit) :
  truth detailed_books = false -> L3Answers.readable book ->
  exists r, result_of detailed_books book s = (Ok r, s)
            /\ L3Found.without_details r.
Proof.
  intros Hd [its [t [-> Ht]]].
  unfold result_of, detail_of. rewrite Hd.
  unfold bind, ret. rewrite !dict_get_dict.
  change k_title with (lit "title"). rewrite Ht.
  cbn [py_replace_spaces or_raise]. unfold ret.
  eexists. split; [reflexivity|].
  split; [reflexivity|]. split; [reflexivity|].
  eexists. reflexivity.
Qed.

Lemma results_of_without_details (detailed_books : pyval) (items : list pyval)
  (s : state W unit) :
  truth detailed_books = false -> Forall L3Answers.readable items ->
  exists rs, results_of detailed_books items s = (Ok rs, s)
             /\ length rs = length items
             /\ Forall L3Found.without_details rs.
Proof.
  intros Hd HF. induction HF as [|book rest Hb _ [rs [E [Hl Hr]]]].
  - exists []. repeat split. constructor.
  - destruct (result_of_without_details detailed_books book s Hd Hb) as [r [Er Hw]].
    cbn [results_of]. unfold bind at 1. rewrite Er. unfold bind at 1. rewrite E.
    exists (r :: rs). split; [reflexivity|].
    split; [cbn [length]; now rewrite Hl | now constructor].
Qed.

(** Without an answer of status 200 the batch detail call returns [None]. *)
Lemma get_book_details_unanswered (book_ids : list pyval) (s : state W unit) :
  match fst (http_post detail_url (PDict [(lit "book_ids", PList book_ids)]) (world s)) with
  | Returned r => status r <> 200%Z
  | Failed _ _ => True
  end ->
  exists s', get_book_details book_ids s = (Ok PNone, s').
Proof.
  unfold get_book_details, try_except, bind, session_post, bind, emit, on_world.
  cbn [world self log].
  destruct (http_post detail_url _ (world s)) as [[response | c t] w];
    cbn [to_result fst]; [|eexists; reflexivity].
  intros H. destruct (Z.eqb_spec (status response) 200) as [E | E]; [now destruct H|].
  cbn [negb]. eexists. reflexivity.
Qed.

Lemma slice_to_nil {A : Type} (n : Z) : slice_to n (@nil A) = [].
Proof. unfold slice_to. destruct (n <? 0)%Z; now rewrite firstn_nil. Qed.

Lemma search_body_without_details (query : str) (limit : Z) (s : state W unit)
  (response : Response) (w1 : W) (books : list pyval) :
  http_post search_url (search_payload query) (get_session (world s))
  = (Returned response, w1) ->
  status response = 200%Z ->
  json response = Returned (L3Answers.found books) ->
  Forall L3Answers.readable books ->
  (forall payload,
     match fst (http_post detail_url payload w1) with
     | Returned r => status r <> 200%Z
     | Failed _ _ => True
     end) ->
  exists rs s',
    search_body query limit s = (Ok rs, s')
    /\ Forall L3Found.without_details rs
    /\ (existsb L3Answers.has_id (slice_to limit books) = true ->
        length rs = length (slice_to limit books))
    /\ (existsb L3Answers.has_id (slice_to limit books) = false -> rs = []).
Proof.
  intros Hpost Hstatus Hjson Hbooks Hdetail.
  unfold search_body, bind at 1, _get_session. unfold bind at 1.
  unfold session_post, bind at 1, bind at 1, emit, on_world. cbn [world self log].
  rewrite Hpost. cbn [to_result]. rewrite Hstatus. cbn [Z.eqb Pos.eqb negb].
  unfold bind at 1, of_outside, of_result. rewrite Hjson. cbn [to_result].
  set (s1 := {| world := w1; self := self s;
                log := (log s ++ [EvSession]) ++ [EvPost search_url (search_payload query)] |}).
  unfold L3Answers.found. unfold bind at 1. rewrite dict_get_dict.
  change (get_or (lit "data") (PDict []) [(lit "data", PDict [(lit "book", PList books)])])
    with (PDict [(lit "book", PList books)]).
  unfold bind at 1. rewrite dict_get_dict.
  change (get_or (lit "book") (PList []) [(lit "book", PList books)])
    with (PList books).
  destruct books as [|b0 bs].
  { cbn [truth negb]. exists [], s1. rewrite slice_to_nil.
    split; [reflexivity|]. split; [constructor|]. split; [discriminate | reflexivity]. }
  set (books := b0 :: bs) in *.
  change (negb (truth (PList books))) with false. cbv iota.
  unfold bind at 1. unfold sliced, ret.
  assert (Hs : Forall L3Answers.readable (slice_to limit books)).
  { apply Forall_forall. intros x Hx.
    exact (proj1 (Forall_forall _ _) Hbooks x (slice_to_incl _ _ _ Hx)). }
  destruct (book_ids_of_readable (slice_to limit books) s1 Hs) as [ids [Ei Hi]].
  unfold bind at 1. rewrite Ei.
  destruct ids as [|id ids].
  - exists [], s1. split; [reflexivity|]. split; [constructor|].
    split; [congruence | reflexivity].
  - destruct (get_book_details_unanswered (id :: ids) s1 (Hdetail _)) as [s2 Ed].
    rewrite Ed.
    destruct (results_of_without_details PNone (slice_to limit books) s2 eq_refl Hs)
      as [rs [Er [Hl Hw]]].
    exists rs, s2. split; [exact Er|]. split; [exact Hw|].
    split; [intros _; exact Hl | congruence].
Qed.

End Liber3WithoutDetails.

(** [Liber3Platform.search] (liber3.py 25-98) when the details are not to
    be had.  The search endpoint answers with status 200 and names books
    that are dicts whose title, where there is one, is a string; the detail
    endpoint fails or answers with another status than 200, which
    [_get_book_details] (100-120) turns into [None].  Then the search does
    not fail.  It returns one result for each of the first [limit] books,
    built without details: the year and the file type are 'Unknown' and
    the handle carries neither a content identifier nor an extension.  But
    when none of those books has an identifier that is a true value, it
    returns no result at all. *)
Theorem liber3_search_survives_failing_details
  {rt : PyRuntime} {W : Type} {tr : Eff.Transport W}
  (query : str) (limit : Z) (s : Eff.state W unit)
  (response : Eff.Response) (w1 : W) (books : list pyval) :
  Eff.http_post Liber3Search.search_url (Liber3Search.search_payload query)
    (Eff.get_session (Eff.world s))
  = (Returned response, w1) ->
  Eff.status response = 200%Z ->
  Eff.json response = Returned (L3Answers.found books) ->
  Forall L3Answers.readable books ->
  (forall payload,
     match fst (Eff.http_post Liber3.detail_url payload w1) with
     | Returned r => Eff.status r <> 200%Z
     | Failed _ _ => True
     end) ->
  exists rs s',
    Liber3Search.search query limit s = (Ok rs, s')
    /\ Forall L3Found.without_details rs
    /\ (existsb L3Answers.has_id (slice_to limit books) = true ->
        length rs = length (slice_to limit books))
    /\ (existsb L3Answers.has_id (slice_to limit books) = false -> rs = []).
Proof.
  intros Hpost Hstatus Hjson Hbooks Hdetail.
  destruct (search_body_without_details query limit s response w1 books
              Hpost Hstatus Hjson Hbooks Hdetail) as [rs [s' [E H]]].
  exists rs, s'. split; [|exact H].
  unfold Liber3Search.search, Eff.try_except. now rewrite E.
Qed.

Lemma liber3_search_survives_failing_details_witness :
  exists rs s',
    @Liber3Search.search Sample.runtime unit SampleLiber3.transport_without_details
      (lit "austen") 20 (Sample.start tt)
    = (Ok rs, s')
    /\ length rs = 2
    /\ Forall L3Found.without_details rs.
Proof.
  destruct (@liber3_search_survives_failing_details
              Sample.runtime unit SampleLiber3.transport_without_details
              (lit "austen") 20 (Sample.start tt)
              (Sample.ok_response Liber3Search.search_url SampleLiber3.search_document)
              tt
              [PDict [(lit "id", PStr SampleLiber3.emma_id);
                      (lit "title", PStr (lit "Emma by Jane Austen"));
                      (lit "author", PStr (lit "Jane Austen"))];
               PDict [(lit "title", PStr (lit "Persuasion"))]]
              eq_refl eq_refl eq_refl
              ltac:(repeat constructor; eexists; eexists; split; reflexivity)
              (fun _ => I))
    as [rs [s' [E [HF [Hl _]]]]].
  exists rs, s'. split; [exact E|]. split; [exact (Hl eq_refl) | exact HF].
Defined.

(* ================================================================== *)
(** * Calibre-Web: what the standard library refuses *)
(* ================================================================== *)

(** A base URL with a malformed IPv6 host: [urljoin] raises on the first
    link it is to join, and the parser lets its [ValueError] through. *)
Example parse_opds_response_raises_what_urljoin_raised :
  @CalibreWeb._parse_opds_response SampleStrict.runtime
    (CalibreWeb.new (lit "http://[::1")) Sample.feed_xml (Some 20%Z)
  = Raise (PyException (lit "ValueError") (lit "Invalid IPv6 URL")).
Proof. vm_compute. reflexivity. Qed.

(** A query with a lone surrogate: [quote_plus] raises while the URL is
    built, and the search fails without a session and without a request. *)
Example search_with_lone_surrogate_calls_nothing :
  @CalibreSearch.search Sample.runtime SampleStrict.text unit
    SampleCalibre.transport SampleCalibre.session
    SampleCalibre.server (lit "caf" ++ [56553%N]) 20 (Sample.start tt)
  = (Raise (SearchError
              (lit "Calibre-Web search failed: surrogates not allowed")
              (Some (lit "calibre_web"))),
     Sample.start tt).
Proof. vm_compute. reflexivity. Qed.
